(** * JVMTI event export: a shallow embedding of [jvmtiExport.cpp]

    The development follows src/hotspot/share/prims/jvmtiExport.cpp:
    registration of environments ([get_jvmti_interface]), the event mark
    placed around every callback ([JvmtiEventMark]), the [post_*] entry
    points that walk the environments, the deferred hand-off to the service
    thread, and the event collectors with their per-thread slots.

    Agent callbacks are foreign code.  A callback invocation is recorded in
    the trace a post returns, together with whatever the callback itself
    caused; its effect on the machine is a parameter ([invoke]) of every
    post, and is later instantiated by an interpreter of the runtime
    operations a callback can perform on the collectors. *)

From Stdlib Require Import ZArith Bool List Lia.
From stdpp Require Import base decidable option list numbers gmap strings.

Set Warnings "-register-all".
Open Scope Z_scope.

(** ** Phases and event kinds *)

(** The enumerators of [jvmtiPhase].  The header that gives them their
    numeric values is not part of the sources; code that orders phases
    ([get_phase() < JVMTI_PHASE_PRIMORDIAL]) takes the numbering as a
    parameter [phase_value]. *)
Inductive jvmtiPhase :=
  | JVMTI_PHASE_ONLOAD
  | JVMTI_PHASE_PRIMORDIAL
  | JVMTI_PHASE_START
  | JVMTI_PHASE_LIVE
  | JVMTI_PHASE_DEAD.

#[global] Instance jvmtiPhase_eq_dec : EqDecision jvmtiPhase.
Proof. solve_decision. Defined.

(** Modelled from the spec: the numbering of [jvmtiPhase] is declared in a
    header outside the sources; the spec lists the phases as
    "enum {PRIMORDIAL, START, ONLOAD, LIVE, DEAD}, monotonically
    non-decreasing".  Used only to instantiate [phase_value] at concrete
    inputs. *)
Definition spec_phase_value (p : jvmtiPhase) : Z :=
  match p with
  | JVMTI_PHASE_PRIMORDIAL => 0
  | JVMTI_PHASE_START => 1
  | JVMTI_PHASE_ONLOAD => 2
  | JVMTI_PHASE_LIVE => 3
  | JVMTI_PHASE_DEAD => 4
  end.

(** The event kinds posted by jvmtiExport.cpp. *)
Inductive jvmtiEvent :=
  | JVMTI_EVENT_VM_START
  | JVMTI_EVENT_VM_INIT
  | JVMTI_EVENT_VM_DEATH
  | JVMTI_EVENT_THREAD_START
  | JVMTI_EVENT_THREAD_END
  | JVMTI_EVENT_VIRTUAL_THREAD_START
  | JVMTI_EVENT_VIRTUAL_THREAD_END
  | EXT_EVENT_VIRTUAL_THREAD_MOUNT
  | EXT_EVENT_VIRTUAL_THREAD_UNMOUNT
  | JVMTI_EVENT_CLASS_FILE_LOAD_HOOK
  | JVMTI_EVENT_CLASS_LOAD
  | JVMTI_EVENT_CLASS_PREPARE
  | EXT_EVENT_CLASS_UNLOAD
  | JVMTI_EVENT_BREAKPOINT
  | JVMTI_EVENT_SINGLE_STEP
  | JVMTI_EVENT_METHOD_EXIT
  | JVMTI_EVENT_FRAME_POP
  | JVMTI_EVENT_EXCEPTION
  | JVMTI_EVENT_EXCEPTION_CATCH
  | JVMTI_EVENT_FIELD_ACCESS
  | JVMTI_EVENT_FIELD_MODIFICATION
  | JVMTI_EVENT_MONITOR_CONTENDED_ENTER
  | JVMTI_EVENT_MONITOR_CONTENDED_ENTERED
  | JVMTI_EVENT_MONITOR_WAIT
  | JVMTI_EVENT_MONITOR_WAITED
  | JVMTI_EVENT_NATIVE_METHOD_BIND
  | JVMTI_EVENT_COMPILED_METHOD_LOAD
  | JVMTI_EVENT_COMPILED_METHOD_UNLOAD
  | JVMTI_EVENT_DYNAMIC_CODE_GENERATED
  | JVMTI_EVENT_VM_OBJECT_ALLOC
  | JVMTI_EVENT_SAMPLED_OBJECT_ALLOC
  | JVMTI_EVENT_DATA_DUMP_REQUEST.

#[global] Instance jvmtiEvent_eq_dec : EqDecision jvmtiEvent.
Proof. solve_decision. Defined.

(** ** Environments *)

Module JvmtiEnv.
(** One [JvmtiEnv].  [callbacks env k] tells whether the entry for [k] in
    the environment's callback table is non-null; [phase] is what
    [env->phase()] answers. *)
Record t := Make {
  jvmti_external : nat;
  is_retransformable : bool;
  early_class_hook_env : bool;
  early_vmstart_env : bool;
  phase : jvmtiPhase;
  is_enabled : jvmtiEvent -> bool;
  callbacks : jvmtiEvent -> bool
}.
End JvmtiEnv.

(** The process-wide state read by the posts: [JvmtiEnvBase::_phase], the
    list walked by [JvmtiEnvIterator] (in registration order), the bits of
    [JvmtiEventController::is_enabled], the [should_post_*] flags used by
    the collectors, and the switches consulted by [get_jvmti_interface]. *)
Module Jvmti.
Record t := Make {
  get_phase : jvmtiPhase;
  environments : list JvmtiEnv.t;
  is_enabled : jvmtiEvent -> bool;
  should_post_vm_object_alloc : bool;
  should_post_sampled_object_alloc : bool;
  should_post_dynamic_code_generated : bool;
  can_support_virtual_threads : bool;
  Continuations_enabled : bool;
  VTMS_notify_jvmti_events : bool;
  virtual_threads_notify_jvmti : bool
}.
End Jvmti.

(** ** Registration: [JvmtiExport::get_jvmti_interface] *)

Inductive jint_status := JNI_OK | JNI_EDETACHED | JNI_EVERSION.

#[global] Instance jint_status_eq_dec : EqDecision jint_status.
Proof. solve_decision. Defined.

(** Modelled from the spec: [JvmtiEnv::create_a_jvmti] is defined outside
    the sources; the spec's [register] "appends to the ordered list".  The
    new environment has nothing enabled and an empty callback table; its
    external pointer is the first one not in use. *)
Definition create_a_jvmti (rt : Jvmti.t) : JvmtiEnv.t :=
  JvmtiEnv.Make
    (S (foldr Nat.max 0%nat (map JvmtiEnv.jvmti_external (Jvmti.environments rt))))
    false false false (Jvmti.get_phase rt) (fun _ => false) (fun _ => false).

Definition register_env (env : JvmtiEnv.t) (rt : Jvmti.t) : Jvmti.t :=
  Jvmti.Make (Jvmti.get_phase rt) (Jvmti.environments rt ++ [env])
    (Jvmti.is_enabled rt) (Jvmti.should_post_vm_object_alloc rt)
    (Jvmti.should_post_sampled_object_alloc rt)
    (Jvmti.should_post_dynamic_code_generated rt)
    (Jvmti.can_support_virtual_threads rt)
    (Jvmti.Continuations_enabled rt) (Jvmti.VTMS_notify_jvmti_events rt)
    (Jvmti.virtual_threads_notify_jvmti rt).

Definition set_VTMS_notify_jvmti_events (b : bool) (rt : Jvmti.t) : Jvmti.t :=
  Jvmti.Make (Jvmti.get_phase rt) (Jvmti.environments rt)
    (Jvmti.is_enabled rt) (Jvmti.should_post_vm_object_alloc rt)
    (Jvmti.should_post_sampled_object_alloc rt)
    (Jvmti.should_post_dynamic_code_generated rt)
    (Jvmti.can_support_virtual_threads rt)
    (Jvmti.Continuations_enabled rt) b
    (Jvmti.virtual_threads_notify_jvmti rt).

Definition enable_virtual_threads_notify_jvmti (rt : Jvmti.t) : Jvmti.t :=
  Jvmti.Make (Jvmti.get_phase rt) (Jvmti.environments rt)
    (Jvmti.is_enabled rt) (Jvmti.should_post_vm_object_alloc rt)
    (Jvmti.should_post_sampled_object_alloc rt)
    (Jvmti.should_post_dynamic_code_generated rt)
    (Jvmti.can_support_virtual_threads rt)
    (Jvmti.Continuations_enabled rt) (Jvmti.VTMS_notify_jvmti_events rt)
    true.

Section Registration.
(** The version masks and shifts of the JVMTI header and the major version
    of the running VM are declared outside the sources. *)
Variables JVMTI_VERSION_MASK_MAJOR JVMTI_VERSION_SHIFT_MAJOR : Z.
Variables JVMTI_VERSION_MASK_MINOR JVMTI_VERSION_SHIFT_MINOR : Z.
Variables JVMTI_VERSION_MASK_MICRO JVMTI_VERSION_SHIFT_MICRO : Z.
Variable vm_major_version : Z.

Definition decode_version_values (version : Z) : Z * Z * Z :=
  (Z.shiftr (Z.land version JVMTI_VERSION_MASK_MAJOR) JVMTI_VERSION_SHIFT_MAJOR,
   Z.shiftr (Z.land version JVMTI_VERSION_MASK_MINOR) JVMTI_VERSION_SHIFT_MINOR,
   Z.shiftr (Z.land version JVMTI_VERSION_MASK_MICRO) JVMTI_VERSION_SHIFT_MICRO).

(** The two nested [switch]es on the decoded version. *)
Definition version_recognized (version : Z) : bool :=
  let '(major, minor, _) := decode_version_values version in
  if major =? 1 then (minor =? 0) || (minor =? 1) || (minor =? 2)
  else if major =? 9 then minor =? 0
  else if major =? 11 then minor =? 0
  else negb ((major <? 13) || (vm_major_version <? major)).

(** [get_jvmti_interface(jvm, penv, version)]: the caller's [*penv] goes in
    and comes out ([None] is the null pointer), next to the returned
    status and the process-wide state. *)
Definition get_jvmti_interface (rt : Jvmti.t) (penv : option nat) (version : Z)
  : jint_status * option nat * Jvmti.t :=
  if negb (version_recognized version) then (JNI_EVERSION, penv, rt)
  else if decide (Jvmti.get_phase rt = JVMTI_PHASE_LIVE) then
    let jvmti_env := create_a_jvmti rt in
    let rt := register_env jvmti_env rt in
    let rt :=
      if Jvmti.Continuations_enabled rt then
        if negb (Jvmti.VTMS_notify_jvmti_events rt)
        then enable_virtual_threads_notify_jvmti rt else rt
      else rt in
    (JNI_OK, Some (JvmtiEnv.jvmti_external jvmti_env), rt)
  else if decide (Jvmti.get_phase rt = JVMTI_PHASE_ONLOAD) then
    let jvmti_env := create_a_jvmti rt in
    let rt := register_env jvmti_env rt in
    let rt :=
      if Jvmti.Continuations_enabled rt
      then set_VTMS_notify_jvmti_events true rt else rt in
    (JNI_OK, Some (JvmtiEnv.jvmti_external jvmti_env), rt)
  else (JNI_EDETACHED, None, rt).
End Registration.

(** ** Per-thread state *)

(** Modelled from the spec: [JvmtiThreadState::ExceptionState] is declared
    outside the sources, which name only [ES_CLEARED]; the spec describes
    "exception-detected/exception-caught flags (cleared per exception
    lifecycle)". *)
Inductive ExceptionState := ES_CLEARED | ES_DETECTED | ES_CAUGHT.

#[global] Instance ExceptionState_eq_dec : EqDecision ExceptionState.
Proof. solve_decision. Defined.

Inductive JvmtiClassLoadKind :=
  | jvmti_class_load_kind_load
  | jvmti_class_load_kind_retransform
  | jvmti_class_load_kind_redefine.

#[global] Instance JvmtiClassLoadKind_eq_dec : EqDecision JvmtiClassLoadKind.
Proof. solve_decision. Defined.

(** A [Method*]: its [jmethod_id()], its [code_base()] and whether it is a
    [jvmti_mount_transition()] method. *)
Record Method := {
  jmethod_id : nat;
  code_base : Z;
  jvmti_mount_transition : bool
}.

(** A non-null [oop]; [klass_is_Class] is [obj->klass() == vmClasses::Class_klass()].
    A nullable [oop] is an [option object]. *)
Record object := {
  oop_address : nat;
  klass_is_Class : bool
}.

#[global] Instance object_eq_dec : EqDecision object.
Proof. solve_decision. Defined.

Module JvmtiEnvThreadState.
(** The per-environment, per-thread record walked by
    [JvmtiEnvThreadStateIterator]. *)
Record t := Make {
  get_env : JvmtiEnv.t;
  is_enabled : jvmtiEvent -> bool;
  _current_method_id : option nat;
  _current_bci : Z;
  breakpoint_posted : bool;
  single_stepping_posted : bool
}.

Definition set_breakpoint_posted (ets : t) : t :=
  Make (get_env ets) (is_enabled ets) (_current_method_id ets)
    (_current_bci ets) true (single_stepping_posted ets).

Definition set_single_stepping_posted (ets : t) : t :=
  Make (get_env ets) (is_enabled ets) (_current_method_id ets)
    (_current_bci ets) (breakpoint_posted ets) true.

(** Modelled from the spec: [compare_and_set_current_location] is defined
    outside the sources.  The spec: "per environment-thread pair, an event
    at the same method+location is suppressed until the location changes -
    tracked via the current location marker in Per-Thread Event State,
    compared and updated".  At the recorded location nothing changes; at
    another one the marker moves there and both posted flags are
    cleared. *)
Definition compare_and_set_current_location
    (new_method : Method) (new_location : Z) (event : jvmtiEvent) (ets : t) : t :=
  let new_bci := new_location - code_base new_method in
  let new_method_id := jmethod_id new_method in
  if decide (_current_bci ets = new_bci
             ∧ _current_method_id ets = Some new_method_id)
  then ets
  else Make (get_env ets) (is_enabled ets) (Some new_method_id) new_bci false false.
End JvmtiEnvThreadState.

Module JvmtiThreadState.
Record t := Make {
  _exception_state : ExceptionState;
  is_enabled : jvmtiEvent -> bool;
  env_thread_states : list JvmtiEnvThreadState.t;
  get_class_load_kind : JvmtiClassLoadKind;
  get_vm_object_alloc_event_collector : option nat;
  get_dynamic_code_event_collector : option nat;
  get_sampled_object_alloc_event_collector : option nat
}.

Definition get_exception_state (s : t) : ExceptionState := _exception_state s.
Definition is_exception_detected (s : t) : bool :=
  bool_decide (_exception_state s = ES_DETECTED).
Definition is_exception_caught (s : t) : bool :=
  bool_decide (_exception_state s = ES_CAUGHT).

Definition restore_exception_state (es : ExceptionState) (s : t) : t :=
  Make es (is_enabled s) (env_thread_states s) (get_class_load_kind s)
    (get_vm_object_alloc_event_collector s) (get_dynamic_code_event_collector s)
    (get_sampled_object_alloc_event_collector s).
Definition set_exception_detected : t -> t := restore_exception_state ES_DETECTED.
Definition set_exception_caught : t -> t := restore_exception_state ES_CAUGHT.
Definition clear_exception_state : t -> t := restore_exception_state ES_CLEARED.

Definition set_env_thread_states (l : list JvmtiEnvThreadState.t) (s : t) : t :=
  Make (_exception_state s) (is_enabled s) l (get_class_load_kind s)
    (get_vm_object_alloc_event_collector s) (get_dynamic_code_event_collector s)
    (get_sampled_object_alloc_event_collector s).

Definition set_vm_object_alloc_event_collector (c : option nat) (s : t) : t :=
  Make (_exception_state s) (is_enabled s) (env_thread_states s)
    (get_class_load_kind s) c (get_dynamic_code_event_collector s)
    (get_sampled_object_alloc_event_collector s).
Definition set_dynamic_code_event_collector (c : option nat) (s : t) : t :=
  Make (_exception_state s) (is_enabled s) (env_thread_states s)
    (get_class_load_kind s) (get_vm_object_alloc_event_collector s) c
    (get_sampled_object_alloc_event_collector s).
Definition set_sampled_object_alloc_event_collector (c : option nat) (s : t) : t :=
  Make (_exception_state s) (is_enabled s) (env_thread_states s)
    (get_class_load_kind s) (get_vm_object_alloc_event_collector s)
    (get_dynamic_code_event_collector s) c.

(** Modelled from the spec: the constructor of [JvmtiThreadState] is
    defined outside the sources.  The spec: the per-thread state is
    "created when a thread first becomes visible to the event system" and
    holds "location markers per environment", the exception flags and the
    collector slots; a new one has one record per environment, in
    registration order, nothing posted or enabled, no exception in flight
    and empty slots. *)
Definition create (envs : list JvmtiEnv.t) : t :=
  Make ES_CLEARED (fun _ => false)
    (map (fun env => JvmtiEnvThreadState.Make env (fun _ => false) None 0 false false) envs)
    jvmti_class_load_kind_load None None None.
End JvmtiThreadState.

(** ** Collectors, deferred events and the machine *)

Inductive CollectorKind :=
  | is_vm_object_alloc_event
  | is_dynamic_code_event
  | is_sampled_object_alloc_event.

#[global] Instance CollectorKind_eq_dec : EqDecision CollectorKind.
Proof. solve_decision. Defined.

(** The two functions [_post_callback] is ever set to. *)
Inductive post_callback_fn :=
  | JvmtiExport_post_vm_object_alloc
  | JvmtiExport_post_sampled_object_alloc.

#[global] Instance post_callback_fn_eq_dec : EqDecision post_callback_fn.
Proof. solve_decision. Defined.

Record JvmtiCodeBlobDesc := {
  blob_name : string;
  blob_code_begin : Z;
  blob_code_end : Z
}.

Module Collector.
(** A [JvmtiEventCollector] with the fields of its subclasses:
    [_code_blobs] for the dynamic code collector; [_allocated], [_enable]
    and [_post_callback] for the object allocation collectors.  [None] is
    a null pointer.  Collectors are stack objects and are named by their
    address. *)
Record t := Make {
  kind : CollectorKind;
  _prev : option nat;
  _unset_jvmti_thread_state : bool;
  _code_blobs : option (list JvmtiCodeBlobDesc);
  _allocated : option (list object);
  _enable : bool;
  _post_callback : option post_callback_fn
}.

Definition is_enabled (c : t) : bool := _enable c.

Definition set_enabled (on : bool) (c : t) : t :=
  Make (kind c) (_prev c) (_unset_jvmti_thread_state c) (_code_blobs c)
    (_allocated c) on (_post_callback c).
Definition set_prev (p : option nat) (c : t) : t :=
  Make (kind c) p (_unset_jvmti_thread_state c) (_code_blobs c)
    (_allocated c) (_enable c) (_post_callback c).
Definition set_unset_jvmti_thread_state (b : bool) (c : t) : t :=
  Make (kind c) (_prev c) b (_code_blobs c) (_allocated c) (_enable c)
    (_post_callback c).
Definition set_code_blobs (l : option (list JvmtiCodeBlobDesc)) (c : t) : t :=
  Make (kind c) (_prev c) (_unset_jvmti_thread_state c) l (_allocated c)
    (_enable c) (_post_callback c).
Definition set_allocated (l : option (list object)) (c : t) : t :=
  Make (kind c) (_prev c) (_unset_jvmti_thread_state c) (_code_blobs c) l
    (_enable c) (_post_callback c).
Definition set_post_callback (f : option post_callback_fn) (c : t) : t :=
  Make (kind c) (_prev c) (_unset_jvmti_thread_state c) (_code_blobs c)
    (_allocated c) (_enable c) f.

(** Modelled from the spec: the constructor of the base class
    [JvmtiEventCollector] is defined outside the sources; a collector
    starts with no saved "previous occupant" and nothing to undo.  The
    other fields are set by the constructors in the sources
    ([_code_blobs(nullptr)]; [_allocated(nullptr), _enable(false),
    _post_callback(nullptr)]). *)
Definition init (k : CollectorKind) : t := Make k None false None None false None.
End Collector.

(** Modelled from the spec: [JvmtiDeferredEvent] is defined outside the
    sources; a deferred record is "an owned, self-contained copy of an
    event's payload". *)
Inductive JvmtiDeferredEvent :=
  | class_unload_event (name : string)
  | dynamic_code_generated_event (name : string) (code_begin code_end : Z).

Record Klass := {
  klass_address : nat;
  klass_name : string
}.

(** [p != nullptr] *)
Definition is_Some_dec {A} (p : option A) : bool :=
  match p with Some _ => true | None => false end.

Module VM.
(** The current [JavaThread] with the collectors living on its stack, and
    the queue of the service thread. *)
Record t := Make {
  jvmti_thread_state : option JvmtiThreadState.t;
  should_hide_jvmti_events : bool;
  is_vthread_mounted : bool;
  is_service_thread : bool;
  is_Compiler_thread : bool;
  is_attaching_via_jni : bool;
  has_threadObj : bool;
  is_hidden_from_external_view : bool;
  is_bound_virtual_thread : bool;
  active_handle_blocks : nat;
  collectors : gmap nat Collector.t;
  deferred_events : list JvmtiDeferredEvent
}.

Definition set_jvmti_thread_state (s : option JvmtiThreadState.t) (vm : t) : t :=
  Make s (should_hide_jvmti_events vm) (is_vthread_mounted vm)
    (is_service_thread vm) (is_Compiler_thread vm) (is_attaching_via_jni vm)
    (has_threadObj vm) (is_hidden_from_external_view vm)
    (is_bound_virtual_thread vm) (active_handle_blocks vm) (collectors vm)
    (deferred_events vm).
Definition set_active_handle_blocks (n : nat) (vm : t) : t :=
  Make (jvmti_thread_state vm) (should_hide_jvmti_events vm)
    (is_vthread_mounted vm) (is_service_thread vm) (is_Compiler_thread vm)
    (is_attaching_via_jni vm) (has_threadObj vm)
    (is_hidden_from_external_view vm) (is_bound_virtual_thread vm) n
    (collectors vm) (deferred_events vm).
Definition set_collectors (h : gmap nat Collector.t) (vm : t) : t :=
  Make (jvmti_thread_state vm) (should_hide_jvmti_events vm)
    (is_vthread_mounted vm) (is_service_thread vm) (is_Compiler_thread vm)
    (is_attaching_via_jni vm) (has_threadObj vm)
    (is_hidden_from_external_view vm) (is_bound_virtual_thread vm)
    (active_handle_blocks vm) h (deferred_events vm).
Definition set_deferred_events (q : list JvmtiDeferredEvent) (vm : t) : t :=
  Make (jvmti_thread_state vm) (should_hide_jvmti_events vm)
    (is_vthread_mounted vm) (is_service_thread vm) (is_Compiler_thread vm)
    (is_attaching_via_jni vm) (has_threadObj vm)
    (is_hidden_from_external_view vm) (is_bound_virtual_thread vm)
    (active_handle_blocks vm) (collectors vm) q.

(** Modelled from the spec: the JNI handle blocks of [JavaThread] are
    defined outside the sources; the safe-call transition "establish[es] a
    bounded resource scope for any objects exposed to the callback", kept
    here as the depth of open blocks. *)
Definition push_jni_handle_block (vm : t) : t :=
  set_active_handle_blocks (S (active_handle_blocks vm)) vm.
Definition pop_jni_handle_block (vm : t) : t :=
  set_active_handle_blocks (Nat.pred (active_handle_blocks vm)) vm.

(** [state->f()] for a setter [f], when the thread has a state. *)
Definition update_state (f : JvmtiThreadState.t -> JvmtiThreadState.t) (vm : t) : t :=
  match jvmti_thread_state vm with
  | Some s => set_jvmti_thread_state (Some (f s)) vm
  | None => vm
  end.

(** Modelled from the spec: [ServiceThread::enqueue_deferred_event] is
    defined outside the sources; [enqueue(record)] "appends" to the
    queue, which is consumed "strictly in FIFO order". *)
Definition enqueue_deferred_event (ev : JvmtiDeferredEvent) (vm : t) : t :=
  set_deferred_events (deferred_events vm ++ [ev]) vm.
End VM.

(** ** [JvmtiEventMark] *)

Module JvmtiEventMark.
Record t := Make { _saved_exception_state : ExceptionState }.

(** The constructor: save the thread's exception state, if it has a JVMTI
    state, and open a handle block. *)
Definition ctor (thread : VM.t) : t * VM.t :=
  let saved :=
    match VM.jvmti_thread_state thread with
    | Some state => JvmtiThreadState.get_exception_state state
    | None => ES_CLEARED
    end in
  (Make saved, VM.push_jni_handle_block thread).

(** The destructor: close the handle block and restore the saved
    exception state, if the thread has a JVMTI state now. *)
Definition dtor (jem : t) (thread : VM.t) : VM.t :=
  let thread := VM.pop_jni_handle_block thread in
  VM.update_state
    (JvmtiThreadState.restore_exception_state (_saved_exception_state jem))
    thread.

(** A block [{ JvmtiEventMark jem(thread); body }]: the destructor runs
    when the block is left, whichever way [body] went. *)
Definition scope {A} (body : VM.t -> VM.t * A) (thread : VM.t) : VM.t * A :=
  let '(jem, thread) := ctor thread in
  let '(thread, a) := body thread in
  (dtor jem thread, a).
End JvmtiEventMark.

(** ** Callbacks and traces *)

(** What a callback is called with, as far as the model keeps it. *)
Inductive callback_args :=
  | args_none
  | args_thread
  | args_class (klass : option Klass)
  | args_class_unload (name : string)
  | args_class_file_load (class_name : option string)
  | args_method (mid : nat)
  | args_location (mid : nat) (location : Z)
  | args_exception (mid : nat) (location : Z) (exception : object)
  | args_field (mid : nat) (location : Z) (field : nat)
  | args_monitor (obj : option object)
  | args_object_alloc (obj : object)
  | args_native_method_bind (jni_env_is_null : bool) (mid : nat)
  | args_compiled_method (mid : nat) (code_begin : Z)
  | args_dynamic_code (name : string) (code_begin : Z) (length : Z).

(** One invocation of an agent callback: the environment called, the event,
    the arguments, and what the callback caused while it ran (events of a
    type [E] chosen by whoever supplies the agent). *)
Record call (E : Type) := Call {
  call_env : JvmtiEnv.t;
  call_event : jvmtiEvent;
  call_args : callback_args;
  call_nested : list E
}.
Arguments Call {E}.
Arguments call_env {E}.
Arguments call_event {E}.
Arguments call_args {E}.
Arguments call_nested {E}.

(** The cast [(jint)] of an integer: its low 32 bits, read as a signed
    number.  The difference of two addresses is taken in the machine word,
    whose width is a multiple of 32 bits, so the cast of the machine
    difference is the cast of the difference in [Z]. *)
Definition to_jint (z : Z) : Z := (z + 2 ^ 31) `mod` 2 ^ 32 - 2 ^ 31.

(** A failed [assert] stops a debug VM. *)
Inductive outcome (A : Type) :=
  | Returned (a : A)
  | AssertionFailed.
Arguments Returned {A}.
Arguments AssertionFailed {A}.

(** ** The posts *)

Section Posts.
Context {E : Type}.
(** The numbering of the phases, the process-wide state, and the agent:
    [invoke env k args vm] is what the callback of [env] for [k] does to
    the machine when called with [args], with the events it caused. *)
Variable phase_value : jvmtiPhase -> Z.
Variable rt : Jvmti.t.
Variable invoke : JvmtiEnv.t -> jvmtiEvent -> callback_args -> VM.t -> VM.t * list E.
(** [JvmtiThreadState::clear_class_being_redefined] is defined outside the
    sources and is taken as it comes. *)
Variable clear_class_being_redefined : JvmtiThreadState.t -> JvmtiThreadState.t.

Definition trace : Type := list (call E).

(** [if (JvmtiEnv::get_phase() < JVMTI_PHASE_PRIMORDIAL) return;] *)
Definition phase_below_primordial : bool :=
  phase_value (Jvmti.get_phase rt) <? phase_value JVMTI_PHASE_PRIMORDIAL.

(** [callback = env->callbacks()->K; if (callback != nullptr) callback(...)] *)
Definition call_callback (env : JvmtiEnv.t) (k : jvmtiEvent) (args : callback_args)
    (vm : VM.t) : VM.t * trace :=
  if JvmtiEnv.callbacks env k then
    let '(vm, nested) := invoke env k args vm in (vm, [Call env k args nested])
  else (vm, []).

(** The block found in nearly every post:
    [{ Jvmti...EventMark jem(thread, ...); JvmtiJavaThreadEventTransition jet(thread);
       callback = ...; if (callback != nullptr) callback(...); }] *)
Definition callback_scope (env : JvmtiEnv.t) (k : jvmtiEvent) (args : callback_args)
    : VM.t -> VM.t * trace :=
  JvmtiEventMark.scope (call_callback env k args).

(** A [for] loop whose body may post. *)
Fixpoint for_each {X : Type} (body : X -> VM.t -> VM.t * trace) (l : list X)
    (vm : VM.t) : VM.t * trace :=
  match l with
  | [] => (vm, [])
  | x :: l =>
      let '(vm, t1) := body x vm in
      let '(vm, t2) := for_each body l vm in
      (vm, t1 ++ t2)
  end.

(** [JvmtiEnvIterator it; for (env = it.first(); env != nullptr; env = it.next(env))]:
    the environments in registration order. *)
Definition JvmtiEnvIterator (body : JvmtiEnv.t -> VM.t -> VM.t * trace)
    : VM.t -> VM.t * trace :=
  for_each body (Jvmti.environments rt).

Definition env_thread_states (vm : VM.t) : list JvmtiEnvThreadState.t :=
  match VM.jvmti_thread_state vm with
  | Some state => JvmtiThreadState.env_thread_states state
  | None => []
  end.

(** The record at position [i] of the thread's list, and an update of it
    in place. *)
Definition ets_at (i : nat) (vm : VM.t) : option JvmtiEnvThreadState.t :=
  env_thread_states vm !! i.
Definition update_ets (i : nat) (f : JvmtiEnvThreadState.t -> JvmtiEnvThreadState.t)
    (vm : VM.t) : VM.t :=
  VM.update_state
    (fun s => JvmtiThreadState.set_env_thread_states
                (alter f i (JvmtiThreadState.env_thread_states s)) s) vm.

(** [JvmtiEnvThreadStateIterator it(state); for (ets = it.first(); ...)]:
    the records of the thread by position; the body reads the record it
    is at from the machine, where the callbacks before it may have
    changed it.  The list itself changes only when environments come or
    go, which does not happen during a post in this model. *)
Definition JvmtiEnvThreadStateIterator
    (body : nat -> JvmtiEnvThreadState.t -> VM.t -> VM.t * trace)
    (vm : VM.t) : VM.t * trace :=
  for_each (fun i vm => match ets_at i vm with
                        | Some ets => body i ets vm
                        | None => (vm, [])
                        end)
           (seq 0 (length (env_thread_states vm))) vm.

(** Modelled from the spec: [JvmtiEventController::thread_started] is
    defined outside the sources; a post has to "resolve the thread's
    Per-Thread Event State, creating it if absent". *)
Definition JvmtiEventController_thread_started (vm : VM.t) : VM.t :=
  match VM.jvmti_thread_state vm with
  | Some _ => vm
  | None =>
      VM.set_jvmti_thread_state
        (Some (JvmtiThreadState.create (Jvmti.environments rt))) vm
  end.

(** [JvmtiExport::get_jvmti_thread_state(thread)]; the result is
    [VM.jvmti_thread_state] of the machine returned. *)
Definition get_jvmti_thread_state (vm : VM.t) : VM.t :=
  if VM.is_vthread_mounted vm
     && negb (is_Some_dec (VM.jvmti_thread_state vm))
  then JvmtiEventController_thread_started vm
  else vm.

(** *** Class file load hook *)

(** [JvmtiClassFileLoadHookPoster::post_to_env].  The class bytes handed
    from one agent to the next are not modelled. *)
Definition post_to_env (class_name : option string) (env : JvmtiEnv.t)
    (caching_needed : bool) (vm : VM.t) : VM.t * trace :=
  if bool_decide (JvmtiEnv.phase env = JVMTI_PHASE_PRIMORDIAL)
     && negb (JvmtiEnv.early_class_hook_env env)
  then (vm, [])
  else callback_scope env JVMTI_EVENT_CLASS_FILE_LOAD_HOOK
         (args_class_file_load class_name) vm.

(** [JvmtiClassFileLoadHookPoster::post_all_envs] *)
Definition post_all_envs (_load_kind : JvmtiClassLoadKind)
    (class_name : option string) (vm : VM.t) : VM.t * trace :=
  let '(vm, t1) :=
    if negb (bool_decide (_load_kind = jvmti_class_load_kind_retransform)) then
      JvmtiEnvIterator (fun env vm =>
        if negb (JvmtiEnv.is_retransformable env)
           && JvmtiEnv.is_enabled env JVMTI_EVENT_CLASS_FILE_LOAD_HOOK
        then post_to_env class_name env false vm
        else (vm, [])) vm
    else (vm, []) in
  let '(vm, t2) :=
    JvmtiEnvIterator (fun env vm =>
      if JvmtiEnv.is_retransformable env
         && JvmtiEnv.is_enabled env JVMTI_EVENT_CLASS_FILE_LOAD_HOOK
      then post_to_env class_name env true vm
      else (vm, [])) vm in
  (vm, t1 ++ t2).

(** The constructor of [JvmtiClassFileLoadHookPoster], as far as the load
    kind goes: it is read from the thread state, which is then cleared;
    without a thread state it is a plain load. *)
Definition JvmtiClassFileLoadHookPoster_load_kind (vm : VM.t)
    : JvmtiClassLoadKind * VM.t :=
  let vm := get_jvmti_thread_state vm in
  match VM.jvmti_thread_state vm with
  | Some _state =>
      (JvmtiThreadState.get_class_load_kind _state,
       VM.update_state clear_class_being_redefined vm)
  | None => (jvmti_class_load_kind_load, vm)
  end.

(** [JvmtiExport::post_class_file_load_hook] *)
Definition post_class_file_load_hook (h_name : option string) (vm : VM.t)
    : VM.t * trace :=
  if phase_below_primordial then (vm, [])
  else if VM.should_hide_jvmti_events vm then (vm, [])
  else
    let '(_load_kind, vm) := JvmtiClassFileLoadHookPoster_load_kind vm in
    post_all_envs _load_kind h_name vm.

(** *** Posts that walk the environments *)

(** [JvmtiExport::post_compiled_method_unload] *)
Definition post_compiled_method_unload (method : nat) (code_begin : Z) (vm : VM.t)
    : VM.t * trace :=
  if phase_below_primordial then (vm, [])
  else
    JvmtiEnvIterator (fun env vm =>
      if JvmtiEnv.is_enabled env JVMTI_EVENT_COMPILED_METHOD_UNLOAD then
        if bool_decide (JvmtiEnv.phase env = JVMTI_PHASE_PRIMORDIAL) then (vm, [])
        else callback_scope env JVMTI_EVENT_COMPILED_METHOD_UNLOAD
               (args_compiled_method method code_begin) vm
      else (vm, [])) vm.

(** [JvmtiExport::post_class_unload]: nothing is called; a copy of the
    name goes to the service thread. *)
Definition post_class_unload (klass : Klass) (vm : VM.t) : VM.t * trace :=
  if phase_below_primordial then (vm, [])
  else
    let event := class_unload_event (klass_name klass) in
    (VM.enqueue_deferred_event event vm, []).

(** [JvmtiExport::post_class_unload_internal] *)
Definition post_class_unload_internal (name : string) (vm : VM.t)
    : outcome (VM.t * trace) :=
  if phase_below_primordial then Returned (vm, [])
  else if negb (VM.is_service_thread vm) then AssertionFailed
  else if Jvmti.is_enabled rt EXT_EVENT_CLASS_UNLOAD then
    Returned (JvmtiEnvIterator (fun env vm =>
      if bool_decide (JvmtiEnv.phase env = JVMTI_PHASE_PRIMORDIAL) then (vm, [])
      else if JvmtiEnv.is_enabled env EXT_EVENT_CLASS_UNLOAD then
        callback_scope env EXT_EVENT_CLASS_UNLOAD (args_class_unload name) vm
      else (vm, [])) vm)
  else Returned (vm, []).

(** [JvmtiExport::post_vthread_start].  Its
    [assert(!thread->is_hidden_from_external_view(), ...)] is a check of
    debug builds; the post does not test the flag. *)
Definition post_vthread_start (vm : VM.t) : VM.t * trace :=
  if phase_below_primordial then (vm, [])
  else if Jvmti.is_enabled rt JVMTI_EVENT_VIRTUAL_THREAD_START then
    JvmtiEnvIterator (fun env vm =>
      if bool_decide (JvmtiEnv.phase env = JVMTI_PHASE_PRIMORDIAL) then (vm, [])
      else if JvmtiEnv.is_enabled env JVMTI_EVENT_VIRTUAL_THREAD_START then
        callback_scope env JVMTI_EVENT_VIRTUAL_THREAD_START args_thread vm
      else (vm, [])) vm
  else (vm, []).

(** [JvmtiExport::post_thread_start] *)
Definition post_thread_start (vm : VM.t) : VM.t * trace :=
  if phase_below_primordial then (vm, [])
  else
    let vm := JvmtiEventController_thread_started vm in
    if VM.is_bound_virtual_thread vm then
      if Jvmti.can_support_virtual_threads rt then post_vthread_start vm
      else (vm, [])
    else if Jvmti.is_enabled rt JVMTI_EVENT_THREAD_START
            && negb (VM.is_hidden_from_external_view vm) then
      JvmtiEnvIterator (fun env vm =>
        if bool_decide (JvmtiEnv.phase env = JVMTI_PHASE_PRIMORDIAL) then (vm, [])
        else if JvmtiEnv.is_enabled env JVMTI_EVENT_THREAD_START then
          callback_scope env JVMTI_EVENT_THREAD_START args_thread vm
        else (vm, [])) vm
    else (vm, []).

(** [JvmtiExport::post_native_method_bind]: no phase test; an environment
    in the primordial phase is called with a null [JNIEnv]. *)
Definition post_native_method_bind (method : Method) (vm : VM.t) : VM.t * trace :=
  if VM.should_hide_jvmti_events vm then (vm, [])
  else if Jvmti.is_enabled rt JVMTI_EVENT_NATIVE_METHOD_BIND then
    JvmtiEnvIterator (fun env vm =>
      if JvmtiEnv.is_enabled env JVMTI_EVENT_NATIVE_METHOD_BIND then
        callback_scope env JVMTI_EVENT_NATIVE_METHOD_BIND
          (args_native_method_bind
             (bool_decide (JvmtiEnv.phase env = JVMTI_PHASE_PRIMORDIAL))
             (jmethod_id method)) vm
      else (vm, [])) vm
  else (vm, []).

(** [JvmtiExport::post_compiled_method_load(JvmtiEnv* env, nmethod* nm)]:
    here the callback is tested before the mark is set up. *)
Definition post_compiled_method_load_env (env : JvmtiEnv.t) (nm_method : nat)
    (code_begin : Z) (vm : VM.t) : VM.t * trace :=
  if bool_decide (JvmtiEnv.phase env = JVMTI_PHASE_PRIMORDIAL)
     || negb (JvmtiEnv.is_enabled env JVMTI_EVENT_COMPILED_METHOD_LOAD)
  then (vm, [])
  else if negb (JvmtiEnv.callbacks env JVMTI_EVENT_COMPILED_METHOD_LOAD) then (vm, [])
  else callback_scope env JVMTI_EVENT_COMPILED_METHOD_LOAD
         (args_compiled_method nm_method code_begin) vm.

(** [JvmtiExport::post_compiled_method_load(nmethod* nm)] *)
Definition post_compiled_method_load (nm_method : nat) (code_begin : Z) (vm : VM.t)
    : VM.t * trace :=
  if phase_below_primordial then (vm, [])
  else JvmtiEnvIterator (fun env vm =>
         post_compiled_method_load_env env nm_method code_begin vm) vm.

(** [JvmtiExport::post_dynamic_code_generated_internal].  The length handed
    to the callback is [(jint)pointer_delta(code_end, code_begin, sizeof(char))]:
    the distance between the two addresses in bytes, cut to a [jint]. *)
Definition post_dynamic_code_generated_internal (name : string)
    (code_begin code_end : Z) (vm : VM.t) : VM.t * trace :=
  JvmtiEnvIterator (fun env vm =>
    if JvmtiEnv.is_enabled env JVMTI_EVENT_DYNAMIC_CODE_GENERATED then
      let length := to_jint (code_end - code_begin) in
      callback_scope env JVMTI_EVENT_DYNAMIC_CODE_GENERATED
        (args_dynamic_code name code_begin length) vm
    else (vm, [])) vm.

(** [JvmtiExport::post_dynamic_code_generated(name, code_begin, code_end)] *)
Definition post_dynamic_code_generated (name : string) (code_begin code_end : Z)
    (vm : VM.t) : VM.t * trace :=
  let phase := Jvmti.get_phase rt in
  if bool_decide (phase = JVMTI_PHASE_PRIMORDIAL)
     || bool_decide (phase = JVMTI_PHASE_START)
  then post_dynamic_code_generated_internal name code_begin code_end vm
  else
    let event := dynamic_code_generated_event name code_begin code_end in
    (VM.enqueue_deferred_event event vm, []).

(** [JvmtiExport::post_vm_object_alloc] *)
Definition post_vm_object_alloc (object : option object) (vm : VM.t)
    : VM.t * trace :=
  match object with
  | None => (vm, [])
  | Some obj =>
      if VM.should_hide_jvmti_events vm then (vm, [])
      else
        JvmtiEnvIterator (fun env vm =>
          if JvmtiEnv.is_enabled env JVMTI_EVENT_VM_OBJECT_ALLOC then
            callback_scope env JVMTI_EVENT_VM_OBJECT_ALLOC (args_object_alloc obj) vm
          else (vm, [])) vm
  end.

(** *** Posts that walk the records of the thread *)

(** [JvmtiThreadState *state = get_jvmti_thread_state(thread);
     if (state == nullptr) return;] *)
Definition with_thread_state (vm : VM.t)
    (rest : JvmtiThreadState.t -> VM.t -> VM.t * trace) : VM.t * trace :=
  let vm := get_jvmti_thread_state vm in
  match VM.jvmti_thread_state vm with
  | None => (vm, [])
  | Some state => rest state vm
  end.

(** [JvmtiExport::post_raw_breakpoint].  The state of the OS thread, set
    to [BREAKPOINTED] around the callback, is not modelled. *)
Definition post_raw_breakpoint (method : Method) (location : Z) (vm : VM.t)
    : VM.t * trace :=
  with_thread_state vm (fun state vm =>
    if VM.should_hide_jvmti_events vm then (vm, [])
    else
      JvmtiEnvThreadStateIterator (fun i ets vm =>
        let vm := update_ets i (JvmtiEnvThreadState.compare_and_set_current_location
                                  method location JVMTI_EVENT_BREAKPOINT) vm in
        let ets := JvmtiEnvThreadState.compare_and_set_current_location
                     method location JVMTI_EVENT_BREAKPOINT ets in
        if negb (JvmtiEnvThreadState.breakpoint_posted ets)
           && JvmtiEnvThreadState.is_enabled ets JVMTI_EVENT_BREAKPOINT then
          let env := JvmtiEnvThreadState.get_env ets in
          JvmtiEventMark.scope (fun vm =>
            let '(vm, tr) :=
              call_callback env JVMTI_EVENT_BREAKPOINT
                (args_location (jmethod_id method) (location - code_base method)) vm in
            (update_ets i JvmtiEnvThreadState.set_breakpoint_posted vm, tr)) vm
        else (vm, [])) vm).

(** [JvmtiExport::post_single_step] *)
Definition post_single_step (method : Method) (location : Z) (vm : VM.t)
    : VM.t * trace :=
  with_thread_state vm (fun state vm =>
    if jvmti_mount_transition method || VM.should_hide_jvmti_events vm then (vm, [])
    else
      JvmtiEnvThreadStateIterator (fun i ets vm =>
        let vm := update_ets i (JvmtiEnvThreadState.compare_and_set_current_location
                                  method location JVMTI_EVENT_SINGLE_STEP) vm in
        let ets := JvmtiEnvThreadState.compare_and_set_current_location
                     method location JVMTI_EVENT_SINGLE_STEP ets in
        if negb (JvmtiEnvThreadState.single_stepping_posted ets)
           && JvmtiEnvThreadState.is_enabled ets JVMTI_EVENT_SINGLE_STEP then
          let env := JvmtiEnvThreadState.get_env ets in
          JvmtiEventMark.scope (fun vm =>
            let '(vm, tr) :=
              call_callback env JVMTI_EVENT_SINGLE_STEP
                (args_location (jmethod_id method) (location - code_base method)) vm in
            (update_ets i JvmtiEnvThreadState.set_single_stepping_posted vm, tr)) vm
        else (vm, [])) vm).

(** The shape shared by [post_class_load] and [post_class_prepare]. *)
Definition post_class_event (k : jvmtiEvent) (klass : option Klass) (vm : VM.t)
    : VM.t * trace :=
  if phase_below_primordial then (vm, [])
  else
    with_thread_state vm (fun state vm =>
      if VM.should_hide_jvmti_events vm then (vm, [])
      else
        JvmtiEnvThreadStateIterator (fun i ets vm =>
          if JvmtiEnvThreadState.is_enabled ets k then
            let env := JvmtiEnvThreadState.get_env ets in
            if bool_decide (JvmtiEnv.phase env = JVMTI_PHASE_PRIMORDIAL) then (vm, [])
            else callback_scope env k (args_class klass) vm
          else (vm, [])) vm).

(** [JvmtiExport::post_class_load] *)
Definition post_class_load : option Klass -> VM.t -> VM.t * trace :=
  post_class_event JVMTI_EVENT_CLASS_LOAD.

(** [JvmtiExport::post_class_prepare] *)
Definition post_class_prepare : option Klass -> VM.t -> VM.t * trace :=
  post_class_event JVMTI_EVENT_CLASS_PREPARE.

(** The shape shared by [post_vthread_end], [post_vthread_mount] and
    [post_vthread_unmount], and the tail of [post_thread_end]: the event
    must be enabled for the thread, then for the record; environments in
    the primordial phase are skipped. *)
Definition post_thread_filtered (k : jvmtiEvent) (state : JvmtiThreadState.t)
    (vm : VM.t) : VM.t * trace :=
  JvmtiEnvThreadStateIterator (fun i ets vm =>
    let env := JvmtiEnvThreadState.get_env ets in
    if bool_decide (JvmtiEnv.phase env = JVMTI_PHASE_PRIMORDIAL) then (vm, [])
    else if JvmtiEnvThreadState.is_enabled ets k then
      callback_scope env k args_thread vm
    else (vm, [])) vm.

(** [JvmtiExport::post_vthread_end]; it starts with the same [assert] as
    [post_vthread_start]. *)
Definition post_vthread_end (vm : VM.t) : VM.t * trace :=
  if phase_below_primordial then (vm, [])
  else
    with_thread_state vm (fun state vm =>
      if JvmtiThreadState.is_enabled state JVMTI_EVENT_VIRTUAL_THREAD_END
      then post_thread_filtered JVMTI_EVENT_VIRTUAL_THREAD_END state vm
      else (vm, [])).

(** [JvmtiExport::post_vthread_mount] *)
Definition post_vthread_mount (vm : VM.t) : VM.t * trace :=
  if phase_below_primordial then (vm, [])
  else
    with_thread_state vm (fun state vm =>
      if JvmtiThreadState.is_enabled state EXT_EVENT_VIRTUAL_THREAD_MOUNT
      then post_thread_filtered EXT_EVENT_VIRTUAL_THREAD_MOUNT state vm
      else (vm, [])).

(** [JvmtiExport::post_vthread_unmount] *)
Definition post_vthread_unmount (vm : VM.t) : VM.t * trace :=
  if phase_below_primordial then (vm, [])
  else
    with_thread_state vm (fun state vm =>
      if JvmtiThreadState.is_enabled state EXT_EVENT_VIRTUAL_THREAD_UNMOUNT
      then post_thread_filtered EXT_EVENT_VIRTUAL_THREAD_UNMOUNT state vm
      else (vm, [])).

(** [JvmtiExport::post_thread_end] *)
Definition post_thread_end (vm : VM.t) : VM.t * trace :=
  if phase_below_primordial then (vm, [])
  else
    with_thread_state vm (fun state vm =>
      if VM.is_bound_virtual_thread vm then
        if Jvmti.can_support_virtual_threads rt then post_vthread_end vm
        else (vm, [])
      else if JvmtiThreadState.is_enabled state JVMTI_EVENT_THREAD_END
              && negb (VM.is_hidden_from_external_view vm) then
        post_thread_filtered JVMTI_EVENT_THREAD_END state vm
      else (vm, [])).

(** [JvmtiExport::post_exception_throw].  The search for the handler that
    will catch the exception only fills in arguments of the callback and
    is not modelled; neither is the cached stack depth. *)
Definition post_exception_throw (method : Method) (location : Z)
    (exception : option object) (vm : VM.t) : VM.t * trace :=
  with_thread_state vm (fun state vm =>
    if VM.should_hide_jvmti_events vm then (vm, [])
    else if negb (JvmtiThreadState.is_exception_detected state) then
      let vm := VM.update_state JvmtiThreadState.set_exception_detected vm in
      JvmtiEnvThreadStateIterator (fun i ets vm =>
        match exception with
        | Some exc =>
            if JvmtiEnvThreadState.is_enabled ets JVMTI_EVENT_EXCEPTION then
              let env := JvmtiEnvThreadState.get_env ets in
              callback_scope env JVMTI_EVENT_EXCEPTION
                (args_exception (jmethod_id method)
                   (location - code_base method) exc) vm
            else (vm, [])
        | None => (vm, [])
        end) vm
    else (vm, [])).

(** The shape shared by [post_field_access], [post_field_modification]
    and the four monitor posts: the thread must have a state and must not
    hide events; every record with the event enabled is called. *)
Definition post_to_thread (k : jvmtiEvent) (args : callback_args) (vm : VM.t)
    : VM.t * trace :=
  with_thread_state vm (fun state vm =>
    if VM.should_hide_jvmti_events vm then (vm, [])
    else
      JvmtiEnvThreadStateIterator (fun i ets vm =>
        if JvmtiEnvThreadState.is_enabled ets k then
          callback_scope (JvmtiEnvThreadState.get_env ets) k args vm
        else (vm, [])) vm).

Definition post_field_access (method : Method) (location : Z) (field : nat) :=
  post_to_thread JVMTI_EVENT_FIELD_ACCESS
    (args_field (jmethod_id method) (location - code_base method) field).
Definition post_field_modification (method : Method) (location : Z) (field : nat) :=
  post_to_thread JVMTI_EVENT_FIELD_MODIFICATION
    (args_field (jmethod_id method) (location - code_base method) field).
Definition post_monitor_contended_enter (obj : option object) :=
  post_to_thread JVMTI_EVENT_MONITOR_CONTENDED_ENTER (args_monitor obj).
Definition post_monitor_contended_entered (obj : option object) :=
  post_to_thread JVMTI_EVENT_MONITOR_CONTENDED_ENTERED (args_monitor obj).
Definition post_monitor_wait (obj : option object) :=
  post_to_thread JVMTI_EVENT_MONITOR_WAIT (args_monitor obj).
Definition post_monitor_waited (obj : option object) :=
  post_to_thread JVMTI_EVENT_MONITOR_WAITED (args_monitor obj).

(** [JvmtiExport::post_sampled_object_alloc] *)
Definition post_sampled_object_alloc (object : option object) (vm : VM.t)
    : VM.t * trace :=
  with_thread_state vm (fun state vm =>
    match object with
    | None => (vm, [])
    | Some obj =>
        if VM.should_hide_jvmti_events vm then (vm, [])
        else
          JvmtiEnvThreadStateIterator (fun i ets vm =>
            if JvmtiEnvThreadState.is_enabled ets JVMTI_EVENT_SAMPLED_OBJECT_ALLOC then
              callback_scope (JvmtiEnvThreadState.get_env ets)
                JVMTI_EVENT_SAMPLED_OBJECT_ALLOC (args_object_alloc obj) vm
            else (vm, [])) vm
    end).

(** *** Event collectors *)

(** One call of [_post_callback(JavaThread::current(), obj)] made while a
    collector hands out what it buffered: the collector, the function
    called, the object, and the callbacks that call reached. *)
Record posted := Posted {
  posted_collector : nat;
  posted_fn : option post_callback_fn;
  posted_object : object;
  posted_calls : trace
}.

Definition collector_at (c : nat) (vm : VM.t) : option Collector.t :=
  VM.collectors vm !! c.
Definition update_collector (c : nat) (f : Collector.t -> Collector.t)
    (vm : VM.t) : VM.t :=
  VM.set_collectors (alter f c (VM.collectors vm)) vm.

(** [prev != nullptr && !prev->is_enabled()] *)
Definition occupied_and_disabled (prev : option nat) (vm : VM.t) : bool :=
  match prev with
  | Some p =>
      match collector_at p vm with
      | Some pc => negb (Collector.is_enabled pc)
      | None => false
      end
  | None => false
  end.

(** Modelled from the spec: [JvmtiThreadState::state_for] is defined
    outside the sources; it resolves the thread's state, "creating it if
    absent" (the [guarantee] after the call says it is not null for the
    current thread). *)
Definition JvmtiThreadState_state_for (vm : VM.t) : VM.t :=
  JvmtiEventController_thread_started vm.

(** [JvmtiEventCollector::setup_jvmti_thread_state], for the collector at
    address [this]. *)
Definition setup_jvmti_thread_state (this : nat) (vm : VM.t) : VM.t :=
  let vm := JvmtiThreadState_state_for vm in
  match VM.jvmti_thread_state vm, collector_at this vm with
  | Some state, Some self =>
      match Collector.kind self with
      | is_vm_object_alloc_event =>
          let prev := JvmtiThreadState.get_vm_object_alloc_event_collector state in
          if occupied_and_disabled prev vm then vm
          else
            let vm := update_collector this (Collector.set_prev prev) vm in
            let vm := VM.update_state
              (JvmtiThreadState.set_vm_object_alloc_event_collector (Some this)) vm in
            update_collector this (Collector.set_unset_jvmti_thread_state true) vm
      | is_dynamic_code_event =>
          let vm := update_collector this
            (Collector.set_prev (JvmtiThreadState.get_dynamic_code_event_collector state)) vm in
          let vm := VM.update_state
            (JvmtiThreadState.set_dynamic_code_event_collector (Some this)) vm in
          update_collector this (Collector.set_unset_jvmti_thread_state true) vm
      | is_sampled_object_alloc_event =>
          let prev := JvmtiThreadState.get_sampled_object_alloc_event_collector state in
          if is_Some_dec prev then vm
          else
            let vm := VM.update_state
              (JvmtiThreadState.set_sampled_object_alloc_event_collector (Some this)) vm in
            update_collector this (Collector.set_unset_jvmti_thread_state true) vm
      end
  | _, _ => vm
  end.

(** [JvmtiEventCollector::unset_jvmti_thread_state] *)
Definition unset_jvmti_thread_state (this : nat) (vm : VM.t) : VM.t :=
  match collector_at this vm with
  | Some self =>
      if negb (Collector._unset_jvmti_thread_state self) then vm
      else
        match VM.jvmti_thread_state vm with
        | Some state =>
            match Collector.kind self with
            | is_vm_object_alloc_event =>
                if bool_decide (JvmtiThreadState.get_vm_object_alloc_event_collector state
                                = Some this)
                then VM.update_state
                       (JvmtiThreadState.set_vm_object_alloc_event_collector
                          (Collector._prev self)) vm
                else vm
            | is_dynamic_code_event =>
                if bool_decide (JvmtiThreadState.get_dynamic_code_event_collector state
                                = Some this)
                then VM.update_state
                       (JvmtiThreadState.set_dynamic_code_event_collector
                          (Collector._prev self)) vm
                else vm
            | is_sampled_object_alloc_event =>
                if bool_decide (JvmtiThreadState.get_sampled_object_alloc_event_collector state
                                = Some this)
                then VM.update_state
                       (JvmtiThreadState.set_sampled_object_alloc_event_collector
                          (Collector._prev self)) vm
                else vm
            end
        | None => vm
        end
  | None => vm
  end.

(** A collector is a stack object: entering its scope places it, with the
    fields as the constructors of the base classes leave them, at an
    address not in use; leaving the scope gives the address back. *)
Definition new_collector (k : CollectorKind) (vm : VM.t) : nat * VM.t :=
  let this := fresh (dom (VM.collectors vm)) in
  (this, VM.set_collectors (<[this := Collector.init k]> (VM.collectors vm)) vm).
Definition delete_collector (this : nat) (vm : VM.t) : VM.t :=
  VM.set_collectors (delete this (VM.collectors vm)) vm.

(** [JvmtiObjectAllocEventCollector::record_allocation] *)
Definition record_allocation (this : nat) (obj : object) (vm : VM.t) : VM.t :=
  update_collector this (fun self =>
    Collector.set_allocated
      (Some (default [] (Collector._allocated self) ++ [obj])) self) vm.

(** [JvmtiExport::record_vm_internal_object_allocation], on a Java
    thread. *)
Definition record_vm_internal_object_allocation (obj : object) (vm : VM.t) : VM.t :=
  match VM.jvmti_thread_state vm with
  | Some state =>
      match JvmtiThreadState.get_vm_object_alloc_event_collector state with
      | Some collector =>
          match collector_at collector vm with
          | Some c =>
              if Collector.is_enabled c then
                if negb (klass_is_Class obj) then record_allocation collector obj vm
                else vm
              else vm
          | None => vm
          end
      | None => vm
      end
  | None => vm
  end.

(** [JvmtiExport::record_sampled_internal_object_allocation], on a Java
    thread. *)
Definition record_sampled_internal_object_allocation (obj : object) (vm : VM.t)
    : VM.t :=
  match VM.jvmti_thread_state vm with
  | Some state =>
      match JvmtiThreadState.get_sampled_object_alloc_event_collector state with
      | Some collector =>
          match collector_at collector vm with
          | Some c =>
              if Collector.is_enabled c then record_allocation collector obj vm
              else vm
          | None => vm
          end
      | None => vm
      end
  | None => vm
  end.

(** The call through the function pointer [_post_callback]; a null
    pointer is never called in the sources and calls nothing here. *)
Definition call_post_callback (f : option post_callback_fn) (obj : object)
    (vm : VM.t) : VM.t * trace :=
  match f with
  | Some JvmtiExport_post_vm_object_alloc => post_vm_object_alloc (Some obj) vm
  | Some JvmtiExport_post_sampled_object_alloc => post_sampled_object_alloc (Some obj) vm
  | None => (vm, [])
  end.

(** The loop of [generate_call_for_allocated]:
    [for (int i = 0; i < _allocated->length(); i++)].  Length and element
    are read from the collector at every round, as in the sources; [n]
    bounds the number of rounds. *)
Fixpoint generate_loop (this : nat) (n i : nat) (vm : VM.t) : VM.t * list posted :=
  match n with
  | O => (vm, [])
  | S n =>
      match collector_at this vm with
      | Some self =>
          match default [] (Collector._allocated self) !! i with
          | Some obj =>
              let '(vm, calls) :=
                call_post_callback (Collector._post_callback self) obj vm in
              let '(vm, ps) := generate_loop this n (S i) vm in
              (vm, Posted this (Collector._post_callback self) obj calls :: ps)
          | None => (vm, [])
          end
      | None => (vm, [])
      end
  end.

(** [JvmtiObjectAllocEventCollector::generate_call_for_allocated].  The
    loop is given as many rounds as there are records when it starts;
    [generate_loop_snapshot] shows that the loop condition is false when
    they are used up, whatever the callbacks did. *)
Definition generate_call_for_allocated (this : nat) (vm : VM.t)
    : VM.t * list posted :=
  match collector_at this vm with
  | Some self =>
      match Collector._allocated self with
      | Some allocated =>
          let vm := update_collector this (Collector.set_enabled false) vm in
          let '(vm, ps) := generate_loop this (length allocated) 0 vm in
          (update_collector this (Collector.set_allocated None) vm, ps)
      | None => (vm, [])
      end
  | None => (vm, [])
  end.

(** Following the words of the claims about the flush: the records that
    are in the buffer when the scope is left, each handed to
    [_post_callback] once, in the order in which they were appended.  To
    be compared with [generate_loop]. *)
Fixpoint post_each (this : nat) (f : option post_callback_fn) (l : list object)
    (vm : VM.t) : VM.t * list posted :=
  match l with
  | [] => (vm, [])
  | obj :: l =>
      let '(vm, calls) := call_post_callback f obj vm in
      let '(vm, ps) := post_each this f l vm in
      (vm, Posted this f obj calls :: ps)
  end.

(** The constructor of [JvmtiVMObjectAllocEventCollector] *)
Definition JvmtiVMObjectAllocEventCollector_ctor (this : nat) (vm : VM.t) : VM.t :=
  if Jvmti.should_post_vm_object_alloc rt then
    let vm := update_collector this (Collector.set_enabled true) vm in
    let vm := setup_jvmti_thread_state this vm in
    update_collector this
      (Collector.set_post_callback (Some JvmtiExport_post_vm_object_alloc)) vm
  else vm.

(** The destructor of [JvmtiVMObjectAllocEventCollector] *)
Definition JvmtiVMObjectAllocEventCollector_dtor (this : nat) (vm : VM.t)
    : VM.t * list posted :=
  let '(vm, ps) :=
    match collector_at this vm with
    | Some self =>
        if Collector._enable self then generate_call_for_allocated this vm
        else (vm, [])
    | None => (vm, [])
    end in
  (unset_jvmti_thread_state this vm, ps).

(** [JvmtiSampledObjectAllocEventCollector::object_alloc_is_safe_to_sample] *)
Definition object_alloc_is_safe_to_sample (vm : VM.t) : bool :=
  if VM.is_Compiler_thread vm then false
  else if VM.is_attaching_via_jni vm && negb (VM.has_threadObj vm) then false
  else true.

(** [JvmtiSampledObjectAllocEventCollector::start] *)
Definition JvmtiSampledObjectAllocEventCollector_start (this : nat) (vm : VM.t)
    : VM.t :=
  if Jvmti.should_post_sampled_object_alloc rt then
    if negb (object_alloc_is_safe_to_sample vm) then vm
    else
      let vm := update_collector this (Collector.set_enabled true) vm in
      let vm := setup_jvmti_thread_state this vm in
      update_collector this
        (Collector.set_post_callback (Some JvmtiExport_post_sampled_object_alloc)) vm
  else vm.

(** The destructor of [JvmtiSampledObjectAllocEventCollector] *)
Definition JvmtiSampledObjectAllocEventCollector_dtor (this : nat) (vm : VM.t)
    : VM.t * list posted :=
  match collector_at this vm with
  | Some self =>
      if negb (Collector._enable self) then (vm, [])
      else
        let '(vm, ps) := generate_call_for_allocated this vm in
        (unset_jvmti_thread_state this vm, ps)
  | None => (vm, [])
  end.

(** The constructor of [NoJvmtiVMObjectAllocMark]; the result is its
    [_collector]. *)
Definition NoJvmtiVMObjectAllocMark_ctor (vm : VM.t) : option nat * VM.t :=
  if negb (Jvmti.should_post_vm_object_alloc rt) then (None, vm)
  else
    match VM.jvmti_thread_state vm with
    | Some state =>
        match JvmtiThreadState.get_vm_object_alloc_event_collector state with
        | Some collector =>
            match collector_at collector vm with
            | Some c =>
                if Collector.is_enabled c then
                  (Some collector,
                   update_collector collector (Collector.set_enabled false) vm)
                else (None, vm)
            | None => (None, vm)
            end
        | None => (None, vm)
        end
    | None => (None, vm)
    end.

(** The destructor of [NoJvmtiVMObjectAllocMark] *)
Definition NoJvmtiVMObjectAllocMark_dtor (_collector : option nat) (vm : VM.t)
    : VM.t :=
  match _collector with
  | Some collector => update_collector collector (Collector.set_enabled true) vm
  | None => vm
  end.

(** The constructor of [JvmtiDynamicCodeEventCollector] *)
Definition JvmtiDynamicCodeEventCollector_ctor (this : nat) (vm : VM.t) : VM.t :=
  if Jvmti.should_post_dynamic_code_generated rt
  then setup_jvmti_thread_state this vm
  else vm.

(** [JvmtiDynamicCodeEventCollector::register_stub] *)
Definition register_stub (this : nat) (name : string) (start end_ : Z) (vm : VM.t)
    : VM.t :=
  update_collector this (fun self =>
    Collector.set_code_blobs
      (Some (default [] (Collector._code_blobs self)
             ++ [Build_JvmtiCodeBlobDesc name start end_])) self) vm.

(** [JvmtiExport::post_dynamic_code_generated_while_holding_locks] *)
Definition post_dynamic_code_generated_while_holding_locks (name : string)
    (code_begin code_end : Z) (vm : VM.t) : VM.t :=
  let vm := get_jvmti_thread_state vm in
  match VM.jvmti_thread_state vm with
  | Some state =>
      match JvmtiThreadState.get_dynamic_code_event_collector state with
      | Some collector => register_stub collector name code_begin code_end vm
      | None => vm
      end
  | None => vm
  end.

(** The loop in the destructor of [JvmtiDynamicCodeEventCollector], with
    length and element read from the collector at every round and [n]
    bounding the number of rounds. *)
Fixpoint dynamic_code_loop (this : nat) (n i : nat) (vm : VM.t) : VM.t * trace :=
  match n with
  | O => (vm, [])
  | S n =>
      match collector_at this vm with
      | Some self =>
          match default [] (Collector._code_blobs self) !! i with
          | Some blob =>
              let '(vm, t1) :=
                post_dynamic_code_generated (blob_name blob) (blob_code_begin blob)
                  (blob_code_end blob) vm in
              let '(vm, t2) := dynamic_code_loop this n (S i) vm in
              (vm, t1 ++ t2)
          | None => (vm, [])
          end
      | None => (vm, [])
      end
  end.

(** The destructor of [JvmtiDynamicCodeEventCollector]; the loop is given
    as many rounds as there are blobs when it starts. *)
Definition JvmtiDynamicCodeEventCollector_dtor (this : nat) (vm : VM.t)
    : VM.t * trace :=
  let '(vm, tr) :=
    match collector_at this vm with
    | Some self =>
        match Collector._code_blobs self with
        | Some blobs => dynamic_code_loop this (length blobs) 0 vm
        | None => (vm, [])
        end
    | None => (vm, [])
    end in
  (unset_jvmti_thread_state this vm, tr).
End Posts.

(** ** The entry points as data *)

(** The posts of this development, with their arguments. *)
Inductive PostEntry :=
  | Post_class_file_load_hook (h_name : option string)
  | Post_compiled_method_unload (method : nat) (code_begin : Z)
  | Post_compiled_method_load (nm_method : nat) (code_begin : Z)
  | Post_class_load (klass : option Klass)
  | Post_class_prepare (klass : option Klass)
  | Post_class_unload (klass : Klass)
  | Post_class_unload_internal (name : string)
  | Post_thread_start
  | Post_thread_end
  | Post_vthread_start
  | Post_vthread_end
  | Post_vthread_mount
  | Post_vthread_unmount
  | Post_raw_breakpoint (method : Method) (location : Z)
  | Post_single_step (method : Method) (location : Z)
  | Post_exception_throw (method : Method) (location : Z) (exception : option object)
  | Post_field_access (method : Method) (location : Z) (field : nat)
  | Post_field_modification (method : Method) (location : Z) (field : nat)
  | Post_monitor_contended_enter (obj : option object)
  | Post_monitor_contended_entered (obj : option object)
  | Post_monitor_wait (obj : option object)
  | Post_monitor_waited (obj : option object)
  | Post_native_method_bind (method : Method)
  | Post_dynamic_code_generated (name : string) (code_begin code_end : Z)
  | Post_vm_object_alloc (object : option object)
  | Post_sampled_object_alloc (object : option object).

(** The posts that start with
    [if (JvmtiEnv::get_phase() < JVMTI_PHASE_PRIMORDIAL) return;]: their
    event has a minimum phase. *)
Definition minimum_phase (p : PostEntry) : option jvmtiPhase :=
  match p with
  | Post_class_file_load_hook _ | Post_compiled_method_unload _ _
  | Post_compiled_method_load _ _ | Post_class_load _ | Post_class_prepare _
  | Post_class_unload _ | Post_class_unload_internal _
  | Post_thread_start | Post_thread_end
  | Post_vthread_start | Post_vthread_end
  | Post_vthread_mount | Post_vthread_unmount => Some JVMTI_PHASE_PRIMORDIAL
  | _ => None
  end.

(** The posts that walk the records of the thread rather than the
    environments. *)
Definition walks_thread_records (p : PostEntry) : bool :=
  match p with
  | Post_class_load _ | Post_class_prepare _ | Post_thread_end
  | Post_vthread_end | Post_vthread_mount | Post_vthread_unmount
  | Post_raw_breakpoint _ _ | Post_single_step _ _ | Post_exception_throw _ _ _
  | Post_field_access _ _ _ | Post_field_modification _ _ _
  | Post_monitor_contended_enter _ | Post_monitor_contended_entered _
  | Post_monitor_wait _ | Post_monitor_waited _
  | Post_sampled_object_alloc _ => true
  | _ => false
  end.

Section Entry.
Context {E : Type}.
Variable phase_value : jvmtiPhase -> Z.
Variable rt : Jvmti.t.
Variable invoke : JvmtiEnv.t -> jvmtiEvent -> callback_args -> VM.t -> VM.t * list E.
Variable clear_class_being_redefined : JvmtiThreadState.t -> JvmtiThreadState.t.

(** A failed assertion stops the VM: nothing is delivered. *)
Definition returned (vm : VM.t) (o : outcome (VM.t * trace (E:=E))) : VM.t * trace :=
  match o with
  | Returned r => r
  | AssertionFailed => (vm, [])
  end.

Definition post (p : PostEntry) (vm : VM.t) : VM.t * trace (E:=E) :=
  match p with
  | Post_class_file_load_hook n => post_class_file_load_hook phase_value rt invoke clear_class_being_redefined n vm
  | Post_compiled_method_unload m c => post_compiled_method_unload phase_value rt invoke m c vm
  | Post_compiled_method_load m c => post_compiled_method_load phase_value rt invoke m c vm
  | Post_class_load k => post_class_load phase_value rt invoke k vm
  | Post_class_prepare k => post_class_prepare phase_value rt invoke k vm
  | Post_class_unload k => post_class_unload phase_value rt k vm
  | Post_class_unload_internal n =>
      returned vm (post_class_unload_internal phase_value rt invoke n vm)
  | Post_thread_start => post_thread_start phase_value rt invoke vm
  | Post_thread_end => post_thread_end phase_value rt invoke vm
  | Post_vthread_start => post_vthread_start phase_value rt invoke vm
  | Post_vthread_end => post_vthread_end phase_value rt invoke vm
  | Post_vthread_mount => post_vthread_mount phase_value rt invoke vm
  | Post_vthread_unmount => post_vthread_unmount phase_value rt invoke vm
  | Post_raw_breakpoint m l => post_raw_breakpoint rt invoke m l vm
  | Post_single_step m l => post_single_step rt invoke m l vm
  | Post_exception_throw m l e => post_exception_throw rt invoke m l e vm
  | Post_field_access m l f => post_field_access rt invoke m l f vm
  | Post_field_modification m l f => post_field_modification rt invoke m l f vm
  | Post_monitor_contended_enter o => post_monitor_contended_enter rt invoke o vm
  | Post_monitor_contended_entered o => post_monitor_contended_entered rt invoke o vm
  | Post_monitor_wait o => post_monitor_wait rt invoke o vm
  | Post_monitor_waited o => post_monitor_waited rt invoke o vm
  | Post_native_method_bind m => post_native_method_bind rt invoke m vm
  | Post_dynamic_code_generated n b e => post_dynamic_code_generated rt invoke n b e vm
  | Post_vm_object_alloc o => post_vm_object_alloc rt invoke o vm
  | Post_sampled_object_alloc o => post_sampled_object_alloc rt invoke o vm
  end.
End Entry.

(** ** What a callback can do to the collectors *)

(** The runtime operations of this file that agent code reaches while a
    callback runs (through JNI and JVMTI functions that allocate): an
    internal allocation reported to the collector in the thread's slot, a
    collector scope around further operations, a scope in which the
    VM-allocation collector is switched off.  A collector scope carries the
    agent for the callbacks delivered when that collector hands out its
    records at scope exit. *)
Inductive action :=
  | do_record_vm_internal_object_allocation (obj : object)
  | do_record_sampled_internal_object_allocation (obj : object)
  | in_JvmtiVMObjectAllocEventCollector (body : list action)
      (agent : JvmtiEnv.t -> jvmtiEvent -> callback_args -> list action)
  | in_JvmtiSampledObjectAllocEventCollector (body : list action)
      (agent : JvmtiEnv.t -> jvmtiEvent -> callback_args -> list action)
  | in_NoJvmtiVMObjectAllocMark (body : list action).

(** What is seen of a run of such operations: the calls of [_post_callback]
    made by the collectors at scope exit, each with the callbacks it
    reached and, below them, what those callbacks caused. *)
Inductive event :=
  | event_posted (p : posted (E:=event)).

Definition agent_t : Type := JvmtiEnv.t -> jvmtiEvent -> callback_args -> list action.

Section Interpreter.
Variable rt : Jvmti.t.

Fixpoint run (a : action) (vm : VM.t) {struct a} : VM.t * list event :=
  let run_list :=
    fix run_list (l : list action) (vm : VM.t) {struct l} : VM.t * list event :=
      match l with
      | [] => (vm, [])
      | a :: l =>
          let '(vm, t1) := run a vm in
          let '(vm, t2) := run_list l vm in
          (vm, t1 ++ t2)
      end in
  match a with
  | do_record_vm_internal_object_allocation obj =>
      (record_vm_internal_object_allocation obj vm, [])
  | do_record_sampled_internal_object_allocation obj =>
      (record_sampled_internal_object_allocation obj vm, [])
  | in_JvmtiVMObjectAllocEventCollector body agent =>
      let '(this, vm) := new_collector is_vm_object_alloc_event vm in
      let vm := JvmtiVMObjectAllocEventCollector_ctor rt this vm in
      let '(vm, t1) := run_list body vm in
      let '(vm, ps) :=
        JvmtiVMObjectAllocEventCollector_dtor rt
          (fun env k args vm => run_list (agent env k args) vm) this vm in
      (delete_collector this vm, t1 ++ map event_posted ps)
  | in_JvmtiSampledObjectAllocEventCollector body agent =>
      let '(this, vm) := new_collector is_sampled_object_alloc_event vm in
      let vm := JvmtiSampledObjectAllocEventCollector_start rt this vm in
      let '(vm, t1) := run_list body vm in
      let '(vm, ps) :=
        JvmtiSampledObjectAllocEventCollector_dtor rt
          (fun env k args vm => run_list (agent env k args) vm) this vm in
      (delete_collector this vm, t1 ++ map event_posted ps)
  | in_NoJvmtiVMObjectAllocMark body =>
      let '(_collector, vm) := NoJvmtiVMObjectAllocMark_ctor rt vm in
      let '(vm, t1) := run_list body vm in
      (NoJvmtiVMObjectAllocMark_dtor _collector vm, t1)
  end.

(** A sequence of operations. *)
Fixpoint run_all (l : list action) (vm : VM.t) : VM.t * list event :=
  match l with
  | [] => (vm, [])
  | a :: l =>
      let '(vm, t1) := run a vm in
      let '(vm, t2) := run_all l vm in
      (vm, t1 ++ t2)
  end.

(** The agent whose callbacks perform the operations [agent] lists. *)
Definition perform (agent : agent_t)
    : JvmtiEnv.t -> jvmtiEvent -> callback_args -> VM.t -> VM.t * list event :=
  fun env k args vm => run_all (agent env k args) vm.
End Interpreter.

(** ** Induction over operations *)

(** The bodies of the scopes and what the agents of the scopes answer are
    smaller than the scope. *)
Section ActionInduction.
Variable P : action → Prop.
Hypothesis P_record_vm : ∀ obj, P (do_record_vm_internal_object_allocation obj).
Hypothesis P_record_sampled :
  ∀ obj, P (do_record_sampled_internal_object_allocation obj).
Hypothesis P_vm_scope : ∀ body agent,
  Forall P body → (∀ env k args, Forall P (agent env k args)) →
  P (in_JvmtiVMObjectAllocEventCollector body agent).
Hypothesis P_sampled_scope : ∀ body agent,
  Forall P body → (∀ env k args, Forall P (agent env k args)) →
  P (in_JvmtiSampledObjectAllocEventCollector body agent).
Hypothesis P_no_mark : ∀ body,
  Forall P body → P (in_NoJvmtiVMObjectAllocMark body).

Fixpoint action_nested_ind (a : action) : P a :=
  let all :=
    fix all (l : list action) : Forall P l :=
      match l with
      | [] => @List.Forall_nil _ P
      | a :: l => @List.Forall_cons _ P a l (action_nested_ind a) (all l)
      end in
  match a with
  | do_record_vm_internal_object_allocation obj => P_record_vm obj
  | do_record_sampled_internal_object_allocation obj => P_record_sampled obj
  | in_JvmtiVMObjectAllocEventCollector body agent =>
      P_vm_scope body agent (all body) (fun env k args => all (agent env k args))
  | in_JvmtiSampledObjectAllocEventCollector body agent =>
      P_sampled_scope body agent (all body) (fun env k args => all (agent env k args))
  | in_NoJvmtiVMObjectAllocMark body => P_no_mark body (all body)
  end.
End ActionInduction.

(** ** What the properties are stated with *)

(** *** Traces *)

(** A piece of trace that is empty or a single call of [env]. *)
Definition at_most_call_of {E} (env : JvmtiEnv.t) (t : trace (E:=E)) : Prop :=
  t = [] ∨ ∃ c, t = [c] ∧ call_env c = env.

(** The environments of the thread's records, by position. *)
Definition record_envs (vm : VM.t) : list JvmtiEnv.t :=
  map JvmtiEnvThreadState.get_env (env_thread_states vm).

(** The environments called and the events they were called for. *)
Definition delivered {E} (t : trace (E:=E)) : list (nat * jvmtiEvent) :=
  map (λ c, (JvmtiEnv.jvmti_external (call_env c), call_event c)) t.

(** How often environment [e] was called for event [ev]. *)
Definition count_delivered (e : nat) (ev : jvmtiEvent) (d : list (nat * jvmtiEvent)) : nat :=
  length (filter (λ x, x = (e, ev)) d).

(** What C3 asks of a callback that was delivered: its environment is not
    in the primordial phase, unless it is a class file load hook of an
    early environment. *)
Definition past_primordial_or_early {E} (c : call E) : Prop :=
  JvmtiEnv.phase (call_env c) ≠ JVMTI_PHASE_PRIMORDIAL
  ∨ (call_event c = JVMTI_EVENT_CLASS_FILE_LOAD_HOOK
     ∧ JvmtiEnv.early_class_hook_env (call_env c) = true).

(** The thread has no JVMTI state, or an exception is marked detected. *)
Definition detected_if_any (vm : VM.t) : Prop :=
  ∀ s, VM.jvmti_thread_state vm = Some s →
       JvmtiThreadState.is_exception_detected s = true.

(** *** Location events *)

Inductive LocationEvent := at_single_step | at_breakpoint.

#[global] Instance LocationEvent_eq_dec : EqDecision LocationEvent.
Proof. solve_decision. Defined.

Definition location_event_kind (k : LocationEvent) : jvmtiEvent :=
  match k with
  | at_single_step => JVMTI_EVENT_SINGLE_STEP
  | at_breakpoint => JVMTI_EVENT_BREAKPOINT
  end.

Definition location_posted (k : LocationEvent) (ets : JvmtiEnvThreadState.t) : bool :=
  match k with
  | at_single_step => JvmtiEnvThreadState.single_stepping_posted ets
  | at_breakpoint => JvmtiEnvThreadState.breakpoint_posted ets
  end.

Definition set_location_posted (k : LocationEvent)
    : JvmtiEnvThreadState.t → JvmtiEnvThreadState.t :=
  match k with
  | at_single_step => JvmtiEnvThreadState.set_single_stepping_posted
  | at_breakpoint => JvmtiEnvThreadState.set_breakpoint_posted
  end.

(** The record is at [method], [location]. *)
Definition at_location (method : Method) (location : Z)
    (ets : JvmtiEnvThreadState.t) : Prop :=
  JvmtiEnvThreadState._current_bci ets = location - code_base method
  ∧ JvmtiEnvThreadState._current_method_id ets = Some (jmethod_id method).

(** The thread's records, when it has a state. *)
Definition thread_records (vm : VM.t) : option (list JvmtiEnvThreadState.t) :=
  JvmtiThreadState.env_thread_states <$> VM.jvmti_thread_state vm.

Section LocationPosts.
Context {E : Type}.
Variable rt : Jvmti.t.
Variable invoke : JvmtiEnv.t → jvmtiEvent → callback_args → VM.t → VM.t * list E.

(** Posting a step or a breakpoint. *)
Definition post_location_event (k : LocationEvent) (method : Method)
    (location : Z) (vm : VM.t) : VM.t * trace (E:=E) :=
  match k with
  | at_single_step => post_single_step rt invoke method location vm
  | at_breakpoint => post_raw_breakpoint rt invoke method location vm
  end.

(** Posting again and again at one location. *)
Fixpoint post_location_events (ks : list LocationEvent) (method : Method)
    (location : Z) (vm : VM.t) : VM.t * trace (E:=E) :=
  match ks with
  | [] => (vm, [])
  | k :: ks =>
      let '(vm, t1) := post_location_event k method location vm in
      let '(vm, t2) := post_location_events ks method location vm in
      (vm, t1 ++ t2)
  end.

(** What one post does to one record, and whether it reaches the
    callback test. *)
Definition record_after_post (k : LocationEvent) (method : Method) (location : Z)
    (ets : JvmtiEnvThreadState.t) : JvmtiEnvThreadState.t :=
  let ets := JvmtiEnvThreadState.compare_and_set_current_location
               method location (location_event_kind k) ets in
  if negb (location_posted k ets)
     && JvmtiEnvThreadState.is_enabled ets (location_event_kind k)
  then set_location_posted k ets else ets.

Definition record_called (k : LocationEvent) (method : Method) (location : Z)
    (ets : JvmtiEnvThreadState.t) : bool :=
  let ets := JvmtiEnvThreadState.compare_and_set_current_location
               method location (location_event_kind k) ets in
  negb (location_posted k ets)
  && JvmtiEnvThreadState.is_enabled ets (location_event_kind k)
  && JvmtiEnv.callbacks (JvmtiEnvThreadState.get_env ets) (location_event_kind k).

(** The body of the loop in both posts. *)
Definition location_event_body (k : LocationEvent) (method : Method)
    (location : Z) (i : nat) (ets : JvmtiEnvThreadState.t) (vm : VM.t)
    : VM.t * trace (E:=E) :=
  let vm := update_ets i (JvmtiEnvThreadState.compare_and_set_current_location
                            method location (location_event_kind k)) vm in
  let ets := JvmtiEnvThreadState.compare_and_set_current_location
               method location (location_event_kind k) ets in
  if negb (location_posted k ets)
     && JvmtiEnvThreadState.is_enabled ets (location_event_kind k) then
    let env := JvmtiEnvThreadState.get_env ets in
    JvmtiEventMark.scope (fun vm =>
      let '(vm, tr) :=
        call_callback invoke env (location_event_kind k)
          (args_location (jmethod_id method) (location - code_base method)) vm in
      (update_ets i (set_location_posted k) vm, tr)) vm
  else (vm, []).
End LocationPosts.

(** A record of environment [e] that has not yet been marked posted for [k]
    at [method], [location] may still be called there once. *)
Definition pending (k : LocationEvent) (method : Method) (location : Z) (e : nat)
    (ets : JvmtiEnvThreadState.t) : nat :=
  if decide (JvmtiEnv.jvmti_external (JvmtiEnvThreadState.get_env ets) = e
             ∧ ¬ (at_location method location ets ∧ location_posted k ets = true))
  then 1%nat else 0%nat.

(** The post is not cut short by a hidden thread or a mount transition. *)
Definition location_post_runs (method : Method) (k : LocationEvent) (vm : VM.t)
    : bool :=
  negb (match k with
        | at_single_step => jvmti_mount_transition method
        | at_breakpoint => false
        end || VM.should_hide_jvmti_events vm).

(** *** Collectors *)

(** The occupant of the thread's slot for a kind of collector; a thread
    without a JVMTI state has empty slots. *)
Definition slot (k : CollectorKind) (vm : VM.t) : option nat :=
  match VM.jvmti_thread_state vm with
  | Some s =>
      match k with
      | is_vm_object_alloc_event => JvmtiThreadState.get_vm_object_alloc_event_collector s
      | is_dynamic_code_event => JvmtiThreadState.get_dynamic_code_event_collector s
      | is_sampled_object_alloc_event =>
          JvmtiThreadState.get_sampled_object_alloc_event_collector s
      end
  | None => None
  end.

(** Every occupied slot names a collector that is alive. *)
Definition slots_alive (vm : VM.t) : Prop :=
  ∀ k c, slot k vm = Some c → is_Some (VM.collectors vm !! c).

(** The fields of a collector that only its own constructor sets. *)
Definition same_shape (c c' : Collector.t) : Prop :=
  Collector.kind c' = Collector.kind c
  ∧ Collector._prev c' = Collector._prev c
  ∧ Collector._unset_jvmti_thread_state c' = Collector._unset_jvmti_thread_state c
  ∧ Collector._post_callback c' = Collector._post_callback c.

(** A collector that is switched off, or that is in no slot, is out of
    reach of [record_*_internal_object_allocation] and of
    [NoJvmtiVMObjectAllocMark]. *)
Definition shielded (c : nat) (col : Collector.t) (vm : VM.t) : Prop :=
  Collector._enable col = false ∨ ∀ k, slot k vm ≠ Some c.

(** What running callbacks and nested scopes does to the machine, seen from
    the collectors that were there before: the slots are as they were, no
    collector has come or gone, the shape of each is as it was, each is
    switched on or off as it was, and a shielded collector is untouched. *)
Record undisturbed (vm vm' : VM.t) : Prop := {
  undisturbed_slots : ∀ k, slot k vm' = slot k vm;
  undisturbed_alive : ∀ c col, VM.collectors vm !! c = Some col →
    ∃ col', VM.collectors vm' !! c = Some col' ∧ same_shape col col'
            ∧ Collector._enable col' = Collector._enable col
            ∧ (shielded c col vm → col' = col);
  undisturbed_dead : ∀ c, VM.collectors vm !! c = None → VM.collectors vm' !! c = None
}.

(** The collectors and slots are exactly as they were. *)
Definition collectors_untouched (vm vm' : VM.t) : Prop :=
  VM.collectors vm' = VM.collectors vm ∧ ∀ k, slot k vm' = slot k vm.

(** Whether [setup_jvmti_thread_state] puts a collector of kind [k] into
    the thread's slot. *)
Definition installs (k : CollectorKind) (vm : VM.t) : bool :=
  match k with
  | is_vm_object_alloc_event => negb (occupied_and_disabled (slot k vm) vm)
  | is_dynamic_code_event => true
  | is_sampled_object_alloc_event => negb (is_Some_dec (slot k vm))
  end.

(** As [undisturbed], without a word on how the collector at [this] is
    switched or on what it holds: what the flush of that collector does. *)
Record undisturbed_around (this : nat) (vm vm' : VM.t) : Prop := {
  around_slots : ∀ k, slot k vm' = slot k vm;
  around_alive : ∀ c col, VM.collectors vm !! c = Some col →
    ∃ col', VM.collectors vm' !! c = Some col' ∧ same_shape col col'
            ∧ (c ≠ this → Collector._enable col' = Collector._enable col
                          ∧ (shielded c col vm → col' = col));
  around_dead : ∀ c, VM.collectors vm !! c = None → VM.collectors vm' !! c = None
}.

(** The collector of an allocation scope as its constructor leaves it:
    [started] tells whether the constructor went past its tests. *)
Definition collector_after_start (k : CollectorKind) (started : bool) (vm : VM.t)
    : Collector.t :=
  let installed := started && installs k vm in
  Collector.Make k
    (match k with
     | is_sampled_object_alloc_event => None
     | _ => if installed then slot k vm else None
     end)
    installed None None started
    (if started then
       Some match k with
            | is_sampled_object_alloc_event => JvmtiExport_post_sampled_object_alloc
            | _ => JvmtiExport_post_vm_object_alloc
            end
     else None).

(** What C7 and C8 say of a scope of kind [k], for the constructor [ctor]
    and the destructor [dtor] of the collector of the scope, around the
    operations [body] on the machine [vm]; [started] tells whether the
    constructor goes past its tests.  The collector is installed in the
    thread's slot or not as [installs] says; the slot is as the constructor
    left it when the body is done; a collector that is not installed holds
    at the end of the body what it held at the start and posts nothing; an
    installed one leaves the collectors that are in no other slot as they
    were; and the destructor leaves every slot as it was before the
    constructor. *)
Definition scope_nests (rt : Jvmti.t) (k : CollectorKind) (started : bool)
    (ctor : nat → VM.t → VM.t) (dtor : nat → VM.t → VM.t * list (posted (E:=event)))
    (body : list action) (vm : VM.t) : Prop :=
  let this := fresh (dom (VM.collectors vm)) in
  let installed := started && installs k vm in
  let vm1 := ctor this (new_collector k vm).2 in
  let vm2 := (run_all rt body vm1).1 in
  let r3 := dtor this vm2 in
  (∀ k', slot k' vm1 = if installed && bool_decide (k' = k) then Some this else slot k' vm)
  ∧ (∀ k', slot k' vm2 = slot k' vm1)
  ∧ (installed = false → collector_at this vm2 = collector_at this vm1 ∧ r3.2 = [])
  ∧ (installed = true →
     ∀ outer col, collector_at outer vm = Some col →
                  (∀ k', k' ≠ k → slot k' vm ≠ Some outer) →
                  collector_at outer r3.1 = Some col)
  ∧ (∀ k', slot k' r3.1 = slot k' vm).

(** *** What a flush delivers *)

(** A call without what the callback caused: who was called, for which
    event, with what. *)
Definition call_signature {E} (c : call E) : JvmtiEnv.t * jvmtiEvent * callback_args :=
  (call_env c, call_event c, call_args c).

(** What the posts of the allocation events read of the thread to choose
    whom they call: whether the thread hides events and, when it has a
    JVMTI state, the records of that state.  [thread_kept vm vm'] says that
    [vm'] answers as [vm] does. *)
Definition thread_kept (vm vm' : VM.t) : Prop :=
  VM.should_hide_jvmti_events vm' = VM.should_hide_jvmti_events vm
  ∧ (is_Some (thread_records vm) → thread_records vm' = thread_records vm).

(** The event a [_post_callback] posts. *)
Definition post_callback_event (f : post_callback_fn) : jvmtiEvent :=
  match f with
  | JvmtiExport_post_vm_object_alloc => JVMTI_EVENT_VM_OBJECT_ALLOC
  | JvmtiExport_post_sampled_object_alloc => JVMTI_EVENT_SAMPLED_OBJECT_ALLOC
  end.

(** The environments whose callback the dispatch of an allocation event
    reaches on the thread [vm], in the order in which they are called: for
    VMObjectAlloc the registered environments that have the event enabled,
    for SampledObjectAlloc the environments of the thread's records that
    have the event enabled; in both cases those with a callback for the
    event, and nobody on a thread that hides events. *)
Definition object_alloc_receivers (rt : Jvmti.t) (f : post_callback_fn) (vm : VM.t)
    : list JvmtiEnv.t :=
  if VM.should_hide_jvmti_events vm then []
  else
    match f with
    | JvmtiExport_post_vm_object_alloc =>
        List.filter
          (λ env, JvmtiEnv.is_enabled env JVMTI_EVENT_VM_OBJECT_ALLOC
                  && JvmtiEnv.callbacks env JVMTI_EVENT_VM_OBJECT_ALLOC)
          (Jvmti.environments rt)
    | JvmtiExport_post_sampled_object_alloc =>
        map JvmtiEnvThreadState.get_env
          (List.filter
             (λ ets, JvmtiEnvThreadState.is_enabled ets JVMTI_EVENT_SAMPLED_OBJECT_ALLOC
                     && JvmtiEnv.callbacks (JvmtiEnvThreadState.get_env ets)
                          JVMTI_EVENT_SAMPLED_OBJECT_ALLOC)
             (env_thread_states vm))
    end.

(** The callbacks of the allocation event of [f] for the object [obj]:
    each receiver, called for that event with that object. *)
Definition object_alloc_callbacks (rt : Jvmti.t) (f : option post_callback_fn)
    (obj : object) (vm : VM.t) : list (JvmtiEnv.t * jvmtiEvent * callback_args) :=
  match f with
  | Some f =>
      map (λ env, (env, post_callback_event f, args_object_alloc obj))
        (object_alloc_receivers rt f vm)
  | None => []
  end.

(** What C8 and C10 say of one record [p] that the flush of a collector
    hands out, for a flush that starts on the machine [vm]: the record's
    object was handed to the post of the collector's kind
    ([post_vm_object_alloc] or [post_sampled_object_alloc], with that
    object and not a null one), on a thread that answers to the post as
    [vm] does; and the callbacks this reached are those of the receivers of
    the event on [vm], each called once, in order, with that object.  For
    the sampled event the second part is stated for a thread that has a
    JVMTI state, as every thread with an installed collector has. *)
Definition posted_through_dispatch {E} (rt : Jvmti.t)
    (invoke : JvmtiEnv.t → jvmtiEvent → callback_args → VM.t → VM.t * list E)
    (vm : VM.t) (p : posted (E:=E)) : Prop :=
  (∃ vm', thread_kept vm vm'
          ∧ posted_calls p
            = match posted_fn p with
              | Some JvmtiExport_post_vm_object_alloc =>
                  (post_vm_object_alloc rt invoke (Some (posted_object p)) vm').2
              | Some JvmtiExport_post_sampled_object_alloc =>
                  (post_sampled_object_alloc rt invoke (Some (posted_object p)) vm').2
              | None => []
              end)
  ∧ ((posted_fn p = Some JvmtiExport_post_sampled_object_alloc →
      is_Some (VM.jvmti_thread_state vm)) →
     map call_signature (posted_calls p)
     = object_alloc_callbacks rt (posted_fn p) (posted_object p) vm).

(** ** Concrete inputs *)

(** Runtimes: every event enabled and every capability on, in the LIVE
    phase or in a given one, with the given environments; a runtime in the
    DEAD phase; a runtime in the PRIMORDIAL phase with one environment. *)
Definition live_runtime (envs : list JvmtiEnv.t) : Jvmti.t :=
  Jvmti.Make JVMTI_PHASE_LIVE envs (fun _ => true) true true true true false false false.
Definition runtime_in (ph : jvmtiPhase) (envs : list JvmtiEnv.t) : Jvmti.t :=
  Jvmti.Make ph envs (fun _ => true) true true true true false false false.
Definition dead_runtime : Jvmti.t :=
  Jvmti.Make JVMTI_PHASE_DEAD [] (fun _ => false) false false false false false false false.

(** An environment with every event enabled and a callback for each; a
    record of the thread for it, with every event enabled and no location
    yet; a thread state with these records; a Java thread with this
    state. *)
Definition plain_env (id : nat) (retransformable : bool) (ph : jvmtiPhase) : JvmtiEnv.t :=
  JvmtiEnv.Make id retransformable false false ph (fun _ => true) (fun _ => true).
Definition record_of (env : JvmtiEnv.t) : JvmtiEnvThreadState.t :=
  JvmtiEnvThreadState.Make env (fun _ => true) None 0 false false.
Definition state_with (es : ExceptionState) (ets : list JvmtiEnvThreadState.t)
    : JvmtiThreadState.t :=
  JvmtiThreadState.Make es (fun _ => true) ets jvmti_class_load_kind_load None None None.
Definition java_thread (state : option JvmtiThreadState.t) : VM.t :=
  VM.Make state false false false false false true false false 0 ∅ [].

Definition primordial_runtime : Jvmti.t :=
  runtime_in JVMTI_PHASE_PRIMORDIAL [plain_env 1 false JVMTI_PHASE_PRIMORDIAL].
Definition one_env_runtime : Jvmti.t := live_runtime [plain_env 1 false JVMTI_PHASE_LIVE].

(** Environment 1, retransformable, registered before environment 2, which
    is not; a thread with a record for each, in that order. *)
Definition two_env_runtime : Jvmti.t :=
  live_runtime [plain_env 1 true JVMTI_PHASE_LIVE; plain_env 2 false JVMTI_PHASE_LIVE].
Definition two_record_thread : VM.t :=
  java_thread
    (Some (state_with ES_CLEARED
             [record_of (plain_env 1 true JVMTI_PHASE_LIVE);
              record_of (plain_env 2 false JVMTI_PHASE_LIVE)])).

(** The numbering of the phases in jvmti.h, a header outside the sources
    (ONLOAD = 1, PRIMORDIAL = 2, START = 6, LIVE = 4, DEAD = 8); used only
    to instantiate [phase_value] at a concrete input. *)
Definition header_phase_value (p : jvmtiPhase) : Z :=
  match p with
  | JVMTI_PHASE_ONLOAD => 1
  | JVMTI_PHASE_PRIMORDIAL => 2
  | JVMTI_PHASE_START => 6
  | JVMTI_PHASE_LIVE => 4
  | JVMTI_PHASE_DEAD => 8
  end.

(** An agent whose callbacks do nothing, seen through traces of [unit]; a
    marked block that clears the exception state of the thread. *)
Definition silent_agent : JvmtiEnv.t → jvmtiEvent → callback_args → VM.t → VM.t * list unit :=
  fun _ _ _ vm => (vm, []).
Definition clobbering_body (vm : VM.t) : VM.t * unit :=
  (VM.update_state JvmtiThreadState.clear_exception_state vm, tt).

(** For the collectors: an agent that does nothing, an agent whose callbacks
    allocate, and a thread whose VM allocation slot holds the enabled
    collector at address 0, with the given buffer. *)
Definition quiet : agent_t := fun _ _ _ => [].
Definition allocating (obj : object) : agent_t :=
  fun _ _ _ => [do_record_vm_internal_object_allocation obj].
Definition vm_collector_holding (l : option (list object)) : Collector.t :=
  Collector.Make is_vm_object_alloc_event None true None l true
    (Some JvmtiExport_post_vm_object_alloc).
Definition thread_collecting (l : option (list object)) : VM.t :=
  VM.set_collectors {[0%nat := vm_collector_holding l]}
    (java_thread
       (Some (JvmtiThreadState.set_vm_object_alloc_event_collector (Some 0%nat)
                (state_with ES_CLEARED [])))).

(** ** Scopes of the dynamic code collector *)

Section DynamicCodeScopes.
Context {E : Type}.
Variable rt : Jvmti.t.
Variable invoke : JvmtiEnv.t → jvmtiEvent → callback_args → VM.t → VM.t * list E.

(** Stubs generated one after the other while locks are held: a call of
    [post_dynamic_code_generated_while_holding_locks] for each. *)
Definition register_stubs (stubs : list JvmtiCodeBlobDesc) (vm : VM.t) : VM.t :=
  foldl (fun vm blob =>
           post_dynamic_code_generated_while_holding_locks rt (blob_name blob)
             (blob_code_begin blob) (blob_code_end blob) vm) vm stubs.

(** [post_dynamic_code_generated] for each of [blobs], in order. *)
Definition post_blobs (blobs : list JvmtiCodeBlobDesc) : VM.t → VM.t * trace (E:=E) :=
  for_each (fun blob =>
              post_dynamic_code_generated rt invoke (blob_name blob)
                (blob_code_begin blob) (blob_code_end blob)) blobs.

(** A block [{ JvmtiDynamicCodeEventCollector event_collector; body }]:
    the collector is a stack object of the block. *)
Definition in_JvmtiDynamicCodeEventCollector (body : VM.t → VM.t * trace (E:=E))
    (vm : VM.t) : VM.t * trace (E:=E) :=
  let '(this, vm) := new_collector is_dynamic_code_event vm in
  let vm := JvmtiDynamicCodeEventCollector_ctor rt this vm in
  let '(vm, t1) := body vm in
  let '(vm, t2) := JvmtiDynamicCodeEventCollector_dtor rt invoke this vm in
  (delete_collector this vm, t1 ++ t2).
End DynamicCodeScopes.

(** The deferred record of a stub. *)
Definition deferred_of (blob : JvmtiCodeBlobDesc) : JvmtiDeferredEvent :=
  dynamic_code_generated_event (blob_name blob) (blob_code_begin blob)
    (blob_code_end blob).

(** What a piece of a block does, seen from the dynamic code collector at
    [this]: it registers the stubs [B] with the collector, hands the
    records [D] to the service thread, and leaves the slots and the other
    collectors as they were. *)
Definition registers_and_defers (this : nat) (B : list JvmtiCodeBlobDesc)
    (D : list JvmtiDeferredEvent) (vm1 vm2 : VM.t) : Prop :=
  (∀ k, slot k vm2 = slot k vm1)
  ∧ (∀ c, c ≠ this → collector_at c vm2 = collector_at c vm1)
  ∧ VM.deferred_events vm2 = VM.deferred_events vm1 ++ D
  ∧ ∀ col, collector_at this vm1 = Some col →
           ∃ col', collector_at this vm2 = Some col'
                   ∧ same_shape col col'
                   ∧ default [] (Collector._code_blobs col')
                     = default [] (Collector._code_blobs col) ++ B.

(** Stubs for the concrete inputs. *)
Definition stub_a : JvmtiCodeBlobDesc := Build_JvmtiCodeBlobDesc "stub_a" 100 120.
Definition stub_b : JvmtiCodeBlobDesc := Build_JvmtiCodeBlobDesc "stub_b" 200 208.
Definition stub_c : JvmtiCodeBlobDesc := Build_JvmtiCodeBlobDesc "stub_c" 300 301.
Definition two_stubs : list JvmtiCodeBlobDesc := [stub_a; stub_b].

(** ** The class file load hook: the class bytes *)

(** Class bytes in memory: the address of the first byte and the bytes up
    to the end ([data_ptr] and [end_ptr], or [_curr_data] and
    [_curr_len]). *)
Record class_data := {
  data_addr : nat;
  data_bytes : list Z
}.

Module JvmtiClassFileLoadHookPoster.
(** What the poster does to the agents and to memory, in order: a
    ClassFileLoadHook callback called with the bytes [seen] that leaves
    [new_data] (null or not) in [*new_class_data]; the copy of the bytes for
    [*_cached_class_file_ptr]; [env->Deallocate(mem)]; the copy of the bytes
    into a new resource array. *)
Inductive effect :=
  | callback_called (env : JvmtiEnv.t) (seen : class_data) (new_data : option class_data)
  | cache_written (bytes : list Z)
  | Deallocate (env : option JvmtiEnv.t) (mem : nat)
  | resource_array_filled (bytes : list Z).

(** The fields of the poster that carry class bytes, with what the
    pointers [_data_ptr], [_end_ptr] and [_cached_class_file_ptr] point
    to. *)
Record t := Make {
  _data_ptr : class_data;
  _curr_data : class_data;
  _curr_env : option JvmtiEnv.t;
  _cached_class_file : option (list Z);
  _load_kind : JvmtiClassLoadKind;
  _has_been_modified : bool
}.

(** The poster, the thread, and what has happened so far. *)
Definition state : Type := t * VM.t * list effect.

Section Poster.
Variable rt : Jvmti.t.
(** [hook env seen vm] is what the ClassFileLoadHook callback of [env] does
    when it is given the bytes [seen]: the machine it leaves and what it
    stores in [*new_class_data] and [*new_class_data_len]. *)
Variable hook : JvmtiEnv.t → class_data → VM.t → VM.t * option class_data.
Variable clear_class_being_redefined : JvmtiThreadState.t → JvmtiThreadState.t.
(** The address [NEW_RESOURCE_ARRAY] answers in [copy_modified_data]. *)
Variable new_resource_array : nat.

(** The constructor.  The read edges added to the module of a class being
    redefined are not modelled. *)
Definition ctor (data : class_data) (cache : option (list Z)) (vm : VM.t) : t * VM.t :=
  let '(kind, vm) :=
    JvmtiClassFileLoadHookPoster_load_kind rt clear_class_being_redefined vm in
  (Make data data None cache kind false, vm).

(** [post_to_env].  A failed [os::malloc] for the cached copy stops the VM
    and is not modelled. *)
Definition post_to_env (env : JvmtiEnv.t) (caching_needed : bool) (st : state) : state :=
  let '(self, vm, log) := st in
  if bool_decide (JvmtiEnv.phase env = JVMTI_PHASE_PRIMORDIAL)
     && negb (JvmtiEnv.early_class_hook_env env)
  then st
  else
    let '(vm, (new_data, called)) :=
      JvmtiEventMark.scope (fun vm =>
        if JvmtiEnv.callbacks env JVMTI_EVENT_CLASS_FILE_LOAD_HOOK then
          let '(vm, new_data) := hook env (_curr_data self) vm in
          (vm, (new_data, [callback_called env (_curr_data self) new_data]))
        else (vm, (None, []))) vm in
    match new_data with
    | Some new_data =>
        let cached :=
          if caching_needed && negb (is_Some_dec (_cached_class_file self))
          then Some (data_bytes (_curr_data self))
          else None in
        let freed :=
          if negb (bool_decide (data_addr (_curr_data self) = data_addr (_data_ptr self)))
          then [Deallocate (_curr_env self) (data_addr (_curr_data self))]
          else [] in
        (Make (_data_ptr self) new_data (Some env)
           (match cached with
            | Some bytes => Some bytes
            | None => _cached_class_file self
            end)
           (_load_kind self) true,
         vm,
         log ++ called
             ++ match cached with Some bytes => [cache_written bytes] | None => [] end
             ++ freed)
    | None => (self, vm, log ++ called)
    end.

(** [JvmtiEnvIterator it; for (...)] around a body that works on the
    poster. *)
Definition for_each_env (body : JvmtiEnv.t → state → state) (st : state) : state :=
  foldl (fun st env => body env st) st (Jvmti.environments rt).

(** [post_all_envs] *)
Definition post_all_envs (st : state) : state :=
  let st :=
    if negb (bool_decide (_load_kind st.1.1 = jvmti_class_load_kind_retransform)) then
      for_each_env (fun env st =>
        if negb (JvmtiEnv.is_retransformable env)
           && JvmtiEnv.is_enabled env JVMTI_EVENT_CLASS_FILE_LOAD_HOOK
        then post_to_env env false st
        else st) st
    else st in
  for_each_env (fun env st =>
    if JvmtiEnv.is_retransformable env
       && JvmtiEnv.is_enabled env JVMTI_EVENT_CLASS_FILE_LOAD_HOOK
    then post_to_env env true st
    else st) st.

(** [copy_modified_data] *)
Definition copy_modified_data (st : state) : state :=
  let '(self, vm, log) := st in
  if negb (bool_decide (data_addr (_curr_data self) = data_addr (_data_ptr self))) then
    (Make (Build_class_data new_resource_array (data_bytes (_curr_data self)))
       (_curr_data self) (_curr_env self) (_cached_class_file self)
       (_load_kind self) (_has_been_modified self),
     vm,
     log ++ [resource_array_filled (data_bytes (_curr_data self));
             Deallocate (_curr_env self) (data_addr (_curr_data self))])
  else st.

(** [post] *)
Definition post (st : state) : state := copy_modified_data (post_all_envs st).
End Poster.
End JvmtiClassFileLoadHookPoster.

(** What [JvmtiExport::post_class_file_load_hook] leaves: its result, the
    class bytes in [*data_ptr] to [*end_ptr], the copy in [*cache_ptr], the
    thread, and what was done on the way. *)
Record class_file_load_hook_result := {
  hook_modified : bool;
  hook_data : class_data;
  hook_cache : option (list Z);
  hook_thread : VM.t;
  hook_log : list JvmtiClassFileLoadHookPoster.effect
}.

Section ClassFileLoadHookData.
Variable phase_value : jvmtiPhase → Z.
Variable rt : Jvmti.t.
Variable hook : JvmtiEnv.t → class_data → VM.t → VM.t * option class_data.
Variable clear_class_being_redefined : JvmtiThreadState.t → JvmtiThreadState.t.
Variable new_resource_array : nat.

(** [JvmtiExport::post_class_file_load_hook], with the class bytes. *)
Definition post_class_file_load_hook_data (data : class_data)
    (cache : option (list Z)) (vm : VM.t) : class_file_load_hook_result :=
  if phase_value (Jvmti.get_phase rt) <? phase_value JVMTI_PHASE_PRIMORDIAL
  then Build_class_file_load_hook_result false data cache vm []
  else if VM.should_hide_jvmti_events vm
  then Build_class_file_load_hook_result false data cache vm []
  else
    let '(poster, vm) :=
      JvmtiClassFileLoadHookPoster.ctor rt clear_class_being_redefined data cache vm in
    let '(poster, vm, log) :=
      JvmtiClassFileLoadHookPoster.post rt hook new_resource_array (poster, vm, []) in
    Build_class_file_load_hook_result
      (JvmtiClassFileLoadHookPoster._has_been_modified poster)
      (JvmtiClassFileLoadHookPoster._data_ptr poster)
      (JvmtiClassFileLoadHookPoster._cached_class_file poster)
      vm log.
End ClassFileLoadHookData.

(** *** Reading the log *)

(** The callbacks called, with the bytes each was given and what it left. *)
Definition hook_calls (log : list JvmtiClassFileLoadHookPoster.effect)
    : list (JvmtiEnv.t * class_data * option class_data) :=
  omap (fun e => match e with
                 | JvmtiClassFileLoadHookPoster.callback_called env seen new_data =>
                     Some (env, seen, new_data)
                 | _ => None
                 end) log.

(** The calls that left new class bytes: the environment and the bytes. *)
Definition modifications (calls : list (JvmtiEnv.t * class_data * option class_data))
    : list (JvmtiEnv.t * class_data) :=
  omap (fun c => match c with (env, _, new_data) => pair env <$> new_data end) calls.

(** The class bytes after the calls: those of the last modification, or
    the original ones. *)
Definition current_data (data : class_data)
    (calls : list (JvmtiEnv.t * class_data * option class_data)) : class_data :=
  default data (snd <$> last (modifications calls)).

(** Every call was given the class bytes as the calls before it left
    them. *)
Fixpoint chained (data : class_data)
    (calls : list (JvmtiEnv.t * class_data * option class_data)) : Prop :=
  match calls with
  | [] => True
  | (_, seen, new_data) :: calls => seen = data ∧ chained (default data new_data) calls
  end.

(** The memory given back, in order, with the environment asked to do
    it. *)
Definition deallocations (log : list JvmtiClassFileLoadHookPoster.effect)
    : list (option JvmtiEnv.t * nat) :=
  omap (fun e => match e with
                 | JvmtiClassFileLoadHookPoster.Deallocate env mem => Some (env, mem)
                 | _ => None
                 end) log.

(** The copies made for the cache, and for the caller. *)
Definition cache_writes (log : list JvmtiClassFileLoadHookPoster.effect) : list (list Z) :=
  omap (fun e => match e with
                 | JvmtiClassFileLoadHookPoster.cache_written bytes => Some bytes
                 | _ => None
                 end) log.
Definition resource_copies (log : list JvmtiClassFileLoadHookPoster.effect)
    : list (list Z) :=
  omap (fun e => match e with
                 | JvmtiClassFileLoadHookPoster.resource_array_filled bytes => Some bytes
                 | _ => None
                 end) log.

(** The bytes a retransformable environment was given when it was the first
    of those to leave new bytes. *)
Definition first_retransformed (calls : list (JvmtiEnv.t * class_data * option class_data))
    : option (list Z) :=
  head (omap (fun c => match c with
                       | (env, seen, Some _) =>
                           if JvmtiEnv.is_retransformable env
                           then Some (data_bytes seen) else None
                       | _ => None
                       end) calls).

(** The memory of the modifications that has to be given back: every
    buffer an agent left, unless it sits at the address of the caller's
    bytes; by the environment that left it. *)
Definition to_deallocate (data : class_data) (mods : list (JvmtiEnv.t * class_data))
    : list (option JvmtiEnv.t * nat) :=
  map (fun m => (Some m.1, data_addr m.2))
    (filter (fun m => data_addr m.2 ≠ data_addr data) mods).

(** What holds of the poster between two calls of [post_to_env], for the
    caller's bytes [data] and the caller's cache [cache]. *)
Definition poster_invariant (data : class_data) (cache : option (list Z))
    (st : JvmtiClassFileLoadHookPoster.state) : Prop :=
  let self := st.1.1 in
  let log := st.2 in
  let calls := hook_calls log in
  let curr := JvmtiClassFileLoadHookPoster._curr_data self in
  JvmtiClassFileLoadHookPoster._data_ptr self = data
  ∧ curr = current_data data calls
  ∧ JvmtiClassFileLoadHookPoster._has_been_modified self
    = is_Some_dec (last (modifications calls))
  ∧ chained data calls
  ∧ deallocations log
    ++ (if negb (bool_decide (data_addr curr = data_addr data))
        then [(JvmtiClassFileLoadHookPoster._curr_env self, data_addr curr)]
        else [])
    = to_deallocate data (modifications calls)
  ∧ JvmtiClassFileLoadHookPoster._cached_class_file self
    = match cache with
      | Some c => Some c
      | None => first_retransformed calls
      end
  ∧ cache_writes log
    = match cache with
      | Some _ => []
      | None => option_list (first_retransformed calls)
      end
  ∧ resource_copies log = [].

(** ** Thread references *)

Inductive jvmtiError :=
  | JVMTI_ERROR_NONE
  | JVMTI_ERROR_INVALID_THREAD
  | JVMTI_ERROR_THREAD_NOT_ALIVE.

Section ExternalThreads.
(** Object pointers, [JavaThread]s, JNI references and [ThreadsList]s, with
    the functions on them that [cv_external_thread_to_JavaThread] calls;
    these are defined outside the sources and taken as they come:
    [JNIHandles::resolve_external_guard] (null is [None]),
    [oop->is_a(vmClasses::Thread_klass())], [java_lang_Thread::thread]
    (null is [None]), [java_lang_VirtualThread::is_instance] and
    [ThreadsList::includes]. *)
Variables oop JavaThread jthread ThreadsList : Type.
Variable resolve_external_guard : jthread → option oop.
Variable is_a_Thread : oop → bool.
Variable java_lang_Thread_thread : oop → option JavaThread.
Variable java_lang_VirtualThread_is_instance : oop → bool.
Variable includes : ThreadsList → JavaThread → bool.

(** [JvmtiExport::cv_external_thread_to_JavaThread].  [jt_pp] is what
    [*jt_pp] holds when the function is called; [thread_oop_p] is [None]
    for a null pointer, and otherwise what [*thread_oop_p] holds (null or
    not).  The result is the error code with [*jt_pp] and [thread_oop_p]
    as the function leaves them. *)
Definition cv_external_thread_to_JavaThread (t_list : ThreadsList) (thread : jthread)
    (jt_pp : option JavaThread) (thread_oop_p : option (option oop))
    : jvmtiError * option JavaThread * option (option oop) :=
  let thread_oop_p := (fun _ => None) <$> thread_oop_p in
  match resolve_external_guard thread with
  | None => (JVMTI_ERROR_INVALID_THREAD, jt_pp, thread_oop_p)
  | Some thread_oop =>
      if negb (is_a_Thread thread_oop)
      then (JVMTI_ERROR_INVALID_THREAD, jt_pp, thread_oop_p)
      else
        let thread_oop_p := (fun _ => Some thread_oop) <$> thread_oop_p in
        match java_lang_Thread_thread thread_oop with
        | None =>
            if java_lang_VirtualThread_is_instance thread_oop
            then (JVMTI_ERROR_INVALID_THREAD, jt_pp, thread_oop_p)
            else (JVMTI_ERROR_THREAD_NOT_ALIVE, jt_pp, thread_oop_p)
        | Some java_thread =>
            if negb (includes t_list java_thread)
            then (JVMTI_ERROR_THREAD_NOT_ALIVE, jt_pp, thread_oop_p)
            else (JVMTI_ERROR_NONE, Some java_thread, thread_oop_p)
        end
  end.
End ExternalThreads.

(** ** What a post delivers *)

(** The events whose callbacks a post calls.  A bound virtual thread that
    starts or ends is reported as a virtual thread; a class unload is
    delivered by [post_class_unload_internal] only. *)
Definition events_of (p : PostEntry) : list jvmtiEvent :=
  match p with
  | Post_class_file_load_hook _ => [JVMTI_EVENT_CLASS_FILE_LOAD_HOOK]
  | Post_compiled_method_unload _ _ => [JVMTI_EVENT_COMPILED_METHOD_UNLOAD]
  | Post_compiled_method_load _ _ => [JVMTI_EVENT_COMPILED_METHOD_LOAD]
  | Post_class_load _ => [JVMTI_EVENT_CLASS_LOAD]
  | Post_class_prepare _ => [JVMTI_EVENT_CLASS_PREPARE]
  | Post_class_unload _ => []
  | Post_class_unload_internal _ => [EXT_EVENT_CLASS_UNLOAD]
  | Post_thread_start => [JVMTI_EVENT_THREAD_START; JVMTI_EVENT_VIRTUAL_THREAD_START]
  | Post_thread_end => [JVMTI_EVENT_THREAD_END; JVMTI_EVENT_VIRTUAL_THREAD_END]
  | Post_vthread_start => [JVMTI_EVENT_VIRTUAL_THREAD_START]
  | Post_vthread_end => [JVMTI_EVENT_VIRTUAL_THREAD_END]
  | Post_vthread_mount => [EXT_EVENT_VIRTUAL_THREAD_MOUNT]
  | Post_vthread_unmount => [EXT_EVENT_VIRTUAL_THREAD_UNMOUNT]
  | Post_raw_breakpoint _ _ => [JVMTI_EVENT_BREAKPOINT]
  | Post_single_step _ _ => [JVMTI_EVENT_SINGLE_STEP]
  | Post_exception_throw _ _ _ => [JVMTI_EVENT_EXCEPTION]
  | Post_field_access _ _ _ => [JVMTI_EVENT_FIELD_ACCESS]
  | Post_field_modification _ _ _ => [JVMTI_EVENT_FIELD_MODIFICATION]
  | Post_monitor_contended_enter _ => [JVMTI_EVENT_MONITOR_CONTENDED_ENTER]
  | Post_monitor_contended_entered _ => [JVMTI_EVENT_MONITOR_CONTENDED_ENTERED]
  | Post_monitor_wait _ => [JVMTI_EVENT_MONITOR_WAIT]
  | Post_monitor_waited _ => [JVMTI_EVENT_MONITOR_WAITED]
  | Post_native_method_bind _ => [JVMTI_EVENT_NATIVE_METHOD_BIND]
  | Post_dynamic_code_generated _ _ _ => [JVMTI_EVENT_DYNAMIC_CODE_GENERATED]
  | Post_vm_object_alloc _ => [JVMTI_EVENT_VM_OBJECT_ALLOC]
  | Post_sampled_object_alloc _ => [JVMTI_EVENT_SAMPLED_OBJECT_ALLOC]
  end.

(** The posts that return at once when
    [thread->should_hide_jvmti_events()]. *)
Definition looks_at_should_hide (p : PostEntry) : bool :=
  match p with
  | Post_class_file_load_hook _ | Post_class_load _ | Post_class_prepare _
  | Post_raw_breakpoint _ _ | Post_single_step _ _ | Post_exception_throw _ _ _
  | Post_field_access _ _ _ | Post_field_modification _ _ _
  | Post_monitor_contended_enter _ | Post_monitor_contended_entered _
  | Post_monitor_wait _ | Post_monitor_waited _
  | Post_native_method_bind _
  | Post_vm_object_alloc _ | Post_sampled_object_alloc _ => true
  | _ => false
  end.

(** A call that the post [p] may make: for one of its events, through an
    entry of the callback table that is not null, and - for the posts that
    walk the environments - of a registered environment that has the event
    enabled. *)
Definition delivered_by {E} (rt : Jvmti.t) (p : PostEntry) (c : call E) : Prop :=
  call_event c ∈ events_of p
  ∧ JvmtiEnv.callbacks (call_env c) (call_event c) = true
  ∧ (walks_thread_records p = false →
     call_env c ∈ Jvmti.environments rt
     ∧ JvmtiEnv.is_enabled (call_env c) (call_event c) = true).

(** ** The exception state across a post *)

(** What the thread's exception state says; a thread without a JVMTI state
    has no exception in flight (the value [JvmtiEventMark] saves for
    it). *)
Definition exception_state_of (vm : VM.t) : ExceptionState :=
  match VM.jvmti_thread_state vm with
  | Some state => JvmtiThreadState.get_exception_state state
  | None => ES_CLEARED
  end.

(** An agent whose callbacks all clear the exception state of the thread. *)
Definition clobbering_agent
    : JvmtiEnv.t → jvmtiEvent → callback_args → VM.t → VM.t * list unit :=
  fun _ _ _ vm => (VM.update_state JvmtiThreadState.clear_exception_state vm, []).

(** ** Catching an exception *)

Section ExceptionCatch.
Context {E : Type}.
Variable rt : Jvmti.t.
Variable invoke : JvmtiEnv.t → jvmtiEvent → callback_args → VM.t → VM.t * list E.
(** [JvmtiThreadState::is_interp_only_mode] is defined outside the sources;
    [post_method_exit_inner] rests on the frame pops kept by
    [JvmtiEnvThreadState], outside the sources as well.  Both are taken as
    they come. *)
Variable is_interp_only_mode : JvmtiThreadState.t → bool.
Variable post_method_exit_inner : Method → VM.t → VM.t * trace (E:=E).

(** [JvmtiExport::notice_unwind_due_to_exception].  As in
    [post_exception_throw], the cached stack depth is not modelled. *)
Definition notice_unwind_due_to_exception (method : Method) (location : Z)
    (exception : option object) (in_handler_frame : bool) (vm : VM.t)
    : VM.t * trace (E:=E) :=
  with_thread_state rt vm (fun state vm =>
    if JvmtiThreadState.is_exception_detected state then
      if negb in_handler_frame then
        if is_interp_only_mode state then post_method_exit_inner method vm
        else (vm, [])
      else
        let vm := VM.update_state JvmtiThreadState.set_exception_caught vm in
        if jvmti_mount_transition method || VM.should_hide_jvmti_events vm
        then (vm, [])
        else
          JvmtiEnvThreadStateIterator (fun i ets vm =>
            if JvmtiEnvThreadState.is_enabled ets JVMTI_EVENT_EXCEPTION_CATCH then
              match exception with
              | Some exc =>
                  callback_scope invoke (JvmtiEnvThreadState.get_env ets)
                    JVMTI_EVENT_EXCEPTION_CATCH
                    (args_exception (jmethod_id method)
                       (location - code_base method) exc) vm
              | None => (vm, [])
              end
            else (vm, [])) vm
    else (vm, [])).
End ExceptionCatch.

(** [JvmtiExport::clear_detected_exception] *)
Definition clear_detected_exception (vm : VM.t) : VM.t :=
  VM.update_state JvmtiThreadState.clear_exception_state vm.

(** ** A post without a mark *)

Section DataDump.
Context {E : Type}.
Variable rt : Jvmti.t.
Variable invoke : JvmtiEnv.t → jvmtiEvent → callback_args → VM.t → VM.t * list E.

(** [JvmtiExport::post_data_dump]: the callback is called with the
    environment alone and, unlike in the posts above, with no
    [JvmtiEventMark] around the call. *)
Definition post_data_dump (vm : VM.t) : VM.t * trace (E:=E) :=
  JvmtiEnvIterator rt (fun env vm =>
    if JvmtiEnv.is_enabled env JVMTI_EVENT_DATA_DUMP_REQUEST then
      call_callback invoke env JVMTI_EVENT_DATA_DUMP_REQUEST args_none vm
    else (vm, [])) vm.
End DataDump.

(** ** Leaving a method *)

Section MethodExit.
Context {E : Type}.
Variable rt : Jvmti.t.
Variable invoke : JvmtiEnv.t → jvmtiEvent → callback_args → VM.t → VM.t * list E.
(** The frame pops requested for a record ([has_frame_pops],
    [is_frame_pop], [clear_frame_pop]) and the depth of the thread's stack
    ([cur_stack_depth], [decr_cur_stack_depth]) are kept by code outside
    the sources; what these answer and do is taken as it comes. *)
Variable has_frame_pops : JvmtiEnvThreadState.t → bool.
Variable is_frame_pop : JvmtiEnvThreadState.t → Z → bool.
Variable clear_frame_pop : Z → JvmtiEnvThreadState.t → JvmtiEnvThreadState.t.
Variable cur_stack_depth : JvmtiThreadState.t → Z.
Variable decr_cur_stack_depth : JvmtiThreadState.t → JvmtiThreadState.t.

(** [state->cur_stack_depth()], read from the state the thread has now. *)
Definition state_cur_stack_depth (vm : VM.t) : Z :=
  match VM.jvmti_thread_state vm with
  | Some state => cur_stack_depth state
  | None => 0
  end.

(** [JvmtiExport::post_method_exit_inner], called with the state of the
    current thread, which its callers have found not to be null.  Two walks
    over the records of the thread: the MethodExit callbacks, then the
    FramePop callbacks with the removal of the frame's entry.  Of the
    arguments of the callbacks the method is kept. *)
Definition post_method_exit_inner (mh : Method) (vm : VM.t) : VM.t * trace (E:=E) :=
  match VM.jvmti_thread_state vm with
  | None => (vm, [])
  | Some state =>
      if jvmti_mount_transition mh || VM.should_hide_jvmti_events vm then (vm, [])
      else
        let '(vm, t1) :=
          if JvmtiThreadState.is_enabled state JVMTI_EVENT_METHOD_EXIT then
            JvmtiEnvThreadStateIterator (fun i ets vm =>
              if JvmtiEnvThreadState.is_enabled ets JVMTI_EVENT_METHOD_EXIT then
                callback_scope invoke (JvmtiEnvThreadState.get_env ets)
                  JVMTI_EVENT_METHOD_EXIT (args_method (jmethod_id mh)) vm
              else (vm, [])) vm
          else (vm, []) in
        let '(vm, t2) :=
          JvmtiEnvThreadStateIterator (fun i ets vm =>
            if has_frame_pops ets then
              let cur_frame_number := state_cur_stack_depth vm in
              if is_frame_pop ets cur_frame_number then
                let '(vm, tr) :=
                  if JvmtiEnvThreadState.is_enabled ets JVMTI_EVENT_FRAME_POP then
                    callback_scope invoke (JvmtiEnvThreadState.get_env ets)
                      JVMTI_EVENT_FRAME_POP (args_method (jmethod_id mh)) vm
                  else (vm, []) in
                let vm :=
                  match ets_at i vm with
                  | Some ets =>
                      if is_frame_pop ets cur_frame_number
                      then update_ets i (clear_frame_pop cur_frame_number) vm
                      else vm
                  | None => vm
                  end in
                (vm, tr)
              else (vm, [])
            else (vm, [])) vm in
        (VM.update_state decr_cur_stack_depth vm, t1 ++ t2)
  end.
End MethodExit.

(** * Properties *)

(** ** Registration *)

(** Values of the JVMTI header for the version word: major in bits 16-27,
    minor in bits 8-15, micro in bits 0-7; the VM is a JDK 25. *)
Example bad_version_decoded :
  decode_version_values 0x0FFF0000 16 0x0000FF00 8 0x000000FF 0 0x30020000 = (2, 0, 0).
Proof. reflexivity. Qed.

(** C5, as stated, fails: in the DEAD phase a request for the unsupported
    version 2.0 returns JNI_EVERSION before the phase is looked at, and the
    caller's [*penv] (here the non-null 7) is left as it was, not set to
    null. *)
Lemma get_jvmti_interface_dead_unsupported_version :
  Jvmti.get_phase dead_runtime = JVMTI_PHASE_DEAD
  ∧ get_jvmti_interface 0x0FFF0000 16 0x0000FF00 8 0x000000FF 0 25
      dead_runtime (Some 7%nat) 0x30020000
    = (JNI_EVERSION, Some 7%nat, dead_runtime).
Proof. split; reflexivity. Qed.

(** C5 (amended): in a phase that is neither ONLOAD nor LIVE, no environment
    is created and the status is an error; for a recognized version the
    status is JNI_EDETACHED and [*penv] is set to null, for any other
    version the status is JNI_EVERSION and [*penv] is left as the caller
    had it. *)
Theorem get_jvmti_interface_wrong_phase
    (mask_major shift_major mask_minor shift_minor mask_micro shift_micro vm_major : Z)
    (rt : Jvmti.t) (penv : option nat) (version : Z) :
  Jvmti.get_phase rt ≠ JVMTI_PHASE_ONLOAD →
  Jvmti.get_phase rt ≠ JVMTI_PHASE_LIVE →
  ∃ status penv',
    get_jvmti_interface mask_major shift_major mask_minor shift_minor
      mask_micro shift_micro vm_major rt penv version = (status, penv', rt)
    ∧ status ≠ JNI_OK
    ∧ (if version_recognized mask_major shift_major mask_minor shift_minor
            mask_micro shift_micro vm_major version
       then status = JNI_EDETACHED ∧ penv' = None
       else status = JNI_EVERSION ∧ penv' = penv).
Proof.
  intros Honload Hlive. unfold get_jvmti_interface.
  destruct (version_recognized _ _ _ _ _ _ _ version); simpl.
  - destruct (decide (Jvmti.get_phase rt = JVMTI_PHASE_LIVE)) as [?|_]; [done|].
    destruct (decide (Jvmti.get_phase rt = JVMTI_PHASE_ONLOAD)) as [?|_]; [done|].
    by exists JNI_EDETACHED, None.
  - by exists JNI_EVERSION, penv.
Qed.

Lemma get_jvmti_interface_wrong_phase_witness :
  ∃ status penv',
    get_jvmti_interface 0x0FFF0000 16 0x0000FF00 8 0x000000FF 0 25
      dead_runtime (Some 7%nat) 0x30010200 = (status, penv', dead_runtime)
    ∧ status ≠ JNI_OK
    ∧ (if version_recognized 0x0FFF0000 16 0x0000FF00 8 0x000000FF 0 25 0x30010200
       then status = JNI_EDETACHED ∧ penv' = None
       else status = JNI_EVERSION ∧ penv' = Some 7%nat).
Proof.
  apply (get_jvmti_interface_wrong_phase 0x0FFF0000 16 0x0000FF00 8 0x000000FF 0 25
           dead_runtime (Some 7%nat) 0x30010200); discriminate.
Defined.

(** ** The event mark *)

Lemma update_state_is_Some f vm :
  is_Some (VM.jvmti_thread_state (VM.update_state f vm))
  ↔ is_Some (VM.jvmti_thread_state vm).
Proof.
  unfold VM.update_state. destruct (VM.jvmti_thread_state vm) eqn:Hs; simpl.
  - split; intros _; eauto.
  - by rewrite Hs.
Qed.

Lemma update_state_Some f vm s :
  VM.jvmti_thread_state vm = Some s →
  VM.jvmti_thread_state (VM.update_state f vm) = Some (f s).
Proof. intros Hs. unfold VM.update_state. by rewrite Hs. Qed.

Lemma update_state_None f vm :
  VM.jvmti_thread_state vm = None → VM.update_state f vm = vm.
Proof. intros Hs. unfold VM.update_state. by rewrite Hs. Qed.

(** The destructor writes back what the constructor saved. *)
Lemma scope_restores_saved_state
    {A : Type} (body : VM.t → VM.t * A) (thread : VM.t) (state : JvmtiThreadState.t) :
  VM.jvmti_thread_state thread = Some state →
  (is_Some (VM.jvmti_thread_state (JvmtiEventMark.scope body thread).1)
   ↔ is_Some (VM.jvmti_thread_state (body (JvmtiEventMark.ctor thread).2).1))
  ∧ ∀ state', VM.jvmti_thread_state (JvmtiEventMark.scope body thread).1 = Some state' →
      JvmtiThreadState.get_exception_state state'
      = JvmtiThreadState.get_exception_state state.
Proof.
  intros Hstate.
  unfold JvmtiEventMark.scope, JvmtiEventMark.ctor.
  rewrite Hstate. simpl.
  destruct (body (VM.push_jni_handle_block thread)) as [thread' a] eqn:Hbody. simpl.
  unfold JvmtiEventMark.dtor. simpl. split.
  - by rewrite update_state_is_Some.
  - intros state' Hafter. unfold VM.update_state in Hafter. simpl in Hafter.
    destruct (VM.jvmti_thread_state thread') as [s|] eqn:Hs; simpl in Hafter.
    + by inversion Hafter.
    + simpl in Hafter. congruence.
Qed.

(** C6: if the thread has a JVMTI state when the mark is constructed, then
    after the mark is destroyed the thread's exception state is the one it
    had at construction, whatever the marked block [body] did (so on every
    way out of the block); the mark itself never removes the thread's
    state. *)
Theorem JvmtiEventMark_restores_exception_state
    {A : Type} (body : VM.t → VM.t * A) (thread : VM.t) (state : JvmtiThreadState.t) :
  VM.jvmti_thread_state thread = Some state →
  let after_body := (body (JvmtiEventMark.ctor thread).2).1 in
  let after_mark := (JvmtiEventMark.scope body thread).1 in
  (is_Some (VM.jvmti_thread_state after_mark)
   ↔ is_Some (VM.jvmti_thread_state after_body))
  ∧ ∀ state', VM.jvmti_thread_state after_mark = Some state' →
      JvmtiThreadState.get_exception_state state'
      = JvmtiThreadState.get_exception_state state.
Proof. intros Hstate. by apply scope_restores_saved_state. Qed.

(** C6 at a concrete input: the marked block clears the exception state of
    a thread whose state said DETECTED; after the mark it says DETECTED
    again. *)
Lemma JvmtiEventMark_restores_exception_state_witness :
  VM.jvmti_thread_state (java_thread (Some (state_with ES_DETECTED [])))
  = Some (state_with ES_DETECTED [])
  ∧ JvmtiThreadState.get_exception_state
      <$> VM.jvmti_thread_state (clobbering_body (java_thread (Some (state_with ES_DETECTED [])))).1
    = Some ES_CLEARED
  ∧ JvmtiThreadState.get_exception_state
      <$> VM.jvmti_thread_state
            (JvmtiEventMark.scope clobbering_body
               (java_thread (Some (state_with ES_DETECTED [])))).1
    = Some ES_DETECTED.
Proof.
  split; [reflexivity|]. split; [reflexivity|].
  destruct (JvmtiEventMark_restores_exception_state clobbering_body
              (java_thread (Some (state_with ES_DETECTED [])))
              (state_with ES_DETECTED []) eq_refl) as [_ Hrestored].
  exact (f_equal Some (Hrestored _ eq_refl)).
Defined.

(** ** Traces of the posts *)

Section TraceLemmas.
Context {E : Type}.
Variable rt : Jvmti.t.
Variable invoke : JvmtiEnv.t → jvmtiEvent → callback_args → VM.t → VM.t * list E.

Lemma scope_trace {A} (body : VM.t → VM.t * A) vm :
  (JvmtiEventMark.scope body vm).2 = (body (JvmtiEventMark.ctor vm).2).2.
Proof.
  unfold JvmtiEventMark.scope. destruct (JvmtiEventMark.ctor vm) as [jem vm1].
  simpl. by destruct (body vm1).
Qed.

Lemma scope_machine {A} (body : VM.t → VM.t * A) vm :
  (JvmtiEventMark.scope body vm).1
  = JvmtiEventMark.dtor (JvmtiEventMark.ctor vm).1 (body (JvmtiEventMark.ctor vm).2).1.
Proof.
  unfold JvmtiEventMark.scope. destruct (JvmtiEventMark.ctor vm) as [jem vm1].
  simpl. by destruct (body vm1).
Qed.

Lemma call_callback_Forall (P : call E → Prop) env k args vm :
  (∀ nested, P (Call env k args nested)) →
  Forall P (call_callback invoke env k args vm).2.
Proof.
  intros HP. unfold call_callback. destruct (JvmtiEnv.callbacks env k); simpl; [|done].
  destruct (invoke env k args vm) as [vm' nested]. simpl. by constructor.
Qed.

Lemma callback_scope_Forall (P : call E → Prop) env k args vm :
  (∀ nested, P (Call env k args nested)) →
  Forall P (callback_scope invoke env k args vm).2.
Proof.
  intros HP. unfold callback_scope. rewrite scope_trace.
  by apply call_callback_Forall.
Qed.

Lemma scope_call_then_Forall (P : call E → Prop) env k args
    (after : VM.t → VM.t) vm :
  (∀ nested, P (Call env k args nested)) →
  Forall P (JvmtiEventMark.scope (fun vm =>
              let '(vm, tr) := call_callback invoke env k args vm in
              (after vm, tr)) vm).2.
Proof.
  intros HP. rewrite scope_trace.
  pose proof (call_callback_Forall P env k args (JvmtiEventMark.ctor vm).2 HP) as H.
  by destruct (call_callback invoke env k args (JvmtiEventMark.ctor vm).2).
Qed.

Lemma for_each_Forall {X} (P : call E → Prop)
    (body : X → VM.t → VM.t * trace (E:=E)) l vm :
  (∀ x vm, x ∈ l → Forall P (body x vm).2) →
  Forall P (for_each body l vm).2.
Proof.
  revert vm. induction l as [|x l IH]; intros vm Hbody; simpl; [done|].
  destruct (body x vm) as [vm1 t1] eqn:H1.
  destruct (for_each body l vm1) as [vm2 t2] eqn:H2. simpl.
  apply Forall_app. split.
  - specialize (Hbody x vm). rewrite H1 in Hbody. apply Hbody. by left.
  - specialize (IH vm1). rewrite H2 in IH. apply IH.
    intros y vm' Hy. apply Hbody. by right.
Qed.

Lemma env_iterator_Forall (P : call E → Prop) body vm :
  (∀ env vm, env ∈ Jvmti.environments rt → Forall P (body env vm).2) →
  Forall P (JvmtiEnvIterator rt body vm).2.
Proof. apply for_each_Forall. Qed.

Lemma ets_iterator_Forall (P : call E → Prop) body vm :
  (∀ i ets vm, Forall P (body i ets vm).2) →
  Forall P (JvmtiEnvThreadStateIterator body vm).2.
Proof.
  intros Hbody. apply for_each_Forall. intros i vm' _.
  destruct (ets_at i vm'); [apply Hbody|done].
Qed.

Lemma post_all_envs_Forall (P : call E → Prop) kind name vm :
  (∀ env caching vm,
     Forall P (post_to_env invoke name env caching vm).2) →
  Forall P (post_all_envs rt invoke kind name vm).2.
Proof.
  intros HP. unfold post_all_envs.
  set (first_pass := if negb (bool_decide (kind = jvmti_class_load_kind_retransform))
                     then _ else _).
  assert (Forall P first_pass.2) as H1.
  { subst first_pass. destruct (negb _); [|done].
    apply env_iterator_Forall. intros env vm' _.
    destruct (_ && _); [apply HP|done]. }
  destruct first_pass as [vm1 t1]. simpl in H1.
  match goal with
  | |- Forall P (let '(_, _) := ?x in _).2 =>
      assert (Forall P x.2) as H2;
        [ apply env_iterator_Forall; intros env vm' _;
          destruct (_ && _); [apply HP|done]
        | destruct x as [vm2 t2] ]
  end.
  simpl in *. by apply Forall_app.
Qed.

Lemma with_thread_state_Forall (P : call E → Prop) rest vm :
  (∀ state vm, Forall P (rest state vm).2) →
  Forall P (with_thread_state rt vm rest).2.
Proof.
  intros Hrest. unfold with_thread_state.
  destruct (VM.jvmti_thread_state (get_jvmti_thread_state rt vm)); [apply Hrest|done].
Qed.
End TraceLemmas.

Create HintDb posts.
#[global] Hint Unfold post post_class_file_load_hook post_to_env
  post_compiled_method_unload post_compiled_method_load
  post_compiled_method_load_env post_class_load post_class_prepare
  post_class_event post_class_unload post_class_unload_internal
  post_thread_start post_thread_end post_vthread_start post_vthread_end
  post_vthread_mount post_vthread_unmount post_thread_filtered
  post_raw_breakpoint post_single_step post_exception_throw post_to_thread
  post_field_access post_field_modification post_monitor_contended_enter
  post_monitor_contended_entered post_monitor_wait post_monitor_waited
  post_native_method_bind post_dynamic_code_generated
  post_dynamic_code_generated_internal post_vm_object_alloc
  post_sampled_object_alloc : posts.

(** Breaks a goal [Forall P (post ...).2] down along the shape of the post. *)
Ltac trace_forall :=
  repeat first
    [ progress simpl
    | progress autounfold with posts
    | apply Forall_nil_2
    | apply Forall_app_2
    | apply with_thread_state_Forall; intros
    | apply env_iterator_Forall; intros
    | apply ets_iterator_Forall; intros
    | apply callback_scope_Forall; intros
    | apply scope_call_then_Forall; intros
    | rewrite scope_trace
    | apply post_all_envs_Forall; intros
    | match goal with
      | |- Forall _ (if ?b then _ else _).2 => destruct b eqn:?
      | |- Forall _ (match ?o with Some _ => _ | None => _ end).2 => destruct o eqn:?
      | |- Forall _ (let '(_, _) := ?x in _).2 => destruct x eqn:?
      | |- Forall _ (returned _ (if ?b then _ else _)).2 => destruct b eqn:?
      end ].

(** ** The phase gate *)

(** C3: a post whose event has a minimum phase returns at once, calling
    nothing and changing nothing, while the phase is below it; and it never
    calls an environment that is in the primordial phase, unless the post
    is the class file load hook and the environment is flagged early. *)
Theorem post_respects_minimum_phase {E : Type}
    (phase_value : jvmtiPhase → Z) (rt : Jvmti.t)
    (invoke : JvmtiEnv.t → jvmtiEvent → callback_args → VM.t → VM.t * list E)
    (clear_class_being_redefined : JvmtiThreadState.t → JvmtiThreadState.t)
    (p : PostEntry) (ph : jvmtiPhase) (vm : VM.t) :
  minimum_phase p = Some ph →
  (phase_value (Jvmti.get_phase rt) < phase_value ph →
   post phase_value rt invoke clear_class_being_redefined p vm = (vm, []))
  ∧ Forall past_primordial_or_early
      (post phase_value rt invoke clear_class_being_redefined p vm).2.
Proof.
  intros Hmin. split.
  - intros Hbelow.
    destruct p; simpl in Hmin; simplify_eq; simpl;
      unfold post_class_file_load_hook, post_compiled_method_unload,
        post_compiled_method_load, post_class_load, post_class_prepare,
        post_class_event, post_class_unload, post_class_unload_internal,
        post_thread_start, post_thread_end, post_vthread_start, post_vthread_end,
        post_vthread_mount, post_vthread_unmount, phase_below_primordial;
      apply Z.ltb_lt in Hbelow; by rewrite Hbelow.
  - destruct p; simpl in Hmin; simplify_eq;
      trace_forall; unfold past_primordial_or_early; simpl;
      repeat match goal with
             | H : _ && _ = false |- _ => apply andb_false_iff in H; destruct H
             | H : _ || _ = false |- _ => apply orb_false_iff in H; destruct H
             | H : negb _ = false |- _ => apply negb_false_iff in H
             | H : bool_decide _ = false |- _ => apply bool_decide_eq_false in H
             end; auto.
Qed.

(** C3 at a concrete input: a thread start posted in the ONLOAD phase, which
    the header numbers below PRIMORDIAL. *)
Lemma post_respects_minimum_phase_witness :
  minimum_phase Post_thread_start = Some JVMTI_PHASE_PRIMORDIAL
  ∧ header_phase_value JVMTI_PHASE_ONLOAD < header_phase_value JVMTI_PHASE_PRIMORDIAL
  ∧ post header_phase_value
      (runtime_in JVMTI_PHASE_ONLOAD [plain_env 1 false JVMTI_PHASE_ONLOAD])
      silent_agent (λ s, s) Post_thread_start (java_thread None)
    = (java_thread None, []).
Proof.
  split; [reflexivity|]. split; [reflexivity|].
  apply (post_respects_minimum_phase header_phase_value
           (runtime_in JVMTI_PHASE_ONLOAD [plain_env 1 false JVMTI_PHASE_ONLOAD])
           silent_agent (λ s, s) Post_thread_start JVMTI_PHASE_PRIMORDIAL
           (java_thread None) eq_refl).
  reflexivity.
Defined.

(** ** Deferred delivery *)




(** ** Order of delivery *)

Section Order.
Context {E : Type}.
Variable rt : Jvmti.t.
Variable invoke : JvmtiEnv.t → jvmtiEvent → callback_args → VM.t → VM.t * list E.

Lemma at_most_call_of_sublist env (t : trace (E:=E)) :
  at_most_call_of env t → map call_env t `sublist_of` [env].
Proof.
  intros [->|(c & -> & <-)]; simpl.
  - apply sublist_nil_l.
  - done.
Qed.

Lemma call_callback_single env k args vm :
  at_most_call_of env (call_callback invoke env k args vm).2.
Proof.
  unfold call_callback. destruct (JvmtiEnv.callbacks env k); [|by left].
  destruct (invoke env k args vm) as [vm' nested]. right. by eexists.
Qed.

Lemma callback_scope_single env k args vm :
  at_most_call_of env (callback_scope invoke env k args vm).2.
Proof. unfold callback_scope. rewrite scope_trace. apply call_callback_single. Qed.

Lemma scope_call_then_single env k args (after : VM.t → VM.t) vm :
  at_most_call_of env
    (JvmtiEventMark.scope (fun vm =>
       let '(vm, tr) := call_callback invoke env k args vm in
       (after vm, tr)) vm).2.
Proof.
  rewrite scope_trace.
  pose proof (call_callback_single env k args (JvmtiEventMark.ctor vm).2) as H.
  by destruct (call_callback invoke env k args (JvmtiEventMark.ctor vm).2).
Qed.

(** A walk over the environments calls them in the order of the list. *)
Lemma for_each_env_sublist (body : JvmtiEnv.t → VM.t → VM.t * trace (E:=E)) l vm :
  (∀ env vm, at_most_call_of env (body env vm).2) →
  map call_env (for_each body l vm).2 `sublist_of` l.
Proof.
  intros Hbody. revert vm. induction l as [|env l IH]; intros vm; simpl; [done|].
  pose proof (Hbody env vm) as H1. destruct (body env vm) as [vm1 t1].
  pose proof (IH vm1) as H2. destruct (for_each body l vm1) as [vm2 t2].
  simpl in *. rewrite map_app.
  apply (sublist_app _ [env] _ l); [by apply at_most_call_of_sublist|done].
Qed.

Lemma for_each_index_sublist
    (body : nat → JvmtiEnvThreadState.t → VM.t → VM.t * trace (E:=E)) n s vm :
  (∀ i ets vm, at_most_call_of (JvmtiEnvThreadState.get_env ets) (body i ets vm).2) →
  (∀ i ets vm, ets_at i vm = Some ets →
     record_envs (body i ets vm).1 = record_envs vm) →
  map call_env
    (for_each (fun i vm => match ets_at i vm with
                           | Some ets => body i ets vm
                           | None => (vm, [])
                           end) (seq s n) vm).2
  `sublist_of` take n (drop s (record_envs vm)).
Proof.
  intros Hcall Hkeep. revert s vm.
  induction n as [|n IH]; intros s vm; simpl; [done|].
  destruct (ets_at s vm) as [ets|] eqn:Hets.
  - pose proof (Hcall s ets vm) as H1. pose proof (Hkeep s ets vm Hets) as Hk.
    destruct (body s ets vm) as [vm1 t1]. simpl in *.
    pose proof (IH (S s) vm1) as H2.
    destruct (for_each _ (seq (S s) n) vm1) as [vm2 t2]. simpl in *.
    rewrite Hk in H2. rewrite map_app.
    assert (record_envs vm !! s = Some (JvmtiEnvThreadState.get_env ets)) as Hs.
    { unfold record_envs. rewrite list_lookup_fmap. unfold ets_at in Hets.
      by rewrite Hets. }
    rewrite (drop_S _ _ _ Hs). simpl.
    apply (sublist_app _ [_] _ _); [by apply at_most_call_of_sublist|done].
  - pose proof (IH (S s) vm) as H2.
    destruct (for_each _ (seq (S s) n) vm) as [vm2 t2]. simpl in *.
    assert (drop s (record_envs vm) = []) as Hd.
    { apply drop_ge. unfold record_envs. rewrite length_map.
      by apply lookup_ge_None. }
    rewrite Hd. rewrite take_nil.
    assert (drop (S s) (record_envs vm) = []) as Hd'.
    { apply drop_ge. unfold record_envs. rewrite length_map.
      apply lookup_ge_None in Hets. lia. }
    by rewrite Hd', take_nil in H2.
Qed.

Lemma ets_iterator_sublist
    (body : nat → JvmtiEnvThreadState.t → VM.t → VM.t * trace (E:=E)) vm :
  (∀ i ets vm, at_most_call_of (JvmtiEnvThreadState.get_env ets) (body i ets vm).2) →
  (∀ i ets vm, ets_at i vm = Some ets →
     record_envs (body i ets vm).1 = record_envs vm) →
  map call_env (JvmtiEnvThreadStateIterator body vm).2 `sublist_of` record_envs vm.
Proof.
  intros Hcall Hkeep. unfold JvmtiEnvThreadStateIterator.
  etrans; [by apply for_each_index_sublist|].
  rewrite drop_0. apply sublist_take.
Qed.
End Order.

Section KeepRecords.
Context {E : Type}.
Variable rt : Jvmti.t.
Variable invoke : JvmtiEnv.t → jvmtiEvent → callback_args → VM.t → VM.t * list E.
(** The agent does not change which environments the records of the
    thread belong to. *)
Hypothesis invoke_keeps_record_envs : ∀ env k args vm,
  record_envs (invoke env k args vm).1 = record_envs vm.

Lemma get_env_compare_and_set m l k ets :
  JvmtiEnvThreadState.get_env
    (JvmtiEnvThreadState.compare_and_set_current_location m l k ets)
  = JvmtiEnvThreadState.get_env ets.
Proof.
  unfold JvmtiEnvThreadState.compare_and_set_current_location.
  by destruct (decide _).
Qed.

Lemma env_thread_states_update_state f vm :
  (∀ s, JvmtiThreadState.env_thread_states (f s) = JvmtiThreadState.env_thread_states s) →
  env_thread_states (VM.update_state f vm) = env_thread_states vm.
Proof.
  intros Hf. unfold env_thread_states, VM.update_state.
  destruct (VM.jvmti_thread_state vm) eqn:Hs; simpl; [by rewrite Hf|by rewrite Hs].
Qed.

Lemma env_thread_states_ctor vm :
  env_thread_states (JvmtiEventMark.ctor vm).2 = env_thread_states vm.
Proof. done. Qed.

Lemma env_thread_states_dtor jem vm :
  env_thread_states (JvmtiEventMark.dtor jem vm) = env_thread_states vm.
Proof.
  unfold JvmtiEventMark.dtor. by rewrite env_thread_states_update_state.
Qed.

Lemma env_thread_states_update_ets i f vm :
  env_thread_states (update_ets i f vm) = alter f i (env_thread_states vm).
Proof.
  unfold update_ets, env_thread_states, VM.update_state.
  destruct (VM.jvmti_thread_state vm) eqn:Hs; simpl; [done|by rewrite Hs].
Qed.

Lemma record_envs_update_ets i f vm :
  (∀ ets, JvmtiEnvThreadState.get_env (f ets) = JvmtiEnvThreadState.get_env ets) →
  record_envs (update_ets i f vm) = record_envs vm.
Proof.
  intros Hf. unfold record_envs. rewrite env_thread_states_update_ets.
  apply list_eq. intros j. rewrite !list_lookup_fmap.
  destruct (decide (i = j)) as [->|Hne].
  - rewrite list_lookup_alter_eq. destruct (env_thread_states vm !! j); simpl; [|done].
    by rewrite Hf.
  - by rewrite list_lookup_alter_ne.
Qed.

Lemma record_envs_call_callback env k args vm :
  record_envs (call_callback invoke env k args vm).1 = record_envs vm.
Proof.
  unfold call_callback. destruct (JvmtiEnv.callbacks env k); [|done].
  pose proof (invoke_keeps_record_envs env k args vm) as H.
  by destruct (invoke env k args vm).
Qed.

Lemma record_envs_callback_scope env k args vm :
  record_envs (callback_scope invoke env k args vm).1 = record_envs vm.
Proof.
  unfold callback_scope. rewrite scope_machine. unfold record_envs.
  rewrite env_thread_states_dtor. apply record_envs_call_callback.
Qed.

Lemma record_envs_scope_call_then env k args (after : VM.t → VM.t) vm :
  (∀ vm, record_envs (after vm) = record_envs vm) →
  record_envs (JvmtiEventMark.scope (fun vm =>
                 let '(vm, tr) := call_callback invoke env k args vm in
                 (after vm, tr)) vm).1 = record_envs vm.
Proof.
  intros Hafter. rewrite scope_machine. unfold record_envs at 1.
  rewrite env_thread_states_dtor.
  pose proof (record_envs_call_callback env k args (JvmtiEventMark.ctor vm).2) as H.
  destruct (call_callback invoke env k args (JvmtiEventMark.ctor vm).2) as [vm1 tr].
  simpl in *. fold (record_envs (after vm1)). by rewrite Hafter.
Qed.

Lemma record_envs_created vm :
  VM.jvmti_thread_state vm = None →
  record_envs (JvmtiEventController_thread_started rt vm) = Jvmti.environments rt.
Proof.
  intros Hs. unfold JvmtiEventController_thread_started, record_envs, env_thread_states.
  rewrite Hs. simpl. rewrite <- list_fmap_compose. apply list_fmap_id.
Qed.

Lemma record_envs_get_jvmti_thread_state vm :
  record_envs vm `sublist_of` Jvmti.environments rt →
  record_envs (get_jvmti_thread_state rt vm) `sublist_of` Jvmti.environments rt.
Proof.
  intros Hal. unfold get_jvmti_thread_state.
  destruct (VM.is_vthread_mounted vm); simpl; [|done].
  destruct (VM.jvmti_thread_state vm) eqn:Hs; simpl; [done|].
  by rewrite record_envs_created.
Qed.

Lemma with_thread_state_sublist rest vm :
  (∀ state vm', record_envs vm' `sublist_of` Jvmti.environments rt →
     map call_env (rest state vm').2 `sublist_of` Jvmti.environments rt) →
  record_envs vm `sublist_of` Jvmti.environments rt →
  map call_env (with_thread_state (E:=E) rt vm rest).2
  `sublist_of` Jvmti.environments rt.
Proof.
  intros Hrest Hal. unfold with_thread_state.
  pose proof (record_envs_get_jvmti_thread_state vm Hal) as Hal'.
  destruct (VM.jvmti_thread_state (get_jvmti_thread_state rt vm));
    [by apply Hrest|apply sublist_nil_l].
Qed.
End KeepRecords.

Ltac single_call :=
  repeat first
    [ progress simpl
    | rewrite !get_env_compare_and_set
    | by left
    | apply callback_scope_single
    | apply scope_call_then_single
    | match goal with
      | |- at_most_call_of _ (if ?b then _ else _).2 => destruct b eqn:?
      | |- at_most_call_of _ (match ?o with Some _ => _ | None => _ end).2 =>
          destruct o eqn:?
      end ].

Ltac keeps_records H :=
  repeat first
    [ progress simpl
    | done
    | rewrite (record_envs_callback_scope _ H)
    | rewrite (record_envs_scope_call_then _ H)
    | rewrite record_envs_update_ets
    | apply get_env_compare_and_set
    | match goal with
      | |- record_envs (if ?b then _ else _).1 = _ => destruct b eqn:?
      | |- record_envs (match ?o with Some _ => _ | None => _ end).1 = _ =>
          destruct o eqn:?
      | |- ∀ _, _ => intros
      end ].

Ltac in_order H :=
  repeat first
    [ progress simpl
    | progress autounfold with posts
    | apply sublist_nil_l
    | assumption
    | apply for_each_env_sublist; intros; single_call
    | apply with_thread_state_sublist; [intros|assumption]
    | (etrans; [apply ets_iterator_sublist;
                  [intros; single_call | intros; keeps_records H]|]);
      [idtac]
    | match goal with
      | |- record_envs (VM.update_state _ _) `sublist_of` _ =>
          unfold record_envs; rewrite env_thread_states_update_state; [|done];
          fold record_envs
      end
    | match goal with
      | |- map call_env (if ?b then _ else _).2 `sublist_of` _ => destruct b eqn:?
      | |- map call_env (returned _ (if ?b then _ else _)).2 `sublist_of` _ =>
          destruct b eqn:?
      | |- map call_env (match ?o with Some _ => _ | None => _ end).2 `sublist_of` _ =>
          destruct o eqn:?
      end ].

Section RegistrationOrder.
Context {E : Type}.
Variable phase_value : jvmtiPhase → Z.
Variable rt : Jvmti.t.
Variable invoke : JvmtiEnv.t → jvmtiEvent → callback_args → VM.t → VM.t * list E.
Variable clear_class_being_redefined : JvmtiThreadState.t → JvmtiThreadState.t.

(** One pass of the class file load hook: the environments with the given
    retransformability, in registration order. *)
Lemma class_file_load_hook_pass (retransformable : bool) name
    (wanted : JvmtiEnv.t → bool) vm :
  (∀ env, wanted env = true → JvmtiEnv.is_retransformable env = retransformable) →
  let r := JvmtiEnvIterator rt (fun env vm =>
             if wanted env
             then post_to_env invoke name env retransformable vm
             else (vm, [])) vm in
  map call_env r.2 `sublist_of` Jvmti.environments rt
  ∧ Forall (λ c, JvmtiEnv.is_retransformable (call_env c) = retransformable) r.2.
Proof.
  intros Hwanted r. subst r. split.
  - apply for_each_env_sublist. intros env vm'.
    destruct (wanted env); [|by left]. unfold post_to_env. single_call.
  - apply env_iterator_Forall. intros env vm' _.
    destruct (wanted env) eqn:Hw; [|done]. unfold post_to_env.
    destruct (_ && _); [done|].
    apply callback_scope_Forall. intros nested. simpl. by apply Hwanted.
Qed.

Lemma post_all_envs_order kind name vm :
  ∃ t1 t2,
    (post_all_envs rt invoke kind name vm).2 = t1 ++ t2
    ∧ (kind = jvmti_class_load_kind_retransform → t1 = [])
    ∧ map call_env t1 `sublist_of` Jvmti.environments rt
    ∧ Forall (λ c, JvmtiEnv.is_retransformable (call_env c) = false) t1
    ∧ map call_env t2 `sublist_of` Jvmti.environments rt
    ∧ Forall (λ c, JvmtiEnv.is_retransformable (call_env c) = true) t2.
Proof.
  unfold post_all_envs.
  set (first_pass := if negb (bool_decide (kind = jvmti_class_load_kind_retransform))
                     then _ else _).
  assert ((kind = jvmti_class_load_kind_retransform → first_pass.2 = [])
          ∧ map call_env first_pass.2 `sublist_of` Jvmti.environments rt
          ∧ Forall (λ c, JvmtiEnv.is_retransformable (call_env c) = false)
              first_pass.2) as (H0 & H1 & H2).
  { subst first_pass. destruct (bool_decide _) eqn:Hk; simpl.
    - split; [done|]. split; [apply sublist_nil_l|done].
    - apply bool_decide_eq_false in Hk. split; [done|].
      apply (class_file_load_hook_pass false name
               (λ env, negb (JvmtiEnv.is_retransformable env)
                       && JvmtiEnv.is_enabled env JVMTI_EVENT_CLASS_FILE_LOAD_HOOK)).
      intros env [Hr _]%andb_true_iff. by apply negb_true_iff in Hr. }
  destruct first_pass as [vm1 t1]. simpl in *.
  pose proof (class_file_load_hook_pass true name
                (λ env, JvmtiEnv.is_retransformable env
                        && JvmtiEnv.is_enabled env JVMTI_EVENT_CLASS_FILE_LOAD_HOOK) vm1)
    as H3.
  simpl in H3. destruct H3 as [H3 H4].
  { by intros env [Hr _]%andb_true_iff. }
  destruct (JvmtiEnvIterator rt _ vm1) as [vm2 t2]. simpl in *.
  by exists t1, t2.
Qed.

(** The posts of [PostEntry] in the order of the environments. *)
Lemma post_order (p : PostEntry) (vm : VM.t) :
  let tr := (post phase_value rt invoke clear_class_being_redefined p vm).2 in
  match p with
  | Post_class_file_load_hook _ =>
      ∃ t1 t2, tr = t1 ++ t2
        ∧ ((JvmtiClassFileLoadHookPoster_load_kind rt clear_class_being_redefined vm).1
           = jvmti_class_load_kind_retransform → t1 = [])
        ∧ map call_env t1 `sublist_of` Jvmti.environments rt
        ∧ Forall (λ c, JvmtiEnv.is_retransformable (call_env c) = false) t1
        ∧ map call_env t2 `sublist_of` Jvmti.environments rt
        ∧ Forall (λ c, JvmtiEnv.is_retransformable (call_env c) = true) t2
  | _ =>
      if walks_thread_records p then
        (∀ env k args vm, record_envs (invoke env k args vm).1 = record_envs vm) →
        record_envs vm `sublist_of` Jvmti.environments rt →
        map call_env tr `sublist_of` Jvmti.environments rt
      else map call_env tr `sublist_of` Jvmti.environments rt
  end.
Proof.
  destruct p; simpl; try (intros Hkeep Hal).
  1: { unfold post_class_file_load_hook.
       assert (∃ t1 t2 : trace (E:=E), [] = t1 ++ t2
                 ∧ ((JvmtiClassFileLoadHookPoster_load_kind rt
                       clear_class_being_redefined vm).1
                    = jvmti_class_load_kind_retransform → t1 = [])
                 ∧ map call_env t1 `sublist_of` Jvmti.environments rt
                 ∧ Forall (λ c, JvmtiEnv.is_retransformable (call_env c) = false) t1
                 ∧ map call_env t2 `sublist_of` Jvmti.environments rt
                 ∧ Forall (λ c, JvmtiEnv.is_retransformable (call_env c) = true) t2)
         as Hnone.
       { exists [], []. repeat split; try done; apply sublist_nil_l. }
       destruct (phase_below_primordial _ _); [done|].
       destruct (VM.should_hide_jvmti_events vm); [done|].
       destruct (JvmtiClassFileLoadHookPoster_load_kind _ _ vm) as [kind vm1].
       destruct (post_all_envs_order kind h_name vm1)
         as (t1 & t2 & ? & ? & ? & ? & ? & ?).
       by exists t1, t2. }
  all: try (in_order Hkeep; fail).
  all: in_order I.
Qed.

Section MethodExitOrder.
Variable has_frame_pops : JvmtiEnvThreadState.t → bool.
Variable is_frame_pop : JvmtiEnvThreadState.t → Z → bool.
Variable clear_frame_pop : Z → JvmtiEnvThreadState.t → JvmtiEnvThreadState.t.
Variable cur_stack_depth : JvmtiThreadState.t → Z.
Variable decr_cur_stack_depth : JvmtiThreadState.t → JvmtiThreadState.t.
Hypothesis invoke_keeps_record_envs : ∀ env k args vm,
  record_envs (invoke env k args vm).1 = record_envs vm.
(** Removing a frame pop does not move a record to another environment. *)
Hypothesis clear_frame_pop_keeps_env : ∀ n ets,
  JvmtiEnvThreadState.get_env (clear_frame_pop n ets) = JvmtiEnvThreadState.get_env ets.

Lemma for_each_record_envs {X} (body : X → VM.t → VM.t * trace (E:=E)) l vm :
  (∀ x vm, record_envs (body x vm).1 = record_envs vm) →
  record_envs (for_each body l vm).1 = record_envs vm.
Proof.
  intros Hbody. revert vm. induction l as [|x l IH]; intros vm; simpl; [done|].
  pose proof (Hbody x vm) as H1. destruct (body x vm) as [vm1 t1].
  pose proof (IH vm1) as H2. destruct (for_each body l vm1) as [vm2 t2].
  simpl in *. congruence.
Qed.

Lemma ets_iterator_record_envs
    (body : nat → JvmtiEnvThreadState.t → VM.t → VM.t * trace (E:=E)) vm :
  (∀ i ets vm, record_envs (body i ets vm).1 = record_envs vm) →
  record_envs (JvmtiEnvThreadStateIterator body vm).1 = record_envs vm.
Proof.
  intros Hbody. unfold JvmtiEnvThreadStateIterator. apply for_each_record_envs.
  intros i vm'. by destruct (ets_at i vm').
Qed.

(** The two walks of [post_method_exit_inner], each in the order of the
    records of the thread. *)
Lemma post_method_exit_inner_order mh vm :
  ∃ t1 t2,
    (post_method_exit_inner invoke has_frame_pops is_frame_pop clear_frame_pop
       cur_stack_depth decr_cur_stack_depth mh vm).2 = t1 ++ t2
    ∧ Forall (λ c, call_event c = JVMTI_EVENT_METHOD_EXIT) t1
    ∧ map call_env t1 `sublist_of` record_envs vm
    ∧ Forall (λ c, call_event c = JVMTI_EVENT_FRAME_POP) t2
    ∧ map call_env t2 `sublist_of` record_envs vm.
Proof.
  assert (∃ t1 t2 : trace (E:=E), [] = t1 ++ t2
            ∧ Forall (λ c, call_event c = JVMTI_EVENT_METHOD_EXIT) t1
            ∧ map call_env t1 `sublist_of` record_envs vm
            ∧ Forall (λ c, call_event c = JVMTI_EVENT_FRAME_POP) t2
            ∧ map call_env t2 `sublist_of` record_envs vm) as Hnone.
  { exists [], []. repeat split; try done; apply sublist_nil_l. }
  unfold post_method_exit_inner.
  destruct (VM.jvmti_thread_state vm) as [state|]; [|done].
  destruct (_ || _); [done|].
  set (first_walk := if JvmtiThreadState.is_enabled state JVMTI_EVENT_METHOD_EXIT
                     then _ else _).
  assert (record_envs first_walk.1 = record_envs vm
          ∧ Forall (λ c, call_event c = JVMTI_EVENT_METHOD_EXIT) first_walk.2
          ∧ map call_env first_walk.2 `sublist_of` record_envs vm) as (K1 & E1 & O1).
  { subst first_walk. destruct (JvmtiThreadState.is_enabled state _); simpl.
    2: { split; [done|]. split; [done|apply sublist_nil_l]. }
    split; [|split].
    - apply ets_iterator_record_envs. intros i ets vm'.
      destruct (JvmtiEnvThreadState.is_enabled ets _); [|done].
      by apply record_envs_callback_scope.
    - apply ets_iterator_Forall. intros i ets vm'.
      destruct (JvmtiEnvThreadState.is_enabled ets _); [|done].
      by apply callback_scope_Forall.
    - apply ets_iterator_sublist; intros i ets vm'.
      + destruct (JvmtiEnvThreadState.is_enabled ets _); [|by left].
        apply callback_scope_single.
      + intros _. destruct (JvmtiEnvThreadState.is_enabled ets _); [|done].
        by apply record_envs_callback_scope. }
  destruct first_walk as [vm1 t1]. cbn [fst snd] in *.
  match goal with
  | |- context [JvmtiEnvThreadStateIterator ?body vm1] =>
      set (second_walk := JvmtiEnvThreadStateIterator body vm1)
  end.
  assert (∀ i ets vm',
            record_envs
              (let '(vm2, tr) :=
                 if JvmtiEnvThreadState.is_enabled ets JVMTI_EVENT_FRAME_POP
                 then callback_scope invoke (JvmtiEnvThreadState.get_env ets)
                        JVMTI_EVENT_FRAME_POP (args_method (jmethod_id mh)) vm'
                 else (vm', []) in
               (match ets_at i vm2 with
                | Some ets0 =>
                    if is_frame_pop ets0
                         (state_cur_stack_depth cur_stack_depth vm')
                    then update_ets i
                           (clear_frame_pop (state_cur_stack_depth cur_stack_depth vm'))
                           vm2
                    else vm2
                | None => vm2
                end, tr)).1 = record_envs vm'
            ∧ at_most_call_of (JvmtiEnvThreadState.get_env ets)
                (let '(vm2, tr) :=
                   if JvmtiEnvThreadState.is_enabled ets JVMTI_EVENT_FRAME_POP
                   then callback_scope invoke (JvmtiEnvThreadState.get_env ets)
                          JVMTI_EVENT_FRAME_POP (args_method (jmethod_id mh)) vm'
                   else (vm', []) in
                 (match ets_at i vm2 with
                  | Some ets0 =>
                      if is_frame_pop ets0
                           (state_cur_stack_depth cur_stack_depth vm')
                      then update_ets i
                             (clear_frame_pop (state_cur_stack_depth cur_stack_depth vm'))
                             vm2
                      else vm2
                  | None => vm2
                  end, tr)).2
            ∧ Forall (λ c, call_event c = JVMTI_EVENT_FRAME_POP)
                (let '(vm2, tr) :=
                   if JvmtiEnvThreadState.is_enabled ets JVMTI_EVENT_FRAME_POP
                   then callback_scope invoke (JvmtiEnvThreadState.get_env ets)
                          JVMTI_EVENT_FRAME_POP (args_method (jmethod_id mh)) vm'
                   else (vm', []) in
                 (match ets_at i vm2 with
                  | Some ets0 =>
                      if is_frame_pop ets0
                           (state_cur_stack_depth cur_stack_depth vm')
                      then update_ets i
                             (clear_frame_pop (state_cur_stack_depth cur_stack_depth vm'))
                             vm2
                      else vm2
                  | None => vm2
                  end, tr)).2) as Hround.
  { intros i ets vm'.
    set (called := if JvmtiEnvThreadState.is_enabled ets JVMTI_EVENT_FRAME_POP
                   then _ else _).
    assert (record_envs called.1 = record_envs vm'
            ∧ at_most_call_of (JvmtiEnvThreadState.get_env ets) called.2
            ∧ Forall (λ c, call_event c = JVMTI_EVENT_FRAME_POP) called.2)
      as (Hk & Hone & Hev).
    { subst called. destruct (JvmtiEnvThreadState.is_enabled ets _); simpl.
      - split; [by apply record_envs_callback_scope|].
        split; [apply callback_scope_single|by apply callback_scope_Forall].
      - split; [done|]. split; [by left|done]. }
    destruct called as [vm2 tr]. cbn [fst snd] in *.
    split; [|by split].
    destruct (ets_at i vm2); [|done].
    destruct (is_frame_pop _ _); [|done].
    rewrite record_envs_update_ets; [done|]. apply clear_frame_pop_keeps_env. }
  assert (Forall (λ c, call_event c = JVMTI_EVENT_FRAME_POP) second_walk.2
          ∧ map call_env second_walk.2 `sublist_of` record_envs vm1) as (E2 & O2).
  { subst second_walk. split.
    - apply ets_iterator_Forall. intros i ets vm'.
      destruct (has_frame_pops ets); [|done].
      cbv zeta. destruct (is_frame_pop ets _); [|done]. apply Hround.
    - apply ets_iterator_sublist; intros i ets vm'.
      + destruct (has_frame_pops ets); [|by left].
        cbv zeta. destruct (is_frame_pop ets _); [|by left]. apply Hround.
      + intros _. destruct (has_frame_pops ets); [|done].
        cbv zeta. destruct (is_frame_pop ets _); [|done]. apply Hround. }
  destruct second_walk as [vm2 t2]. cbn [fst snd] in *.
  exists t1, t2. rewrite K1 in O2. done.
Qed.
End MethodExitOrder.

End RegistrationOrder.


(** [post_method_exit_inner] on a thread with a record for each of two
    environments, both with MethodExit and FramePop enabled and a frame pop
    requested for the frame that is left: environment 1, then environment 2
    for MethodExit, then again environment 1, then environment 2 for
    FramePop. *)
Example post_method_exit_inner_two_walks :
  map (λ c, (JvmtiEnv.jvmti_external (call_env c), call_event c))
    (post_method_exit_inner silent_agent (λ _, true) (λ _ _, true) (λ _ ets, ets)
       (λ _, 0) (λ s, s) (Build_Method 7 0 false) two_record_thread).2
  = [(1%nat, JVMTI_EVENT_METHOD_EXIT); (2%nat, JVMTI_EVENT_METHOD_EXIT);
     (1%nat, JVMTI_EVENT_FRAME_POP); (2%nat, JVMTI_EVENT_FRAME_POP)].
Proof. by vm_compute. Qed.


(** ** Exception throw *)

Section ExceptionThrow.
Context {E : Type}.
Variable rt : Jvmti.t.

Lemma get_jvmti_thread_state_Some vm s :
  VM.jvmti_thread_state vm = Some s → get_jvmti_thread_state rt vm = vm.
Proof.
  intros Hs. unfold get_jvmti_thread_state. rewrite Hs. simpl.
  by rewrite andb_false_r.
Qed.

Lemma get_jvmti_thread_state_hide vm :
  VM.should_hide_jvmti_events (get_jvmti_thread_state rt vm)
  = VM.should_hide_jvmti_events vm.
Proof.
  unfold get_jvmti_thread_state, JvmtiEventController_thread_started.
  destruct (_ && _); [|done]. by destruct (VM.jvmti_thread_state vm).
Qed.

Lemma is_exception_detected_restore s :
  JvmtiThreadState.is_exception_detected
    (JvmtiThreadState.restore_exception_state ES_DETECTED s) = true.
Proof. done. Qed.

Lemma is_exception_detected_state s :
  JvmtiThreadState.is_exception_detected s = true →
  JvmtiThreadState.get_exception_state s = ES_DETECTED.
Proof.
  unfold JvmtiThreadState.is_exception_detected. intros H.
  by apply bool_decide_eq_true in H.
Qed.

(** With an exception in flight the post calls nothing and changes
    nothing. *)
Lemma post_exception_throw_in_flight
    (invoke : JvmtiEnv.t → jvmtiEvent → callback_args → VM.t → VM.t * list E)
    method location exception vm s :
  VM.jvmti_thread_state vm = Some s →
  JvmtiThreadState.is_exception_detected s = true →
  post_exception_throw rt invoke method location exception vm = (vm, []).
Proof.
  intros Hs Hd. unfold post_exception_throw, with_thread_state.
  rewrite (get_jvmti_thread_state_Some vm s Hs), Hs.
  destruct (VM.should_hide_jvmti_events vm); [done|]. by rewrite Hd.
Qed.

(** A marked callback entered with the exception detected leaves it
    detected, whatever the callback does. *)
Lemma callback_scope_keeps_detected
    (invoke : JvmtiEnv.t → jvmtiEvent → callback_args → VM.t → VM.t * list E)
    env k args vm s :
  VM.jvmti_thread_state vm = Some s →
  JvmtiThreadState.is_exception_detected s = true →
  detected_if_any (callback_scope invoke env k args vm).1.
Proof.
  intros Hs Hd s' Hs'. unfold callback_scope in Hs'.
  destruct (scope_restores_saved_state
              (call_callback invoke env k args) vm s Hs) as [_ Hrestore].
  specialize (Hrestore s' Hs').
  rewrite (is_exception_detected_state s Hd) in Hrestore.
  unfold JvmtiThreadState.is_exception_detected.
  by apply bool_decide_eq_true.
Qed.

Lemma ets_iterator_invariant (Inv : VM.t → Prop) (P : call E → Prop)
    (body : nat → JvmtiEnvThreadState.t → VM.t → VM.t * trace (E:=E)) vm :
  Inv vm →
  (∀ i ets vm, Inv vm → ets_at i vm = Some ets →
     Inv (body i ets vm).1 ∧ Forall P (body i ets vm).2) →
  Inv (JvmtiEnvThreadStateIterator body vm).1
  ∧ Forall P (JvmtiEnvThreadStateIterator body vm).2.
Proof.
  intros Hinv Hbody. unfold JvmtiEnvThreadStateIterator.
  generalize (seq 0 (length (env_thread_states vm))). intros l.
  revert vm Hinv. induction l as [|i l IH]; intros vm Hinv; simpl; [done|].
  destruct (ets_at i vm) as [ets|] eqn:Hets.
  - destruct (Hbody i ets vm Hinv Hets) as [H1 H2].
    destruct (body i ets vm) as [vm1 t1]. simpl in *.
    destruct (IH vm1 H1) as [H3 H4].
    destruct (for_each _ l vm1) as [vm2 t2]. simpl in *.
    split; [done|by apply Forall_app].
  - destruct (IH vm Hinv) as [H3 H4].
    destruct (for_each _ l vm) as [vm2 t2]. by simpl in *.
Qed.

Lemma ets_at_Some_state i vm ets :
  ets_at i vm = Some ets → is_Some (VM.jvmti_thread_state vm).
Proof.
  unfold ets_at, env_thread_states.
  destruct (VM.jvmti_thread_state vm); [eauto|done].
Qed.
End ExceptionThrow.

(** C9: with an exception already detected on the thread,
    [post_exception_throw] calls nothing and changes nothing; otherwise the
    flag is set before the records are walked, so that a
    [post_exception_throw] made from inside any of the Exception callbacks
    (before the callback goes on to do anything else, [after]) calls
    nothing; and when the post returns on a thread that does not hide
    events, the exception is detected, so that a later post calls nothing
    until the state is cleared. *)
Theorem post_exception_throw_once {E : Type} (rt : Jvmti.t)
    (invoke : JvmtiEnv.t → jvmtiEvent → callback_args → VM.t → VM.t * list E)
    (method : Method) (location : Z) (exception : option object) (vm : VM.t) :
  (∀ s, VM.jvmti_thread_state vm = Some s →
        JvmtiThreadState.is_exception_detected s = true →
        post_exception_throw rt invoke method location exception vm = (vm, []))
  ∧ (∀ (after : JvmtiEnv.t → jvmtiEvent → callback_args → VM.t → VM.t)
       method' location' exception',
       Forall (λ c, call_nested c = [[]])
         (post_exception_throw rt
            (fun env k args vm =>
               let r := post_exception_throw rt invoke method' location' exception' vm in
               (after env k args r.1, [r.2]))
            method location exception vm).2)
  ∧ (VM.should_hide_jvmti_events vm = false →
     detected_if_any (post_exception_throw rt invoke method location exception vm).1).
Proof.
  split; [|split].
  - intros s. apply post_exception_throw_in_flight.
  - intros after method' location' exception'.
    unfold post_exception_throw at 1. apply with_thread_state_Forall.
    intros state vm0. destruct (VM.should_hide_jvmti_events vm0); [done|].
    destruct (negb _); [|done].
    apply (ets_iterator_invariant detected_if_any).
    { intros s Hs. unfold VM.update_state in Hs.
      destruct (VM.jvmti_thread_state vm0) eqn:Hs0; simpl in Hs; [|congruence].
      by inversion Hs. }
    intros i ets vm1 Hinv Hets.
    destruct (ets_at_Some_state i vm1 ets Hets) as [s Hs].
    pose proof (Hinv s Hs) as Hd.
    destruct exception as [exc|]; [|done].
    destruct (JvmtiEnvThreadState.is_enabled ets JVMTI_EVENT_EXCEPTION); [|done].
    split; [by eapply callback_scope_keeps_detected|].
    unfold callback_scope. rewrite scope_trace. unfold call_callback.
    destruct (JvmtiEnv.callbacks _ _); [|done]. simpl.
    rewrite (post_exception_throw_in_flight rt invoke method' location' exception'
               (VM.push_jni_handle_block vm1) s); [|done|done].
    by constructor.
  - intros Hhide. unfold post_exception_throw, with_thread_state.
    pose proof (get_jvmti_thread_state_hide rt vm) as Hh. rewrite Hhide in Hh.
    destruct (VM.jvmti_thread_state (get_jvmti_thread_state rt vm)) as [state|] eqn:Hs.
    2: { intros s' Hs'. simpl in Hs'. congruence. }
    rewrite Hh.
    destruct (JvmtiThreadState.is_exception_detected state) eqn:Hd; simpl.
    { intros s' Hs'. congruence. }
    apply (ets_iterator_invariant detected_if_any (λ _, True)).
    { intros s Hs'. rewrite (update_state_Some _ _ _ Hs) in Hs'. by inversion Hs'. }
    intros i ets vm1 Hinv Hets.
    destruct (ets_at_Some_state i vm1 ets Hets) as [s Hs1].
    pose proof (Hinv s Hs1) as Hd1.
    destruct exception as [exc|]; [|by split].
    destruct (JvmtiEnvThreadState.is_enabled ets JVMTI_EVENT_EXCEPTION); [|by split].
    split; [by eapply callback_scope_keeps_detected|].
    apply Forall_forall. done.
Qed.

(** ** Location events *)

Section LocationEvents.
Context {E : Type}.
Variable rt : Jvmti.t.
Variable invoke : JvmtiEnv.t → jvmtiEvent → callback_args → VM.t → VM.t * list E.

Lemma post_location_event_unfold k method location vm :
  post_location_event rt invoke k method location vm
  = with_thread_state rt vm (fun state vm =>
      if match k with
         | at_single_step => jvmti_mount_transition method
         | at_breakpoint => false
         end || VM.should_hide_jvmti_events vm
      then (vm, [])
      else JvmtiEnvThreadStateIterator
             (location_event_body invoke k method location) vm).
Proof. by destruct k. Qed.
End LocationEvents.

Section LocationLoop.
Context {E : Type}.
Variable rt : Jvmti.t.
Variable invoke : JvmtiEnv.t → jvmtiEvent → callback_args → VM.t → VM.t * list E.
(** The agent leaves the records of the thread alone: its callbacks do
    not step or hit breakpoints themselves, which would move the location
    markers. *)
Hypothesis invoke_keeps_records : ∀ env k args vm,
  thread_records (invoke env k args vm).1 = thread_records vm.

Lemma delivered_app (t1 t2 : trace (E:=E)) :
  delivered (t1 ++ t2) = delivered t1 ++ delivered t2.
Proof. apply map_app. Qed.

Lemma env_thread_states_records vm :
  env_thread_states vm = default [] (thread_records vm).
Proof. unfold env_thread_states, thread_records. by destruct (VM.jvmti_thread_state vm). Qed.

Lemma thread_records_update_ets i f vm :
  thread_records (update_ets i f vm) = alter f i <$> thread_records vm.
Proof.
  unfold update_ets, thread_records, VM.update_state.
  destruct (VM.jvmti_thread_state vm) eqn:Hs; simpl; [done|by rewrite Hs].
Qed.

Lemma thread_records_dtor jem vm :
  thread_records (JvmtiEventMark.dtor jem vm) = thread_records vm.
Proof.
  unfold JvmtiEventMark.dtor, thread_records, VM.update_state,
    VM.pop_jni_handle_block. simpl.
  destruct (VM.jvmti_thread_state vm) eqn:Hs; simpl; [done|by rewrite Hs].
Qed.

Lemma thread_records_call_callback env k args vm :
  thread_records (call_callback invoke env k args vm).1 = thread_records vm.
Proof.
  unfold call_callback. destruct (JvmtiEnv.callbacks env k); [|done].
  pose proof (invoke_keeps_records env k args vm) as H.
  by destruct (invoke env k args vm).
Qed.

Lemma delivered_call_callback env k args vm :
  delivered (call_callback invoke env k args vm).2
  = if JvmtiEnv.callbacks env k then [(JvmtiEnv.jvmti_external env, k)] else [].
Proof.
  unfold call_callback. destruct (JvmtiEnv.callbacks env k); [|done].
  by destruct (invoke env k args vm).
Qed.

(** One round of the loop changes the record it is at as
    [record_after_post] says, and calls as [record_called] says. *)
Lemma location_event_body_spec k method location i ets vm :
  ets_at i vm = Some ets →
  thread_records (location_event_body invoke k method location i ets vm).1
  = alter (record_after_post k method location) i <$> thread_records vm
  ∧ delivered (location_event_body invoke k method location i ets vm).2
    = if record_called k method location ets
      then [(JvmtiEnv.jvmti_external (JvmtiEnvThreadState.get_env ets),
             location_event_kind k)]
      else [].
Proof.
  intros Hets. unfold location_event_body, record_called.
  set (cas := JvmtiEnvThreadState.compare_and_set_current_location
                method location (location_event_kind k)).
  assert (thread_records vm = Some (env_thread_states vm)) as Hrec.
  { unfold thread_records, ets_at, env_thread_states in *.
    by destruct (VM.jvmti_thread_state vm). }
  assert (∀ g : JvmtiEnvThreadState.t → JvmtiEnvThreadState.t,
            g (cas ets) = record_after_post k method location ets →
            alter g i (alter cas i (env_thread_states vm))
            = alter (record_after_post k method location) i (env_thread_states vm))
    as Halter.
  { intros g Hg. apply list_eq. intros j. destruct (decide (i = j)) as [<-|Hne].
    - rewrite !list_lookup_alter_eq. unfold ets_at in Hets. rewrite Hets. simpl.
      by rewrite Hg.
    - by rewrite !list_lookup_alter_ne. }
  destruct (negb (location_posted k (cas ets))
            && JvmtiEnvThreadState.is_enabled (cas ets) (location_event_kind k))
    eqn:Hcond; simpl.
  - rewrite scope_machine, scope_trace, thread_records_dtor.
    pose proof (thread_records_call_callback
                  (JvmtiEnvThreadState.get_env (cas ets)) (location_event_kind k)
                  (args_location (jmethod_id method) (location - code_base method))
                  (JvmtiEventMark.ctor (update_ets i cas vm)).2) as Hcall.
    pose proof (delivered_call_callback
                  (JvmtiEnvThreadState.get_env (cas ets)) (location_event_kind k)
                  (args_location (jmethod_id method) (location - code_base method))
                  (JvmtiEventMark.ctor (update_ets i cas vm)).2) as Hdel.
    destruct (call_callback invoke _ _ _ _) as [vm1 tr]. simpl in *.
    split.
    + rewrite thread_records_update_ets, Hcall.
      change (thread_records (VM.push_jni_handle_block (update_ets i cas vm)))
        with (thread_records (update_ets i cas vm)).
      rewrite thread_records_update_ets, Hrec. simpl. f_equal.
      apply Halter. unfold record_after_post. fold cas. by rewrite Hcond.
    + rewrite Hdel. subst cas. by rewrite !get_env_compare_and_set.
  - split; [|done].
    rewrite thread_records_update_ets, Hrec. simpl. f_equal.
    rewrite <- (Halter (λ x, x)).
    + symmetry. by apply list_alter_id.
    + unfold record_after_post. fold cas. by rewrite Hcond.
Qed.

(** A walk over the records applies [record_after_post] to each and calls
    those for which [record_called] holds, in order. *)
Lemma location_event_loop k method location (n s : nat) vm L :
  thread_records vm = Some L →
  (s + n)%nat = length L →
  let r := for_each (fun i vm => match ets_at i vm with
                                 | Some ets =>
                                     location_event_body invoke k method location i ets vm
                                 | None => (vm, [])
                                 end) (seq s n) vm in
  thread_records r.1
  = Some (take s L ++ map (record_after_post k method location) (drop s L))
  ∧ delivered r.2
    = flat_map (λ ets, if record_called k method location ets
                       then [(JvmtiEnv.jvmti_external (JvmtiEnvThreadState.get_env ets),
                              location_event_kind k)]
                       else []) (drop s L).
Proof.
  revert s vm L. induction n as [|n IH]; intros s vm L HL Hlen; simpl.
  - rewrite drop_ge, take_ge by lia. simpl. by rewrite app_nil_r.
  - assert (is_Some (L !! s)) as [ets Hs] by (apply lookup_lt_is_Some; lia).
    assert (ets_at s vm = Some ets) as Hets.
    { unfold ets_at. rewrite env_thread_states_records, HL. done. }
    rewrite Hets.
    destruct (location_event_body_spec k method location s ets vm Hets) as [H1 H2].
    destruct (location_event_body invoke k method location s ets vm) as [vm1 t1].
    simpl in *. rewrite HL in H1. simpl in H1.
    specialize (IH (S s) vm1 _ H1). rewrite length_alter in IH.
    destruct IH as [H3 H4]; [lia|].
    destruct (for_each _ (seq (S s) n) vm1) as [vm2 t2]. simpl in *.
    rewrite (drop_S L ets s Hs). simpl. split.
    + rewrite H3. f_equal. rewrite drop_alter_lt by lia.
      rewrite (take_S_r (alter _ s L) s (record_after_post k method location ets)).
      * rewrite take_alter_ge by lia. by rewrite <- app_assoc.
      * by rewrite list_lookup_alter_eq, Hs.
    + rewrite delivered_app, H2, H4. by rewrite drop_alter_lt by lia.
Qed.
End LocationLoop.

Section AtMostOnce.
Variables (method : Method) (location : Z) (e : nat).

Lemma count_delivered_app ev d1 d2 :
  count_delivered e ev (d1 ++ d2)
  = (count_delivered e ev d1 + count_delivered e ev d2)%nat.
Proof. unfold count_delivered. by rewrite filter_app, length_app. Qed.

Lemma at_location_set_posted k ets :
  at_location method location (set_location_posted k ets)
  ↔ at_location method location ets.
Proof. by destruct k. Qed.

Lemma location_posted_set_posted k k' ets :
  location_posted k (set_location_posted k' ets)
  = if decide (k = k') then true else location_posted k ets.
Proof. by destruct k, k'. Qed.

Lemma compare_and_set_same ev ets :
  at_location method location ets →
  JvmtiEnvThreadState.compare_and_set_current_location method location ev ets = ets.
Proof.
  intros [H1 H2]. unfold JvmtiEnvThreadState.compare_and_set_current_location.
  destruct (decide _) as [_|Hn]; [done|]. by destruct Hn.
Qed.

Lemma compare_and_set_moved ev ets :
  ¬ at_location method location ets →
  let ets' := JvmtiEnvThreadState.compare_and_set_current_location
                method location ev ets in
  at_location method location ets'
  ∧ JvmtiEnvThreadState.breakpoint_posted ets' = false
  ∧ JvmtiEnvThreadState.single_stepping_posted ets' = false
  ∧ JvmtiEnvThreadState.is_enabled ets' = JvmtiEnvThreadState.is_enabled ets
  ∧ JvmtiEnvThreadState.get_env ets' = JvmtiEnvThreadState.get_env ets.
Proof.
  intros Hn. unfold JvmtiEnvThreadState.compare_and_set_current_location.
  destruct (decide _) as [[H1 H2]|_]; [by destruct Hn|]. by repeat split.
Qed.

Lemma location_event_kind_inj k k' :
  location_event_kind k = location_event_kind k' → k = k'.
Proof. by destruct k, k'. Qed.

Lemma at_location_compare_and_set ev ets :
  at_location method location
    (JvmtiEnvThreadState.compare_and_set_current_location method location ev ets).
Proof.
  destruct (decide (at_location method location ets)) as [Hat|Hnat].
  - by rewrite compare_and_set_same.
  - by apply compare_and_set_moved.
Qed.

Lemma get_env_record_after_post k ets :
  JvmtiEnvThreadState.get_env (record_after_post k method location ets)
  = JvmtiEnvThreadState.get_env ets.
Proof.
  unfold record_after_post. destruct (_ && _); [destruct k|]; simpl;
    apply get_env_compare_and_set.
Qed.

Lemma pending_le_1 k ets : (pending k method location e ets ≤ 1)%nat.
Proof. unfold pending. case_decide; lia. Qed.

Lemma pending_other k ets :
  JvmtiEnv.jvmti_external (JvmtiEnvThreadState.get_env ets) ≠ e →
  pending k method location e ets = 0%nat.
Proof. intros Hne. unfold pending. case_decide as Hd; [by destruct Hd|done]. Qed.

Lemma pending_done k ets :
  at_location method location ets → location_posted k ets = true →
  pending k method location e ets = 0%nat.
Proof.
  intros Hat Hp. unfold pending. case_decide as Hd; [|done].
  destruct Hd as [_ Hd]. by destruct Hd.
Qed.

Lemma pending_not_done k ets :
  JvmtiEnv.jvmti_external (JvmtiEnvThreadState.get_env ets) = e →
  ¬ (at_location method location ets ∧ location_posted k ets = true) →
  pending k method location e ets = 1%nat.
Proof. intros He Hn. unfold pending. case_decide as Hd; [done|]. by destruct Hd. Qed.

(** A post never makes a record pending again at this location. *)
Lemma pending_mono k k' ets :
  (pending k method location e (record_after_post k' method location ets)
   ≤ pending k method location e ets)%nat.
Proof.
  destruct (decide (JvmtiEnv.jvmti_external (JvmtiEnvThreadState.get_env ets) = e))
    as [He|Hne].
  2: { rewrite pending_other; [lia|]. by rewrite get_env_record_after_post. }
  destruct (decide (at_location method location ets
                    ∧ location_posted k ets = true)) as [[Hat Hp]|Hn].
  2: { rewrite (pending_not_done k ets He Hn). apply pending_le_1. }
  rewrite pending_done; [lia| |]; unfold record_after_post;
    rewrite (compare_and_set_same _ ets Hat); destruct (_ && _); try done.
  - by apply at_location_set_posted.
  - rewrite location_posted_set_posted. by case_decide.
Qed.

Lemma count_delivered_single ev i ev' :
  count_delivered e ev [(i, ev')]
  = if decide (i = e ∧ ev' = ev) then 1%nat else 0%nat.
Proof.
  unfold count_delivered. rewrite filter_cons.
  destruct (decide (i = e ∧ ev' = ev)) as [[-> ->]|Hn].
  - by rewrite decide_True.
  - rewrite decide_False; [done|]. intros [= -> ->]. by apply Hn.
Qed.

(** One post and one record: what is called now is taken from what was
    pending. *)
Lemma pending_record k k' ets :
  (count_delivered e (location_event_kind k)
     (if record_called k' method location ets
      then [(JvmtiEnv.jvmti_external (JvmtiEnvThreadState.get_env ets),
             location_event_kind k')]
      else [])
   + pending k method location e (record_after_post k' method location ets)
   ≤ pending k method location e ets)%nat.
Proof.
  pose proof (pending_mono k k' ets) as Hmono.
  destruct (record_called k' method location ets) eqn:Hcalled; [|simpl; lia].
  rewrite count_delivered_single. case_decide as Hd; [|lia].
  destruct Hd as [He Hk]. apply location_event_kind_inj in Hk. subst k'.
  unfold record_called in Hcalled.
  apply andb_true_iff in Hcalled as [Hcond _].
  rewrite pending_done.
  - rewrite (pending_not_done k ets He); [lia|]. intros [Hat Hp].
    rewrite (compare_and_set_same _ ets Hat), Hp in Hcond. done.
  - unfold record_after_post. rewrite Hcond.
    apply at_location_set_posted, at_location_compare_and_set.
  - unfold record_after_post. rewrite Hcond.
    rewrite location_posted_set_posted. by case_decide.
Qed.

(** The same over all records of the thread. *)
Lemma pending_records k k' (L : list JvmtiEnvThreadState.t) :
  (count_delivered e (location_event_kind k)
     (flat_map (λ ets, if record_called k' method location ets
                       then [(JvmtiEnv.jvmti_external (JvmtiEnvThreadState.get_env ets),
                              location_event_kind k')]
                       else []) L)
   + sum_list_with (pending k method location e)
       (map (record_after_post k' method location) L)
   ≤ sum_list_with (pending k method location e) L)%nat.
Proof.
  induction L as [|ets L IH]; simpl; [done|].
  rewrite count_delivered_app.
  pose proof (pending_record k k' ets). lia.
Qed.

(** With one record per environment, at most one is pending for [e]. *)
Lemma pending_at_most_one k (L : list JvmtiEnvThreadState.t) :
  NoDup (map (λ ets, JvmtiEnv.jvmti_external (JvmtiEnvThreadState.get_env ets)) L) →
  (sum_list_with (pending k method location e) L ≤ 1)%nat.
Proof.
  induction L as [|ets L IH]; simpl; [lia|].
  intros [Hnotin Hnodup]%NoDup_cons. specialize (IH Hnodup).
  unfold pending at 1. case_decide as Hd; [|lia].
  destruct Hd as [<- _].
  assert (sum_list_with
            (pending k method location
               (JvmtiEnv.jvmti_external (JvmtiEnvThreadState.get_env ets))) L = 0%nat)
    as ->; [|lia].
  clear IH Hnodup. induction L as [|x L IH]; simpl; [done|].
  rewrite IH.
  - unfold pending. case_decide as Hd; [|done]. destruct Hd as [Heq _].
    exfalso. apply Hnotin. simpl. apply elem_of_cons. by left.
  - intros Hin. apply Hnotin. simpl. apply elem_of_cons. by right.
Qed.
End AtMostOnce.

Section LocationGate.
Context {E : Type}.
Variable rt : Jvmti.t.
Variable invoke : JvmtiEnv.t → jvmtiEvent → callback_args → VM.t → VM.t * list E.
Hypothesis invoke_keeps_records : ∀ env k args vm,
  thread_records (invoke env k args vm).1 = thread_records vm.
Variables (method : Method) (location : Z).

Lemma thread_records_Some vm L :
  thread_records vm = Some L →
  ∃ s, VM.jvmti_thread_state vm = Some s ∧ JvmtiThreadState.env_thread_states s = L.
Proof.
  unfold thread_records. destruct (VM.jvmti_thread_state vm) as [s|]; [|done].
  intros [= <-]. by exists s.
Qed.

(** On a thread that has a state, a post maps [record_after_post] over the
    records and calls the environments of those for which [record_called]
    holds. *)
Lemma post_location_event_records k vm L :
  thread_records vm = Some L →
  let r := post_location_event rt invoke k method location vm in
  thread_records r.1
  = Some (if location_post_runs method k vm
          then map (record_after_post k method location) L else L)
  ∧ delivered r.2
    = if location_post_runs method k vm
      then flat_map (λ ets, if record_called k method location ets
                            then [(JvmtiEnv.jvmti_external
                                     (JvmtiEnvThreadState.get_env ets),
                                   location_event_kind k)]
                            else []) L
      else [].
Proof.
  intros HL. destruct (thread_records_Some vm L HL) as (s & Hs & HsL).
  simpl. rewrite post_location_event_unfold. unfold with_thread_state.
  rewrite (get_jvmti_thread_state_Some rt vm s Hs), Hs.
  unfold location_post_runs. destruct (_ || _); simpl; [done|].
  unfold JvmtiEnvThreadStateIterator.
  assert (env_thread_states vm = L) as ->.
  { unfold env_thread_states. by rewrite Hs. }
  destruct (location_event_loop invoke invoke_keeps_records k method location
              (length L) 0 vm L HL eq_refl) as [H1 H2].
  by rewrite drop_0 in H1, H2.
Qed.

Lemma post_location_events_pending (e : nat) k ks vm L :
  thread_records vm = Some L →
  (count_delivered e (location_event_kind k)
     (delivered (post_location_events rt invoke ks method location vm).2)
   ≤ sum_list_with (pending k method location e) L)%nat.
Proof.
  revert vm L. induction ks as [|k' ks IH]; intros vm L HL; simpl.
  { unfold count_delivered. simpl. lia. }
  destruct (post_location_event_records k' vm L HL) as [H1 H2].
  destruct (post_location_event rt invoke k' method location vm) as [vm1 t1].
  simpl in *. specialize (IH vm1 _ H1).
  destruct (post_location_events rt invoke ks method location vm1) as [vm2 t2].
  simpl in *. rewrite delivered_app, count_delivered_app, H2.
  destruct (location_post_runs method k' vm).
  - pose proof (pending_records method location e k k' L). lia.
  - unfold count_delivered at 1. simpl. lia.
Qed.

Lemma get_jvmti_thread_state_idempotent vm :
  get_jvmti_thread_state rt (get_jvmti_thread_state rt vm)
  = get_jvmti_thread_state rt vm.
Proof.
  destruct (VM.jvmti_thread_state vm) as [s|] eqn:Hs.
  { by rewrite !(get_jvmti_thread_state_Some rt vm s Hs). }
  destruct (VM.is_vthread_mounted vm) eqn:Hm.
  - assert (get_jvmti_thread_state rt vm
            = JvmtiEventController_thread_started rt vm) as ->.
    { unfold get_jvmti_thread_state. by rewrite Hm, Hs. }
    eapply get_jvmti_thread_state_Some.
    unfold JvmtiEventController_thread_started. by rewrite Hs.
  - assert (get_jvmti_thread_state rt vm = vm) as Hid.
    { unfold get_jvmti_thread_state. by rewrite Hm. }
    by rewrite !Hid.
Qed.

Lemma post_location_event_resolved k vm :
  post_location_event rt invoke k method location vm
  = post_location_event rt invoke k method location (get_jvmti_thread_state rt vm).
Proof.
  rewrite !post_location_event_unfold. unfold with_thread_state.
  by rewrite get_jvmti_thread_state_idempotent.
Qed.

Lemma post_location_events_no_state ks vm :
  VM.jvmti_thread_state (get_jvmti_thread_state rt vm) = None →
  (post_location_events rt invoke ks method location vm).2 = [].
Proof.
  revert vm. induction ks as [|k ks IH]; intros vm Hs; simpl; [done|].
  rewrite post_location_event_unfold. unfold with_thread_state. rewrite Hs.
  specialize (IH (get_jvmti_thread_state rt vm)).
  rewrite get_jvmti_thread_state_idempotent in IH. specialize (IH Hs).
  destruct (post_location_events rt invoke ks method location _) as [vm2 t2].
  simpl in *. by rewrite IH.
Qed.

Lemma post_location_events_resolved ks vm :
  (post_location_events rt invoke ks method location vm).2
  = (post_location_events rt invoke ks method location
       (get_jvmti_thread_state rt vm)).2.
Proof. destruct ks as [|k ks]; simpl; [done|]. by rewrite <- post_location_event_resolved. Qed.

(** C2: when single-step and breakpoint events are posted again and again
    at one (method, location) on a thread, each environment is called at
    most once for SingleStep and at most once for Breakpoint; and a post
    at a location other than the one a record is at calls the record's
    environment again, if the event is enabled for the record, the
    environment has a callback for it and the post is not cut short. *)
Theorem location_events_posted_once (vm : VM.t) :
  NoDup (map (λ ets, JvmtiEnv.jvmti_external (JvmtiEnvThreadState.get_env ets))
           (env_thread_states (get_jvmti_thread_state rt vm))) →
  (∀ (ks : list LocationEvent) (e : nat) (k : LocationEvent),
     (count_delivered e (location_event_kind k)
        (delivered (post_location_events rt invoke ks method location vm).2) ≤ 1)%nat)
  ∧ (∀ (k : LocationEvent) (ets : JvmtiEnvThreadState.t),
       ets ∈ env_thread_states (get_jvmti_thread_state rt vm) →
       ¬ at_location method location ets →
       JvmtiEnvThreadState.is_enabled ets (location_event_kind k) = true →
       JvmtiEnv.callbacks (JvmtiEnvThreadState.get_env ets) (location_event_kind k) = true →
       location_post_runs method k (get_jvmti_thread_state rt vm) = true →
       (JvmtiEnv.jvmti_external (JvmtiEnvThreadState.get_env ets), location_event_kind k)
       ∈ delivered (post_location_event rt invoke k method location vm).2).
Proof.
  intros Hnodup. split.
  - intros ks e k. rewrite post_location_events_resolved.
    destruct (thread_records (get_jvmti_thread_state rt vm)) as [L|] eqn:HL.
    + etrans; [by apply post_location_events_pending|].
      apply pending_at_most_one.
      rewrite env_thread_states_records, HL in Hnodup. done.
    + rewrite post_location_events_no_state.
      * unfold count_delivered. simpl. lia.
      * rewrite get_jvmti_thread_state_idempotent. unfold thread_records in HL.
        by destruct (VM.jvmti_thread_state (get_jvmti_thread_state rt vm)).
  - intros k ets Hin Hnat Hen Hcb Hruns. rewrite post_location_event_resolved.
    rewrite env_thread_states_records in Hin.
    destruct (thread_records (get_jvmti_thread_state rt vm)) as [L|] eqn:HL;
      [|by apply elem_of_nil in Hin].
    destruct (post_location_event_records k _ L HL) as [_ H2].
    simpl in H2. rewrite H2, Hruns. apply list_elem_of_In, in_flat_map.
    exists ets. split; [by apply list_elem_of_In|].
    destruct (compare_and_set_moved method location (location_event_kind k) ets Hnat)
      as (_ & Hb & Hs & Hen' & Henv).
    unfold record_called. rewrite Henv, Hen', Hen, Hcb.
    assert (location_posted k
              (JvmtiEnvThreadState.compare_and_set_current_location method location
                 (location_event_kind k) ets) = false) as -> by (by destruct k).
    simpl. by left.
Qed.
End LocationGate.

(** C2 at a concrete input: a step, a breakpoint and a step again at bci 5
    of method 7, on a thread with a record for each of two environments
    that has not been anywhere yet. *)
Lemma location_events_posted_once_witness :
  NoDup (map (λ ets, JvmtiEnv.jvmti_external (JvmtiEnvThreadState.get_env ets))
           (env_thread_states (get_jvmti_thread_state two_env_runtime two_record_thread)))
  ∧ (count_delivered 1 JVMTI_EVENT_SINGLE_STEP
       (delivered
          (post_location_events two_env_runtime silent_agent
             [at_single_step; at_breakpoint; at_single_step]
             (Build_Method 7 0 false) 5 two_record_thread).2) ≤ 1)%nat
  ∧ (1%nat, JVMTI_EVENT_SINGLE_STEP)
    ∈ delivered
        (post_location_event two_env_runtime silent_agent at_single_step
           (Build_Method 7 0 false) 5 two_record_thread).2.
Proof.
  assert (NoDup (map (λ ets, JvmtiEnv.jvmti_external (JvmtiEnvThreadState.get_env ets))
                   (env_thread_states
                      (get_jvmti_thread_state two_env_runtime two_record_thread))))
    as Hnodup by (apply (bool_decide_unpack _); by vm_compute).
  destruct (location_events_posted_once two_env_runtime silent_agent (λ _ _ _ _, eq_refl)
              (Build_Method 7 0 false) 5 two_record_thread Hnodup) as [Honce Hrearmed].
  split; [exact Hnodup|]. split.
  - apply (Honce [at_single_step; at_breakpoint; at_single_step] 1%nat at_single_step).
  - apply (Hrearmed at_single_step (record_of (plain_env 1 true JVMTI_PHASE_LIVE))).
    + vm_compute. left.
    + intros [_ Hmethod]. discriminate Hmethod.
    + reflexivity.
    + reflexivity.
    + reflexivity.
Defined.

(** ** Collectors *)

Section Undisturbed.
Lemma same_shape_refl c : same_shape c c.
Proof. by repeat split. Qed.

Lemma same_shape_trans c1 c2 c3 :
  same_shape c1 c2 → same_shape c2 c3 → same_shape c1 c3.
Proof. intros (?&?&?&?) (?&?&?&?). repeat split; congruence. Qed.

Lemma undisturbed_refl vm : undisturbed vm vm.
Proof.
  split; [done| |done]. intros c col Hc. exists col.
  split; [done|]. split; [apply same_shape_refl|done].
Qed.

Lemma undisturbed_trans vm1 vm2 vm3 :
  undisturbed vm1 vm2 → undisturbed vm2 vm3 → undisturbed vm1 vm3.
Proof.
  intros [S1 A1 D1] [S2 A2 D2]. split.
  - intros k. by rewrite S2, S1.
  - intros c col Hc. destruct (A1 c col Hc) as (col2 & Hc2 & Hsh2 & Hen2 & Hsame2).
    destruct (A2 c col2 Hc2) as (col3 & Hc3 & Hsh3 & Hen3 & Hsame3).
    exists col3. split; [done|]. split; [by eapply same_shape_trans|].
    split; [congruence|].
    intros Hshield. specialize (Hsame2 Hshield). subst col2.
    apply Hsame3. destruct Hshield as [?|Hno]; [by left|right].
    intros k. rewrite S1. apply Hno.
  - intros c Hc. by apply D2, D1.
Qed.

Lemma collectors_untouched_undisturbed vm vm' :
  collectors_untouched vm vm' → undisturbed vm vm'.
Proof.
  intros [Hc Hs]. split; [done| |].
  - intros c col Hcol. exists col. rewrite Hc.
    split; [done|]. split; [apply same_shape_refl|done].
  - intros c. by rewrite Hc.
Qed.

Lemma collectors_untouched_refl vm : collectors_untouched vm vm.
Proof. by split. Qed.

Lemma collectors_untouched_trans vm1 vm2 vm3 :
  collectors_untouched vm1 vm2 → collectors_untouched vm2 vm3 →
  collectors_untouched vm1 vm3.
Proof. intros [C1 S1] [C2 S2]. split; [congruence|]. intros k. by rewrite S2, S1. Qed.
End Undisturbed.

Section UndisturbedPosts.
Context {E : Type}.
Variable rt : Jvmti.t.
Variable invoke : JvmtiEnv.t → jvmtiEvent → callback_args → VM.t → VM.t * list E.
(** The agent's callbacks keep to the discipline. *)
Hypothesis invoke_undisturbed : ∀ env k args vm, undisturbed vm (invoke env k args vm).1.

Lemma slot_update_state k f vm :
  (∀ s, JvmtiThreadState.get_vm_object_alloc_event_collector (f s)
        = JvmtiThreadState.get_vm_object_alloc_event_collector s
        ∧ JvmtiThreadState.get_dynamic_code_event_collector (f s)
          = JvmtiThreadState.get_dynamic_code_event_collector s
        ∧ JvmtiThreadState.get_sampled_object_alloc_event_collector (f s)
          = JvmtiThreadState.get_sampled_object_alloc_event_collector s) →
  slot k (VM.update_state f vm) = slot k vm.
Proof.
  intros Hf. unfold slot, VM.update_state.
  destruct (VM.jvmti_thread_state vm) as [s|] eqn:Hs; simpl; [|by rewrite Hs].
  destruct (Hf s) as (H1 & H2 & H3). by destruct k.
Qed.

Lemma collectors_update_state f vm :
  VM.collectors (VM.update_state f vm) = VM.collectors vm.
Proof. unfold VM.update_state. by destruct (VM.jvmti_thread_state vm). Qed.

Lemma ctor_untouched vm : collectors_untouched vm (JvmtiEventMark.ctor vm).2.
Proof. by split. Qed.

Lemma dtor_untouched jem vm : collectors_untouched vm (JvmtiEventMark.dtor jem vm).
Proof.
  unfold JvmtiEventMark.dtor. split.
  - by rewrite collectors_update_state.
  - intros k. by rewrite slot_update_state.
Qed.

Lemma thread_started_untouched vm :
  collectors_untouched vm (JvmtiEventController_thread_started rt vm).
Proof.
  unfold JvmtiEventController_thread_started.
  destruct (VM.jvmti_thread_state vm) eqn:Hs; [apply collectors_untouched_refl|].
  split; [done|]. intros k. unfold slot. rewrite Hs. simpl. by destruct k.
Qed.

Lemma get_jvmti_thread_state_untouched vm :
  collectors_untouched vm (get_jvmti_thread_state rt vm).
Proof.
  unfold get_jvmti_thread_state.
  destruct (_ && _); [apply thread_started_untouched|apply collectors_untouched_refl].
Qed.

Lemma call_callback_undisturbed env k args vm :
  undisturbed vm (call_callback invoke env k args vm).1.
Proof.
  unfold call_callback. destruct (JvmtiEnv.callbacks env k); [|apply undisturbed_refl].
  pose proof (invoke_undisturbed env k args vm) as H.
  by destruct (invoke env k args vm).
Qed.

Lemma callback_scope_undisturbed env k args vm :
  undisturbed vm (callback_scope invoke env k args vm).1.
Proof.
  unfold callback_scope. rewrite scope_machine.
  eapply undisturbed_trans;
    [apply collectors_untouched_undisturbed, ctor_untouched|].
  eapply undisturbed_trans; [apply call_callback_undisturbed|].
  apply collectors_untouched_undisturbed, dtor_untouched.
Qed.

Lemma for_each_undisturbed {X} (body : X → VM.t → VM.t * trace (E:=E)) l vm :
  (∀ x vm, undisturbed vm (body x vm).1) →
  undisturbed vm (for_each body l vm).1.
Proof.
  intros Hbody. revert vm. induction l as [|x l IH]; intros vm; simpl.
  { apply undisturbed_refl. }
  pose proof (Hbody x vm) as H1. destruct (body x vm) as [vm1 t1].
  pose proof (IH vm1) as H2. destruct (for_each body l vm1) as [vm2 t2].
  simpl in *. by eapply undisturbed_trans.
Qed.

Lemma post_vm_object_alloc_undisturbed object vm :
  undisturbed vm (post_vm_object_alloc rt invoke object vm).1.
Proof.
  unfold post_vm_object_alloc. destruct object as [obj|]; [|apply undisturbed_refl].
  destruct (VM.should_hide_jvmti_events vm); [apply undisturbed_refl|].
  apply for_each_undisturbed. intros env vm'.
  destruct (JvmtiEnv.is_enabled env _);
    [apply callback_scope_undisturbed|apply undisturbed_refl].
Qed.

Lemma post_sampled_object_alloc_undisturbed object vm :
  undisturbed vm (post_sampled_object_alloc rt invoke object vm).1.
Proof.
  unfold post_sampled_object_alloc, with_thread_state.
  eapply undisturbed_trans;
    [apply collectors_untouched_undisturbed, get_jvmti_thread_state_untouched|].
  destruct (VM.jvmti_thread_state (get_jvmti_thread_state rt vm));
    [|apply undisturbed_refl].
  destruct object as [obj|]; [|apply undisturbed_refl].
  destruct (VM.should_hide_jvmti_events _); [apply undisturbed_refl|].
  apply for_each_undisturbed. intros i vm'.
  destruct (ets_at i vm'); [|apply undisturbed_refl].
  destruct (JvmtiEnvThreadState.is_enabled _ _);
    [apply callback_scope_undisturbed|apply undisturbed_refl].
Qed.

Lemma call_post_callback_undisturbed f obj vm :
  undisturbed vm (call_post_callback rt invoke f obj vm).1.
Proof.
  destruct f as [[]|]; unfold call_post_callback.
  - apply post_vm_object_alloc_undisturbed.
  - apply post_sampled_object_alloc_undisturbed.
  - apply undisturbed_refl.
Qed.
End UndisturbedPosts.

Section SlotLemmas.
Variable rt : Jvmti.t.

Lemma collectors_update_collector c f vm :
  VM.collectors (update_collector c f vm) = alter f c (VM.collectors vm).
Proof. done. Qed.

Lemma slot_update_collector k c f vm :
  slot k (update_collector c f vm) = slot k vm.
Proof. done. Qed.

Lemma collector_at_update_collector c f vm :
  collector_at c (update_collector c f vm) = f <$> collector_at c vm.
Proof. unfold collector_at. simpl. by rewrite lookup_alter_eq. Qed.

Lemma collector_at_update_collector_ne c c' f vm :
  c ≠ c' → collector_at c' (update_collector c f vm) = collector_at c' vm.
Proof. intros Hne. unfold collector_at. simpl. by rewrite lookup_alter_ne. Qed.

Lemma slot_state_for k vm : slot k (JvmtiThreadState_state_for rt vm) = slot k vm.
Proof. apply (thread_started_untouched rt vm). Qed.

Lemma state_for_is_Some vm :
  is_Some (VM.jvmti_thread_state (JvmtiThreadState_state_for rt vm)).
Proof.
  unfold JvmtiThreadState_state_for, JvmtiEventController_thread_started.
  destruct (VM.jvmti_thread_state vm) eqn:Hs; simpl; [rewrite Hs|]; eauto.
Qed.

(** Writing a slot of a thread that has a state. *)
Lemma slot_set k k' x vm :
  is_Some (VM.jvmti_thread_state vm) →
  slot k'
    (VM.update_state
       match k with
       | is_vm_object_alloc_event =>
           JvmtiThreadState.set_vm_object_alloc_event_collector x
       | is_dynamic_code_event =>
           JvmtiThreadState.set_dynamic_code_event_collector x
       | is_sampled_object_alloc_event =>
           JvmtiThreadState.set_sampled_object_alloc_event_collector x
       end vm)
  = if decide (k' = k) then x else slot k' vm.
Proof.
  intros [s Hs]. unfold slot, VM.update_state. rewrite Hs. simpl.
  by destruct k, k'.
Qed.

(** [setup_jvmti_thread_state] on a collector fresh from its
    constructors. *)
Lemma setup_jvmti_thread_state_spec this col vm :
  collector_at this vm = Some col →
  let vm' := setup_jvmti_thread_state rt this vm in
  let k := Collector.kind col in
  if installs k vm then
    VM.collectors vm'
    = <[this := Collector.set_unset_jvmti_thread_state true
                  (match k with
                   | is_sampled_object_alloc_event => col
                   | _ => Collector.set_prev (slot k vm) col
                   end)]> (VM.collectors vm)
    ∧ ∀ k', slot k' vm' = if decide (k' = k) then Some this else slot k' vm
  else collectors_untouched vm vm'.
Proof.
  intros Hcol. simpl. unfold setup_jvmti_thread_state.
  pose proof (thread_started_untouched rt vm) as [Hc Hs].
  fold (JvmtiThreadState_state_for rt vm) in Hc, Hs.
  destruct (state_for_is_Some vm) as [state Hstate].
  set (vm0 := JvmtiThreadState_state_for rt vm) in *.
  assert (collector_at this vm0 = Some col) as Hcol0.
  { unfold collector_at. by rewrite Hc. }
  rewrite Hstate, Hcol0.
  assert (∀ k, slot k vm0 = match k with
                            | is_vm_object_alloc_event =>
                                JvmtiThreadState.get_vm_object_alloc_event_collector state
                            | is_dynamic_code_event =>
                                JvmtiThreadState.get_dynamic_code_event_collector state
                            | is_sampled_object_alloc_event =>
                                JvmtiThreadState.get_sampled_object_alloc_event_collector state
                            end) as Hslot.
  { intros k. unfold slot. by rewrite Hstate. }
  assert (∀ p, occupied_and_disabled p vm0 = occupied_and_disabled p vm) as Hocc.
  { intros [p|]; [|done]. unfold occupied_and_disabled, collector_at. by rewrite Hc. }
  destruct (Collector.kind col) eqn:Hk; simpl.
  - rewrite <- (Hslot is_vm_object_alloc_event), Hocc, Hs.
    destruct (occupied_and_disabled _ vm); simpl.
    + split; [done|]. intros k. apply Hs.
    + split.
      * cbn [VM.collectors update_collector VM.set_collectors].
        rewrite collectors_update_state.
        cbn [VM.collectors update_collector VM.set_collectors]. rewrite Hc.
        apply map_eq. intros c. destruct (decide (c = this)) as [->|Hne].
        -- rewrite lookup_insert_eq, !lookup_alter_eq.
           unfold collector_at in Hcol. by rewrite Hcol.
        -- by rewrite lookup_insert_ne, !lookup_alter_ne.
      * intros k'. rewrite slot_update_collector.
        rewrite (slot_set is_vm_object_alloc_event); [|by eexists].
        case_decide; [done|]. rewrite slot_update_collector. apply Hs.
  - rewrite <- (Hslot is_dynamic_code_event), Hs. split.
    + cbn [VM.collectors update_collector VM.set_collectors].
      rewrite collectors_update_state.
      cbn [VM.collectors update_collector VM.set_collectors]. rewrite Hc.
      apply map_eq. intros c. destruct (decide (c = this)) as [->|Hne].
      * rewrite lookup_insert_eq, !lookup_alter_eq.
        unfold collector_at in Hcol. by rewrite Hcol.
      * by rewrite lookup_insert_ne, !lookup_alter_ne.
    + intros k'. rewrite slot_update_collector.
      rewrite (slot_set is_dynamic_code_event); [|by eexists].
      case_decide; [done|]. rewrite slot_update_collector. apply Hs.
  - rewrite <- (Hslot is_sampled_object_alloc_event), Hs.
    destruct (is_Some_dec _); simpl.
    + split; [done|]. intros k. apply Hs.
    + split.
      * cbn [VM.collectors update_collector VM.set_collectors].
        rewrite collectors_update_state, Hc.
        apply map_eq. intros c. destruct (decide (c = this)) as [->|Hne].
        -- rewrite lookup_insert_eq, lookup_alter_eq.
           unfold collector_at in Hcol. by rewrite Hcol.
        -- by rewrite lookup_insert_ne, lookup_alter_ne.
      * intros k'. rewrite slot_update_collector.
        rewrite (slot_set is_sampled_object_alloc_event); [|by eexists].
        case_decide; [done|]. apply Hs.
Qed.
End SlotLemmas.

Section UnsetLemma.
(** [unset_jvmti_thread_state] gives the slot back to the saved occupant
    when the collector was installed and is still the occupant; it touches
    no collector. *)
Lemma unset_jvmti_thread_state_spec this col vm :
  collector_at this vm = Some col →
  let vm' := unset_jvmti_thread_state this vm in
  VM.collectors vm' = VM.collectors vm
  ∧ ∀ k, slot k vm'
         = if bool_decide (k = Collector.kind col)
              && Collector._unset_jvmti_thread_state col
              && bool_decide (slot k vm = Some this)
           then Collector._prev col else slot k vm.
Proof.
  intros Hcol. simpl. unfold unset_jvmti_thread_state. rewrite Hcol.
  destruct (Collector._unset_jvmti_thread_state col); simpl.
  2: { split; [done|]. intros k. by rewrite andb_false_r. }
  destruct (VM.jvmti_thread_state vm) as [state|] eqn:Hstate.
  2: { split; [done|]. intros k. unfold slot. rewrite Hstate.
       rewrite (bool_decide_eq_false_2 (None = Some this)); [|done].
       by rewrite andb_false_r. }
  assert (is_Some (VM.jvmti_thread_state vm)) as Hsome by eauto.
  assert (∀ k, slot k vm = match k with
                           | is_vm_object_alloc_event =>
                               JvmtiThreadState.get_vm_object_alloc_event_collector state
                           | is_dynamic_code_event =>
                               JvmtiThreadState.get_dynamic_code_event_collector state
                           | is_sampled_object_alloc_event =>
                               JvmtiThreadState.get_sampled_object_alloc_event_collector state
                           end) as Hslot.
  { intros k. unfold slot. by rewrite Hstate. }
  assert (∀ k0 x k,
            k0 = Collector.kind col →
            slot k (VM.update_state
                      match k0 with
                      | is_vm_object_alloc_event =>
                          JvmtiThreadState.set_vm_object_alloc_event_collector x
                      | is_dynamic_code_event =>
                          JvmtiThreadState.set_dynamic_code_event_collector x
                      | is_sampled_object_alloc_event =>
                          JvmtiThreadState.set_sampled_object_alloc_event_collector x
                      end vm)
            = if bool_decide (k = Collector.kind col) then x else slot k vm) as Hset.
  { intros k0 x k ->. rewrite slot_set by done.
    destruct (decide (k = Collector.kind col)) as [Heq|Hne].
    - by rewrite bool_decide_eq_true_2.
    - by rewrite bool_decide_eq_false_2. }
  assert (∀ k, (if bool_decide (k = Collector.kind col) && true
                   && bool_decide (slot k vm = Some this)
                then Collector._prev col else slot k vm)
               = if bool_decide (slot (Collector.kind col) vm = Some this)
                 then (if bool_decide (k = Collector.kind col)
                       then Collector._prev col else slot k vm)
                 else slot k vm) as Hrw.
  { intros k. destruct (decide (k = Collector.kind col)) as [->|Hne].
    - rewrite bool_decide_eq_true_2 by done. simpl. by destruct (bool_decide _).
    - rewrite (bool_decide_eq_false_2 _ Hne). simpl. by destruct (bool_decide _). }
  destruct (Collector.kind col) eqn:Hk.
  - rewrite <- (Hslot is_vm_object_alloc_event).
    destruct (bool_decide _) eqn:Hocc.
    + split; [apply collectors_update_state|]. intros k. rewrite Hrw.
      by apply (Hset is_vm_object_alloc_event).
    + split; [done|]. intros k. by rewrite Hrw.
  - rewrite <- (Hslot is_dynamic_code_event).
    destruct (bool_decide _) eqn:Hocc.
    + split; [apply collectors_update_state|]. intros k. rewrite Hrw.
      by apply (Hset is_dynamic_code_event).
    + split; [done|]. intros k. by rewrite Hrw.
  - rewrite <- (Hslot is_sampled_object_alloc_event).
    destruct (bool_decide _) eqn:Hocc.
    + split; [apply collectors_update_state|]. intros k. rewrite Hrw.
      by apply (Hset is_sampled_object_alloc_event).
    + split; [done|]. intros k. by rewrite Hrw.
Qed.
End UnsetLemma.

Section Flush.
Context {E : Type}.
Variable rt : Jvmti.t.
Variable invoke : JvmtiEnv.t → jvmtiEvent → callback_args → VM.t → VM.t * list E.
Hypothesis invoke_undisturbed : ∀ env k args vm, undisturbed vm (invoke env k args vm).1.

Lemma undisturbed_disabled vm vm' c col :
  undisturbed vm vm' →
  collector_at c vm = Some col → Collector._enable col = false →
  collector_at c vm' = Some col.
Proof.
  intros [_ Halive _] Hc Hoff.
  destruct (Halive c col Hc) as (col' & Hc' & _ & _ & Hsame).
  rewrite (Hsame (or_introl Hoff)) in Hc'. done.
Qed.

Lemma post_each_undisturbed this f l vm :
  undisturbed vm (post_each rt invoke this f l vm).1.
Proof.
  revert vm. induction l as [|obj l IH]; intros vm; simpl; [apply undisturbed_refl|].
  pose proof (call_post_callback_undisturbed rt invoke invoke_undisturbed f obj vm) as H1.
  destruct (call_post_callback rt invoke f obj vm) as [vm1 calls].
  pose proof (IH vm1) as H2. destruct (post_each rt invoke this f l vm1) as [vm2 ps].
  simpl in *. by eapply undisturbed_trans.
Qed.

Lemma post_each_posted this f l vm :
  map posted_object (post_each rt invoke this f l vm).2 = l
  ∧ Forall (λ p, posted_collector p = this ∧ posted_fn p = f)
      (post_each rt invoke this f l vm).2.
Proof.
  revert vm. induction l as [|obj l IH]; intros vm; simpl; [done|].
  destruct (call_post_callback rt invoke f obj vm) as [vm1 calls].
  destruct (IH vm1) as [H1 H2]. destruct (post_each rt invoke this f l vm1) as [vm2 ps].
  simpl in *. split; [by rewrite H1|by constructor].
Qed.

(** The loop of the sources, which reads the buffer again at every round,
    does what a walk over the buffer as it was at the start does: the
    collector being flushed is switched off, so nothing the callbacks do
    reaches it.  Rounds beyond the length of the buffer are never used. *)
Lemma generate_loop_snapshot this col l suffix :
  ∀ (i n : nat) vm,
    collector_at this vm = Some col →
    Collector._enable col = false →
    Collector._allocated col = Some l →
    drop i l = suffix →
    (length suffix ≤ n)%nat →
    generate_loop rt invoke this n i vm
    = post_each rt invoke this (Collector._post_callback col) suffix vm.
Proof.
  induction suffix as [|obj suffix IH]; intros i n vm Hcol Hoff Hall Hdrop Hlen.
  - assert (l !! i = None) as Hnone.
    { apply lookup_ge_None. apply (f_equal length) in Hdrop.
      rewrite length_drop in Hdrop. simpl in Hdrop. lia. }
    destruct n as [|n]; simpl; [done|]. rewrite Hcol, Hall. simpl. by rewrite Hnone.
  - assert (l !! i = Some obj) as Hobj.
    { rewrite <- (Nat.add_0_r i), <- lookup_drop, Hdrop. done. }
    destruct n as [|n]; simpl in Hlen; [lia|]. simpl.
    rewrite Hcol, Hall. simpl. rewrite Hobj.
    pose proof (call_post_callback_undisturbed rt invoke invoke_undisturbed
                  (Collector._post_callback col) obj vm) as Hu.
    destruct (call_post_callback rt invoke _ obj vm) as [vm1 calls]. simpl in Hu.
    rewrite (IH (S i) n vm1); [done| |done|done| |lia].
    + by eapply undisturbed_disabled.
    + rewrite (drop_S l obj i Hobj) in Hdrop. by inversion Hdrop.
Qed.

Lemma generate_call_for_allocated_spec this self l vm :
  collector_at this vm = Some self →
  Collector._allocated self = Some l →
  generate_call_for_allocated rt invoke this vm
  = let r := post_each rt invoke this (Collector._post_callback self) l
               (update_collector this (Collector.set_enabled false) vm) in
    (update_collector this (Collector.set_allocated None) r.1, r.2).
Proof.
  intros Hself Hall. unfold generate_call_for_allocated. rewrite Hself, Hall.
  rewrite (generate_loop_snapshot this (Collector.set_enabled false self) l l 0).
  - simpl. by destruct (post_each _ _ _ _ _ _).
  - by rewrite collector_at_update_collector, Hself.
  - done.
  - done.
  - done.
  - done.
Qed.
End Flush.

Section Around.
Lemma undisturbed_weaken this vm vm' :
  undisturbed vm vm' → undisturbed_around this vm vm'.
Proof.
  intros [Hs Ha Hd]. split; [done| |done].
  intros c col Hc. destruct (Ha c col Hc) as (col' & ? & ? & ? & ?).
  exists col'. split; [done|]. split; [done|]. intros _. by split.
Qed.

Lemma around_trans this vm1 vm2 vm3 :
  undisturbed_around this vm1 vm2 → undisturbed_around this vm2 vm3 →
  undisturbed_around this vm1 vm3.
Proof.
  intros [S1 A1 D1] [S2 A2 D2]. split.
  - intros k. by rewrite S2, S1.
  - intros c col Hc. destruct (A1 c col Hc) as (col2 & Hc2 & Hsh2 & Hrest2).
    destruct (A2 c col2 Hc2) as (col3 & Hc3 & Hsh3 & Hrest3).
    exists col3. split; [done|]. split; [by eapply same_shape_trans|].
    intros Hne. destruct (Hrest2 Hne) as [Hen2 Hsame2].
    destruct (Hrest3 Hne) as [Hen3 Hsame3]. split; [congruence|].
    intros Hshield. specialize (Hsame2 Hshield). subst col2.
    apply Hsame3. destruct Hshield as [?|Hno]; [by left|right].
    intros k. rewrite S1. apply Hno.
  - intros c Hc. by apply D2, D1.
Qed.

Lemma around_update this f vm :
  (∀ col, same_shape col (f col)) →
  undisturbed_around this vm (update_collector this f vm).
Proof.
  intros Hf. split; [done| |].
  - intros c col Hc. simpl. destruct (decide (c = this)) as [->|Hne].
    + exists (f col). rewrite lookup_alter_eq, Hc.
      split; [done|]. split; [apply Hf|done].
    + exists col. rewrite lookup_alter_ne by done.
      split; [done|]. split; [apply same_shape_refl|done].
  - intros c Hc. simpl. destruct (decide (c = this)) as [->|Hne].
    + by rewrite lookup_alter_eq, Hc.
    + by rewrite lookup_alter_ne.
Qed.

Lemma same_shape_set_enabled b col : same_shape col (Collector.set_enabled b col).
Proof. by repeat split. Qed.

Lemma same_shape_set_allocated l col : same_shape col (Collector.set_allocated l col).
Proof. by repeat split. Qed.
End Around.

Section FlushAround.
Context {E : Type}.
Variable rt : Jvmti.t.
Variable invoke : JvmtiEnv.t → jvmtiEvent → callback_args → VM.t → VM.t * list E.
Hypothesis invoke_undisturbed : ∀ env k args vm, undisturbed vm (invoke env k args vm).1.

Lemma generate_loop_undisturbed this (n i : nat) vm :
  undisturbed vm (generate_loop rt invoke this n i vm).1.
Proof.
  revert i vm. induction n as [|n IH]; intros i vm; simpl; [apply undisturbed_refl|].
  destruct (collector_at this vm) as [self|]; [|apply undisturbed_refl].
  destruct (_ !! i) as [obj|]; [|apply undisturbed_refl].
  pose proof (call_post_callback_undisturbed rt invoke invoke_undisturbed
                (Collector._post_callback self) obj vm) as H1.
  destruct (call_post_callback rt invoke _ obj vm) as [vm1 calls].
  pose proof (IH (S i) vm1) as H2.
  destruct (generate_loop rt invoke this n (S i) vm1) as [vm2 ps].
  simpl in *. by eapply undisturbed_trans.
Qed.

Lemma generate_call_for_allocated_around this vm :
  undisturbed_around this vm (generate_call_for_allocated rt invoke this vm).1.
Proof.
  unfold generate_call_for_allocated.
  destruct (collector_at this vm) as [self|];
    [|apply undisturbed_weaken, undisturbed_refl].
  destruct (Collector._allocated self) as [l|];
    [|apply undisturbed_weaken, undisturbed_refl].
  pose proof (generate_loop_undisturbed this (length l) 0
                (update_collector this (Collector.set_enabled false) vm)) as H.
  destruct (generate_loop _ _ _ _ _ _) as [vm2 ps]. simpl in *.
  eapply around_trans; [apply around_update, same_shape_set_enabled|].
  eapply around_trans; [by apply undisturbed_weaken|].
  apply around_update, same_shape_set_allocated.
Qed.

(** The destructors, up to the call of [unset_jvmti_thread_state]. *)
Lemma VM_dtor_around this vm :
  ∃ vmf, undisturbed_around this vm vmf
         ∧ (JvmtiVMObjectAllocEventCollector_dtor rt invoke this vm).1
           = unset_jvmti_thread_state this vmf.
Proof.
  unfold JvmtiVMObjectAllocEventCollector_dtor.
  destruct (collector_at this vm) as [self|].
  - destruct (Collector._enable self).
    + pose proof (generate_call_for_allocated_around this vm) as H.
      destruct (generate_call_for_allocated rt invoke this vm) as [vmf ps].
      by exists vmf.
    + exists vm. split; [apply undisturbed_weaken, undisturbed_refl|done].
  - exists vm. split; [apply undisturbed_weaken, undisturbed_refl|done].
Qed.

Lemma unset_not_installed this self vm :
  collector_at this vm = Some self →
  Collector._unset_jvmti_thread_state self = false →
  unset_jvmti_thread_state this vm = vm.
Proof. intros Hc Hf. unfold unset_jvmti_thread_state. by rewrite Hc, Hf. Qed.

Lemma sampled_dtor_around this self vm :
  collector_at this vm = Some self →
  (Collector._enable self = false → Collector._unset_jvmti_thread_state self = false) →
  ∃ vmf, undisturbed_around this vm vmf
         ∧ (JvmtiSampledObjectAllocEventCollector_dtor rt invoke this vm).1
           = unset_jvmti_thread_state this vmf.
Proof.
  intros Hc Hoff. unfold JvmtiSampledObjectAllocEventCollector_dtor. rewrite Hc.
  destruct (Collector._enable self); simpl.
  - pose proof (generate_call_for_allocated_around this vm) as H.
    destruct (generate_call_for_allocated rt invoke this vm) as [vmf ps].
    by exists vmf.
  - exists vm. split; [apply undisturbed_weaken, undisturbed_refl|].
    symmetry. eapply unset_not_installed; eauto.
Qed.
End FlushAround.

Section Scopes.
Variable rt : Jvmti.t.

Lemma fresh_collector_dead vm :
  VM.collectors vm !! fresh (dom (VM.collectors vm)) = None.
Proof. apply not_elem_of_dom, is_fresh. Qed.

Lemma occupied_and_disabled_new p k0 vm :
  let this := fresh (dom (VM.collectors vm)) in
  occupied_and_disabled p (update_collector this (Collector.set_enabled true)
                             (new_collector k0 vm).2)
  = occupied_and_disabled p vm.
Proof.
  destruct p as [p|]; [|done]. simpl. unfold collector_at. simpl.
  destruct (decide (p = fresh (dom (VM.collectors vm)))) as [->|Hne].
  - by rewrite lookup_alter_eq, lookup_insert_eq, fresh_collector_dead.
  - by rewrite lookup_alter_ne, lookup_insert_ne.
Qed.

Lemma installs_new k k0 vm :
  let this := fresh (dom (VM.collectors vm)) in
  installs k (update_collector this (Collector.set_enabled true)
                (new_collector k0 vm).2)
  = installs k vm.
Proof.
  intros this. destruct k; [|done|done]. unfold installs.
  by rewrite (occupied_and_disabled_new _ k0 vm).
Qed.

Lemma start_spec k f vm :
  let this := fresh (dom (VM.collectors vm)) in
  let vm1 := update_collector this (Collector.set_post_callback (Some f))
               (setup_jvmti_thread_state rt this
                  (update_collector this (Collector.set_enabled true)
                     (new_collector k vm).2)) in
  VM.collectors vm1
  = <[this := Collector.Make k
                (match k with
                 | is_sampled_object_alloc_event => None
                 | _ => if installs k vm then slot k vm else None
                 end)
                (installs k vm) None None true (Some f)]> (VM.collectors vm)
  ∧ ∀ k', slot k' vm1
          = if installs k vm && bool_decide (k' = k) then Some this else slot k' vm.
Proof.
  intros this vm1. subst vm1.
  set (vm0 := update_collector this (Collector.set_enabled true) (new_collector k vm).2).
  assert (collector_at this vm0 = Some (Collector.set_enabled true (Collector.init k)))
    as Hcol.
  { unfold vm0, collector_at. simpl. fold this.
    by rewrite lookup_alter_eq, lookup_insert_eq. }
  assert (VM.collectors vm0
          = <[this := Collector.set_enabled true (Collector.init k)]> (VM.collectors vm))
    as Hvm0.
  { unfold vm0. simpl. fold this. by rewrite alter_insert_eq. }
  assert (∀ k', slot k' vm0 = slot k' vm) as Hslot0 by done.
  pose proof (setup_jvmti_thread_state_spec rt this _ vm0 Hcol) as Hsetup.
  cbv zeta in Hsetup.
  change (Collector.kind (Collector.set_enabled true (Collector.init k))) with k in Hsetup.
  pose proof (installs_new k k vm) as Hin.
  change (installs k vm0 = installs k vm) in Hin. rewrite Hin in Hsetup.
  destruct (installs k vm) eqn:Hi.
  - destruct Hsetup as [Hc Hs]. split.
    + cbn [VM.collectors update_collector VM.set_collectors].
      rewrite Hc, Hvm0, insert_insert_eq, alter_insert_eq. f_equal.
      rewrite Hslot0. by destruct k.
    + intros k'. rewrite slot_update_collector, Hs, Hslot0. simpl.
      destruct (decide (k' = k)) as [->|Hne].
      * by rewrite bool_decide_eq_true_2.
      * by rewrite bool_decide_eq_false_2.
  - destruct Hsetup as [Hc Hs]. split.
    + cbn [VM.collectors update_collector VM.set_collectors].
      rewrite Hc, Hvm0, alter_insert_eq. f_equal. by destruct k.
    + intros k'. by rewrite slot_update_collector, Hs, Hslot0.
Qed.
End Scopes.

Section ScopeFrame.
Variable rt : Jvmti.t.

Lemma VM_ctor_spec vm :
  let this := fresh (dom (VM.collectors vm)) in
  let started := Jvmti.should_post_vm_object_alloc rt in
  let vm1 := JvmtiVMObjectAllocEventCollector_ctor rt this
               (new_collector is_vm_object_alloc_event vm).2 in
  VM.collectors vm1
  = <[this := collector_after_start is_vm_object_alloc_event started vm]>
      (VM.collectors vm)
  ∧ ∀ k', slot k' vm1
          = if started && installs is_vm_object_alloc_event vm
               && bool_decide (k' = is_vm_object_alloc_event)
            then Some this else slot k' vm.
Proof.
  simpl. unfold JvmtiVMObjectAllocEventCollector_ctor, collector_after_start.
  destruct (Jvmti.should_post_vm_object_alloc rt); [|done].
  apply (start_spec rt is_vm_object_alloc_event).
Qed.

Lemma sampled_start_spec vm :
  let this := fresh (dom (VM.collectors vm)) in
  let started := Jvmti.should_post_sampled_object_alloc rt
                 && object_alloc_is_safe_to_sample vm in
  let vm1 := JvmtiSampledObjectAllocEventCollector_start rt this
               (new_collector is_sampled_object_alloc_event vm).2 in
  VM.collectors vm1
  = <[this := collector_after_start is_sampled_object_alloc_event started vm]>
      (VM.collectors vm)
  ∧ ∀ k', slot k' vm1
          = if started && installs is_sampled_object_alloc_event vm
               && bool_decide (k' = is_sampled_object_alloc_event)
            then Some this else slot k' vm.
Proof.
  simpl. unfold JvmtiSampledObjectAllocEventCollector_start, collector_after_start.
  destruct (Jvmti.should_post_sampled_object_alloc rt); [|done].
  assert (∀ h, object_alloc_is_safe_to_sample (VM.set_collectors h vm)
               = object_alloc_is_safe_to_sample vm) as Hsafe by done.
  rewrite !Hsafe.
  destruct (object_alloc_is_safe_to_sample vm); simpl; [|done].
  apply (start_spec rt is_sampled_object_alloc_event).
Qed.

(** A scope seen from outside: a collector that was not there comes, takes
    a slot or not, and goes, giving the slot back. *)
Lemma scope_undisturbed vm this C k (installed : bool) vm1 vmf :
  VM.collectors vm !! this = None →
  VM.collectors vm1 = <[this := C]> (VM.collectors vm) →
  (∀ k', slot k' vm1
         = if installed && bool_decide (k' = k) then Some this else slot k' vm) →
  Collector.kind C = k →
  Collector._unset_jvmti_thread_state C = installed →
  (installed = true → Collector._prev C = slot k vm) →
  undisturbed_around this vm1 vmf →
  undisturbed vm (delete_collector this (unset_jvmti_thread_state this vmf)).
Proof.
  intros Hdead Hc1 Hs1 Hk Hflag Hprev [Sf Af Df].
  destruct (Af this C) as (C' & HC' & (Hk' & Hp' & Hf' & _) & _).
  { by rewrite Hc1, lookup_insert_eq. }
  destruct (unset_jvmti_thread_state_spec this C' vmf HC') as [Hcu Hsu].
  split.
  - intros k'.
    change (slot k' (delete_collector this (unset_jvmti_thread_state this vmf)))
      with (slot k' (unset_jvmti_thread_state this vmf)).
    rewrite Hsu, Sf, Hs1, Hk', Hp', Hf', Hk, Hflag.
    destruct installed; simpl; [|by rewrite andb_false_r].
    destruct (decide (k' = k)) as [->|Hne].
    + rewrite !bool_decide_eq_true_2 by done. simpl. by apply Hprev.
    + by rewrite (bool_decide_eq_false_2 _ Hne).
  - intros c col Hc. assert (c ≠ this) as Hne by (intros ->; congruence).
    destruct (Af c col) as (col' & Hc' & Hsh & Hrest).
    { by rewrite Hc1, lookup_insert_ne. }
    destruct (Hrest Hne) as [Hen Hsame]. exists col'. split.
    { simpl. by rewrite lookup_delete_ne, Hcu. }
    split; [done|]. split; [done|]. intros Hshield. apply Hsame.
    destruct Hshield as [?|Hno]; [by left|right]. intros k'. rewrite Hs1.
    destruct (installed && _); [congruence|apply Hno].
  - intros c Hc. simpl. destruct (decide (c = this)) as [->|Hne].
    + by rewrite lookup_delete_eq.
    + rewrite lookup_delete_ne, Hcu by done. apply Df.
      by rewrite Hc1, lookup_insert_ne.
Qed.

Lemma record_allocation_undisturbed c col k obj vm :
  collector_at c vm = Some col → Collector._enable col = true →
  slot k vm = Some c →
  undisturbed vm (record_allocation c obj vm).
Proof.
  intros Hc Hon Hk. split; [done| |].
  - intros c' col' Hc'. simpl. destruct (decide (c' = c)) as [->|Hne].
    + rewrite lookup_alter_eq, Hc'. eexists. split; [done|].
      split; [apply same_shape_set_allocated|]. split; [done|].
      unfold collector_at in Hc. rewrite Hc in Hc'. injection Hc' as <-.
      intros [Hoff|Hno]; [congruence|]. by destruct (Hno k).
    + exists col'. rewrite lookup_alter_ne by done.
      split; [done|]. split; [apply same_shape_refl|done].
  - intros c' Hc'. simpl. destruct (decide (c' = c)) as [->|Hne].
    + by rewrite lookup_alter_eq, Hc'.
    + by rewrite lookup_alter_ne.
Qed.

Lemma record_vm_internal_object_allocation_undisturbed obj vm :
  undisturbed vm (record_vm_internal_object_allocation obj vm).
Proof.
  unfold record_vm_internal_object_allocation.
  destruct (VM.jvmti_thread_state vm) as [s|] eqn:Hs; [|apply undisturbed_refl].
  destruct (JvmtiThreadState.get_vm_object_alloc_event_collector s) as [c|] eqn:Hc;
    [|apply undisturbed_refl].
  destruct (collector_at c vm) as [col|] eqn:Hcol; [|apply undisturbed_refl].
  destruct (Collector.is_enabled col) eqn:Hon; [|apply undisturbed_refl].
  destruct (negb _); [|apply undisturbed_refl].
  apply (record_allocation_undisturbed c col is_vm_object_alloc_event); [done|done|].
  unfold slot. by rewrite Hs.
Qed.

Lemma record_sampled_internal_object_allocation_undisturbed obj vm :
  undisturbed vm (record_sampled_internal_object_allocation obj vm).
Proof.
  unfold record_sampled_internal_object_allocation.
  destruct (VM.jvmti_thread_state vm) as [s|] eqn:Hs; [|apply undisturbed_refl].
  destruct (JvmtiThreadState.get_sampled_object_alloc_event_collector s) as [c|] eqn:Hc;
    [|apply undisturbed_refl].
  destruct (collector_at c vm) as [col|] eqn:Hcol; [|apply undisturbed_refl].
  destruct (Collector.is_enabled col) eqn:Hon; [|apply undisturbed_refl].
  apply (record_allocation_undisturbed c col is_sampled_object_alloc_event); [done|done|].
  unfold slot. by rewrite Hs.
Qed.

Lemma set_enabled_back col :
  Collector._enable col = true →
  Collector.set_enabled true (Collector.set_enabled false col) = col.
Proof. destruct col. simpl. by intros ->. Qed.

(** [NoJvmtiVMObjectAllocMark] around a body that keeps to the
    discipline. *)
Lemma NoJvmtiVMObjectAllocMark_undisturbed vm vm2 :
  undisturbed (NoJvmtiVMObjectAllocMark_ctor rt vm).2 vm2 →
  undisturbed vm
    (NoJvmtiVMObjectAllocMark_dtor (NoJvmtiVMObjectAllocMark_ctor rt vm).1 vm2).
Proof.
  unfold NoJvmtiVMObjectAllocMark_ctor.
  destruct (negb _); [done|].
  destruct (VM.jvmti_thread_state vm) as [s|] eqn:Hs; [|done].
  destruct (JvmtiThreadState.get_vm_object_alloc_event_collector s) as [q|] eqn:Hq;
    [|done].
  destruct (collector_at q vm) as [colq|] eqn:Hcolq; [|done].
  destruct (Collector.is_enabled colq) eqn:Hon; [|done].
  simpl. intros [S2 A2 D2]. split.
  - intros k. transitivity (slot k vm2); [done|]. by rewrite S2.
  - intros c col Hc. simpl. destruct (decide (c = q)) as [->|Hne].
    + unfold collector_at in Hcolq. rewrite Hcolq in Hc. injection Hc as <-.
      destruct (A2 q (Collector.set_enabled false colq)) as (col' & Hc' & _ & _ & Hsame).
      { simpl. by rewrite lookup_alter_eq, Hcolq. }
      rewrite (Hsame (or_introl eq_refl)) in Hc'.
      exists colq. rewrite lookup_alter_eq, Hc'. simpl.
      rewrite set_enabled_back by done.
      split; [done|]. split; [apply same_shape_refl|done].
    + destruct (A2 c col) as (col' & Hc' & Hsh & Hen & Hsame).
      { simpl. by rewrite lookup_alter_ne. }
      exists col'. rewrite lookup_alter_ne by done. done.
  - intros c Hc. simpl. destruct (decide (c = q)) as [->|Hne].
    + unfold collector_at in Hcolq. congruence.
    + rewrite lookup_alter_ne by done. apply D2. simpl.
      by rewrite lookup_alter_ne.
Qed.
End ScopeFrame.

Section InterpreterEquations.
Variable rt : Jvmti.t.

Lemma run_vm_scope body agent vm :
  run rt (in_JvmtiVMObjectAllocEventCollector body agent) vm
  = let '(this, vm) := new_collector is_vm_object_alloc_event vm in
    let vm := JvmtiVMObjectAllocEventCollector_ctor rt this vm in
    let '(vm, t1) := run_all rt body vm in
    let '(vm, ps) :=
      JvmtiVMObjectAllocEventCollector_dtor rt (perform rt agent) this vm in
    (delete_collector this vm, t1 ++ map event_posted ps).
Proof. reflexivity. Qed.

Lemma run_sampled_scope body agent vm :
  run rt (in_JvmtiSampledObjectAllocEventCollector body agent) vm
  = let '(this, vm) := new_collector is_sampled_object_alloc_event vm in
    let vm := JvmtiSampledObjectAllocEventCollector_start rt this vm in
    let '(vm, t1) := run_all rt body vm in
    let '(vm, ps) :=
      JvmtiSampledObjectAllocEventCollector_dtor rt (perform rt agent) this vm in
    (delete_collector this vm, t1 ++ map event_posted ps).
Proof. reflexivity. Qed.

Lemma run_no_mark body vm :
  run rt (in_NoJvmtiVMObjectAllocMark body) vm
  = let '(_collector, vm) := NoJvmtiVMObjectAllocMark_ctor rt vm in
    let '(vm, t1) := run_all rt body vm in
    (NoJvmtiVMObjectAllocMark_dtor _collector vm, t1).
Proof. reflexivity. Qed.
End InterpreterEquations.

Section InterpreterUndisturbed.
Variable rt : Jvmti.t.

Lemma run_all_undisturbed_of l :
  Forall (λ a, ∀ vm, undisturbed vm (run rt a vm).1) l →
  ∀ vm, undisturbed vm (run_all rt l vm).1.
Proof.
  induction 1 as [|a l Ha _ IH]; intros vm; simpl; [apply undisturbed_refl|].
  pose proof (Ha vm) as H1. destruct (run rt a vm) as [vm1 t1].
  pose proof (IH vm1) as H2. destruct (run_all rt l vm1) as [vm2 t2].
  simpl in *. by eapply undisturbed_trans.
Qed.

Lemma collector_after_start_installed k started vm :
  started && installs k vm = true →
  Collector._prev (collector_after_start k started vm) = slot k vm.
Proof.
  intros Hi. unfold collector_after_start. simpl. rewrite Hi.
  destruct k; [done|done|]. apply andb_true_iff in Hi as [_ Hi]. simpl in Hi.
  by destruct (slot is_sampled_object_alloc_event vm).
Qed.

(** Whatever the operations, and whatever the agents of the scopes among
    them do in turn, a run keeps to the discipline. *)
Lemma run_undisturbed a : ∀ vm, undisturbed vm (run rt a vm).1.
Proof.
  induction a as [obj|obj|body agent IHbody IHagent|body agent IHbody IHagent|body IHbody]
    using action_nested_ind; intros vm.
  - apply record_vm_internal_object_allocation_undisturbed.
  - apply record_sampled_internal_object_allocation_undisturbed.
  - rewrite run_vm_scope.
    destruct (VM_ctor_spec rt vm) as [Hc1 Hs1]. unfold new_collector.
    set (this := fresh (dom (VM.collectors vm))) in *.
    set (vm1 := JvmtiVMObjectAllocEventCollector_ctor rt this _) in *.
    pose proof (run_all_undisturbed_of body IHbody vm1) as Hbody.
    destruct (run_all rt body vm1) as [vm2 t1]. simpl in Hbody.
    destruct (VM_dtor_around rt (perform rt agent)
                (λ env k args vm, run_all_undisturbed_of _ (IHagent env k args) vm)
                this vm2) as (vmf & Hf & Heq).
    destruct (JvmtiVMObjectAllocEventCollector_dtor rt _ this vm2) as [vm3 ps].
    simpl in Heq. subst vm3. simpl.
    eapply (scope_undisturbed vm this _ is_vm_object_alloc_event); eauto.
    + apply fresh_collector_dead.
    + apply collector_after_start_installed.
    + eapply around_trans; [by apply undisturbed_weaken|done].
  - rewrite run_sampled_scope.
    destruct (sampled_start_spec rt vm) as [Hc1 Hs1]. unfold new_collector.
    set (this := fresh (dom (VM.collectors vm))) in *.
    set (vm1 := JvmtiSampledObjectAllocEventCollector_start rt this _) in *.
    pose proof (run_all_undisturbed_of body IHbody vm1) as Hbody.
    destruct (run_all rt body vm1) as [vm2 t1]. simpl in Hbody.
    destruct (undisturbed_alive _ _ Hbody this
                (collector_after_start is_sampled_object_alloc_event
                   (Jvmti.should_post_sampled_object_alloc rt
                    && object_alloc_is_safe_to_sample vm) vm))
      as (self & Hself & (_ & _ & Hflag & _) & Hen & _).
    { by rewrite Hc1, lookup_insert_eq. }
    destruct (sampled_dtor_around rt (perform rt agent)
                (λ env k args vm, run_all_undisturbed_of _ (IHagent env k args) vm)
                this self vm2 Hself) as (vmf & Hf & Heq).
    { rewrite Hen, Hflag. simpl. by intros ->. }
    destruct (JvmtiSampledObjectAllocEventCollector_dtor rt _ this vm2) as [vm3 ps].
    simpl in Heq. subst vm3. simpl.
    eapply (scope_undisturbed vm this _ is_sampled_object_alloc_event); eauto.
    + apply fresh_collector_dead.
    + apply collector_after_start_installed.
    + eapply around_trans; [by apply undisturbed_weaken|done].
  - rewrite run_no_mark.
    pose proof (NoJvmtiVMObjectAllocMark_undisturbed rt vm) as Hmark.
    destruct (NoJvmtiVMObjectAllocMark_ctor rt vm) as [c vm1]. simpl in Hmark.
    pose proof (run_all_undisturbed_of body IHbody vm1) as Hbody.
    destruct (run_all rt body vm1) as [vm2 t1]. simpl in *. by apply Hmark.
Qed.

Lemma run_all_undisturbed l vm : undisturbed vm (run_all rt l vm).1.
Proof.
  apply run_all_undisturbed_of, Forall_forall. intros a _. apply run_undisturbed.
Qed.

Lemma perform_undisturbed agent env k args vm :
  undisturbed vm (perform rt agent env k args vm).1.
Proof. apply run_all_undisturbed. Qed.
End InterpreterUndisturbed.

Section ExitFacts.
Context {E : Type}.
Variable rt : Jvmti.t.
Variable invoke : JvmtiEnv.t → jvmtiEvent → callback_args → VM.t → VM.t * list E.
Hypothesis invoke_undisturbed : ∀ env k args vm, undisturbed vm (invoke env k args vm).1.

(** What a flush hands out. *)
Lemma generate_call_for_allocated_posts this self vm :
  collector_at this vm = Some self →
  (generate_call_for_allocated rt invoke this vm).2
  = (post_each rt invoke this (Collector._post_callback self)
       (default [] (Collector._allocated self))
       (update_collector this (Collector.set_enabled false) vm)).2.
Proof.
  intros Hself. destruct (Collector._allocated self) as [l|] eqn:Hall.
  - by rewrite (generate_call_for_allocated_spec rt invoke invoke_undisturbed
                  this self l vm Hself Hall).
  - unfold generate_call_for_allocated. by rewrite Hself, Hall.
Qed.

Lemma VM_dtor_posts this self vm :
  collector_at this vm = Some self →
  (JvmtiVMObjectAllocEventCollector_dtor rt invoke this vm).2
  = if Collector._enable self
    then (post_each rt invoke this (Collector._post_callback self)
            (default [] (Collector._allocated self))
            (update_collector this (Collector.set_enabled false) vm)).2
    else [].
Proof.
  intros Hself. unfold JvmtiVMObjectAllocEventCollector_dtor. rewrite Hself.
  destruct (Collector._enable self); [|done].
  rewrite <- (generate_call_for_allocated_posts this self vm Hself).
  by destruct (generate_call_for_allocated rt invoke this vm).
Qed.

Lemma sampled_dtor_posts this self vm :
  collector_at this vm = Some self →
  (JvmtiSampledObjectAllocEventCollector_dtor rt invoke this vm).2
  = if Collector._enable self
    then (post_each rt invoke this (Collector._post_callback self)
            (default [] (Collector._allocated self))
            (update_collector this (Collector.set_enabled false) vm)).2
    else [].
Proof.
  intros Hself. unfold JvmtiSampledObjectAllocEventCollector_dtor. rewrite Hself.
  destruct (Collector._enable self); [|done]. simpl.
  rewrite <- (generate_call_for_allocated_posts this self vm Hself).
  by destruct (generate_call_for_allocated rt invoke this vm).
Qed.

(** The slots after [unset_jvmti_thread_state] on a machine that differs
    from [vm] by a flush of the collector. *)
Lemma unset_after_flush this self vm vmf :
  collector_at this vm = Some self →
  undisturbed_around this vm vmf →
  ∀ k, slot k (unset_jvmti_thread_state this vmf)
       = if bool_decide (k = Collector.kind self)
            && Collector._unset_jvmti_thread_state self
            && bool_decide (slot k vm = Some this)
         then Collector._prev self else slot k vm.
Proof.
  intros Hself [Sf Af _] k.
  destruct (Af this self Hself) as (self' & Hself' & (Hk & Hp & Hf & _) & _).
  destruct (unset_jvmti_thread_state_spec this self' vmf Hself') as [_ Hs].
  by rewrite Hs, Sf, Hk, Hp, Hf.
Qed.

Lemma VM_dtor_slots this self vm :
  collector_at this vm = Some self →
  ∀ k, slot k (JvmtiVMObjectAllocEventCollector_dtor rt invoke this vm).1
       = if bool_decide (k = Collector.kind self)
            && Collector._unset_jvmti_thread_state self
            && bool_decide (slot k vm = Some this)
         then Collector._prev self else slot k vm.
Proof.
  intros Hself k.
  destruct (VM_dtor_around rt invoke invoke_undisturbed this vm) as (vmf & Hf & ->).
  by apply unset_after_flush.
Qed.

Lemma sampled_dtor_slots this self vm :
  collector_at this vm = Some self →
  ∀ k, slot k (JvmtiSampledObjectAllocEventCollector_dtor rt invoke this vm).1
       = if Collector._enable self
            && bool_decide (k = Collector.kind self)
            && Collector._unset_jvmti_thread_state self
            && bool_decide (slot k vm = Some this)
         then Collector._prev self else slot k vm.
Proof.
  intros Hself k. unfold JvmtiSampledObjectAllocEventCollector_dtor. rewrite Hself.
  destruct (Collector._enable self); [|done]. simpl.
  pose proof (generate_call_for_allocated_around rt invoke invoke_undisturbed this vm)
    as Hf.
  destruct (generate_call_for_allocated rt invoke this vm) as [vmf ps]. simpl in *.
  by apply unset_after_flush.
Qed.

(** A collector in no slot comes through the flush of another one as it
    was. *)
Lemma VM_dtor_keeps this outer col vm :
  outer ≠ this → collector_at outer vm = Some col → shielded outer col vm →
  collector_at outer (JvmtiVMObjectAllocEventCollector_dtor rt invoke this vm).1
  = Some col.
Proof.
  intros Hne Hcol Hsh.
  destruct (VM_dtor_around rt invoke invoke_undisturbed this vm) as (vmf & [_ Af _] & ->).
  destruct (Af outer col Hcol) as (col' & Hcol' & _ & Hrest).
  destruct (Hrest Hne) as [_ Hsame]. rewrite (Hsame Hsh) in Hcol'.
  unfold collector_at.
  destruct (collector_at this vmf) as [self|] eqn:Hself.
  - by rewrite (proj1 (unset_jvmti_thread_state_spec this self vmf Hself)).
  - unfold unset_jvmti_thread_state. by rewrite Hself.
Qed.

Lemma sampled_dtor_keeps this outer col vm :
  outer ≠ this → collector_at outer vm = Some col → shielded outer col vm →
  collector_at outer (JvmtiSampledObjectAllocEventCollector_dtor rt invoke this vm).1
  = Some col.
Proof.
  intros Hne Hcol Hsh. unfold JvmtiSampledObjectAllocEventCollector_dtor.
  destruct (collector_at this vm) as [self|] eqn:Hself; [|done].
  destruct (Collector._enable self); [|done]. simpl.
  pose proof (generate_call_for_allocated_around rt invoke invoke_undisturbed this vm)
    as [_ Af _].
  destruct (generate_call_for_allocated rt invoke this vm) as [vmf ps]. simpl in *.
  destruct (Af outer col Hcol) as (col' & Hcol' & _ & Hrest).
  destruct (Hrest Hne) as [_ Hsame]. rewrite (Hsame Hsh) in Hcol'.
  destruct (Af this self Hself) as (self' & Hself' & _).
  unfold collector_at.
  by rewrite (proj1 (unset_jvmti_thread_state_spec this self' vmf Hself')).
Qed.
End ExitFacts.

Section ScopeFacts.
Variable rt : Jvmti.t.

Lemma fresh_in_no_slot vm :
  slots_alive vm → ∀ k, slot k vm ≠ Some (fresh (dom (VM.collectors vm))).
Proof.
  intros Ha k Hk. destruct (Ha k _ Hk) as [col Hcol].
  by rewrite fresh_collector_dead in Hcol.
Qed.

Lemma scope_body_facts k started vm vm1 body :
  let this := fresh (dom (VM.collectors vm)) in
  let C := collector_after_start k started vm in
  slots_alive vm →
  VM.collectors vm1 = <[this := C]> (VM.collectors vm) →
  (∀ k', slot k' vm1
         = if started && installs k vm && bool_decide (k' = k)
           then Some this else slot k' vm) →
  let vm2 := (run_all rt body vm1).1 in
  (∀ k', slot k' vm2 = slot k' vm1)
  ∧ (∃ self, collector_at this vm2 = Some self ∧ same_shape C self
             ∧ Collector._enable self = started
             ∧ (started && installs k vm = false → self = C))
  ∧ (∀ outer col, collector_at outer vm = Some col →
                  (∀ k', slot k' vm1 ≠ Some outer) →
                  outer ≠ this ∧ collector_at outer vm2 = Some col).
Proof.
  intros this C Halive Hc1 Hs1 vm2.
  pose proof (run_all_undisturbed rt body vm1) as [S A D]. fold vm2 in S, A, D.
  split; [done|]. split.
  - destruct (A this C) as (self & Hself & Hsh & Hen & Hsame).
    { by rewrite Hc1, lookup_insert_eq. }
    exists self. split; [done|]. split; [done|]. split; [done|].
    intros Hni. apply Hsame. right. intros k'. rewrite Hs1, Hni. simpl.
    by apply fresh_in_no_slot.
  - intros outer col Hcol Hno.
    assert (outer ≠ this) as Hne.
    { intros ->. unfold collector_at in Hcol.
      pose proof (fresh_collector_dead vm) as Hd. fold this in Hd. congruence. }
    split; [done|].
    destruct (A outer col) as (col' & Hcol' & _ & _ & Hsame).
    { by rewrite Hc1, lookup_insert_ne. }
    by rewrite (Hsame (or_intror Hno)) in Hcol'.
Qed.

Lemma slot_given_back (k k' : CollectorKind) (en installed : bool) (this : nat)
    (prev : option nat) (s : CollectorKind → option nat) :
  (installed = true → en = true ∧ prev = s k) →
  (if en && bool_decide (k' = k) && installed
      && bool_decide ((if installed && bool_decide (k' = k)
                       then Some this else s k') = Some this)
   then prev
   else if installed && bool_decide (k' = k) then Some this else s k')
  = s k'.
Proof.
  intros Hprev. destruct installed; simpl; [|by rewrite andb_false_r].
  destruct (Hprev eq_refl) as [-> ->]. simpl.
  destruct (decide (k' = k)) as [->|Hne].
  - by rewrite !bool_decide_eq_true_2.
  - by rewrite (bool_decide_eq_false_2 _ Hne).
Qed.

Lemma VM_scope_nests agent body vm :
  slots_alive vm →
  scope_nests rt is_vm_object_alloc_event (Jvmti.should_post_vm_object_alloc rt)
    (JvmtiVMObjectAllocEventCollector_ctor rt)
    (JvmtiVMObjectAllocEventCollector_dtor rt (perform rt agent)) body vm.
Proof.
  intros Halive. unfold scope_nests.
  destruct (VM_ctor_spec rt vm) as [Hc1 Hs1].
  set (this := fresh (dom (VM.collectors vm))) in *.
  set (started := Jvmti.should_post_vm_object_alloc rt) in *.
  set (vm1 := JvmtiVMObjectAllocEventCollector_ctor rt this _) in *.
  destruct (scope_body_facts is_vm_object_alloc_event started vm vm1 body
              Halive Hc1 Hs1) as (S2 & (self & Hself & Hsh & Hen & Hsame) & Houter).
  set (vm2 := (run_all rt body vm1).1) in *. fold this in Hself, Houter.
  assert (collector_at this vm1
          = Some (collector_after_start is_vm_object_alloc_event started vm)) as HC.
  { unfold collector_at. by rewrite Hc1, lookup_insert_eq. }
  split; [done|]. split; [done|]. split; [|split].
  - intros Hni. rewrite (Hsame Hni) in Hself. split; [congruence|].
    rewrite (VM_dtor_posts rt _ (perform_undisturbed rt agent) this _ vm2 Hself).
    unfold collector_after_start. simpl. by destruct started.
  - intros Hi outer col Hcol Hother.
    destruct (Houter outer col Hcol) as [Hne Hcol2].
    { intros k'. rewrite Hs1, Hi. simpl.
      destruct (decide (k' = is_vm_object_alloc_event)) as [->|Hk].
      - rewrite bool_decide_eq_true_2 by done. intros [= Heq].
        unfold collector_at in Hcol. subst outer.
        pose proof (fresh_collector_dead vm) as Hd. fold this in Hd. congruence.
      - rewrite (bool_decide_eq_false_2 _ Hk). by apply Hother. }
    apply (VM_dtor_keeps rt _ (perform_undisturbed rt agent)); [done|done|].
    right. intros k'. rewrite S2, Hs1, Hi. simpl.
    destruct (decide (k' = is_vm_object_alloc_event)) as [->|Hk].
    + rewrite bool_decide_eq_true_2 by done. congruence.
    + rewrite (bool_decide_eq_false_2 _ Hk). by apply Hother.
  - intros k'.
    rewrite (VM_dtor_slots rt _ (perform_undisturbed rt agent) this self vm2 Hself).
    destruct Hsh as (Hk & Hp & Hf & _). rewrite Hk, Hp, Hf, S2, Hs1.
    apply (slot_given_back is_vm_object_alloc_event k' true
             (started && installs is_vm_object_alloc_event vm) this
             (Collector._prev (collector_after_start is_vm_object_alloc_event started vm))
             (λ k, slot k vm)).
    intros Hi.
    split; [done|]. by apply collector_after_start_installed.
Qed.

Lemma sampled_scope_nests agent body vm :
  slots_alive vm →
  scope_nests rt is_sampled_object_alloc_event
    (Jvmti.should_post_sampled_object_alloc rt && object_alloc_is_safe_to_sample vm)
    (JvmtiSampledObjectAllocEventCollector_start rt)
    (JvmtiSampledObjectAllocEventCollector_dtor rt (perform rt agent)) body vm.
Proof.
  intros Halive. unfold scope_nests.
  destruct (sampled_start_spec rt vm) as [Hc1 Hs1].
  set (this := fresh (dom (VM.collectors vm))) in *.
  set (started := Jvmti.should_post_sampled_object_alloc rt && _) in *.
  set (vm1 := JvmtiSampledObjectAllocEventCollector_start rt this _) in *.
  destruct (scope_body_facts is_sampled_object_alloc_event started vm vm1 body
              Halive Hc1 Hs1) as (S2 & (self & Hself & Hsh & Hen & Hsame) & Houter).
  set (vm2 := (run_all rt body vm1).1) in *. fold this in Hself, Houter.
  assert (collector_at this vm1
          = Some (collector_after_start is_sampled_object_alloc_event started vm)) as HC.
  { unfold collector_at. by rewrite Hc1, lookup_insert_eq. }
  split; [done|]. split; [done|]. split; [|split].
  - intros Hni. rewrite (Hsame Hni) in Hself. split; [congruence|].
    rewrite (sampled_dtor_posts rt _ (perform_undisturbed rt agent) this _ vm2 Hself).
    unfold collector_after_start. simpl. by destruct started.
  - intros Hi outer col Hcol Hother.
    destruct (Houter outer col Hcol) as [Hne Hcol2].
    { intros k'. rewrite Hs1, Hi. simpl.
      destruct (decide (k' = is_sampled_object_alloc_event)) as [->|Hk].
      - rewrite bool_decide_eq_true_2 by done. intros [= Heq].
        unfold collector_at in Hcol. subst outer.
        pose proof (fresh_collector_dead vm) as Hd. fold this in Hd. congruence.
      - rewrite (bool_decide_eq_false_2 _ Hk). by apply Hother. }
    apply (sampled_dtor_keeps rt _ (perform_undisturbed rt agent)); [done|done|].
    right. intros k'. rewrite S2, Hs1, Hi. simpl.
    destruct (decide (k' = is_sampled_object_alloc_event)) as [->|Hk].
    + rewrite bool_decide_eq_true_2 by done. congruence.
    + rewrite (bool_decide_eq_false_2 _ Hk). by apply Hother.
  - intros k'.
    rewrite (sampled_dtor_slots rt _ (perform_undisturbed rt agent) this self vm2 Hself).
    destruct Hsh as (Hk & Hp & Hf & _). rewrite Hk, Hp, Hf, Hen, S2, Hs1.
    apply (slot_given_back is_sampled_object_alloc_event k' started
             (started && installs is_sampled_object_alloc_event vm) this
             (Collector._prev
                (collector_after_start is_sampled_object_alloc_event started vm))
             (λ k, slot k vm)).
    intros Hi.
    split; [by apply andb_true_iff in Hi as [? _]|].
    by apply collector_after_start_installed.
Qed.
End ScopeFacts.

Section ScopeTraces.
Variable rt : Jvmti.t.

Lemma run_vm_scope_trace body agent vm :
  (run rt (in_JvmtiVMObjectAllocEventCollector body agent) vm).2
  = let this := fresh (dom (VM.collectors vm)) in
    let vm1 := JvmtiVMObjectAllocEventCollector_ctor rt this
                 (new_collector is_vm_object_alloc_event vm).2 in
    (run_all rt body vm1).2
    ++ map event_posted
         (JvmtiVMObjectAllocEventCollector_dtor rt (perform rt agent) this
            (run_all rt body vm1).1).2.
Proof.
  rewrite run_vm_scope. unfold new_collector. simpl.
  destruct (run_all rt body _) as [vm2 t1]. simpl.
  by destruct (JvmtiVMObjectAllocEventCollector_dtor rt _ _ vm2).
Qed.

Lemma run_sampled_scope_trace body agent vm :
  (run rt (in_JvmtiSampledObjectAllocEventCollector body agent) vm).2
  = let this := fresh (dom (VM.collectors vm)) in
    let vm1 := JvmtiSampledObjectAllocEventCollector_start rt this
                 (new_collector is_sampled_object_alloc_event vm).2 in
    (run_all rt body vm1).2
    ++ map event_posted
         (JvmtiSampledObjectAllocEventCollector_dtor rt (perform rt agent) this
            (run_all rt body vm1).1).2.
Proof.
  rewrite run_sampled_scope. unfold new_collector. simpl.
  destruct (run_all rt body _) as [vm2 t1]. simpl.
  by destruct (JvmtiSampledObjectAllocEventCollector_dtor rt _ _ vm2).
Qed.

Lemma post_each_dispatch {E} (invoke : JvmtiEnv.t → jvmtiEvent → callback_args →
                                       VM.t → VM.t * list E) this f l vm :
  Forall (λ p, ∃ vm', posted_calls p
                      = (call_post_callback rt invoke f (posted_object p) vm').2)
    (post_each rt invoke this f l vm).2.
Proof.
  revert vm. induction l as [|obj l IH]; intros vm; simpl; [constructor|].
  destruct (call_post_callback rt invoke f obj vm) as [vm1 calls] eqn:Hcall.
  pose proof (IH vm1) as H. destruct (post_each rt invoke this f l vm1) as [vm2 ps].
  simpl in *. constructor; [|done]. exists vm. simpl. by rewrite Hcall.
Qed.

(** An installed VM allocation collector takes the records. *)
Lemma installed_collector_records vm obj :
  Jvmti.should_post_vm_object_alloc rt && installs is_vm_object_alloc_event vm = true →
  klass_is_Class obj = false →
  let this := fresh (dom (VM.collectors vm)) in
  let vm1 := JvmtiVMObjectAllocEventCollector_ctor rt this
               (new_collector is_vm_object_alloc_event vm).2 in
  Collector._allocated <$> collector_at this (record_vm_internal_object_allocation obj vm1)
  = Some (Some [obj]).
Proof.
  intros Hi Hobj this vm1. destruct (VM_ctor_spec rt vm) as [Hc1 Hs1].
  fold this in Hc1, Hs1. fold vm1 in Hc1, Hs1.
  pose proof (Hs1 is_vm_object_alloc_event) as Hslot. rewrite Hi in Hslot.
  simpl in Hslot. unfold slot in Hslot.
  unfold record_vm_internal_object_allocation.
  destruct (VM.jvmti_thread_state vm1) as [s|]; [|done]. rewrite Hslot.
  assert (collector_at this vm1
          = Some (collector_after_start is_vm_object_alloc_event
                    (Jvmti.should_post_vm_object_alloc rt) vm)) as HC.
  { unfold collector_at. by rewrite Hc1, lookup_insert_eq. }
  rewrite HC. apply andb_true_iff in Hi as [Hstarted Hinst].
  unfold Collector.is_enabled. simpl. rewrite Hstarted, Hobj. simpl.
  unfold record_allocation. by rewrite collector_at_update_collector, HC.
Qed.
End ScopeTraces.

(** ** What the posts of the allocation events deliver *)

Section ThreadKept.
Variable rt : Jvmti.t.

Lemma thread_kept_refl vm : thread_kept vm vm.
Proof. by split. Qed.

Lemma thread_kept_trans vm1 vm2 vm3 :
  thread_kept vm1 vm2 → thread_kept vm2 vm3 → thread_kept vm1 vm3.
Proof.
  intros [H1 R1] [H2 R2]. split; [congruence|].
  intros Hs. rewrite R2; [by apply R1|]. by rewrite R1.
Qed.

(** Steps that leave the thread's state and flags alone. *)
Lemma thread_kept_same vm vm' :
  VM.should_hide_jvmti_events vm' = VM.should_hide_jvmti_events vm →
  VM.jvmti_thread_state vm' = VM.jvmti_thread_state vm →
  thread_kept vm vm'.
Proof.
  intros Hh Hs. split; [done|]. intros _. unfold thread_records. by rewrite Hs.
Qed.

Lemma thread_kept_update_collector c f vm : thread_kept vm (update_collector c f vm).
Proof. by apply thread_kept_same. Qed.

Lemma thread_kept_update_state f vm :
  (∀ s, JvmtiThreadState.env_thread_states (f s) = JvmtiThreadState.env_thread_states s) →
  thread_kept vm (VM.update_state f vm).
Proof.
  intros Hf. unfold VM.update_state.
  destruct (VM.jvmti_thread_state vm) as [s|] eqn:Hs; [|apply thread_kept_refl].
  split; [done|]. intros _. unfold thread_records. simpl. rewrite Hs. simpl.
  by rewrite Hf.
Qed.

Lemma thread_kept_thread_started vm :
  thread_kept vm (JvmtiEventController_thread_started rt vm).
Proof.
  unfold JvmtiEventController_thread_started.
  destruct (VM.jvmti_thread_state vm) eqn:Hs; [apply thread_kept_refl|].
  split; [done|]. unfold thread_records. rewrite Hs. by intros [? ?].
Qed.

Lemma thread_kept_get_jvmti_thread_state vm :
  thread_kept vm (get_jvmti_thread_state rt vm).
Proof.
  unfold get_jvmti_thread_state.
  destruct (_ && _); [apply thread_kept_thread_started|apply thread_kept_refl].
Qed.

Lemma thread_kept_ctor vm : thread_kept vm (JvmtiEventMark.ctor vm).2.
Proof. by apply thread_kept_same. Qed.

Lemma thread_kept_dtor jem vm : thread_kept vm (JvmtiEventMark.dtor jem vm).
Proof.
  unfold JvmtiEventMark.dtor.
  apply (thread_kept_trans _ (VM.pop_jni_handle_block vm));
    [by apply thread_kept_same|by apply thread_kept_update_state].
Qed.
End ThreadKept.

Ltac thread_kept_steps :=
  repeat first
    [ apply thread_kept_refl
    | match goal with
      | |- thread_kept _ (update_collector _ _ ?x) =>
          apply (thread_kept_trans _ x); [|apply thread_kept_update_collector]
      | |- thread_kept _ (record_allocation _ _ ?x) =>
          apply (thread_kept_trans _ x); [|apply thread_kept_update_collector]
      | |- thread_kept _ (VM.update_state _ ?x) =>
          apply (thread_kept_trans _ x); [|by apply thread_kept_update_state]
      | |- thread_kept _ (JvmtiThreadState_state_for _ ?x) =>
          apply (thread_kept_trans _ x); [|apply thread_kept_thread_started]
      | |- thread_kept _ (if ?b then _ else _) => destruct b eqn:?
      | |- thread_kept _ (match ?o with Some _ => _ | None => _ end) =>
          destruct o eqn:?
      | |- thread_kept _ (match ?k with
                          | is_vm_object_alloc_event => _
                          | is_dynamic_code_event => _
                          | is_sampled_object_alloc_event => _
                          end) => destruct k eqn:?
      end ].

Section ThreadKeptCollectors.
Variable rt : Jvmti.t.

(** [setup_jvmti_thread_state] resolves the state of the thread and leaves
    its records alone. *)
Lemma thread_kept_setup_resolved this vm :
  thread_kept (JvmtiThreadState_state_for rt vm) (setup_jvmti_thread_state rt this vm).
Proof.
  unfold setup_jvmti_thread_state.
  generalize (JvmtiThreadState_state_for rt vm). intros vm0. thread_kept_steps.
Qed.

Lemma thread_kept_setup this vm : thread_kept vm (setup_jvmti_thread_state rt this vm).
Proof.
  apply (thread_kept_trans _ (JvmtiThreadState_state_for rt vm));
    [apply thread_kept_thread_started|apply thread_kept_setup_resolved].
Qed.

(** Resolving the state of two machines with the same thread. *)
Lemma thread_kept_state_for vm vm' :
  VM.should_hide_jvmti_events vm' = VM.should_hide_jvmti_events vm →
  VM.jvmti_thread_state vm' = VM.jvmti_thread_state vm →
  thread_kept (JvmtiThreadState_state_for rt vm) (JvmtiThreadState_state_for rt vm').
Proof.
  intros Hh Hs. unfold JvmtiThreadState_state_for, JvmtiEventController_thread_started.
  rewrite Hs. destruct (VM.jvmti_thread_state vm) eqn:Hvm;
    apply thread_kept_same; simpl; congruence.
Qed.

Lemma thread_kept_unset this vm : thread_kept vm (unset_jvmti_thread_state this vm).
Proof. unfold unset_jvmti_thread_state. thread_kept_steps. Qed.

Lemma thread_kept_new_collector k vm : thread_kept vm (new_collector k vm).2.
Proof. by apply thread_kept_same. Qed.

Lemma thread_kept_delete_collector this vm : thread_kept vm (delete_collector this vm).
Proof. by apply thread_kept_same. Qed.

Lemma thread_kept_record_vm obj vm :
  thread_kept vm (record_vm_internal_object_allocation obj vm).
Proof. unfold record_vm_internal_object_allocation. thread_kept_steps. Qed.

Lemma thread_kept_record_sampled obj vm :
  thread_kept vm (record_sampled_internal_object_allocation obj vm).
Proof. unfold record_sampled_internal_object_allocation. thread_kept_steps. Qed.

Lemma thread_kept_VM_ctor this vm :
  thread_kept vm (JvmtiVMObjectAllocEventCollector_ctor rt this vm).
Proof.
  unfold JvmtiVMObjectAllocEventCollector_ctor.
  destruct (Jvmti.should_post_vm_object_alloc rt); [|apply thread_kept_refl].
  eapply thread_kept_trans; [|apply thread_kept_update_collector].
  eapply thread_kept_trans; [|apply thread_kept_setup].
  apply thread_kept_update_collector.
Qed.

Lemma thread_kept_sampled_start this vm :
  thread_kept vm (JvmtiSampledObjectAllocEventCollector_start rt this vm).
Proof.
  unfold JvmtiSampledObjectAllocEventCollector_start.
  destruct (Jvmti.should_post_sampled_object_alloc rt); [|apply thread_kept_refl].
  destruct (negb _); [apply thread_kept_refl|].
  eapply thread_kept_trans; [|apply thread_kept_update_collector].
  eapply thread_kept_trans; [|apply thread_kept_setup].
  apply thread_kept_update_collector.
Qed.

Lemma thread_kept_no_mark_ctor vm : thread_kept vm (NoJvmtiVMObjectAllocMark_ctor rt vm).2.
Proof.
  unfold NoJvmtiVMObjectAllocMark_ctor.
  repeat first [ apply thread_kept_refl
               | apply thread_kept_update_collector
               | match goal with
                 | |- thread_kept _ (if ?b then _ else _).2 => destruct b eqn:?
                 | |- thread_kept _ (match ?o with Some _ => _ | None => _ end).2 =>
                     destruct o eqn:?
                 end ].
Qed.

Lemma thread_kept_no_mark_dtor c vm : thread_kept vm (NoJvmtiVMObjectAllocMark_dtor c vm).
Proof. unfold NoJvmtiVMObjectAllocMark_dtor. thread_kept_steps. Qed.
End ThreadKeptCollectors.

Section DeliveredAllocations.
Context {E : Type}.
Variable rt : Jvmti.t.
Variable invoke : JvmtiEnv.t → jvmtiEvent → callback_args → VM.t → VM.t * list E.
(** The agent's callbacks leave the thread's records and its hiding of
    events as they are. *)
Hypothesis invoke_keeps_thread : ∀ env k args vm, thread_kept vm (invoke env k args vm).1.

Lemma callback_scope_delivers env k args vm :
  thread_kept vm (callback_scope invoke env k args vm).1
  ∧ map call_signature (callback_scope invoke env k args vm).2
    = if JvmtiEnv.callbacks env k then [(env, k, args)] else [].
Proof.
  unfold callback_scope. rewrite scope_machine, scope_trace. unfold call_callback.
  destruct (JvmtiEnv.callbacks env k).
  - pose proof (invoke_keeps_thread env k args (JvmtiEventMark.ctor vm).2) as Hk.
    destruct (invoke env k args (JvmtiEventMark.ctor vm).2) as [vm1 nested].
    cbn [fst snd] in *. split; [|done].
    eapply thread_kept_trans; [apply thread_kept_ctor|].
    eapply thread_kept_trans; [exact Hk|apply thread_kept_dtor].
  - cbn [fst snd]. split; [|done].
    eapply thread_kept_trans; [apply thread_kept_ctor|apply thread_kept_dtor].
Qed.

(** A walk in which each element yields a piece that does not depend on
    the machine yields the pieces in order. *)
Lemma for_each_delivers {X} (body : X → VM.t → VM.t * trace (E:=E))
    (piece : X → list (JvmtiEnv.t * jvmtiEvent * callback_args)) l vm :
  (∀ x vm, thread_kept vm (body x vm).1
           ∧ map call_signature (body x vm).2 = piece x) →
  thread_kept vm (for_each body l vm).1
  ∧ map call_signature (for_each body l vm).2 = concat (map piece l).
Proof.
  intros Hbody. revert vm. induction l as [|x l IH]; intros vm; simpl.
  { split; [apply thread_kept_refl|done]. }
  destruct (Hbody x vm) as [K1 S1]. destruct (body x vm) as [vm1 t1].
  destruct (IH vm1) as [K2 S2]. destruct (for_each body l vm1) as [vm2 t2].
  cbn [fst snd] in *. split; [by eapply thread_kept_trans|].
  by rewrite map_app, S1, S2.
Qed.

Lemma concat_map_filter {X Y} (test : X → bool) (f : X → Y) (l : list X) :
  concat (map (λ x, if test x then [f x] else []) l) = map f (List.filter test l).
Proof.
  induction l as [|x l IH]; simpl; [done|]. rewrite IH. by destruct (test x).
Qed.

Lemma post_vm_object_alloc_delivers obj vm :
  thread_kept vm (post_vm_object_alloc rt invoke (Some obj) vm).1
  ∧ map call_signature (post_vm_object_alloc rt invoke (Some obj) vm).2
    = object_alloc_callbacks rt (Some JvmtiExport_post_vm_object_alloc) obj vm.
Proof.
  unfold post_vm_object_alloc, object_alloc_callbacks, object_alloc_receivers.
  destruct (VM.should_hide_jvmti_events vm); [split; [apply thread_kept_refl|done]|].
  unfold JvmtiEnvIterator.
  rewrite <- (concat_map_filter
                (λ env, JvmtiEnv.is_enabled env JVMTI_EVENT_VM_OBJECT_ALLOC
                        && JvmtiEnv.callbacks env JVMTI_EVENT_VM_OBJECT_ALLOC)).
  apply for_each_delivers. intros env vm'.
  destruct (JvmtiEnv.is_enabled env _); simpl.
  - apply callback_scope_delivers.
  - split; [apply thread_kept_refl|done].
Qed.

(** A walk over the records of a thread that has a state. *)
Lemma for_each_record_delivers
    (body : nat → JvmtiEnvThreadState.t → VM.t → VM.t * trace (E:=E))
    (piece : JvmtiEnvThreadState.t → list (JvmtiEnv.t * jvmtiEvent * callback_args))
    (records : list JvmtiEnvThreadState.t) :
  (∀ i ets vm, thread_kept vm (body i ets vm).1
               ∧ map call_signature (body i ets vm).2 = piece ets) →
  ∀ n s vm,
    thread_records vm = Some records →
    let r := for_each (fun i vm => match ets_at i vm with
                                   | Some ets => body i ets vm
                                   | None => (vm, [])
                                   end) (seq s n) vm in
    thread_kept vm r.1
    ∧ map call_signature r.2 = concat (map piece (take n (drop s records))).
Proof.
  intros Hbody. induction n as [|n IH]; intros s vm Hrec; simpl.
  { split; [apply thread_kept_refl|done]. }
  assert (env_thread_states vm = records) as Hets.
  { unfold thread_records in Hrec. unfold env_thread_states.
    destruct (VM.jvmti_thread_state vm); simpl in Hrec; [by injection Hrec|done]. }
  assert (ets_at s vm = records !! s) as Hat by (unfold ets_at; by rewrite Hets).
  rewrite Hat. clear Hat. destruct (records !! s) as [ets|] eqn:Hs.
  - destruct (Hbody s ets vm) as [K1 S1]. destruct (body s ets vm) as [vm1 t1].
    cbn [fst snd] in *.
    assert (thread_records vm1 = Some records) as Hrec1.
    { destruct K1 as [_ K1]. rewrite K1; [done|]. rewrite Hrec. eauto. }
    destruct (IH (S s) vm1 Hrec1) as [K2 S2].
    destruct (for_each _ (seq (S s) n) vm1) as [vm2 t2]. cbn [fst snd] in *.
    split; [by eapply thread_kept_trans|].
    rewrite map_app, S1, S2. rewrite (drop_S _ _ _ Hs). done.
  - destruct (IH (S s) vm Hrec) as [K2 S2].
    destruct (for_each _ (seq (S s) n) vm) as [vm2 t2]. cbn [fst snd] in *.
    split; [done|]. rewrite app_nil_l, S2.
    apply lookup_ge_None in Hs.
    rewrite !drop_ge by lia. by rewrite !take_nil.
Qed.

Lemma post_sampled_object_alloc_delivers obj vm :
  is_Some (VM.jvmti_thread_state vm) →
  thread_kept vm (post_sampled_object_alloc rt invoke (Some obj) vm).1
  ∧ map call_signature (post_sampled_object_alloc rt invoke (Some obj) vm).2
    = object_alloc_callbacks rt (Some JvmtiExport_post_sampled_object_alloc) obj vm.
Proof.
  intros [state Hstate].
  unfold post_sampled_object_alloc, with_thread_state.
  rewrite (get_jvmti_thread_state_Some rt vm state Hstate), Hstate.
  unfold object_alloc_callbacks, object_alloc_receivers.
  destruct (VM.should_hide_jvmti_events vm); [split; [apply thread_kept_refl|done]|].
  unfold JvmtiEnvThreadStateIterator.
  pose proof (for_each_record_delivers
                (fun i ets vm =>
                   if JvmtiEnvThreadState.is_enabled ets JVMTI_EVENT_SAMPLED_OBJECT_ALLOC
                   then callback_scope invoke (JvmtiEnvThreadState.get_env ets)
                          JVMTI_EVENT_SAMPLED_OBJECT_ALLOC (args_object_alloc obj) vm
                   else (vm, []))
                (λ ets, if JvmtiEnvThreadState.is_enabled ets JVMTI_EVENT_SAMPLED_OBJECT_ALLOC
                           && JvmtiEnv.callbacks (JvmtiEnvThreadState.get_env ets)
                                JVMTI_EVENT_SAMPLED_OBJECT_ALLOC
                        then [(JvmtiEnvThreadState.get_env ets,
                               JVMTI_EVENT_SAMPLED_OBJECT_ALLOC, args_object_alloc obj)]
                        else [])
                (env_thread_states vm)) as Hwalk.
  cbv zeta in Hwalk.
  destruct (Hwalk) with (n := length (env_thread_states vm)) (s := 0%nat) (vm := vm)
    as [K S].
  { intros i ets vm'. destruct (JvmtiEnvThreadState.is_enabled ets _); simpl.
    - apply callback_scope_delivers.
    - split; [apply thread_kept_refl|done]. }
  { unfold thread_records, env_thread_states. by rewrite Hstate. }
  split; [exact K|]. rewrite S. rewrite drop_0, firstn_all.
  rewrite (concat_map_filter
             (λ ets, JvmtiEnvThreadState.is_enabled ets JVMTI_EVENT_SAMPLED_OBJECT_ALLOC
                     && JvmtiEnv.callbacks (JvmtiEnvThreadState.get_env ets)
                          JVMTI_EVENT_SAMPLED_OBJECT_ALLOC)
             (λ ets, (JvmtiEnvThreadState.get_env ets, JVMTI_EVENT_SAMPLED_OBJECT_ALLOC,
                      args_object_alloc obj))).
  by rewrite <- list_fmap_compose.
Qed.

Lemma post_sampled_object_alloc_kept object vm :
  thread_kept vm (post_sampled_object_alloc rt invoke object vm).1.
Proof.
  unfold post_sampled_object_alloc, with_thread_state.
  apply (thread_kept_trans _ (get_jvmti_thread_state rt vm));
    [apply thread_kept_get_jvmti_thread_state|].
  generalize (get_jvmti_thread_state rt vm). clear vm. intros vm.
  destruct (VM.jvmti_thread_state vm) as [state|] eqn:Hstate; [|apply thread_kept_refl].
  destruct object as [obj|]; [|apply thread_kept_refl].
  pose proof (post_sampled_object_alloc_delivers obj vm ltac:(eauto)) as [K _].
  unfold post_sampled_object_alloc, with_thread_state in K.
  by rewrite (get_jvmti_thread_state_Some rt vm state Hstate), Hstate in K.
Qed.

Lemma call_post_callback_kept f obj vm :
  thread_kept vm (call_post_callback rt invoke f obj vm).1.
Proof.
  destruct f as [[]|]; unfold call_post_callback.
  - apply post_vm_object_alloc_delivers.
  - apply post_sampled_object_alloc_kept.
  - apply thread_kept_refl.
Qed.

(** The receivers are read off what [thread_kept] keeps. *)
Lemma object_alloc_callbacks_kept f obj vm vm' :
  thread_kept vm vm' →
  (f = Some JvmtiExport_post_sampled_object_alloc → is_Some (VM.jvmti_thread_state vm)) →
  object_alloc_callbacks rt f obj vm' = object_alloc_callbacks rt f obj vm.
Proof.
  intros [Hh Hr] Hstate. unfold object_alloc_callbacks, object_alloc_receivers.
  rewrite Hh. destruct f as [[]|]; [done| |done].
  destruct (Hstate eq_refl) as [state Hs].
  assert (env_thread_states vm' = env_thread_states vm) as ->; [|done].
  unfold thread_records in Hr. unfold env_thread_states.
  rewrite Hs in Hr. simpl in Hr. specialize (Hr ltac:(eauto)).
  rewrite Hs. by destruct (VM.jvmti_thread_state vm'); simpl in Hr; simplify_eq.
Qed.

Lemma thread_kept_is_Some vm vm' :
  thread_kept vm vm' → is_Some (VM.jvmti_thread_state vm) →
  is_Some (VM.jvmti_thread_state vm').
Proof.
  intros [_ Hr] [state Hs]. unfold thread_records in Hr. rewrite Hs in Hr.
  specialize (Hr ltac:(eauto)). by destruct (VM.jvmti_thread_state vm').
Qed.

(** One record handed to [_post_callback]: it reaches the post of its
    kind, with the object, and the callbacks of the receivers. *)
Lemma call_post_callback_dispatch this f obj vm0 vm :
  thread_kept vm0 vm →
  posted_through_dispatch rt invoke vm0
    (Posted this f obj (call_post_callback rt invoke f obj vm).2).
Proof.
  intros Hk. split.
  - exists vm. split; [done|]. simpl. by destruct f as [[]|].
  - simpl. intros Hstate.
    rewrite <- (object_alloc_callbacks_kept f obj vm0 vm Hk Hstate).
    destruct f as [[]|]; unfold call_post_callback.
    + apply post_vm_object_alloc_delivers.
    + apply post_sampled_object_alloc_delivers.
      eapply thread_kept_is_Some; eauto.
    + done.
Qed.

(** Every record of a flush goes through the dispatch. *)
Lemma post_each_dispatched this f l vm0 :
  ∀ vm, thread_kept vm0 vm →
        Forall (posted_through_dispatch rt invoke vm0) (post_each rt invoke this f l vm).2.
Proof.
  induction l as [|obj l IH]; intros vm Hk; simpl; [constructor|].
  pose proof (call_post_callback_dispatch this f obj vm0 vm Hk) as Hd.
  pose proof (call_post_callback_kept f obj vm) as Hk1.
  destruct (call_post_callback rt invoke f obj vm) as [vm1 calls].
  cbn [fst snd] in *.
  pose proof (IH vm1 (thread_kept_trans _ _ _ Hk Hk1)) as Hrest.
  destruct (post_each rt invoke this f l vm1) as [vm2 ps]. cbn [snd] in *.
  by constructor.
Qed.

Lemma generate_loop_kept this (n i : nat) vm :
  thread_kept vm (generate_loop rt invoke this n i vm).1.
Proof.
  revert i vm. induction n as [|n IH]; intros i vm; simpl; [apply thread_kept_refl|].
  destruct (collector_at this vm) as [self|]; [|apply thread_kept_refl].
  destruct (_ !! i) as [obj|]; [|apply thread_kept_refl].
  pose proof (call_post_callback_kept (Collector._post_callback self) obj vm) as H1.
  destruct (call_post_callback rt invoke _ obj vm) as [vm1 calls].
  pose proof (IH (S i) vm1) as H2.
  destruct (generate_loop rt invoke this n (S i) vm1) as [vm2 ps].
  cbn [fst] in *. by eapply thread_kept_trans.
Qed.

Lemma generate_call_for_allocated_kept this vm :
  thread_kept vm (generate_call_for_allocated rt invoke this vm).1.
Proof.
  unfold generate_call_for_allocated.
  destruct (collector_at this vm) as [self|]; [|apply thread_kept_refl].
  destruct (Collector._allocated self) as [l|]; [|apply thread_kept_refl].
  pose proof (generate_loop_kept this (length l) 0
                (update_collector this (Collector.set_enabled false) vm)) as H.
  destruct (generate_loop _ _ _ _ _ _) as [vm2 ps]. cbn [fst] in *.
  eapply thread_kept_trans; [apply thread_kept_update_collector|].
  eapply thread_kept_trans; [exact H|apply thread_kept_update_collector].
Qed.

Lemma VM_dtor_kept this vm :
  thread_kept vm (JvmtiVMObjectAllocEventCollector_dtor rt invoke this vm).1.
Proof.
  unfold JvmtiVMObjectAllocEventCollector_dtor.
  assert (thread_kept vm
            (match collector_at this vm with
             | Some self =>
                 if Collector._enable self
                 then generate_call_for_allocated rt invoke this vm
                 else (vm, [])
             | None => (vm, [])
             end).1) as H.
  { destruct (collector_at this vm) as [self|]; [|apply thread_kept_refl].
    destruct (Collector._enable self);
      [apply generate_call_for_allocated_kept|apply thread_kept_refl]. }
  destruct (match collector_at this vm with Some _ => _ | None => _ end) as [vm1 ps].
  cbn [fst] in *. eapply thread_kept_trans; [exact H|apply thread_kept_unset].
Qed.

Lemma sampled_dtor_kept this vm :
  thread_kept vm (JvmtiSampledObjectAllocEventCollector_dtor rt invoke this vm).1.
Proof.
  unfold JvmtiSampledObjectAllocEventCollector_dtor.
  destruct (collector_at this vm) as [self|]; [|apply thread_kept_refl].
  destruct (negb _); [apply thread_kept_refl|].
  pose proof (generate_call_for_allocated_kept this vm) as H.
  destruct (generate_call_for_allocated rt invoke this vm) as [vm1 ps].
  cbn [fst] in *. eapply thread_kept_trans; [exact H|apply thread_kept_unset].
Qed.
End DeliveredAllocations.

Section InterpreterKeepsThread.
Variable rt : Jvmti.t.

Lemma run_all_thread_kept_of l :
  Forall (λ a, ∀ vm, thread_kept vm (run rt a vm).1) l →
  ∀ vm, thread_kept vm (run_all rt l vm).1.
Proof.
  induction 1 as [|a l Ha _ IH]; intros vm; simpl; [apply thread_kept_refl|].
  pose proof (Ha vm) as H1. destruct (run rt a vm) as [vm1 t1].
  pose proof (IH vm1) as H2. destruct (run_all rt l vm1) as [vm2 t2].
  cbn [fst] in *. by eapply thread_kept_trans.
Qed.

(** Whatever the operations, and whatever the agents of the scopes among
    them do in turn, a run leaves the thread's records and its hiding of
    events as they are. *)
Lemma run_thread_kept a : ∀ vm, thread_kept vm (run rt a vm).1.
Proof.
  induction a as [obj|obj|body agent IHbody IHagent|body agent IHbody IHagent|body IHbody]
    using action_nested_ind; intros vm.
  - apply thread_kept_record_vm.
  - apply thread_kept_record_sampled.
  - rewrite run_vm_scope.
    pose proof (thread_kept_new_collector is_vm_object_alloc_event vm) as H0.
    destruct (new_collector is_vm_object_alloc_event vm) as [this vm0]. cbn [snd] in H0.
    cbv beta iota zeta.
    pose proof (thread_kept_VM_ctor rt this vm0) as H1.
    set (vm1 := JvmtiVMObjectAllocEventCollector_ctor rt this vm0) in *.
    pose proof (run_all_thread_kept_of body IHbody vm1) as H2.
    destruct (run_all rt body vm1) as [vm2 t1]. cbn [fst] in H2.
    pose proof (VM_dtor_kept rt (perform rt agent)
                  (λ env k args vm, run_all_thread_kept_of _ (IHagent env k args) vm)
                  this vm2) as H3.
    destruct (JvmtiVMObjectAllocEventCollector_dtor rt _ this vm2) as [vm3 ps].
    cbn [fst] in *.
    eapply thread_kept_trans; [exact H0|]. eapply thread_kept_trans; [exact H1|].
    eapply thread_kept_trans; [exact H2|]. eapply thread_kept_trans; [exact H3|].
    apply thread_kept_delete_collector.
  - rewrite run_sampled_scope.
    pose proof (thread_kept_new_collector is_sampled_object_alloc_event vm) as H0.
    destruct (new_collector is_sampled_object_alloc_event vm) as [this vm0].
    cbn [snd] in H0. cbv beta iota zeta.
    pose proof (thread_kept_sampled_start rt this vm0) as H1.
    set (vm1 := JvmtiSampledObjectAllocEventCollector_start rt this vm0) in *.
    pose proof (run_all_thread_kept_of body IHbody vm1) as H2.
    destruct (run_all rt body vm1) as [vm2 t1]. cbn [fst] in H2.
    pose proof (sampled_dtor_kept rt (perform rt agent)
                  (λ env k args vm, run_all_thread_kept_of _ (IHagent env k args) vm)
                  this vm2) as H3.
    destruct (JvmtiSampledObjectAllocEventCollector_dtor rt _ this vm2) as [vm3 ps].
    cbn [fst] in *.
    eapply thread_kept_trans; [exact H0|]. eapply thread_kept_trans; [exact H1|].
    eapply thread_kept_trans; [exact H2|]. eapply thread_kept_trans; [exact H3|].
    apply thread_kept_delete_collector.
  - rewrite run_no_mark.
    pose proof (thread_kept_no_mark_ctor rt vm) as H0.
    destruct (NoJvmtiVMObjectAllocMark_ctor rt vm) as [c vm1]. cbn [snd] in H0.
    pose proof (run_all_thread_kept_of body IHbody vm1) as H1.
    destruct (run_all rt body vm1) as [vm2 t1]. cbn [fst] in *.
    eapply thread_kept_trans; [exact H0|]. eapply thread_kept_trans; [exact H1|].
    apply thread_kept_no_mark_dtor.
Qed.

Lemma run_all_thread_kept l vm : thread_kept vm (run_all rt l vm).1.
Proof.
  apply run_all_thread_kept_of, Forall_forall. intros a _. apply run_thread_kept.
Qed.

Lemma perform_thread_kept agent env k args vm :
  thread_kept vm (perform rt agent env k args vm).1.
Proof. apply run_all_thread_kept. Qed.
End InterpreterKeepsThread.

(** ** The flush of an allocation collector *)

(** C10: [generate_call_for_allocated] switches the collector off and then
    walks the records that were in the buffer at that moment, each handed to
    [_post_callback] once, in order; the loop of the sources, which reads
    length and element from the collector at every round, does exactly that
    walk and its condition is false after as many rounds as there were
    records.  Whatever the callbacks do (allocate, open and close scopes of
    their own), the collector is, after any number of rounds, switched off
    and holds the records it held; what is handed out is those records.
    Each of them is delivered: its object is handed to the post of the
    collector's kind, which calls the receivers of the event, each once and
    in order, with that object ([posted_through_dispatch]).  The callbacks
    are those of an arbitrary agent. *)
Theorem generate_call_for_allocated_disables_first (rt : Jvmti.t) (agent : agent_t)
    (this : nat) (self : Collector.t) (l : list object) (vm : VM.t) :
  collector_at this vm = Some self →
  Collector._allocated self = Some l →
  let invoke := perform rt agent in
  let off := update_collector this (Collector.set_enabled false) vm in
  let walk := post_each rt invoke this (Collector._post_callback self) l off in
  generate_call_for_allocated rt invoke this vm
  = (update_collector this (Collector.set_allocated None) walk.1, walk.2)
  ∧ (∀ n : nat, (length l ≤ n)%nat → generate_loop rt invoke this n 0 off = walk)
  ∧ (∀ n i : nat, collector_at this (generate_loop rt invoke this n i off).1
                  = Some (Collector.set_enabled false self))
  ∧ map posted_object (generate_call_for_allocated rt invoke this vm).2 = l
  ∧ Forall (posted_through_dispatch rt invoke vm)
      (generate_call_for_allocated rt invoke this vm).2.
Proof.
  intros Hself Hall invoke off walk.
  pose proof (perform_undisturbed rt agent) as Hinv.
  assert (collector_at this off = Some (Collector.set_enabled false self)) as Hoff.
  { unfold off. by rewrite collector_at_update_collector, Hself. }
  pose proof (generate_call_for_allocated_spec rt invoke Hinv this self l vm Hself Hall)
    as Hspec.
  split; [done|]. split; [|split; [|split]].
  - intros n Hn.
    by apply (generate_loop_snapshot rt invoke Hinv this
                (Collector.set_enabled false self) l l 0 n off).
  - intros n i. eapply undisturbed_disabled; [|exact Hoff|done].
    by apply generate_loop_undisturbed.
  - rewrite Hspec. apply (post_each_posted rt invoke).
  - rewrite Hspec.
    apply (post_each_dispatched rt invoke (perform_thread_kept rt agent)).
    apply thread_kept_update_collector.
Qed.

Lemma generate_call_for_allocated_disables_first_witness :
  collector_at 0 (thread_collecting (Some [Build_object 1 false; Build_object 2 false]))
  = Some (vm_collector_holding (Some [Build_object 1 false; Build_object 2 false]))
  ∧ Collector._allocated
      (vm_collector_holding (Some [Build_object 1 false; Build_object 2 false]))
    = Some [Build_object 1 false; Build_object 2 false]
  ∧ map posted_object
      (generate_call_for_allocated one_env_runtime
         (perform one_env_runtime (allocating (Build_object 3 false))) 0
         (thread_collecting (Some [Build_object 1 false; Build_object 2 false]))).2
    = [Build_object 1 false; Build_object 2 false]
  ∧ Forall (posted_through_dispatch one_env_runtime
              (perform one_env_runtime (allocating (Build_object 3 false)))
              (thread_collecting (Some [Build_object 1 false; Build_object 2 false])))
      (generate_call_for_allocated one_env_runtime
         (perform one_env_runtime (allocating (Build_object 3 false))) 0
         (thread_collecting (Some [Build_object 1 false; Build_object 2 false]))).2
  ∧ map (λ p, map call_signature (posted_calls p))
      (generate_call_for_allocated one_env_runtime
         (perform one_env_runtime (allocating (Build_object 3 false))) 0
         (thread_collecting (Some [Build_object 1 false; Build_object 2 false]))).2
    = [[(plain_env 1 false JVMTI_PHASE_LIVE, JVMTI_EVENT_VM_OBJECT_ALLOC,
         args_object_alloc (Build_object 1 false))];
       [(plain_env 1 false JVMTI_PHASE_LIVE, JVMTI_EVENT_VM_OBJECT_ALLOC,
         args_object_alloc (Build_object 2 false))]].
Proof.
  split; [by vm_compute|]. split; [reflexivity|].
  destruct (generate_call_for_allocated_disables_first one_env_runtime
              (allocating (Build_object 3 false)) 0
              (vm_collector_holding (Some [Build_object 1 false; Build_object 2 false]))
              [Build_object 1 false; Build_object 2 false]
              (thread_collecting (Some [Build_object 1 false; Build_object 2 false])))
    as (_ & _ & _ & Hobjs & Hcalls); [by vm_compute|reflexivity|].
  split; [exact Hobjs|]. split; [exact Hcalls|]. by vm_compute.
Defined.

(** C8: when the scope of an allocation collector is left with the
    collector [self] at address [this], a collector that is switched on
    hands every record of its buffer to [_post_callback], once each and in
    the order in which they were appended, and nothing else; each record
    goes through the dispatch: its object is handed to the post of the
    collector's kind ([post_vm_object_alloc] or
    [post_sampled_object_alloc]), which calls the receivers of the event,
    each once and in order, with that object ([posted_through_dispatch]);
    then
    [unset_jvmti_thread_state] puts the occupant saved at installation back
    into the slot of the collector's kind, when the collector was installed
    and is the occupant.  A collector that is switched off posts nothing
    (and a sampled one leaves the slots alone).  A collector that was not
    installed when the scope was entered on a machine [vm0] whose slots hold
    live collectors posts nothing either: what is seen of the scope is what
    is seen of its body.  The callbacks are those of an arbitrary agent. *)
Theorem allocation_collectors_flush_on_exit (rt : Jvmti.t) (agent : agent_t)
    (this : nat) (self : Collector.t) (vm : VM.t) (body : list action) (vm0 : VM.t) :
  collector_at this vm = Some self →
  slots_alive vm0 →
  let invoke := perform rt agent in
  let buffered := default [] (Collector._allocated self) in
  let flushed :=
    (post_each rt invoke this (Collector._post_callback self) buffered
       (update_collector this (Collector.set_enabled false) vm)).2 in
  let given_back k :=
    if bool_decide (k = Collector.kind self)
       && Collector._unset_jvmti_thread_state self
       && bool_decide (slot k vm = Some this)
    then Collector._prev self else slot k vm in
  let vm_exit := JvmtiVMObjectAllocEventCollector_dtor rt invoke this vm in
  let sampled_exit := JvmtiSampledObjectAllocEventCollector_dtor rt invoke this vm in
  let this0 := fresh (dom (VM.collectors vm0)) in
  map posted_object flushed = buffered
  ∧ Forall (λ p, posted_collector p = this
                 ∧ posted_fn p = Collector._post_callback self
                 ∧ (∃ vm', posted_calls p
                           = (call_post_callback rt invoke (Collector._post_callback self)
                                (posted_object p) vm').2)
                 ∧ posted_through_dispatch rt invoke vm p) flushed
  ∧ vm_exit.2 = (if Collector._enable self then flushed else [])
  ∧ (∀ k, slot k vm_exit.1 = given_back k)
  ∧ sampled_exit.2 = (if Collector._enable self then flushed else [])
  ∧ (∀ k, slot k sampled_exit.1 = if Collector._enable self then given_back k else slot k vm)
  ∧ (Jvmti.should_post_vm_object_alloc rt && installs is_vm_object_alloc_event vm0 = false →
     (run rt (in_JvmtiVMObjectAllocEventCollector body agent) vm0).2
     = (run_all rt body
          (JvmtiVMObjectAllocEventCollector_ctor rt this0
             (new_collector is_vm_object_alloc_event vm0).2)).2)
  ∧ (Jvmti.should_post_sampled_object_alloc rt && object_alloc_is_safe_to_sample vm0
     && installs is_sampled_object_alloc_event vm0 = false →
     (run rt (in_JvmtiSampledObjectAllocEventCollector body agent) vm0).2
     = (run_all rt body
          (JvmtiSampledObjectAllocEventCollector_start rt this0
             (new_collector is_sampled_object_alloc_event vm0).2)).2).
Proof.
  intros Hself Halive invoke buffered flushed given_back vm_exit sampled_exit this0.
  pose proof (perform_undisturbed rt agent) as Hinv.
  destruct (post_each_posted rt invoke this (Collector._post_callback self) buffered
              (update_collector this (Collector.set_enabled false) vm)) as [Hobjs Hwho].
  split; [done|]. split.
  { pose proof (post_each_dispatch rt invoke this (Collector._post_callback self) buffered
                  (update_collector this (Collector.set_enabled false) vm)) as Hcalls.
    pose proof (post_each_dispatched rt invoke (perform_thread_kept rt agent) this
                  (Collector._post_callback self) buffered vm
                  (update_collector this (Collector.set_enabled false) vm)
                  (thread_kept_update_collector _ _ _)) as Hthrough.
    apply Forall_forall. intros p Hp.
    rewrite Forall_forall in Hwho. rewrite Forall_forall in Hcalls.
    rewrite Forall_forall in Hthrough.
    destruct (Hwho p Hp) as [? ?]. split; [done|]. split; [done|].
    split; [by apply Hcalls|by apply Hthrough]. }
  split; [by apply VM_dtor_posts|]. split; [by apply VM_dtor_slots|].
  split; [by apply sampled_dtor_posts|]. split.
  { intros k. unfold sampled_exit.
    rewrite (sampled_dtor_slots rt invoke Hinv this self vm Hself k).
    by destruct (Collector._enable self). }
  split.
  - intros Hni. rewrite run_vm_scope_trace. cbv zeta.
    destruct (VM_scope_nests rt agent body vm0 Halive) as (_ & _ & Hnone & _).
    destruct (Hnone Hni) as [_ ->]. apply app_nil_r.
  - intros Hni. rewrite run_sampled_scope_trace. cbv zeta.
    destruct (sampled_scope_nests rt agent body vm0 Halive) as (_ & _ & Hnone & _).
    destruct (Hnone Hni) as [_ ->]. apply app_nil_r.
Qed.

Lemma allocation_collectors_flush_on_exit_witness :
  collector_at 0 (thread_collecting (Some [Build_object 1 false; Build_object 2 false]))
  = Some (vm_collector_holding (Some [Build_object 1 false; Build_object 2 false]))
  ∧ slots_alive (thread_collecting None)
  ∧ map posted_object
      (JvmtiVMObjectAllocEventCollector_dtor one_env_runtime
         (perform one_env_runtime (allocating (Build_object 3 false))) 0
         (thread_collecting (Some [Build_object 1 false; Build_object 2 false]))).2
    = [Build_object 1 false; Build_object 2 false]
  ∧ Forall (posted_through_dispatch one_env_runtime
              (perform one_env_runtime (allocating (Build_object 3 false)))
              (thread_collecting (Some [Build_object 1 false; Build_object 2 false])))
      (JvmtiVMObjectAllocEventCollector_dtor one_env_runtime
         (perform one_env_runtime (allocating (Build_object 3 false))) 0
         (thread_collecting (Some [Build_object 1 false; Build_object 2 false]))).2
  ∧ map (λ p, map call_signature (posted_calls p))
      (JvmtiVMObjectAllocEventCollector_dtor one_env_runtime
         (perform one_env_runtime (allocating (Build_object 3 false))) 0
         (thread_collecting (Some [Build_object 1 false; Build_object 2 false]))).2
    = [[(plain_env 1 false JVMTI_PHASE_LIVE, JVMTI_EVENT_VM_OBJECT_ALLOC,
         args_object_alloc (Build_object 1 false))];
       [(plain_env 1 false JVMTI_PHASE_LIVE, JVMTI_EVENT_VM_OBJECT_ALLOC,
         args_object_alloc (Build_object 2 false))]].
Proof.
  assert (slots_alive (thread_collecting None)) as Halive.
  { intros k c. destruct k; vm_compute; intros [= <-]; eauto. }
  split; [by vm_compute|]. split; [exact Halive|].
  pose proof (allocation_collectors_flush_on_exit one_env_runtime
                (allocating (Build_object 3 false)) 0
                (vm_collector_holding (Some [Build_object 1 false; Build_object 2 false]))
                (thread_collecting (Some [Build_object 1 false; Build_object 2 false]))
                [] (thread_collecting None) ltac:(by vm_compute) Halive)
    as (Hobjs & Hcalls & Hposts & _).
  split; [rewrite Hposts; exact Hobjs|]. split; [|by vm_compute].
  rewrite Hposts. eapply Forall_impl; [exact Hcalls|].
  by intros p (_ & _ & _ & Hp).
Defined.

(** ** Nesting of collectors *)




(** * Further properties of the code *)

(** ** Registration: which requests succeed *)

Section VersionFacts.
Variables mask_major shift_major mask_minor shift_minor mask_micro shift_micro : Z.

(** The versions [get_jvmti_interface] accepts, by their decoded major and
    minor numbers: 1.0, 1.1 and 1.2; 9.0; 11.0; and from 13 up to the major
    version of the running VM with any minor number.  The micro number is
    never looked at, and a VM with a larger major version accepts whatever
    one with a smaller major version accepts. *)
Theorem version_recognized_table (vm_major : Z) (version : Z) :
  let '(major, minor, _) :=
    decode_version_values mask_major shift_major mask_minor shift_minor
      mask_micro shift_micro version in
  (version_recognized mask_major shift_major mask_minor shift_minor
     mask_micro shift_micro vm_major version = true
   ↔ (major = 1 ∧ (minor = 0 ∨ minor = 1 ∨ minor = 2))
     ∨ ((major = 9 ∨ major = 11) ∧ minor = 0)
     ∨ (13 ≤ major ≤ vm_major))
  ∧ (∀ version',
       (decode_version_values mask_major shift_major mask_minor shift_minor
          mask_micro shift_micro version').1 = (major, minor) →
       version_recognized mask_major shift_major mask_minor shift_minor
         mask_micro shift_micro vm_major version'
       = version_recognized mask_major shift_major mask_minor shift_minor
           mask_micro shift_micro vm_major version)
  ∧ (∀ vm_major', vm_major ≤ vm_major' →
       version_recognized mask_major shift_major mask_minor shift_minor
         mask_micro shift_micro vm_major version = true →
       version_recognized mask_major shift_major mask_minor shift_minor
         mask_micro shift_micro vm_major' version = true).
Proof.
  unfold version_recognized.
  destruct (decode_version_values _ _ _ _ _ _ version) as [[major minor] micro] eqn:Hd.
  split; [|split].
  - destruct (major =? 1) eqn:H1; [apply Z.eqb_eq in H1|apply Z.eqb_neq in H1].
    { rewrite !orb_true_iff, !Z.eqb_eq. split; [intros H; left; tauto|].
      intros [[_ H]|[[[?|?] _]|?]]; [tauto|lia|lia|lia]. }
    destruct (major =? 9) eqn:H9; [apply Z.eqb_eq in H9|apply Z.eqb_neq in H9].
    { rewrite Z.eqb_eq. split; [intros H; right; left; tauto|].
      intros [[? _]|[[_ ?]|?]]; [lia|done|lia]. }
    destruct (major =? 11) eqn:H11; [apply Z.eqb_eq in H11|apply Z.eqb_neq in H11].
    { rewrite Z.eqb_eq. split; [intros H; right; left; tauto|].
      intros [[? _]|[[_ ?]|?]]; [lia|done|lia]. }
    rewrite negb_true_iff, orb_false_iff, !Z.ltb_ge.
    split; [intros H; right; right; lia|].
    intros [[? _]|[[[?|?] _]|?]]; lia.
  - intros version' Hd'.
    destruct (decode_version_values _ _ _ _ _ _ version') as [[major' minor'] micro'].
    simpl in Hd'. by injection Hd' as -> ->.
  - intros vm_major' Hle.
    destruct (major =? 1); [done|]. destruct (major =? 9); [done|].
    destruct (major =? 11); [done|].
    rewrite !negb_true_iff, !orb_false_iff, !Z.ltb_ge. lia.
Qed.

(** [get_jvmti_interface] returns JNI_OK exactly when the version is one it
    recognizes and the phase is LIVE or ONLOAD, and JNI_EVERSION exactly
    when the version is not recognized, whatever the phase.  With JNI_OK
    the caller's [*penv] is not null and the phase is as it was; when
    continuations are enabled, a registration in the ONLOAD phase leaves
    [VTMS_notify_jvmti_events] set, and one in the LIVE phase leaves it set
    or has turned on the notification of virtual threads. *)
Theorem get_jvmti_interface_status (vm_major : Z) (rt : Jvmti.t) (penv : option nat)
    (version : Z) :
  let r := get_jvmti_interface mask_major shift_major mask_minor shift_minor
             mask_micro shift_micro vm_major rt penv version in
  let recognized := version_recognized mask_major shift_major mask_minor shift_minor
                      mask_micro shift_micro vm_major version in
  (r.1.1 = JNI_OK
   ↔ recognized = true
     ∧ (Jvmti.get_phase rt = JVMTI_PHASE_LIVE ∨ Jvmti.get_phase rt = JVMTI_PHASE_ONLOAD))
  ∧ (r.1.1 = JNI_EVERSION ↔ recognized = false)
  ∧ (r.1.1 = JNI_OK →
     is_Some r.1.2
     ∧ Jvmti.get_phase r.2 = Jvmti.get_phase rt
     ∧ (Jvmti.Continuations_enabled rt = true →
        if decide (Jvmti.get_phase rt = JVMTI_PHASE_ONLOAD)
        then Jvmti.VTMS_notify_jvmti_events r.2 = true
        else Jvmti.VTMS_notify_jvmti_events r.2 = true
             ∨ Jvmti.virtual_threads_notify_jvmti r.2 = true)).
Proof.
  simpl. unfold get_jvmti_interface.
  destruct (version_recognized _ _ _ _ _ _ _ version); simpl.
  2: { split; [|split]; [|done|done]. split; [done|]. by intros [? _]. }
  destruct (decide (Jvmti.get_phase rt = JVMTI_PHASE_LIVE)) as [Hlive|Hnl]; simpl.
  { split; [|split]; [split; [intros _; split; [done|by left]|done]|done|].
    intros _. split; [eauto|]. split.
    { unfold register_env. simpl.
      destruct (Jvmti.Continuations_enabled rt); [|done].
      by destruct (negb (Jvmti.VTMS_notify_jvmti_events rt)). }
    intros Hc. destruct (decide _) as [Hon|_]; [congruence|].
    unfold register_env. simpl. rewrite Hc.
    destruct (Jvmti.VTMS_notify_jvmti_events rt) eqn:Hv; simpl; [by left|by right]. }
  destruct (decide (Jvmti.get_phase rt = JVMTI_PHASE_ONLOAD)) as [Hon|Hno]; simpl.
  { split; [|split]; [split; [intros _; split; [done|by right]|done]|done|].
    intros _. split; [eauto|]. split.
    { unfold register_env. simpl. by destruct (Jvmti.Continuations_enabled rt). }
    intros Hc. unfold register_env. simpl. by rewrite Hc. }
  split; [|split]; [|done|done].
  split; [done|]. intros [_ [?|?]]; congruence.
Qed.
End VersionFacts.

(** ** Native method bind *)

(** [post_native_method_bind] has no phase test of its own: it calls every
    environment that has the event enabled, the ones in the PRIMORDIAL
    phase included, and hands a null [JNIEnv] to exactly those; the
    callbacks are NativeMethodBind callbacks for the method being bound.
    On a thread that hides events, or with the event disabled globally,
    nothing is called and nothing changes. *)
Theorem post_native_method_bind_jni_env {E : Type} (rt : Jvmti.t)
    (invoke : JvmtiEnv.t → jvmtiEvent → callback_args → VM.t → VM.t * list E)
    (method : Method) (vm : VM.t) :
  Forall (λ c, call_event c = JVMTI_EVENT_NATIVE_METHOD_BIND
               ∧ call_env c ∈ Jvmti.environments rt
               ∧ JvmtiEnv.is_enabled (call_env c) JVMTI_EVENT_NATIVE_METHOD_BIND = true
               ∧ call_args c
                 = args_native_method_bind
                     (bool_decide (JvmtiEnv.phase (call_env c) = JVMTI_PHASE_PRIMORDIAL))
                     (jmethod_id method))
    (post_native_method_bind rt invoke method vm).2
  ∧ (VM.should_hide_jvmti_events vm = true
     ∨ Jvmti.is_enabled rt JVMTI_EVENT_NATIVE_METHOD_BIND = false →
     post_native_method_bind rt invoke method vm = (vm, [])).
Proof.
  split.
  - unfold post_native_method_bind.
    destruct (VM.should_hide_jvmti_events vm); [done|].
    destruct (Jvmti.is_enabled rt _); [|done].
    apply env_iterator_Forall. intros env vm' Hin.
    destruct (JvmtiEnv.is_enabled env _) eqn:Hen; [|done].
    apply callback_scope_Forall. intros nested. by simpl.
  - unfold post_native_method_bind. intros [->| ->]; [done|].
    by destruct (VM.should_hide_jvmti_events vm).
Qed.

(** ** Collectors: from the allocation to the event *)

Section RecordedAllocations.
Variable rt : Jvmti.t.

(** Internal allocations made one after the other while the collector
    [this] sits, switched on, in the slot. *)
Lemma record_vm_allocations this objs :
  ∀ vm C,
    slot is_vm_object_alloc_event vm = Some this →
    collector_at this vm = Some C →
    Collector._enable C = true →
    let r := run_all rt (map do_record_vm_internal_object_allocation objs) vm in
    r.2 = []
    ∧ (∀ k, slot k r.1 = slot k vm)
    ∧ ∃ C', collector_at this r.1 = Some C'
            ∧ Collector._enable C' = true
            ∧ Collector._post_callback C' = Collector._post_callback C
            ∧ default [] (Collector._allocated C')
              = default [] (Collector._allocated C)
                ++ List.filter (λ o, negb (klass_is_Class o)) objs.
Proof.
  induction objs as [|obj objs IH]; intros vm C Hslot HC Hon; simpl.
  { split; [done|]. split; [done|]. exists C. by rewrite app_nil_r. }
  assert (∃ s, VM.jvmti_thread_state vm = Some s
               ∧ JvmtiThreadState.get_vm_object_alloc_event_collector s = Some this)
    as (s & Hs & Hget).
  { unfold slot in Hslot. destruct (VM.jvmti_thread_state vm) as [s|]; [|done]. eauto. }
  assert (record_vm_internal_object_allocation obj vm
          = if klass_is_Class obj then vm else record_allocation this obj vm) as ->.
  { unfold record_vm_internal_object_allocation.
    rewrite Hs, Hget, HC. unfold Collector.is_enabled. rewrite Hon.
    by destruct (klass_is_Class obj). }
  destruct (klass_is_Class obj) eqn:Hclass; simpl.
  - destruct (IH vm C Hslot HC Hon) as (Ht & Hsl & C' & HC' & Hon' & Hcb & Hbuf).
    destruct (run_all rt _ vm) as [vm2 t2]. cbn [fst snd] in *. subst t2.
    split; [done|]. split; [done|]. by exists C'.
  - set (C1 := Collector.set_allocated
                 (Some (default [] (Collector._allocated C) ++ [obj])) C).
    destruct (IH (record_allocation this obj vm) C1) as (Ht & Hsl & C' & HC' & Hon' & Hcb & Hbuf).
    { done. }
    { unfold record_allocation. by rewrite collector_at_update_collector, HC. }
    { done. }
    destruct (run_all rt _ (record_allocation this obj vm)) as [vm2 t2].
    cbn [fst snd] in *. subst t2. split; [done|]. split; [done|].
    exists C'. split; [done|]. split; [done|]. split; [done|].
    rewrite Hbuf. subst C1. simpl. by rewrite <- app_assoc.
Qed.

Lemma record_sampled_allocations this objs :
  ∀ vm C,
    slot is_sampled_object_alloc_event vm = Some this →
    collector_at this vm = Some C →
    Collector._enable C = true →
    let r := run_all rt (map do_record_sampled_internal_object_allocation objs) vm in
    r.2 = []
    ∧ (∀ k, slot k r.1 = slot k vm)
    ∧ ∃ C', collector_at this r.1 = Some C'
            ∧ Collector._enable C' = true
            ∧ Collector._post_callback C' = Collector._post_callback C
            ∧ default [] (Collector._allocated C')
              = default [] (Collector._allocated C) ++ objs.
Proof.
  induction objs as [|obj objs IH]; intros vm C Hslot HC Hon; simpl.
  { split; [done|]. split; [done|]. exists C. by rewrite app_nil_r. }
  assert (∃ s, VM.jvmti_thread_state vm = Some s
               ∧ JvmtiThreadState.get_sampled_object_alloc_event_collector s = Some this)
    as (s & Hs & Hget).
  { unfold slot in Hslot. destruct (VM.jvmti_thread_state vm) as [s|]; [|done]. eauto. }
  assert (record_sampled_internal_object_allocation obj vm
          = record_allocation this obj vm) as ->.
  { unfold record_sampled_internal_object_allocation.
    rewrite Hs, Hget, HC. unfold Collector.is_enabled. by rewrite Hon. }
  set (C1 := Collector.set_allocated
               (Some (default [] (Collector._allocated C) ++ [obj])) C).
  destruct (IH (record_allocation this obj vm) C1) as (Ht & Hsl & C' & HC' & Hon' & Hcb & Hbuf).
  { done. }
  { unfold record_allocation. by rewrite collector_at_update_collector, HC. }
  { done. }
  destruct (run_all rt _ (record_allocation this obj vm)) as [vm2 t2].
  cbn [fst snd] in *. subst t2. split; [done|]. split; [done|].
  exists C'. split; [done|]. split; [done|]. split; [done|].
  rewrite Hbuf. subst C1. simpl. by rewrite <- app_assoc.
Qed.
End RecordedAllocations.

(** With VMObjectAlloc events wanted, a [JvmtiVMObjectAllocEventCollector]
    that takes the slot (the slot is empty or its occupant is switched on)
    and in whose scope objects are allocated internally one after the other
    reports, when the scope is left, every one of them that is not a
    [java.lang.Class], once, in the order of allocation, through
    [post_vm_object_alloc]; the objects that are classes are never
    reported.  Each report is a call of [post_vm_object_alloc] with the
    object, on a thread that hides events or not as it did before the
    scope, and it reaches the VMObjectAlloc callback of every registered
    environment that has the event enabled and a callback for it, in
    registration order, once, with that object (nobody on a thread that
    hides events).  The callbacks are those of an arbitrary agent. *)
Theorem vm_collector_reports_allocations (rt : Jvmti.t) (agent : agent_t)
    (objs : list object) (vm : VM.t) :
  Jvmti.should_post_vm_object_alloc rt = true →
  installs is_vm_object_alloc_event vm = true →
  ∃ ps,
    (run rt (in_JvmtiVMObjectAllocEventCollector
               (map do_record_vm_internal_object_allocation objs) agent) vm).2
    = map event_posted ps
    ∧ map posted_object ps = List.filter (λ o, negb (klass_is_Class o)) objs
    ∧ Forall (λ p, posted_fn p = Some JvmtiExport_post_vm_object_alloc
                   ∧ posted_collector p = fresh (dom (VM.collectors vm))) ps
    ∧ Forall (λ p,
        (∃ vm', thread_kept vm vm'
                ∧ posted_calls p
                  = (post_vm_object_alloc rt (perform rt agent)
                       (Some (posted_object p)) vm').2)
        ∧ map call_signature (posted_calls p)
          = map (λ env, (env, JVMTI_EVENT_VM_OBJECT_ALLOC,
                         args_object_alloc (posted_object p)))
              (if VM.should_hide_jvmti_events vm then []
               else List.filter
                      (λ env, JvmtiEnv.is_enabled env JVMTI_EVENT_VM_OBJECT_ALLOC
                              && JvmtiEnv.callbacks env JVMTI_EVENT_VM_OBJECT_ALLOC)
                      (Jvmti.environments rt))) ps.
Proof.
  intros Hpost Hinst. rewrite run_vm_scope_trace. cbv zeta.
  pose proof (VM_ctor_spec rt vm) as Hspec. cbv zeta in Hspec.
  rewrite Hpost in Hspec. destruct Hspec as [Hc1 Hs1]. rewrite Hinst in Hs1.
  set (this := fresh (dom (VM.collectors vm))) in *.
  set (vm1 := JvmtiVMObjectAllocEventCollector_ctor rt this _) in *.
  destruct (record_vm_allocations rt this objs vm1
              (collector_after_start is_vm_object_alloc_event true vm))
    as (Ht & Hsl & C' & HC' & Hon' & Hcb & Hbuf).
  { by rewrite Hs1. }
  { unfold collector_at. by rewrite Hc1, lookup_insert_eq. }
  { unfold collector_after_start. cbn [Collector._enable andb]. by rewrite ?Hinst. }
  rewrite Ht. simpl in Hbuf, Hcb.
  rewrite (VM_dtor_posts rt _ (perform_undisturbed rt agent) this C' _ HC'), Hon'.
  eexists. split; [done|].
  destruct (post_each_posted rt (perform rt agent) this (Collector._post_callback C')
              (default [] (Collector._allocated C'))
              (update_collector this (Collector.set_enabled false)
                 (run_all rt (map do_record_vm_internal_object_allocation objs) vm1).1))
    as [Hobjs Hwho].
  split; [by rewrite Hobjs, Hbuf|].
  split; [eapply Forall_impl; [exact Hwho|]; intros p [-> ->]; by rewrite Hcb|].
  assert (thread_kept vm
            (update_collector this (Collector.set_enabled false)
               (run_all rt (map do_record_vm_internal_object_allocation objs) vm1).1))
    as Hkept.
  { eapply thread_kept_trans; [|apply thread_kept_update_collector].
    eapply thread_kept_trans; [|apply run_all_thread_kept].
    eapply thread_kept_trans; [|apply thread_kept_VM_ctor].
    apply thread_kept_new_collector. }
  pose proof (post_each_dispatched rt (perform rt agent) (perform_thread_kept rt agent)
                this (Collector._post_callback C')
                (default [] (Collector._allocated C')) vm _ Hkept) as Hthrough.
  apply Forall_forall. intros p Hp.
  rewrite Forall_forall in Hwho. rewrite Forall_forall in Hthrough.
  destruct (Hwho p Hp) as [_ Hfn]. destruct (Hthrough p Hp) as [Hpost' Hreach].
  rewrite Hfn, Hcb in Hpost', Hreach. simpl in Hpost', Hreach. split; [exact Hpost'|].
  rewrite Hreach by done. unfold object_alloc_receivers.
  by destruct (VM.should_hide_jvmti_events vm).
Qed.

Lemma vm_collector_reports_allocations_witness :
  Jvmti.should_post_vm_object_alloc one_env_runtime = true
  ∧ installs is_vm_object_alloc_event (thread_collecting None) = true
  ∧ ∃ ps,
      (run one_env_runtime
         (in_JvmtiVMObjectAllocEventCollector
            (map do_record_vm_internal_object_allocation
               [Build_object 1 false; Build_object 2 true; Build_object 3 false])
            (allocating (Build_object 4 false)))
         (thread_collecting None)).2
      = map event_posted ps
      ∧ map posted_object ps
        = List.filter (λ o, negb (klass_is_Class o))
            [Build_object 1 false; Build_object 2 true; Build_object 3 false]
      ∧ Forall (λ p, posted_fn p = Some JvmtiExport_post_vm_object_alloc
                     ∧ posted_collector p
                       = fresh (dom (VM.collectors (thread_collecting None)))) ps
      ∧ Forall (λ p, map call_signature (posted_calls p)
                     = [(plain_env 1 false JVMTI_PHASE_LIVE, JVMTI_EVENT_VM_OBJECT_ALLOC,
                         args_object_alloc (posted_object p))]) ps.
Proof.
  split; [reflexivity|]. split; [by vm_compute|].
  destruct (vm_collector_reports_allocations one_env_runtime
              (allocating (Build_object 4 false))
              [Build_object 1 false; Build_object 2 true; Build_object 3 false]
              (thread_collecting None)) as (ps & Htrace & Hobjs & Hwho & Hreach);
    [reflexivity|by vm_compute|].
  exists ps. split; [exact Htrace|]. split; [exact Hobjs|]. split; [exact Hwho|].
  eapply Forall_impl; [exact Hreach|]. intros p [_ ->]. reflexivity.
Defined.

(** With SampledObjectAlloc events wanted, on a thread on which sampling is
    safe and whose sampled slot is empty, a
    [JvmtiSampledObjectAllocEventCollector] in whose scope objects are
    sampled one after the other reports every one of them, classes
    included, once and in order, through [post_sampled_object_alloc], when
    the scope is left.  Each report is a call of
    [post_sampled_object_alloc] with the object, on a thread whose records
    are those of the state the constructor resolved, and it reaches the
    SampledObjectAlloc callback of the environment of every such record
    that has the event enabled, where that environment has a callback for
    it, in the order of the records, once, with that object (nobody on a
    thread that hides events).  The callbacks are those of an arbitrary
    agent. *)
Theorem sampled_collector_reports_allocations (rt : Jvmti.t) (agent : agent_t)
    (objs : list object) (vm : VM.t) :
  Jvmti.should_post_sampled_object_alloc rt = true →
  object_alloc_is_safe_to_sample vm = true →
  slot is_sampled_object_alloc_event vm = None →
  ∃ ps,
    (run rt (in_JvmtiSampledObjectAllocEventCollector
               (map do_record_sampled_internal_object_allocation objs) agent) vm).2
    = map event_posted ps
    ∧ map posted_object ps = objs
    ∧ Forall (λ p, posted_fn p = Some JvmtiExport_post_sampled_object_alloc
                   ∧ posted_collector p = fresh (dom (VM.collectors vm))) ps
    ∧ Forall (λ p,
        (∃ vm', thread_kept (JvmtiThreadState_state_for rt vm) vm'
                ∧ posted_calls p
                  = (post_sampled_object_alloc rt (perform rt agent)
                       (Some (posted_object p)) vm').2)
        ∧ map call_signature (posted_calls p)
          = map (λ ets, (JvmtiEnvThreadState.get_env ets,
                         JVMTI_EVENT_SAMPLED_OBJECT_ALLOC,
                         args_object_alloc (posted_object p)))
              (if VM.should_hide_jvmti_events vm then []
               else List.filter
                      (λ ets, JvmtiEnvThreadState.is_enabled ets
                                JVMTI_EVENT_SAMPLED_OBJECT_ALLOC
                              && JvmtiEnv.callbacks (JvmtiEnvThreadState.get_env ets)
                                   JVMTI_EVENT_SAMPLED_OBJECT_ALLOC)
                      (env_thread_states (JvmtiThreadState_state_for rt vm)))) ps.
Proof.
  intros Hpost Hsafe Hempty. rewrite run_sampled_scope_trace. cbv zeta.
  assert (installs is_sampled_object_alloc_event vm = true) as Hinst.
  { unfold installs. by rewrite Hempty. }
  pose proof (sampled_start_spec rt vm) as Hspec. cbv zeta in Hspec.
  rewrite Hpost, Hsafe in Hspec. destruct Hspec as [Hc1 Hs1]. rewrite Hinst in Hs1.
  set (this := fresh (dom (VM.collectors vm))) in *.
  set (vm1 := JvmtiSampledObjectAllocEventCollector_start rt this _) in *.
  destruct (record_sampled_allocations rt this objs vm1
              (collector_after_start is_sampled_object_alloc_event true vm))
    as (Ht & Hsl & C' & HC' & Hon' & Hcb & Hbuf).
  { by rewrite Hs1. }
  { unfold collector_at. by rewrite Hc1, lookup_insert_eq. }
  { unfold collector_after_start. cbn [Collector._enable andb]. by rewrite ?Hinst. }
  rewrite Ht. simpl in Hbuf, Hcb.
  rewrite (sampled_dtor_posts rt _ (perform_undisturbed rt agent) this C' _ HC'), Hon'.
  eexists. split; [done|].
  destruct (post_each_posted rt (perform rt agent) this (Collector._post_callback C')
              (default [] (Collector._allocated C'))
              (update_collector this (Collector.set_enabled false)
                 (run_all rt (map do_record_sampled_internal_object_allocation objs) vm1).1))
    as [Hobjs Hwho].
  split; [by rewrite Hobjs, Hbuf|].
  split; [eapply Forall_impl; [exact Hwho|]; intros p [-> ->]; by rewrite Hcb|].
  assert (thread_kept (JvmtiThreadState_state_for rt vm)
            (update_collector this (Collector.set_enabled false)
               (run_all rt (map do_record_sampled_internal_object_allocation objs) vm1).1))
    as Hkept.
  { eapply thread_kept_trans; [|apply thread_kept_update_collector].
    eapply thread_kept_trans; [|apply run_all_thread_kept].
    subst vm1. unfold JvmtiSampledObjectAllocEventCollector_start.
    rewrite Hpost.
    match goal with
    | |- context [object_alloc_is_safe_to_sample ?x] =>
        change (object_alloc_is_safe_to_sample x) with (object_alloc_is_safe_to_sample vm)
    end.
    rewrite Hsafe. cbn [negb].
    eapply thread_kept_trans; [|apply thread_kept_update_collector].
    eapply thread_kept_trans; [|apply thread_kept_setup_resolved].
    by apply thread_kept_state_for. }
  pose proof (post_each_dispatched rt (perform rt agent) (perform_thread_kept rt agent)
                this (Collector._post_callback C')
                (default [] (Collector._allocated C'))
                (JvmtiThreadState_state_for rt vm) _ Hkept) as Hthrough.
  apply Forall_forall. intros p Hp.
  rewrite Forall_forall in Hwho. rewrite Forall_forall in Hthrough.
  destruct (Hwho p Hp) as [_ Hfn]. destruct (Hthrough p Hp) as [Hpost' Hreach].
  rewrite Hfn, Hcb in Hpost', Hreach. simpl in Hpost', Hreach. split; [exact Hpost'|].
  rewrite Hreach by (intros _; apply state_for_is_Some).
  unfold object_alloc_receivers.
  pose proof (proj1 (thread_kept_thread_started rt vm)) as Hhide.
  fold (JvmtiThreadState_state_for rt vm) in Hhide. rewrite Hhide.
  destruct (VM.should_hide_jvmti_events vm); [done|].
  by rewrite <- list_fmap_compose.
Qed.

Lemma sampled_collector_reports_allocations_witness :
  Jvmti.should_post_sampled_object_alloc two_env_runtime = true
  ∧ object_alloc_is_safe_to_sample two_record_thread = true
  ∧ slot is_sampled_object_alloc_event two_record_thread = None
  ∧ ∃ ps,
      (run two_env_runtime
         (in_JvmtiSampledObjectAllocEventCollector
            (map do_record_sampled_internal_object_allocation
               [Build_object 1 false; Build_object 2 true])
            quiet)
         two_record_thread).2
      = map event_posted ps
      ∧ map posted_object ps = [Build_object 1 false; Build_object 2 true]
      ∧ Forall (λ p, posted_fn p = Some JvmtiExport_post_sampled_object_alloc
                     ∧ posted_collector p
                       = fresh (dom (VM.collectors two_record_thread))) ps
      ∧ Forall (λ p, map call_signature (posted_calls p)
                     = [(plain_env 1 true JVMTI_PHASE_LIVE,
                         JVMTI_EVENT_SAMPLED_OBJECT_ALLOC,
                         args_object_alloc (posted_object p));
                        (plain_env 2 false JVMTI_PHASE_LIVE,
                         JVMTI_EVENT_SAMPLED_OBJECT_ALLOC,
                         args_object_alloc (posted_object p))]) ps.
Proof.
  split; [reflexivity|]. split; [reflexivity|]. split; [reflexivity|].
  destruct (sampled_collector_reports_allocations two_env_runtime quiet
              [Build_object 1 false; Build_object 2 true] two_record_thread)
    as (ps & Htrace & Hobjs & Hwho & Hreach); [reflexivity|reflexivity|reflexivity|].
  exists ps. split; [exact Htrace|]. split; [exact Hobjs|]. split; [exact Hwho|].
  eapply Forall_impl; [exact Hreach|]. intros p [_ ->]. reflexivity.
Defined.

Lemma switched_off_and_on c C vm :
  collector_at c vm = Some C →
  Collector._enable C = true →
  update_collector c (Collector.set_enabled true)
    (update_collector c (Collector.set_enabled false) vm) = vm.
Proof.
  intros HC Hon. unfold update_collector, collector_at in *.
  destruct vm as [s h1 h2 h3 h4 h5 h6 h7 h8 n cs q]. unfold VM.set_collectors.
  cbn [VM.collectors VM.jvmti_thread_state VM.should_hide_jvmti_events
       VM.is_vthread_mounted VM.is_service_thread VM.is_Compiler_thread
       VM.is_attaching_via_jni VM.has_threadObj VM.is_hidden_from_external_view
       VM.is_bound_virtual_thread VM.active_handle_blocks VM.deferred_events] in *.
  f_equal. rewrite alter_alter_eq. apply alter_id. intros C0 HC0.
  rewrite HC in HC0. injection HC0 as <-.
  destruct C as [k p u b a e f]. cbn in *. by subst.
Qed.

(** While VMObjectAlloc events are wanted, a [NoJvmtiVMObjectAllocMark]
    keeps everything done in its block away from the collector in the
    thread's VM allocation slot: whatever the block does (internal
    allocations, nested collectors and marks, the callbacks of the agents
    these reach), the collector holds at the end of the block what it held
    at the start and is switched as it was, and every slot is as it was.
    Internal allocations made directly in the block leave the whole machine
    as it was. *)
Theorem NoJvmtiVMObjectAllocMark_shields_collector (rt : Jvmti.t)
    (body : list action) (objs : list object) (c : nat) (C : Collector.t) (vm : VM.t) :
  Jvmti.should_post_vm_object_alloc rt = true →
  slot is_vm_object_alloc_event vm = Some c →
  collector_at c vm = Some C →
  let r := run rt (in_NoJvmtiVMObjectAllocMark body) vm in
  collector_at c r.1 = Some C
  ∧ (∀ k, slot k r.1 = slot k vm)
  ∧ run rt (in_NoJvmtiVMObjectAllocMark
              (map do_record_vm_internal_object_allocation objs)) vm
    = (vm, []).
Proof.
  intros Hpost Hslot HC.
  assert (∃ s, VM.jvmti_thread_state vm = Some s
               ∧ JvmtiThreadState.get_vm_object_alloc_event_collector s = Some c)
    as (s & Hs & Hget).
  { unfold slot in Hslot. destruct (VM.jvmti_thread_state vm) as [s|]; [|done]. eauto. }
  assert (∀ body,
            run rt (in_NoJvmtiVMObjectAllocMark body) vm
            = if Collector._enable C
              then (update_collector c (Collector.set_enabled true)
                      (run_all rt body
                         (update_collector c (Collector.set_enabled false) vm)).1,
                    (run_all rt body
                       (update_collector c (Collector.set_enabled false) vm)).2)
              else run_all rt body vm) as Hrun.
  { intros b. rewrite run_no_mark. unfold NoJvmtiVMObjectAllocMark_ctor.
    rewrite Hpost. simpl. rewrite Hs, Hget, HC. unfold Collector.is_enabled.
    destruct (Collector._enable C).
    - by destruct (run_all rt b _).
    - by destruct (run_all rt b vm). }
  assert (∀ vm0 C0, slot is_vm_object_alloc_event vm0 = Some c →
            collector_at c vm0 = Some C0 → Collector._enable C0 = false →
            run_all rt (map do_record_vm_internal_object_allocation objs) vm0 = (vm0, []))
    as Hdrop.
  { intros vm0 C0 Hslot0 HC0 Hoff.
    induction objs as [|obj objs IH]; simpl; [done|].
    assert (record_vm_internal_object_allocation obj vm0 = vm0) as ->.
    { unfold record_vm_internal_object_allocation. unfold slot in Hslot0.
      destruct (VM.jvmti_thread_state vm0) as [s0|]; [|done].
      rewrite Hslot0, HC0. unfold Collector.is_enabled. by rewrite Hoff. }
    by rewrite IH. }
  split; [|split].
  - cbv zeta. rewrite Hrun. destruct (Collector._enable C) eqn:Hon.
    + simpl. set (vm1 := update_collector c (Collector.set_enabled false) vm).
      destruct (run_all_undisturbed rt body vm1) as [_ A _].
      destruct (A c (Collector.set_enabled false C)) as (C' & HC' & _ & _ & Hsame).
      { fold (collector_at c vm1). unfold vm1.
        by rewrite collector_at_update_collector, HC. }
      rewrite collector_at_update_collector. unfold collector_at.
      rewrite HC', Hsame; [|by left]. simpl. f_equal.
      destruct C. simpl in *. by subst.
    + destruct (run_all_undisturbed rt body vm) as [_ A _].
      destruct (A c C HC) as (C' & HC' & _ & _ & Hsame).
      unfold collector_at. rewrite HC', Hsame; [done|by left].
  - intros k. cbv zeta. rewrite Hrun. destruct (Collector._enable C).
    + simpl. rewrite slot_update_collector.
      by rewrite (undisturbed_slots _ _ (run_all_undisturbed rt body _)).
    + by rewrite (undisturbed_slots _ _ (run_all_undisturbed rt body _)).
  - rewrite Hrun. destruct (Collector._enable C) eqn:Hon.
    + rewrite (Hdrop _ (Collector.set_enabled false C)); [|done|
        by rewrite collector_at_update_collector, HC|done].
      simpl. f_equal. by apply (switched_off_and_on c C).
    + by apply (Hdrop vm C).
Qed.

Lemma NoJvmtiVMObjectAllocMark_shields_collector_witness :
  Jvmti.should_post_vm_object_alloc one_env_runtime = true
  ∧ slot is_vm_object_alloc_event (thread_collecting (Some [Build_object 1 false]))
    = Some 0%nat
  ∧ collector_at 0 (thread_collecting (Some [Build_object 1 false]))
    = Some (vm_collector_holding (Some [Build_object 1 false]))
  ∧ collector_at 0
      (run one_env_runtime
         (in_NoJvmtiVMObjectAllocMark
            [do_record_vm_internal_object_allocation (Build_object 2 false);
             in_JvmtiVMObjectAllocEventCollector
               [do_record_vm_internal_object_allocation (Build_object 3 false)]
               (allocating (Build_object 4 false))])
         (thread_collecting (Some [Build_object 1 false]))).1
    = Some (vm_collector_holding (Some [Build_object 1 false]))
  ∧ (∀ k, slot k
            (run one_env_runtime
               (in_NoJvmtiVMObjectAllocMark
                  [do_record_vm_internal_object_allocation (Build_object 2 false);
                   in_JvmtiVMObjectAllocEventCollector
                     [do_record_vm_internal_object_allocation (Build_object 3 false)]
                     (allocating (Build_object 4 false))])
               (thread_collecting (Some [Build_object 1 false]))).1
          = slot k (thread_collecting (Some [Build_object 1 false])))
  ∧ run one_env_runtime
      (in_NoJvmtiVMObjectAllocMark
         (map do_record_vm_internal_object_allocation [Build_object 5 false]))
      (thread_collecting (Some [Build_object 1 false]))
    = (thread_collecting (Some [Build_object 1 false]), []).
Proof.
  split; [reflexivity|]. split; [reflexivity|]. split; [reflexivity|].
  apply (NoJvmtiVMObjectAllocMark_shields_collector one_env_runtime
           [do_record_vm_internal_object_allocation (Build_object 2 false);
            in_JvmtiVMObjectAllocEventCollector
              [do_record_vm_internal_object_allocation (Build_object 3 false)]
              (allocating (Build_object 4 false))]
           [Build_object 5 false] 0
           (vm_collector_holding (Some [Build_object 1 false]))
           (thread_collecting (Some [Build_object 1 false]))); reflexivity.
Defined.

(** ** The dynamic code collector *)

(** The cast to [jint] changes no number a [jint] can hold. *)
Lemma to_jint_small (z : Z) : - 2 ^ 31 ≤ z < 2 ^ 31 → to_jint z = z.
Proof. intros Hz. unfold to_jint. rewrite Z.mod_small; lia. Qed.

(** It wraps: a distance of [2 ^ 32] bytes is passed as 0, one of [2 ^ 31]
    bytes as [- 2 ^ 31]. *)
Lemma to_jint_wraps : to_jint (2 ^ 32) = 0 ∧ to_jint (2 ^ 31) = - 2 ^ 31.
Proof. by vm_compute. Qed.

(** A stub of [2 ^ 32] bytes is announced with length 0. *)
Example post_dynamic_code_generated_internal_length :
  map call_args
    (post_dynamic_code_generated_internal primordial_runtime silent_agent
       "big" 4096 (4096 + 2 ^ 32) (java_thread None)).2
  = [args_dynamic_code "big" 4096 0].
Proof. by vm_compute. Qed.

Section DynamicCodeFacts.
Context {E : Type}.
Variable rt : Jvmti.t.
Variable invoke : JvmtiEnv.t → jvmtiEvent → callback_args → VM.t → VM.t * list E.

Lemma registers_and_defers_refl this vm : registers_and_defers this [] [] vm vm.
Proof.
  split; [done|]. split; [done|]. split; [by rewrite app_nil_r|].
  intros col Hcol. exists col. split; [done|].
  split; [apply same_shape_refl|by rewrite app_nil_r].
Qed.

Lemma registers_and_defers_trans this B1 D1 B2 D2 vm1 vm2 vm3 :
  registers_and_defers this B1 D1 vm1 vm2 →
  registers_and_defers this B2 D2 vm2 vm3 →
  registers_and_defers this (B1 ++ B2) (D1 ++ D2) vm1 vm3.
Proof.
  intros (S1 & O1 & Q1 & C1) (S2 & O2 & Q2 & C2).
  split; [intros k; by rewrite S2, S1|].
  split; [intros c Hc; by rewrite O2, O1|].
  split; [by rewrite Q2, Q1, app_assoc|].
  intros col Hcol. destruct (C1 col Hcol) as (col1 & Hcol1 & Hsh1 & Hb1).
  destruct (C2 col1 Hcol1) as (col2 & Hcol2 & Hsh2 & Hb2).
  exists col2. split; [done|]. split; [by eapply same_shape_trans|].
  by rewrite Hb2, Hb1, app_assoc.
Qed.

(** One stub generated while the collector at [this] is in the slot. *)
Lemma holding_locks_registers this name b e vm :
  slot is_dynamic_code_event vm = Some this →
  registers_and_defers this [Build_JvmtiCodeBlobDesc name b e] []
    vm (post_dynamic_code_generated_while_holding_locks rt name b e vm).
Proof.
  intros Hslot.
  assert (∃ s, VM.jvmti_thread_state vm = Some s
               ∧ JvmtiThreadState.get_dynamic_code_event_collector s = Some this)
    as (s & Hs & Hget).
  { unfold slot in Hslot. destruct (VM.jvmti_thread_state vm) as [s|]; [|done]. eauto. }
  unfold post_dynamic_code_generated_while_holding_locks, get_jvmti_thread_state.
  rewrite Hs, andb_false_r. cbv zeta. rewrite Hs, Hget.
  unfold register_stub.
  split; [done|]. split; [intros c Hc; by rewrite collector_at_update_collector_ne|].
  split; [by rewrite app_nil_r|].
  intros col Hcol. rewrite collector_at_update_collector, Hcol. eexists.
  split; [done|]. by split.
Qed.

Lemma register_stubs_registers this stubs :
  ∀ vm, slot is_dynamic_code_event vm = Some this →
        registers_and_defers this stubs [] vm (register_stubs rt stubs vm).
Proof.
  induction stubs as [|[name b e] stubs IH]; intros vm Hslot; simpl.
  { apply registers_and_defers_refl. }
  pose proof (holding_locks_registers this name b e vm Hslot) as H1.
  apply (registers_and_defers_trans this [_] [] stubs [] _ _ _ H1).
  apply IH. destruct H1 as [S1 _]. by rewrite S1.
Qed.
(** The loop of the destructor reads length and element from the collector
    at every round; as long as a post leaves the collector alone, it is a
    walk over the stubs as they were at the start. *)
Lemma dynamic_code_loop_snapshot this col suffix :
  (∀ name b e vm, collector_at this (post_dynamic_code_generated rt invoke name b e vm).1
                  = collector_at this vm) →
  ∀ (i n : nat) vm,
    collector_at this vm = Some col →
    drop i (default [] (Collector._code_blobs col)) = suffix →
    (length suffix ≤ n)%nat →
    dynamic_code_loop rt invoke this n i vm = post_blobs rt invoke suffix vm.
Proof.
  intros Hkeeps.
  induction suffix as [|blob suffix IH]; intros i n vm Hcol Hdrop Hlen.
  - assert (default [] (Collector._code_blobs col) !! i = None) as Hnone.
    { apply lookup_ge_None. apply (f_equal length) in Hdrop.
      rewrite length_drop in Hdrop. simpl in Hdrop. lia. }
    destruct n as [|n]; simpl; [done|]. by rewrite Hcol, Hnone.
  - destruct n as [|n]; simpl in Hlen; [lia|].
    assert (default [] (Collector._code_blobs col) !! i = Some blob) as Hat.
    { rewrite <- (Nat.add_0_r i), <- lookup_drop, Hdrop. done. }
    simpl. rewrite Hcol, Hat. unfold post_blobs. simpl.
    pose proof (Hkeeps (blob_name blob) (blob_code_begin blob) (blob_code_end blob) vm)
      as Hk.
    destruct (post_dynamic_code_generated rt invoke _ _ _ vm) as [vm1 t1].
    simpl in Hk. rewrite (IH (S i) n vm1); [done|congruence| |lia].
    rewrite (drop_S _ blob i Hat) in Hdrop. by inversion Hdrop.
Qed.

Lemma dynamic_code_dtor_snapshot this col vm :
  (∀ name b e vm, collector_at this (post_dynamic_code_generated rt invoke name b e vm).1
                  = collector_at this vm) →
  collector_at this vm = Some col →
  JvmtiDynamicCodeEventCollector_dtor rt invoke this vm
  = (unset_jvmti_thread_state this
       (post_blobs rt invoke (default [] (Collector._code_blobs col)) vm).1,
     (post_blobs rt invoke (default [] (Collector._code_blobs col)) vm).2).
Proof.
  intros Hkeeps Hcol. unfold JvmtiDynamicCodeEventCollector_dtor. rewrite Hcol.
  destruct (Collector._code_blobs col) as [blobs|] eqn:Hblobs; [|done].
  rewrite (dynamic_code_loop_snapshot this col blobs Hkeeps 0 _ vm Hcol);
    [|by rewrite Hblobs|done].
  simpl. by destruct (post_blobs rt invoke blobs vm).
Qed.

Lemma for_each_collector_at {X} this (body : X → VM.t → VM.t * trace (E:=E)) l :
  (∀ x vm, collector_at this (body x vm).1 = collector_at this vm) →
  ∀ vm, collector_at this (for_each body l vm).1 = collector_at this vm.
Proof.
  intros Hbody. induction l as [|x l IH]; intros vm; simpl; [done|].
  pose proof (Hbody x vm) as H1. destruct (body x vm) as [vm1 t1].
  specialize (IH vm1). destruct (for_each body l vm1) as [vm2 t2].
  cbn [fst] in *. by rewrite IH, H1.
Qed.

(** A post that reaches callbacks leaves a collector alone when the
    callbacks do. *)
Lemma post_dynamic_code_generated_keeps this :
  (∀ env k args vm, collector_at this (invoke env k args vm).1 = collector_at this vm) →
  ∀ name b e vm, collector_at this (post_dynamic_code_generated rt invoke name b e vm).1
                 = collector_at this vm.
Proof.
  intros Hinv name b e vm. unfold post_dynamic_code_generated.
  destruct (_ || _); [|done].
  unfold post_dynamic_code_generated_internal, JvmtiEnvIterator.
  apply for_each_collector_at. clear vm. intros env vm.
  destruct (JvmtiEnv.is_enabled env _); [|done].
  unfold callback_scope. rewrite scope_machine.
  unfold collector_at.
  rewrite (proj1 (dtor_untouched _ _)).
  unfold call_callback. destruct (JvmtiEnv.callbacks env _); [|done].
  pose proof (Hinv env JVMTI_EVENT_DYNAMIC_CODE_GENERATED
                (args_dynamic_code name b (to_jint (e - b))) (JvmtiEventMark.ctor vm).2) as Hi.
  destruct (invoke env _ _ (JvmtiEventMark.ctor vm).2) as [vm' nested].
  simpl in *. exact Hi.
Qed.

(** Outside the PRIMORDIAL and START phases the posts of the stubs are
    records handed to the service thread, in order; no callback runs. *)
Lemma post_blobs_deferred blobs :
  Jvmti.get_phase rt ≠ JVMTI_PHASE_PRIMORDIAL →
  Jvmti.get_phase rt ≠ JVMTI_PHASE_START →
  ∀ this vm,
    (post_blobs rt invoke blobs vm).2 = []
    ∧ registers_and_defers this [] (map deferred_of blobs)
        vm (post_blobs rt invoke blobs vm).1
    ∧ VM.collectors (post_blobs rt invoke blobs vm).1 = VM.collectors vm.
Proof.
  intros Hp Hs this. induction blobs as [|blob blobs IH]; intros vm.
  { split; [done|]. split; [apply registers_and_defers_refl|done]. }
  assert (post_dynamic_code_generated rt invoke (blob_name blob)
            (blob_code_begin blob) (blob_code_end blob) vm
          = (VM.enqueue_deferred_event (deferred_of blob) vm, [])) as Heq.
  { unfold post_dynamic_code_generated.
    by rewrite (bool_decide_eq_false_2 _ Hp), (bool_decide_eq_false_2 _ Hs). }
  unfold post_blobs. simpl. rewrite !Heq.
  set (vm1 := VM.enqueue_deferred_event _ vm).
  destruct (IH vm1) as (Ht & Hr & Hc). unfold post_blobs in Ht, Hr, Hc.
  destruct (for_each _ blobs vm1) as [vm2 t2]. simpl in *. subst t2.
  split; [done|]. split; [|done].
  apply (registers_and_defers_trans this [] [deferred_of blob] [] _ vm vm1 vm2);
    [|done].
  split; [done|]. split; [done|]. split; [done|].
  intros col Hcol. exists col. split; [done|].
  split; [apply same_shape_refl|by rewrite app_nil_r].
Qed.
Lemma deferred_events_update_state f vm :
  VM.deferred_events (VM.update_state f vm) = VM.deferred_events vm.
Proof. unfold VM.update_state. by destruct (VM.jvmti_thread_state vm). Qed.

Lemma setup_jvmti_thread_state_deferred this vm :
  VM.deferred_events (setup_jvmti_thread_state rt this vm) = VM.deferred_events vm.
Proof.
  unfold setup_jvmti_thread_state.
  assert (VM.deferred_events (JvmtiThreadState_state_for rt vm) = VM.deferred_events vm)
    as H0.
  { unfold JvmtiThreadState_state_for, JvmtiEventController_thread_started.
    by destruct (VM.jvmti_thread_state vm). }
  set (vm0 := JvmtiThreadState_state_for rt vm) in *.
  destruct (VM.jvmti_thread_state vm0) as [state|]; [|done].
  destruct (collector_at this vm0) as [self|]; [|done].
  destruct (Collector.kind self).
  - destruct (occupied_and_disabled _ vm0); [done|].
    cbn [update_collector VM.set_collectors VM.deferred_events].
    by rewrite deferred_events_update_state.
  - cbn [update_collector VM.set_collectors VM.deferred_events].
    by rewrite deferred_events_update_state.
  - destruct (is_Some_dec _); [done|].
    cbn [update_collector VM.set_collectors VM.deferred_events].
    by rewrite deferred_events_update_state.
Qed.

Lemma unset_jvmti_thread_state_deferred this vm :
  VM.deferred_events (unset_jvmti_thread_state this vm) = VM.deferred_events vm.
Proof.
  unfold unset_jvmti_thread_state.
  destruct (collector_at this vm) as [self|]; [|done].
  destruct (negb _); [done|].
  destruct (VM.jvmti_thread_state vm) as [state|] eqn:Hs; [|done].
  destruct (Collector.kind self); destruct (bool_decide _); try done;
    by rewrite deferred_events_update_state.
Qed.

(** The constructor, when DynamicCodeGenerated events are wanted: the
    collector takes the slot and keeps the former occupant. *)
Lemma JvmtiDynamicCodeEventCollector_ctor_spec vm :
  Jvmti.should_post_dynamic_code_generated rt = true →
  let this := fresh (dom (VM.collectors vm)) in
  let vm1 := JvmtiDynamicCodeEventCollector_ctor rt this
               (new_collector is_dynamic_code_event vm).2 in
  VM.collectors vm1
  = <[this := Collector.Make is_dynamic_code_event (slot is_dynamic_code_event vm)
                true None None false None]> (VM.collectors vm)
  ∧ (∀ k, slot k vm1 = if decide (k = is_dynamic_code_event) then Some this else slot k vm)
  ∧ VM.deferred_events vm1 = VM.deferred_events vm.
Proof.
  intros Hpost this vm1. subst vm1. unfold JvmtiDynamicCodeEventCollector_ctor.
  rewrite Hpost. set (vm0 := (new_collector is_dynamic_code_event vm).2).
  assert (collector_at this vm0 = Some (Collector.init is_dynamic_code_event)) as Hcol.
  { unfold vm0, collector_at. simpl. fold this. by rewrite lookup_insert_eq. }
  pose proof (setup_jvmti_thread_state_spec rt this _ vm0 Hcol) as Hsetup.
  cbv zeta in Hsetup. simpl in Hsetup. destruct Hsetup as [Hc Hs].
  split; [|split].
  - rewrite Hc. unfold vm0. simpl. fold this. by rewrite insert_insert_eq.
  - intros k. by rewrite Hs.
  - by rewrite setup_jvmti_thread_state_deferred.
Qed.

(** A block with a dynamic code collector, outside the PRIMORDIAL and
    START phases, around a body that registers the stubs [B] with it and
    hands the records [D] to the service thread. *)
Lemma dynamic_code_scope_defers body (B : list JvmtiCodeBlobDesc)
    (D : list JvmtiDeferredEvent) (t : trace (E:=E)) vm :
  Jvmti.should_post_dynamic_code_generated rt = true →
  Jvmti.get_phase rt ≠ JVMTI_PHASE_PRIMORDIAL →
  Jvmti.get_phase rt ≠ JVMTI_PHASE_START →
  (∀ vm1, slot is_dynamic_code_event vm1 = Some (fresh (dom (VM.collectors vm))) →
          (body vm1).2 = t
          ∧ registers_and_defers (fresh (dom (VM.collectors vm))) B D vm1 (body vm1).1) →
  let r := in_JvmtiDynamicCodeEventCollector rt invoke body vm in
  r.2 = t
  ∧ VM.deferred_events r.1 = VM.deferred_events vm ++ D ++ map deferred_of B
  ∧ (∀ k, slot k r.1 = slot k vm)
  ∧ VM.collectors r.1 = VM.collectors vm.
Proof.
  intros Hpost Hp Hs Hbody. cbv zeta. unfold in_JvmtiDynamicCodeEventCollector.
  destruct (JvmtiDynamicCodeEventCollector_ctor_spec vm Hpost) as (Hc1 & Hs1 & Hq1).
  unfold new_collector in *. cbn [snd] in *.
  set (this := fresh (dom (VM.collectors vm))) in *.
  set (vm1 := JvmtiDynamicCodeEventCollector_ctor rt this _) in *.
  destruct (Hbody vm1) as (Ht & S2 & O2 & Q2 & C2).
  { by rewrite Hs1. }
  destruct (body vm1) as [vm2 t1]. cbn [fst snd] in *. subst t1.
  destruct (C2 _ ltac:(unfold collector_at; by rewrite Hc1, lookup_insert_eq))
    as (col & Hcol & (Hkind & Hprev & Hflag & _) & Hblobs).
  cbn in Hkind, Hprev, Hflag, Hblobs.
  assert (∀ name b e vm, collector_at this
            (post_dynamic_code_generated rt invoke name b e vm).1
          = collector_at this vm) as Hkeeps.
  { intros name b e vm'. unfold post_dynamic_code_generated.
    by rewrite (bool_decide_eq_false_2 _ Hp), (bool_decide_eq_false_2 _ Hs). }
  rewrite (dynamic_code_dtor_snapshot this col vm2 Hkeeps Hcol), Hblobs.
  destruct (post_blobs_deferred B Hp Hs this vm2) as (Ht3 & (S3 & O3 & Q3 & C3) & Hc3).
  destruct (post_blobs rt invoke B vm2) as [vm3 t3]. cbn [fst snd] in *. subst t3.
  destruct (C3 col Hcol) as (col3 & Hcol3 & (Hkind3 & Hprev3 & Hflag3 & _) & _).
  destruct (unset_jvmti_thread_state_spec this col3 vm3 Hcol3) as [Hcu Hsu].
  split; [by rewrite app_nil_r|]. split; [|split].
  - cbn [delete_collector VM.set_collectors VM.deferred_events].
    by rewrite unset_jvmti_thread_state_deferred, Q3, Q2, Hq1, app_assoc.
  - intros k. change (slot k (delete_collector this ?m)) with (slot k m).
    rewrite Hsu, Hkind3, Hkind, Hflag3, Hflag, Hprev3, Hprev, S3, S2, Hs1.
    destruct (decide (k = is_dynamic_code_event)) as [->|Hne].
    + by rewrite !bool_decide_eq_true_2.
    + by rewrite (bool_decide_eq_false_2 _ Hne).
  - cbn [delete_collector VM.set_collectors VM.collectors]. rewrite Hcu, Hc3.
    apply map_eq. intros i. destruct (decide (i = this)) as [->|Hne].
    + rewrite lookup_delete_eq. symmetry. apply not_elem_of_dom, is_fresh.
    + rewrite lookup_delete_ne; [|done].
      specialize (O2 i Hne). unfold collector_at in O2.
      by rewrite O2, Hc1, lookup_insert_ne.
Qed.
End DynamicCodeFacts.

(** Stubs generated while locks are held, in the block of a
    [JvmtiDynamicCodeEventCollector] set up while DynamicCodeGenerated events
    are wanted, are all registered with that collector, and leaving the
    block is: [post_dynamic_code_generated] for each of them, once, in the
    order of generation, then the slot given back and the collector gone.
    The callbacks these posts reach are DynamicCodeGenerated callbacks, each
    for one of the stubs, with its name, its start and, as its length,
    [code_end - code_begin] cut to a [jint]: the distance itself for a stub
    shorter than [2 ^ 31] bytes, its low 32 bits read as a signed number in
    general.  This holds for callbacks that leave the collector of the
    block alone. *)
Theorem dynamic_code_collector_posts_registered_stubs {E : Type} (rt : Jvmti.t)
    (invoke : JvmtiEnv.t → jvmtiEvent → callback_args → VM.t → VM.t * list E)
    (stubs : list JvmtiCodeBlobDesc) (vm : VM.t) :
  Jvmti.should_post_dynamic_code_generated rt = true →
  (∀ env k args vm',
     collector_at (fresh (dom (VM.collectors vm))) (invoke env k args vm').1
     = collector_at (fresh (dom (VM.collectors vm))) vm') →
  let this := fresh (dom (VM.collectors vm)) in
  let vm2 := register_stubs rt stubs
               (JvmtiDynamicCodeEventCollector_ctor rt this
                  (new_collector is_dynamic_code_event vm).2) in
  let r := in_JvmtiDynamicCodeEventCollector rt invoke
             (λ vm, (register_stubs rt stubs vm, [])) vm in
  r = (delete_collector this
         (unset_jvmti_thread_state this (post_blobs rt invoke stubs vm2).1),
       (post_blobs rt invoke stubs vm2).2)
  ∧ Forall (λ c, call_event c = JVMTI_EVENT_DYNAMIC_CODE_GENERATED
                 ∧ call_env c ∈ Jvmti.environments rt
                 ∧ ∃ blob, blob ∈ stubs
                           ∧ call_args c
                             = args_dynamic_code (blob_name blob) (blob_code_begin blob)
                                 (to_jint (blob_code_end blob - blob_code_begin blob))
                           ∧ (0 ≤ blob_code_end blob - blob_code_begin blob < 2 ^ 31 →
                              call_args c
                              = args_dynamic_code (blob_name blob) (blob_code_begin blob)
                                  (blob_code_end blob - blob_code_begin blob))) r.2.
Proof.
  intros Hpost Hinv this vm2 r.
  assert (r = (delete_collector this
                 (unset_jvmti_thread_state this (post_blobs rt invoke stubs vm2).1),
               (post_blobs rt invoke stubs vm2).2)) as Hr.
  { subst r. unfold in_JvmtiDynamicCodeEventCollector.
    destruct (JvmtiDynamicCodeEventCollector_ctor_spec rt vm Hpost) as (Hc1 & Hs1 & _).
    unfold new_collector in *. cbn [snd] in *. fold this in Hc1, Hs1 |- *.
    set (vm1 := JvmtiDynamicCodeEventCollector_ctor rt this _) in *.
    destruct (register_stubs_registers rt this stubs vm1) as (_ & _ & _ & C2).
    { by rewrite Hs1. }
    fold vm2 in C2.
    destruct (C2 _ ltac:(unfold collector_at; by rewrite Hc1, lookup_insert_eq))
      as (col & Hcol & _ & Hblobs).
    cbn in Hblobs. cbv beta iota. fold vm2.
    rewrite (dynamic_code_dtor_snapshot rt invoke this col vm2
               (post_dynamic_code_generated_keeps rt invoke this Hinv) Hcol), Hblobs.
    done. }
  split; [done|]. rewrite Hr. cbn [snd]. unfold post_blobs.
  apply for_each_Forall. intros blob vm' Hin.
  unfold post_dynamic_code_generated. destruct (_ || _); [|done].
  unfold post_dynamic_code_generated_internal.
  apply env_iterator_Forall. intros env vm'' Henv.
  destruct (JvmtiEnv.is_enabled env _); [|done].
  apply callback_scope_Forall. intros nested. simpl.
  split; [done|]. split; [done|]. exists blob. split; [done|]. split; [done|].
  intros Hlen. rewrite to_jint_small; [done|lia].
Qed.

Lemma dynamic_code_collector_posts_registered_stubs_witness :
  Jvmti.should_post_dynamic_code_generated primordial_runtime = true
  ∧ (∀ env k args vm',
       collector_at (fresh (dom (VM.collectors (java_thread None))))
         (silent_agent env k args vm').1
       = collector_at (fresh (dom (VM.collectors (java_thread None)))) vm')
  ∧ (in_JvmtiDynamicCodeEventCollector primordial_runtime silent_agent
       (λ vm, (register_stubs primordial_runtime two_stubs vm, []))
       (java_thread None)).2
    = [Call (plain_env 1 false JVMTI_PHASE_PRIMORDIAL) JVMTI_EVENT_DYNAMIC_CODE_GENERATED
         (args_dynamic_code "stub_a" 100 20) [];
       Call (plain_env 1 false JVMTI_PHASE_PRIMORDIAL) JVMTI_EVENT_DYNAMIC_CODE_GENERATED
         (args_dynamic_code "stub_b" 200 8) []].
Proof.
  split; [reflexivity|]. split; [done|].
  destruct (dynamic_code_collector_posts_registered_stubs primordial_runtime
              silent_agent two_stubs (java_thread None)) as [Hr _];
    [reflexivity|done|].
  rewrite Hr. by vm_compute.
Defined.

(** Outside the PRIMORDIAL and START phases no callback runs when the
    block of a [JvmtiDynamicCodeEventCollector] is left: the stubs generated
    in the block become records for the service thread, appended in the
    order of generation, and the slots and the collectors of the thread are
    as before the block.  A block nested in the block takes the slot for
    its own duration: its stubs are handed over when it is left, before
    those of the enclosing block, and stubs generated after it are again
    registered with the enclosing collector.  The callbacks are arbitrary
    (none is called). *)
Theorem dynamic_code_collector_defers_stubs {E : Type} (rt : Jvmti.t)
    (invoke : JvmtiEnv.t → jvmtiEvent → callback_args → VM.t → VM.t * list E)
    (stubs before inner after : list JvmtiCodeBlobDesc) (vm : VM.t) :
  Jvmti.should_post_dynamic_code_generated rt = true →
  Jvmti.get_phase rt ≠ JVMTI_PHASE_PRIMORDIAL →
  Jvmti.get_phase rt ≠ JVMTI_PHASE_START →
  let r := in_JvmtiDynamicCodeEventCollector rt invoke
             (λ vm, (register_stubs rt stubs vm, [])) vm in
  let nested :=
    in_JvmtiDynamicCodeEventCollector rt invoke
      (λ vm, let vm := register_stubs rt before vm in
             let '(vm, t) := in_JvmtiDynamicCodeEventCollector rt invoke
                               (λ vm, (register_stubs rt inner vm, [])) vm in
             (register_stubs rt after vm, t)) vm in
  (r.2 = []
   ∧ VM.deferred_events r.1 = VM.deferred_events vm ++ map deferred_of stubs
   ∧ (∀ k, slot k r.1 = slot k vm)
   ∧ VM.collectors r.1 = VM.collectors vm)
  ∧ (nested.2 = []
     ∧ VM.deferred_events nested.1
       = VM.deferred_events vm ++ map deferred_of inner
         ++ map deferred_of before ++ map deferred_of after
     ∧ (∀ k, slot k nested.1 = slot k vm)
     ∧ VM.collectors nested.1 = VM.collectors vm).
Proof.
  intros Hpost Hp Hs.
  assert (∀ l vm0,
            let r := in_JvmtiDynamicCodeEventCollector rt invoke
                       (λ vm, (register_stubs rt l vm, [])) vm0 in
            r.2 = []
            ∧ VM.deferred_events r.1 = VM.deferred_events vm0 ++ map deferred_of l
            ∧ (∀ k, slot k r.1 = slot k vm0)
            ∧ VM.collectors r.1 = VM.collectors vm0) as Hflat.
  { intros l vm0.
    apply (dynamic_code_scope_defers rt invoke _ l [] [] vm0 Hpost Hp Hs).
    intros vm1 Hslot. split; [done|]. by apply register_stubs_registers. }
  split; [apply Hflat|].
  pose proof (dynamic_code_scope_defers rt invoke
                (λ vm, let vm := register_stubs rt before vm in
                       let '(vm, t) := in_JvmtiDynamicCodeEventCollector rt invoke
                                         (λ vm, (register_stubs rt inner vm, [])) vm in
                       (register_stubs rt after vm, t))
                (before ++ after) (map deferred_of inner) [] vm Hpost Hp Hs) as Hn.
  cbv zeta in Hn. rewrite map_app in Hn. apply Hn. clear Hn.
  intros vm1 Hslot. set (this := fresh (dom (VM.collectors vm))) in *.
  pose proof (register_stubs_registers rt this before vm1 Hslot) as H1.
  set (vm2 := register_stubs rt before vm1) in *.
  destruct (Hflat inner vm2) as (Ht & Hq & Hsl & Hc).
  destruct (in_JvmtiDynamicCodeEventCollector rt invoke _ vm2) as [vm3 t3].
  cbn [fst snd] in *. subst t3. split; [done|].
  assert (registers_and_defers this [] (map deferred_of inner) vm2 vm3) as H2.
  { split; [done|]. split; [intros c _; unfold collector_at; by rewrite Hc|].
    split; [done|]. intros col Hcol. exists col.
    split; [unfold collector_at in *; by rewrite Hc|].
    split; [apply same_shape_refl|by rewrite app_nil_r]. }
  assert (registers_and_defers this after [] vm3 (register_stubs rt after vm3)) as H3.
  { apply register_stubs_registers. destruct H1 as [S1 _]. by rewrite Hsl, S1. }
  pose proof (registers_and_defers_trans _ _ _ _ _ _ _ _
                (registers_and_defers_trans _ _ _ _ _ _ _ _ H1 H2) H3) as H.
  by rewrite !app_nil_r in H.
Qed.

Lemma dynamic_code_collector_defers_stubs_witness :
  Jvmti.should_post_dynamic_code_generated one_env_runtime = true
  ∧ Jvmti.get_phase one_env_runtime ≠ JVMTI_PHASE_PRIMORDIAL
  ∧ Jvmti.get_phase one_env_runtime ≠ JVMTI_PHASE_START
  ∧ VM.deferred_events
      (in_JvmtiDynamicCodeEventCollector one_env_runtime silent_agent
         (λ vm, let vm := register_stubs one_env_runtime [stub_a] vm in
                let '(vm, t) :=
                  in_JvmtiDynamicCodeEventCollector one_env_runtime silent_agent
                    (λ vm, (register_stubs one_env_runtime [stub_b] vm, [])) vm in
                (register_stubs one_env_runtime [stub_c] vm, t))
         (java_thread None)).1
    = map deferred_of [stub_b; stub_a; stub_c].
Proof.
  split; [reflexivity|]. split; [done|]. split; [done|].
  destruct (dynamic_code_collector_defers_stubs one_env_runtime silent_agent
              [] [stub_a] [stub_b] [stub_c] (java_thread None))
    as [_ (_ & Hq & _)]; [reflexivity|done|done|].
  exact Hq.
Defined.

(** ** The class file load hook: the class bytes *)

Section ReadingTheLog.
Implicit Types calls : list (JvmtiEnv.t * class_data * option class_data).

Lemma hook_calls_app l1 l2 : hook_calls (l1 ++ l2) = hook_calls l1 ++ hook_calls l2.
Proof. apply omap_app. Qed.

Lemma deallocations_app l1 l2 :
  deallocations (l1 ++ l2) = deallocations l1 ++ deallocations l2.
Proof. apply omap_app. Qed.

Lemma cache_writes_app l1 l2 : cache_writes (l1 ++ l2) = cache_writes l1 ++ cache_writes l2.
Proof. apply omap_app. Qed.

Lemma resource_copies_app l1 l2 :
  resource_copies (l1 ++ l2) = resource_copies l1 ++ resource_copies l2.
Proof. apply omap_app. Qed.

Lemma modifications_snoc calls env seen new_data :
  modifications (calls ++ [(env, seen, new_data)])
  = modifications calls ++ match new_data with Some d => [(env, d)] | None => [] end.
Proof. unfold modifications. rewrite omap_app. by destruct new_data. Qed.

Lemma current_data_snoc data calls env seen new_data :
  current_data data (calls ++ [(env, seen, new_data)])
  = default (current_data data calls) new_data.
Proof.
  unfold current_data. rewrite modifications_snoc. destruct new_data as [d|]; simpl.
  - by rewrite last_snoc.
  - by rewrite app_nil_r.
Qed.

Lemma current_data_cons data calls env seen new_data :
  current_data data ((env, seen, new_data) :: calls)
  = current_data (default data new_data) calls.
Proof.
  revert env seen new_data. induction calls as [|[[env' seen'] nd'] calls IH]
    using rev_ind; intros env seen new_data.
  - unfold current_data. by destruct new_data.
  - rewrite app_comm_cons, !current_data_snoc. by rewrite IH.
Qed.

Lemma chained_snoc data calls env seen new_data :
  chained data (calls ++ [(env, seen, new_data)])
  ↔ chained data calls ∧ seen = current_data data calls.
Proof.
  revert data. induction calls as [|[[env' seen'] nd'] calls IH]; intros data; simpl.
  - unfold current_data. simpl. tauto.
  - rewrite IH, current_data_cons. tauto.
Qed.

Lemma first_retransformed_snoc calls env seen new_data :
  first_retransformed (calls ++ [(env, seen, new_data)])
  = match first_retransformed calls with
    | Some bytes => Some bytes
    | None => if is_Some_dec new_data && JvmtiEnv.is_retransformable env
              then Some (data_bytes seen) else None
    end.
Proof.
  unfold first_retransformed. rewrite omap_app.
  destruct (omap _ calls) as [|b l]; simpl; [|done].
  destruct new_data; simpl; [|done]. by destruct (JvmtiEnv.is_retransformable env).
Qed.

Lemma to_deallocate_snoc data mods env d :
  to_deallocate data (mods ++ [(env, d)])
  = to_deallocate data mods
    ++ (if negb (bool_decide (data_addr d = data_addr data))
        then [(Some env, data_addr d)] else []).
Proof.
  unfold to_deallocate. rewrite filter_app, map_app. f_equal.
  rewrite filter_cons. simpl.
  destruct (decide (data_addr d ≠ data_addr data)) as [Hne|Heq].
  - by rewrite (bool_decide_eq_false_2 _ Hne).
  - apply dec_stable in Heq. by rewrite (bool_decide_eq_true_2 _ Heq).
Qed.
Lemma log_tail cached (b : bool) env mem :
  let tail := match cached with
              | Some bytes => [JvmtiClassFileLoadHookPoster.cache_written bytes]
              | None => []
              end ++ (if b then [JvmtiClassFileLoadHookPoster.Deallocate env mem] else []) in
  hook_calls tail = []
  ∧ deallocations tail = (if b then [(env, mem)] else [])
  ∧ cache_writes tail = option_list cached
  ∧ resource_copies tail = [].
Proof. by destruct cached, b. Qed.
End ReadingTheLog.

Section PosterInvariant.
Variable rt : Jvmti.t.
Variable hook : JvmtiEnv.t → class_data → VM.t → VM.t * option class_data.
Variable clear_class_being_redefined : JvmtiThreadState.t → JvmtiThreadState.t.
Variable new_resource_array : nat.
Variables (data : class_data) (cache : option (list Z)).

Lemma poster_invariant_ctor vm :
  poster_invariant data cache
    ((JvmtiClassFileLoadHookPoster.ctor rt clear_class_being_redefined data cache vm).1,
     (JvmtiClassFileLoadHookPoster.ctor rt clear_class_being_redefined data cache vm).2,
     []).
Proof.
  unfold JvmtiClassFileLoadHookPoster.ctor.
  destruct (JvmtiClassFileLoadHookPoster_load_kind _ _ vm) as [kind vm1].
  unfold poster_invariant. simpl.
  rewrite bool_decide_eq_true_2 by done. simpl.
  repeat split; try done; by destruct cache.
Qed.

(** One call of [post_to_env], for an environment that is retransformable
    exactly when caching is asked for. *)
Lemma poster_invariant_post_to_env env st :
  poster_invariant data cache st →
  poster_invariant data cache
    (JvmtiClassFileLoadHookPoster.post_to_env hook env
       (JvmtiEnv.is_retransformable env) st).
Proof.
  destruct st as [[self vm] log].
  intros (Hptr & Hcurr & Hmod & Hchain & Hfree & Hcache & Hwrites & Hcopies).
  cbn [fst snd] in *.
  unfold JvmtiClassFileLoadHookPoster.post_to_env.
  destruct (_ && _); [by repeat split|].
  unfold JvmtiEventMark.scope.
  destruct (JvmtiEventMark.ctor vm) as [jem vm1].
  destruct (JvmtiEnv.callbacks env JVMTI_EVENT_CLASS_FILE_LOAD_HOOK).
  2: { unfold poster_invariant. cbn [fst snd]. rewrite app_nil_r. by repeat split. }
  destruct (hook env (JvmtiClassFileLoadHookPoster._curr_data self) vm1)
    as [vm2 new_data].
  set (seen := JvmtiClassFileLoadHookPoster._curr_data self) in *.
  destruct new_data as [d|].
  - unfold poster_invariant. cbn [fst snd JvmtiClassFileLoadHookPoster._data_ptr
      JvmtiClassFileLoadHookPoster._curr_data JvmtiClassFileLoadHookPoster._curr_env
      JvmtiClassFileLoadHookPoster._cached_class_file
      JvmtiClassFileLoadHookPoster._has_been_modified].
    remember (if JvmtiEnv.is_retransformable env
                 && negb (is_Some_dec (JvmtiClassFileLoadHookPoster._cached_class_file self))
              then Some (data_bytes seen) else None) as cached eqn:Hcached.
    remember (negb (bool_decide (data_addr seen
                                 = data_addr (JvmtiClassFileLoadHookPoster._data_ptr self))))
      as b eqn:Hb.
    destruct (log_tail cached b (JvmtiClassFileLoadHookPoster._curr_env self)
                (data_addr seen)) as (T1 & T2 & T3 & T4).
    cbv zeta in T1, T2, T3, T4.
    rewrite !(app_assoc log), hook_calls_app, deallocations_app, cache_writes_app,
      resource_copies_app, T1, T2, T3, T4, !app_nil_r.
    rewrite hook_calls_app, deallocations_app, cache_writes_app, resource_copies_app.
    cbn [hook_calls deallocations cache_writes resource_copies omap list_omap].
    rewrite !app_nil_r.
    rewrite modifications_snoc, current_data_snoc, chained_snoc,
      first_retransformed_snoc, to_deallocate_snoc, last_snoc.
    cbn [default is_Some_dec andb].
    split; [done|]. split; [done|]. split; [done|]. split; [done|].
    split; [|split; [|split]].
    + f_equal. rewrite <- Hfree. by rewrite Hb, Hptr.
    + rewrite Hcached, Hcache.
      destruct cache as [c|]; simpl; [by rewrite andb_false_r|].
      destruct (first_retransformed (hook_calls log)); simpl;
        [by rewrite andb_false_r|].
      rewrite andb_true_r. by destruct (JvmtiEnv.is_retransformable env).
    + rewrite Hwrites, Hcached, Hcache.
      destruct cache as [c|]; simpl; [by rewrite andb_false_r|].
      destruct (first_retransformed (hook_calls log)); simpl;
        [by rewrite andb_false_r|].
      rewrite andb_true_r. by destruct (JvmtiEnv.is_retransformable env).
    + done.
  - unfold poster_invariant. cbn [fst snd].
    rewrite !hook_calls_app, !deallocations_app, !cache_writes_app, !resource_copies_app.
    simpl. rewrite modifications_snoc, current_data_snoc, chained_snoc,
      first_retransformed_snoc, !app_nil_r.
    simpl. repeat split; try done.
    + by destruct cache, (first_retransformed (hook_calls log)).
    + by destruct cache, (first_retransformed (hook_calls log)).
Qed.
(** A pass over the environments that calls [post_to_env] with the same
    [caching_needed] for those a test lets through. *)
Lemma poster_invariant_pass (wanted : JvmtiEnv.t → bool) (caching_needed : bool) st :
  (∀ env, wanted env = true → JvmtiEnv.is_retransformable env = caching_needed) →
  poster_invariant data cache st →
  poster_invariant data cache
    (JvmtiClassFileLoadHookPoster.for_each_env rt
       (λ env st, if wanted env
                  then JvmtiClassFileLoadHookPoster.post_to_env hook env caching_needed st
                  else st) st).
Proof.
  intros Hwanted. unfold JvmtiClassFileLoadHookPoster.for_each_env.
  generalize (Jvmti.environments rt). intros envs. revert st.
  induction envs as [|env envs IH]; intros st Hinv; simpl; [done|].
  apply IH. destruct (wanted env) eqn:Hw; [|done].
  rewrite <- (Hwanted env Hw). by apply poster_invariant_post_to_env.
Qed.

Lemma poster_invariant_post_all_envs st :
  poster_invariant data cache st →
  poster_invariant data cache (JvmtiClassFileLoadHookPoster.post_all_envs rt hook st).
Proof.
  intros Hinv. unfold JvmtiClassFileLoadHookPoster.post_all_envs.
  apply (poster_invariant_pass
           (λ env, JvmtiEnv.is_retransformable env
                   && JvmtiEnv.is_enabled env JVMTI_EVENT_CLASS_FILE_LOAD_HOOK) true).
  { by intros env [Hr _]%andb_true_iff. }
  destruct (negb _); [|done].
  apply (poster_invariant_pass
           (λ env, negb (JvmtiEnv.is_retransformable env)
                   && JvmtiEnv.is_enabled env JVMTI_EVENT_CLASS_FILE_LOAD_HOOK) false);
    [|done].
  intros env [Hr _]%andb_true_iff. by apply negb_true_iff in Hr.
Qed.

(** What [post_class_file_load_hook] leaves, read from its log. *)
Lemma post_class_file_load_hook_data_facts (phase_value : jvmtiPhase → Z) vm :
  let r := post_class_file_load_hook_data phase_value rt hook
             clear_class_being_redefined new_resource_array data cache vm in
  let calls := hook_calls (hook_log r) in
  let final := current_data data calls in
  let moved := negb (bool_decide (data_addr final = data_addr data)) in
  chained data calls
  ∧ hook_modified r = is_Some_dec (last (modifications calls))
  ∧ hook_data r = (if moved then Build_class_data new_resource_array (data_bytes final)
                   else data)
  ∧ resource_copies (hook_log r) = (if moved then [data_bytes final] else [])
  ∧ deallocations (hook_log r) = to_deallocate data (modifications calls)
  ∧ hook_cache r = match cache with
                   | Some c => Some c
                   | None => first_retransformed calls
                   end
  ∧ cache_writes (hook_log r) = match cache with
                                | Some _ => []
                                | None => option_list (first_retransformed calls)
                                end.
Proof.
  unfold post_class_file_load_hook_data.
  assert (∀ vm0,
            let r := Build_class_file_load_hook_result false data cache vm0 [] in
            let calls := hook_calls (hook_log r) in
            let final := current_data data calls in
            let moved := negb (bool_decide (data_addr final = data_addr data)) in
            chained data calls
            ∧ hook_modified r = is_Some_dec (last (modifications calls))
            ∧ hook_data r = (if moved
                             then Build_class_data new_resource_array (data_bytes final)
                             else data)
            ∧ resource_copies (hook_log r) = (if moved then [data_bytes final] else [])
            ∧ deallocations (hook_log r) = to_deallocate data (modifications calls)
            ∧ hook_cache r = match cache with
                             | Some c => Some c
                             | None => first_retransformed calls
                             end
            ∧ cache_writes (hook_log r) = match cache with
                                          | Some _ => []
                                          | None => option_list (first_retransformed calls)
                                          end) as Hnone.
  { intros vm0. simpl. unfold current_data. simpl.
    rewrite bool_decide_eq_true_2 by done. simpl.
    repeat split; try done; by destruct cache. }
  destruct (_ <? _); [apply Hnone|].
  destruct (VM.should_hide_jvmti_events vm); [apply Hnone|]. clear Hnone.
  pose proof (poster_invariant_ctor vm) as Hinv.
  destruct (JvmtiClassFileLoadHookPoster.ctor rt clear_class_being_redefined data cache vm)
    as [poster vm1]. cbn [fst snd] in Hinv.
  unfold JvmtiClassFileLoadHookPoster.post.
  apply poster_invariant_post_all_envs in Hinv.
  destruct (JvmtiClassFileLoadHookPoster.post_all_envs rt hook (poster, vm1, []))
    as [[self vm2] log].
  destruct Hinv as (Hptr & Hcurr & Hmod & Hchain & Hfree & Hcache & Hwrites & Hcopies).
  cbn [fst snd] in *.
  unfold JvmtiClassFileLoadHookPoster.copy_modified_data.
  rewrite Hptr in *. rewrite Hcurr in *.
  destruct (negb (bool_decide (data_addr (current_data data (hook_calls log))
                               = data_addr data))) eqn:Hmoved.
  - cbn [hook_log hook_modified hook_data hook_cache
         JvmtiClassFileLoadHookPoster._data_ptr
         JvmtiClassFileLoadHookPoster._has_been_modified
         JvmtiClassFileLoadHookPoster._cached_class_file].
    rewrite hook_calls_app, deallocations_app, cache_writes_app, resource_copies_app.
    cbn [hook_calls deallocations cache_writes resource_copies omap list_omap].
    rewrite !app_nil_r, Hmoved, Hcopies. by repeat split.
  - cbn [hook_log hook_modified hook_data hook_cache].
    rewrite Hmoved. rewrite app_nil_r in Hfree. by repeat split.
Qed.
End PosterInvariant.

(** Whatever the agents do and whichever environments are registered, the
    ClassFileLoadHook callbacks called by [post_class_file_load_hook] form
    a chain: each is given the class bytes that the last callback before it
    which left new bytes has left, the first ones the caller's bytes.  The
    post returns true exactly when a callback left new bytes; the caller
    then finds in [*data_ptr] a copy, in a new resource array, of the bytes
    the last such callback left (unless these sit at the address of the
    caller's own bytes, which then stay); otherwise [*data_ptr] is as it
    was. *)
Theorem class_file_load_hook_chains_class_bytes (phase_value : jvmtiPhase → Z)
    (rt : Jvmti.t) (hook : JvmtiEnv.t → class_data → VM.t → VM.t * option class_data)
    (clear_class_being_redefined : JvmtiThreadState.t → JvmtiThreadState.t)
    (new_resource_array : nat) (data : class_data) (cache : option (list Z))
    (vm : VM.t) :
  let r := post_class_file_load_hook_data phase_value rt hook
             clear_class_being_redefined new_resource_array data cache vm in
  let calls := hook_calls (hook_log r) in
  let final := current_data data calls in
  let moved := negb (bool_decide (data_addr final = data_addr data)) in
  chained data calls
  ∧ (hook_modified r = true ↔ ∃ env seen new_data, (env, seen, Some new_data) ∈ calls)
  ∧ hook_data r = (if moved then Build_class_data new_resource_array (data_bytes final)
                   else data)
  ∧ resource_copies (hook_log r) = (if moved then [data_bytes final] else [])
  ∧ (hook_modified r = false → hook_data r = data ∧ final = data).
Proof.
  destruct (post_class_file_load_hook_data_facts rt hook clear_class_being_redefined
              new_resource_array data cache phase_value vm)
    as (Hchain & Hmod & Hdata & Hcopies & _).
  cbv zeta. split; [done|].
  set (r := post_class_file_load_hook_data _ _ _ _ _ _ _ _) in *.
  assert (is_Some_dec (last (modifications (hook_calls (hook_log r)))) = true
          ↔ ∃ env seen new_data,
              (env, seen, Some new_data) ∈ hook_calls (hook_log r)) as Hiff.
  { generalize (hook_calls (hook_log r)). intros calls. split.
    - intros Hlast. destruct (last (modifications calls)) as [[env d]|] eqn:Hl; [|done].
      apply last_Some_elem_of in Hl. unfold modifications in Hl.
      apply list_elem_of_omap in Hl as ([[env' seen] nd] & Hin & Heq).
      destruct nd as [d'|]; [|done]. by exists env', seen, d'.
    - intros (env & seen & d & Hin).
      assert ((env, d) ∈ modifications calls) as Hm.
      { unfold modifications. apply list_elem_of_omap. by exists (env, seen, Some d). }
      destruct (modifications calls) as [|m l] using rev_ind.
      + by apply elem_of_nil in Hm.
      + by rewrite last_snoc. }
  split; [by rewrite Hmod|]. split; [done|]. split; [done|].
  intros Hfalse. rewrite Hmod in Hfalse.
  assert (current_data data (hook_calls (hook_log r)) = data) as Hsame.
  { unfold current_data. by destruct (last (modifications _)). }
  split; [|done]. rewrite Hdata, Hsame. by rewrite bool_decide_eq_true_2.
Qed.

(** The memory of the agents is given back exactly as it should be: every
    buffer with new class bytes left by a callback is passed to
    [Deallocate] once, of the environment whose callback left it, after
    that buffer has been replaced or copied - in the order in which the
    buffers were left, and nothing else is deallocated.  Only a buffer at
    the address of the caller's own bytes is never deallocated, and
    [Deallocate] is never asked of a null [_curr_env]. *)
Theorem class_file_load_hook_frees_agent_buffers (phase_value : jvmtiPhase → Z)
    (rt : Jvmti.t) (hook : JvmtiEnv.t → class_data → VM.t → VM.t * option class_data)
    (clear_class_being_redefined : JvmtiThreadState.t → JvmtiThreadState.t)
    (new_resource_array : nat) (data : class_data) (cache : option (list Z))
    (vm : VM.t) :
  let r := post_class_file_load_hook_data phase_value rt hook
             clear_class_being_redefined new_resource_array data cache vm in
  deallocations (hook_log r)
  = map (λ m, (Some m.1, data_addr m.2))
      (filter (λ m, data_addr m.2 ≠ data_addr data)
         (modifications (hook_calls (hook_log r))))
  ∧ Forall (λ f, is_Some f.1 ∧ f.2 ≠ data_addr data) (deallocations (hook_log r)).
Proof.
  destruct (post_class_file_load_hook_data_facts rt hook clear_class_being_redefined
              new_resource_array data cache phase_value vm)
    as (_ & _ & _ & _ & Hfree & _).
  cbv zeta. split; [exact Hfree|]. rewrite Hfree. unfold to_deallocate.
  apply Forall_fmap, Forall_forall. intros m Hm.
  apply list_elem_of_filter in Hm as [Hne _]. simpl. split; [eauto|done].
Qed.

(** The copy of the original class bytes kept for retransformation:
    [*cache_ptr] is written at most once, and only when it was null and a
    retransformable environment left new bytes; it then holds the bytes
    which the first such environment had been given, that is the caller's
    bytes as the environments that are not retransformable have left
    them. *)
Theorem class_file_load_hook_caches_once (phase_value : jvmtiPhase → Z)
    (rt : Jvmti.t) (hook : JvmtiEnv.t → class_data → VM.t → VM.t * option class_data)
    (clear_class_being_redefined : JvmtiThreadState.t → JvmtiThreadState.t)
    (new_resource_array : nat) (data : class_data) (cache : option (list Z))
    (vm : VM.t) :
  let r := post_class_file_load_hook_data phase_value rt hook
             clear_class_being_redefined new_resource_array data cache vm in
  let calls := hook_calls (hook_log r) in
  hook_cache r = match cache with
                 | Some c => Some c
                 | None => first_retransformed calls
                 end
  ∧ cache_writes (hook_log r) = match cache with
                                | Some _ => []
                                | None => option_list (first_retransformed calls)
                                end
  ∧ (∀ bytes, first_retransformed calls = Some bytes →
       ∃ before env seen new_data after,
         calls = before ++ (env, seen, Some new_data) :: after
         ∧ JvmtiEnv.is_retransformable env = true
         ∧ data_bytes seen = bytes
         ∧ seen = current_data data before
         ∧ Forall (λ m, JvmtiEnv.is_retransformable m.1 = false) (modifications before)).
Proof.
  destruct (post_class_file_load_hook_data_facts rt hook clear_class_being_redefined
              new_resource_array data cache phase_value vm)
    as (Hchain & _ & _ & _ & _ & Hcache & Hwrites).
  cbv zeta. split; [done|]. split; [done|].
  revert Hchain.
  generalize (hook_calls (hook_log (post_class_file_load_hook_data phase_value rt hook
                clear_class_being_redefined new_resource_array data cache vm))).
  intros calls. induction calls as [|[[env seen] nd] calls IH] using rev_ind.
  { intros _ bytes Hb. done. }
  intros [Hchain Hseen]%chained_snoc bytes. rewrite first_retransformed_snoc.
  destruct (first_retransformed calls) as [b|] eqn:Hfirst.
  - intros [= <-]. destruct (IH Hchain b eq_refl)
      as (before & env' & seen' & nd' & after & -> & Hr & Hb & Hs & Hall).
    exists before, env', seen', nd', (after ++ [(env, seen, nd)]).
    by rewrite <- app_assoc.
  - destruct nd as [d|]; simpl; [|done].
    destruct (JvmtiEnv.is_retransformable env) eqn:Hr; [|done].
    intros [= <-]. exists calls, env, seen, d, [].
    split; [done|]. split; [done|]. split; [done|]. split; [done|].
    clear -Hfirst. induction calls as [|[[e s] [n|]] calls IH]; simpl; [done| |].
    + unfold first_retransformed in Hfirst. simpl in Hfirst.
      destruct (JvmtiEnv.is_retransformable e) eqn:He; [done|].
      constructor; [done|]. by apply IH.
    + by apply IH.
Qed.

(** ** Thread references *)

(** [cv_external_thread_to_JavaThread] answers JVMTI_ERROR_NONE exactly for
    a reference that resolves to a [java.lang.Thread] whose [JavaThread] is
    on the list, and then [*jt_pp] is that [JavaThread]; on every error
    [*jt_pp] is as the caller left it.  JVMTI_ERROR_THREAD_NOT_ALIVE is
    answered only for a [java.lang.Thread] (never for a virtual thread
    without a [JavaThread]).  A caller that passes [thread_oop_p] never finds
    there what it held before: it finds the object whenever the reference
    resolved to a [java.lang.Thread], also on an error, and null
    otherwise. *)
Theorem cv_external_thread_to_JavaThread_result
    {oop JavaThread jthread ThreadsList : Type}
    (resolve_external_guard : jthread → option oop) (is_a_Thread : oop → bool)
    (java_lang_Thread_thread : oop → option JavaThread)
    (java_lang_VirtualThread_is_instance : oop → bool)
    (includes : ThreadsList → JavaThread → bool)
    (t_list : ThreadsList) (thread : jthread)
    (jt_pp : option JavaThread) (thread_oop_p : option (option oop)) :
  let r := cv_external_thread_to_JavaThread oop JavaThread jthread ThreadsList
             resolve_external_guard is_a_Thread java_lang_Thread_thread
             java_lang_VirtualThread_is_instance includes
             t_list thread jt_pp thread_oop_p in
  let a_thread :=
    match resolve_external_guard thread with
    | Some o => if is_a_Thread o then Some o else None
    | None => None
    end in
  (r.1.1 = JVMTI_ERROR_NONE
   ↔ ∃ o j, a_thread = Some o ∧ java_lang_Thread_thread o = Some j
            ∧ includes t_list j = true ∧ r.1.2 = Some j)
  ∧ (r.1.1 ≠ JVMTI_ERROR_NONE → r.1.2 = jt_pp)
  ∧ (r.1.1 = JVMTI_ERROR_THREAD_NOT_ALIVE
     ↔ ∃ o, a_thread = Some o
            ∧ match java_lang_Thread_thread o with
              | Some j => includes t_list j = false
              | None => java_lang_VirtualThread_is_instance o = false
              end)
  ∧ r.2 = (λ _, a_thread) <$> thread_oop_p.
Proof.
  cbv zeta. unfold cv_external_thread_to_JavaThread.
  destruct (resolve_external_guard thread) as [o|]; simpl.
  2: { split; [split; [done|by intros (? & ? & ? & _)]|].
       split; [done|]. split; [split; [done|by intros (? & ? & _)]|].
       by destruct thread_oop_p. }
  destruct (is_a_Thread o); simpl.
  2: { split; [split; [done|by intros (? & ? & ? & _)]|].
       split; [done|]. split; [split; [done|by intros (? & ? & _)]|].
       by destruct thread_oop_p. }
  destruct (java_lang_Thread_thread o) as [j|] eqn:Hj; simpl.
  - destruct (includes t_list j) eqn:Hin; simpl.
    + split; [split; [intros _; by exists o, j|done]|].
      split; [done|]. split; [|by destruct thread_oop_p].
      split; [done|]. intros (o' & [= <-] & H). rewrite Hj in H. congruence.
    + split; [split; [done|]|].
      { intros (o' & j' & [= <-] & Hj' & Hin' & _). congruence. }
      split; [done|]. split; [|by destruct thread_oop_p].
      split; [|done]. intros _. exists o. by rewrite Hj.
  - destruct (java_lang_VirtualThread_is_instance o) eqn:Hv; simpl.
    + split; [split; [done|]|].
      { intros (o' & j' & [= <-] & Hj' & _). congruence. }
      split; [done|]. split; [|by destruct thread_oop_p].
      split; [done|]. intros (o' & [= <-] & H). rewrite Hj in H. congruence.
    + split; [split; [done|]|].
      { intros (o' & j' & [= <-] & Hj' & _). congruence. }
      split; [done|]. split; [|by destruct thread_oop_p].
      split; [|done]. intros _. exists o. by rewrite Hj.
Qed.

(** ** What a post delivers *)

Section DeliveredLemmas.
Context {E : Type}.
Variable rt : Jvmti.t.
Variable invoke : JvmtiEnv.t → jvmtiEvent → callback_args → VM.t → VM.t * list E.

Lemma call_callback_Forall_entry (P : call E → Prop) env k args vm :
  (JvmtiEnv.callbacks env k = true → ∀ nested, P (Call env k args nested)) →
  Forall P (call_callback invoke env k args vm).2.
Proof.
  intros HP. unfold call_callback.
  destruct (JvmtiEnv.callbacks env k) eqn:Hcb; simpl; [|done].
  destruct (invoke env k args vm) as [vm' nested]. simpl. constructor; [|done].
  by apply HP.
Qed.

Lemma callback_scope_Forall_entry (P : call E → Prop) env k args vm :
  (JvmtiEnv.callbacks env k = true → ∀ nested, P (Call env k args nested)) →
  Forall P (callback_scope invoke env k args vm).2.
Proof.
  intros HP. unfold callback_scope. rewrite scope_trace.
  by apply call_callback_Forall_entry.
Qed.

Lemma scope_call_then_Forall_entry (P : call E → Prop) env k args
    (after : VM.t → VM.t) vm :
  (JvmtiEnv.callbacks env k = true → ∀ nested, P (Call env k args nested)) →
  Forall P (JvmtiEventMark.scope (fun vm =>
              let '(vm, tr) := call_callback invoke env k args vm in
              (after vm, tr)) vm).2.
Proof.
  intros HP. rewrite scope_trace.
  pose proof (call_callback_Forall_entry P env k args (JvmtiEventMark.ctor vm).2 HP) as H.
  by destruct (call_callback invoke env k args (JvmtiEventMark.ctor vm).2).
Qed.

Lemma post_all_envs_Forall_entry (P : call E → Prop) kind name vm :
  (∀ env caching vm,
     env ∈ Jvmti.environments rt →
     JvmtiEnv.is_enabled env JVMTI_EVENT_CLASS_FILE_LOAD_HOOK = true →
     Forall P (post_to_env invoke name env caching vm).2) →
  Forall P (post_all_envs rt invoke kind name vm).2.
Proof.
  intros HP. unfold post_all_envs.
  set (first_pass := if negb (bool_decide (kind = jvmti_class_load_kind_retransform))
                     then _ else _).
  assert (Forall P first_pass.2) as H1.
  { subst first_pass. destruct (negb _); [|done].
    apply env_iterator_Forall. intros env vm' Henv.
    destruct (_ && _) eqn:Hb; [|done].
    apply andb_true_iff in Hb as [_ Hen]. by apply HP. }
  destruct first_pass as [vm1 t1]. simpl in H1.
  match goal with
  | |- Forall P (let '(_, _) := ?x in _).2 =>
      assert (Forall P x.2) as H2;
        [ apply env_iterator_Forall; intros env vm' Henv;
          destruct (_ && _) eqn:Hb; [|done];
          apply andb_true_iff in Hb as [_ Hen]; by apply HP
        | destruct x as [vm2 t2] ]
  end.
  simpl in *. by apply Forall_app.
Qed.
End DeliveredLemmas.

(** Breaks a goal [Forall P (post ...).2] down along the shape of the post,
    keeping what the post has tested on the way. *)
Ltac delivered_forall :=
  repeat first
    [ progress simpl
    | progress autounfold with posts
    | apply Forall_nil_2
    | apply Forall_app_2
    | apply with_thread_state_Forall; intros
    | apply env_iterator_Forall; intros
    | apply ets_iterator_Forall; intros
    | apply callback_scope_Forall_entry; intros
    | apply scope_call_then_Forall_entry; intros
    | rewrite scope_trace
    | apply post_all_envs_Forall_entry; intros
    | match goal with
      | |- Forall _ (if ?b then _ else _).2 => destruct b eqn:?
      | |- Forall _ (match ?o with Some _ => _ | None => _ end).2 => destruct o eqn:?
      | |- Forall _ (let '(_, _) := ?x in _).2 => destruct x eqn:?
      | |- Forall _ (returned _ (if ?b then _ else _)).2 => destruct b eqn:?
      end ].

(** Every callback that a post calls is a callback for an event of that
    post, found non-null in the callback table of its environment; the
    posts that walk the environments call registered environments only, and
    only those that have the event enabled.  The posts that look at
    [should_hide_jvmti_events] call nothing for a thread that hides its
    events.  This holds whatever the callbacks do. *)
Theorem posts_deliver_their_events {E : Type}
    (phase_value : jvmtiPhase → Z) (rt : Jvmti.t)
    (invoke : JvmtiEnv.t → jvmtiEvent → callback_args → VM.t → VM.t * list E)
    (clear_class_being_redefined : JvmtiThreadState.t → JvmtiThreadState.t)
    (p : PostEntry) (vm : VM.t) :
  let tr := (post phase_value rt invoke clear_class_being_redefined p vm).2 in
  Forall (delivered_by rt p) tr
  ∧ (looks_at_should_hide p = true → VM.should_hide_jvmti_events vm = true → tr = []).
Proof.
  cbv zeta. split.
  - destruct p; delivered_forall; unfold delivered_by; simpl;
      repeat match goal with
             | H : _ && _ = false |- _ => apply andb_false_iff in H; destruct H
             | H : _ && _ = true |- _ => apply andb_true_iff in H; destruct H
             | H : _ || _ = false |- _ => apply orb_false_iff in H; destruct H
             | H : negb _ = false |- _ => apply negb_false_iff in H
             | H : negb _ = true |- _ => apply negb_true_iff in H
             end;
      (split; [set_solver|]); (split; [done|]); try done; by intros _.
  - intros Hlooks Hhide. destruct p; try discriminate Hlooks; simpl;
      autounfold with posts; unfold with_thread_state;
      rewrite ?get_jvmti_thread_state_hide, ?Hhide, ?orb_true_r;
      repeat match goal with
             | |- (if ?b then _ else _).2 = [] => destruct b
             | |- (match ?o with Some _ => _ | None => _ end).2 = [] => destruct o
             end; try done.
Qed.

(** ** The exception state across a post *)

Section ExceptionStateKept.
Context {E : Type}.
Variable rt : Jvmti.t.
Variable invoke : JvmtiEnv.t → jvmtiEvent → callback_args → VM.t → VM.t * list E.
Hypothesis invoke_keeps_state : ∀ env k args vm,
  is_Some (VM.jvmti_thread_state vm) →
  is_Some (VM.jvmti_thread_state (invoke env k args vm).1).

Lemma exception_state_of_update_state f vm :
  (∀ s, JvmtiThreadState.get_exception_state (f s)
        = JvmtiThreadState.get_exception_state s) →
  exception_state_of (VM.update_state f vm) = exception_state_of vm.
Proof.
  intros Hf. unfold exception_state_of, VM.update_state.
  destruct (VM.jvmti_thread_state vm) as [s|] eqn:Hs; simpl; [done|by rewrite Hs].
Qed.

Lemma exception_state_of_update_ets i f vm :
  exception_state_of (update_ets i f vm) = exception_state_of vm.
Proof. by apply exception_state_of_update_state. Qed.

Lemma exception_state_of_thread_started vm :
  exception_state_of (JvmtiEventController_thread_started rt vm) = exception_state_of vm.
Proof.
  unfold exception_state_of, JvmtiEventController_thread_started.
  by destruct (VM.jvmti_thread_state vm) as [s|] eqn:Hs; simpl; [rewrite Hs|].
Qed.

Lemma exception_state_of_get_jvmti_thread_state vm :
  exception_state_of (get_jvmti_thread_state rt vm) = exception_state_of vm.
Proof.
  unfold get_jvmti_thread_state.
  destruct (_ && _); [apply exception_state_of_thread_started|done].
Qed.

(** A marked block whose body does not take the thread's state away. *)
Lemma exception_state_of_scope {A} (body : VM.t → VM.t * A) vm :
  (∀ vm, is_Some (VM.jvmti_thread_state vm) →
         is_Some (VM.jvmti_thread_state (body vm).1)) →
  exception_state_of (JvmtiEventMark.scope body vm).1 = exception_state_of vm.
Proof.
  intros Hbody. unfold JvmtiEventMark.scope, JvmtiEventMark.ctor.
  specialize (Hbody (VM.push_jni_handle_block vm)).
  destruct (body (VM.push_jni_handle_block vm)) as [vm' a]. simpl in *.
  unfold JvmtiEventMark.dtor, exception_state_of, VM.update_state. simpl.
  destruct (VM.jvmti_thread_state vm') as [s'|] eqn:Hs'; simpl.
  - done.
  - rewrite Hs'. destruct (VM.jvmti_thread_state vm) as [s|]; [|done].
    destruct Hbody as [? ?]; [eauto|done].
Qed.

Lemma call_callback_keeps_state env k args vm :
  is_Some (VM.jvmti_thread_state vm) →
  is_Some (VM.jvmti_thread_state (call_callback invoke env k args vm).1).
Proof.
  intros Hs. unfold call_callback. destruct (JvmtiEnv.callbacks env k); [|done].
  pose proof (invoke_keeps_state env k args vm Hs) as H.
  by destruct (invoke env k args vm).
Qed.

Lemma exception_state_of_callback_scope env k args vm :
  exception_state_of (callback_scope invoke env k args vm).1 = exception_state_of vm.
Proof.
  unfold callback_scope. apply exception_state_of_scope.
  intros vm'. apply call_callback_keeps_state.
Qed.

Lemma exception_state_of_scope_call_then env k args i f vm :
  exception_state_of
    (JvmtiEventMark.scope (fun vm =>
       let '(vm, tr) := call_callback invoke env k args vm in
       (update_ets i f vm, tr)) vm).1
  = exception_state_of vm.
Proof.
  apply exception_state_of_scope. intros vm' Hs.
  pose proof (call_callback_keeps_state env k args vm' Hs) as H.
  destruct (call_callback invoke env k args vm') as [vm2 tr]. simpl in *.
  unfold update_ets. by apply update_state_is_Some.
Qed.

Lemma exception_state_of_for_each {X} (body : X → VM.t → VM.t * trace (E:=E)) l :
  (∀ x vm, exception_state_of (body x vm).1 = exception_state_of vm) →
  ∀ vm, exception_state_of (for_each body l vm).1 = exception_state_of vm.
Proof.
  intros Hbody. induction l as [|x l IH]; intros vm; simpl; [done|].
  pose proof (Hbody x vm) as H1. destruct (body x vm) as [vm1 t1].
  specialize (IH vm1). destruct (for_each body l vm1) as [vm2 t2].
  cbn [fst] in *. by rewrite IH, H1.
Qed.

Lemma exception_state_of_env_iterator body vm :
  (∀ env vm, exception_state_of (body env vm).1 = exception_state_of vm) →
  exception_state_of (JvmtiEnvIterator (E:=E) rt body vm).1 = exception_state_of vm.
Proof. intros Hbody. by apply exception_state_of_for_each. Qed.

Lemma exception_state_of_ets_iterator body vm :
  (∀ i ets vm, exception_state_of (body i ets vm).1 = exception_state_of vm) →
  exception_state_of (JvmtiEnvThreadStateIterator (E:=E) body vm).1
  = exception_state_of vm.
Proof.
  intros Hbody. unfold JvmtiEnvThreadStateIterator.
  apply exception_state_of_for_each. intros i vm'.
  destruct (ets_at i vm'); [apply Hbody|done].
Qed.

Lemma exception_state_of_with_thread_state rest vm :
  (∀ state vm, exception_state_of (rest state vm).1 = exception_state_of vm) →
  exception_state_of (with_thread_state (E:=E) rt vm rest).1 = exception_state_of vm.
Proof.
  intros Hrest. unfold with_thread_state.
  destruct (VM.jvmti_thread_state (get_jvmti_thread_state rt vm)) as [s|].
  - rewrite Hrest. apply exception_state_of_get_jvmti_thread_state.
  - apply exception_state_of_get_jvmti_thread_state.
Qed.

Lemma exception_state_of_post_all_envs kind name vm :
  exception_state_of (post_all_envs rt invoke kind name vm).1 = exception_state_of vm.
Proof.
  unfold post_all_envs.
  set (first_pass := if negb (bool_decide (kind = jvmti_class_load_kind_retransform))
                     then _ else _).
  assert (∀ caching env vm,
            exception_state_of (post_to_env invoke name env caching vm).1
            = exception_state_of vm) as Hto.
  { intros caching env vm'. unfold post_to_env.
    destruct (_ && _); [done|apply exception_state_of_callback_scope]. }
  assert (exception_state_of first_pass.1 = exception_state_of vm) as H1.
  { subst first_pass. destruct (negb _); [|done].
    apply exception_state_of_env_iterator. intros env vm'.
    destruct (_ && _); [apply Hto|done]. }
  destruct first_pass as [vm1 t1]. simpl in H1.
  match goal with
  | |- exception_state_of (let '(_, _) := ?x in _).1 = _ =>
      assert (exception_state_of x.1 = exception_state_of vm1) as H2;
        [ apply exception_state_of_env_iterator; intros env vm';
          destruct (_ && _); [apply Hto|done]
        | destruct x as [vm2 t2] ]
  end.
  simpl in *. by rewrite H2.
Qed.
End ExceptionStateKept.

(** Breaks a goal [exception_state_of (post ...).1 = exception_state_of vm]
    down along the shape of the post. *)
Ltac keeps_exception_state :=
  repeat first
    [ done
    | progress simpl
    | progress autounfold with posts
    | apply exception_state_of_thread_started
    | apply exception_state_of_with_thread_state; intros
    | apply exception_state_of_env_iterator; intros
    | apply exception_state_of_ets_iterator; intros
    | apply exception_state_of_callback_scope; assumption
    | apply exception_state_of_scope_call_then; assumption
    | apply exception_state_of_post_all_envs; assumption
    | rewrite exception_state_of_update_ets
    | rewrite exception_state_of_scope_call_then by assumption
    | rewrite exception_state_of_env_iterator
    | progress intros
    | match goal with
      | |- exception_state_of (if ?b then _ else _).1 = _ => destruct b eqn:?
      | |- exception_state_of (match ?o with Some _ => _ | None => _ end).1 = _ =>
          destruct o eqn:?
      | |- exception_state_of (returned _ (if ?b then _ else _)).1 = _ => destruct b eqn:?
      end ].

(** [post_data_dump] calls the callbacks outside any [JvmtiEventMark]:
    what a callback does to the exception state of the thread stays. *)
Example post_data_dump_does_not_restore :
  let vm := java_thread (Some (state_with ES_DETECTED [])) in
  exception_state_of vm = ES_DETECTED
  ∧ exception_state_of (post_data_dump one_env_runtime clobbering_agent vm).1
    = ES_CLEARED.
Proof. by vm_compute. Qed.

(** Of the posts of [PostEntry], which all call the callbacks inside a
    [JvmtiEventMark], none but [post_exception_throw] changes what the
    exception state of the thread says, whatever the callbacks do to it, as
    long as they do not take the JVMTI state of the thread away;
    [post_exception_throw] leaves it as it was or at "detected".  Code that
    calls callbacks outside a mark ([post_data_dump], see
    [post_data_dump_does_not_restore]) or that sets the state itself
    ([notice_unwind_due_to_exception]) is not among these posts. *)
Theorem posts_keep_exception_state {E : Type}
    (phase_value : jvmtiPhase → Z) (rt : Jvmti.t)
    (invoke : JvmtiEnv.t → jvmtiEvent → callback_args → VM.t → VM.t * list E)
    (clear_class_being_redefined : JvmtiThreadState.t → JvmtiThreadState.t)
    (p : PostEntry) (vm : VM.t) :
  (∀ env k args vm, is_Some (VM.jvmti_thread_state vm) →
                    is_Some (VM.jvmti_thread_state (invoke env k args vm).1)) →
  (∀ s, JvmtiThreadState.get_exception_state (clear_class_being_redefined s)
        = JvmtiThreadState.get_exception_state s) →
  let vm' := (post phase_value rt invoke clear_class_being_redefined p vm).1 in
  exception_state_of vm' = exception_state_of vm
  ∨ ((∃ method location exception, p = Post_exception_throw method location exception)
     ∧ exception_state_of vm' = ES_DETECTED).
Proof.
  intros Hkeep Hclear. cbv zeta.
  destruct p;
    try (left; keeps_exception_state; fail).
  - (* class file load hook *)
    left. simpl. unfold post_class_file_load_hook.
    destruct (phase_below_primordial _ _); [done|].
    destruct (VM.should_hide_jvmti_events vm); [done|].
    unfold JvmtiClassFileLoadHookPoster_load_kind.
    pose proof (exception_state_of_get_jvmti_thread_state rt vm) as H0.
    destruct (VM.jvmti_thread_state (get_jvmti_thread_state rt vm)) as [s|].
    + rewrite (exception_state_of_post_all_envs rt invoke Hkeep).
      by rewrite exception_state_of_update_state.
    + by rewrite (exception_state_of_post_all_envs rt invoke Hkeep).
  - (* post_exception_throw *)
    simpl. unfold post_exception_throw, with_thread_state.
    pose proof (exception_state_of_get_jvmti_thread_state rt vm) as H0.
    set (vm0 := get_jvmti_thread_state rt vm) in *.
    destruct (VM.jvmti_thread_state vm0) as [s|] eqn:Hs; [|left; exact H0].
    destruct (VM.should_hide_jvmti_events vm0); [left; exact H0|].
    destruct (negb _); [|left; exact H0].
    right. split; [eauto|].
    rewrite exception_state_of_ets_iterator.
    + unfold exception_state_of, VM.update_state. by rewrite Hs.
    + intros i ets vm1. destruct exception; [|done].
      destruct (JvmtiEnvThreadState.is_enabled ets _); [|done].
      by apply exception_state_of_callback_scope.
Qed.

Lemma posts_keep_exception_state_witness :
  (∀ env k args vm, is_Some (VM.jvmti_thread_state vm) →
                    is_Some (VM.jvmti_thread_state (clobbering_agent env k args vm).1))
  ∧ (∀ s : JvmtiThreadState.t,
       JvmtiThreadState.get_exception_state s = JvmtiThreadState.get_exception_state s)
  ∧ delivered
      (post header_phase_value one_env_runtime clobbering_agent (λ s, s)
         (Post_field_access (Build_Method 1 0 false) 3 7)
         (java_thread (Some (state_with ES_DETECTED
                               [record_of (plain_env 1 false JVMTI_PHASE_LIVE)])))).2
    = [(1%nat, JVMTI_EVENT_FIELD_ACCESS)]
  ∧ exception_state_of
      (post header_phase_value one_env_runtime clobbering_agent (λ s, s)
         (Post_field_access (Build_Method 1 0 false) 3 7)
         (java_thread (Some (state_with ES_DETECTED
                               [record_of (plain_env 1 false JVMTI_PHASE_LIVE)])))).1
    = ES_DETECTED.
Proof.
  assert (∀ env k args vm, is_Some (VM.jvmti_thread_state vm) →
            is_Some (VM.jvmti_thread_state (clobbering_agent env k args vm).1)) as Hkeep.
  { intros env k args vm Hs. by apply update_state_is_Some. }
  split; [exact Hkeep|]. split; [done|]. split; [reflexivity|].
  destruct (posts_keep_exception_state header_phase_value one_env_runtime
              clobbering_agent (λ s, s)
              (Post_field_access (Build_Method 1 0 false) 3 7)
              (java_thread (Some (state_with ES_DETECTED
                                    [record_of (plain_env 1 false JVMTI_PHASE_LIVE)])))
              Hkeep (λ s, eq_refl)) as [H|[[m [l [e He]]] _]].
  - exact H.
  - discriminate He.
Defined.

(** ** Threads that are not reported *)

(** A bound virtual thread that is hidden from external view: its start is
    reported through VirtualThreadStart; nothing on this path looks at the
    flag. *)
Example hidden_bound_virtual_thread_start :
  let vm := VM.Make None false false false false false true true true 0 ∅ [] in
  VM.is_hidden_from_external_view vm = true
  ∧ VM.is_bound_virtual_thread vm = true
  ∧ delivered (post_thread_start header_phase_value one_env_runtime silent_agent vm).2
    = [(1%nat, JVMTI_EVENT_VIRTUAL_THREAD_START)].
Proof. by vm_compute. Qed.

(** The start and the end of a thread, as [post_thread_start] and
    [post_thread_end] report them: a bound virtual thread is reported
    through the virtual thread events only, and not at all when virtual
    threads are not supported; every other thread is reported through
    ThreadStart and ThreadEnd only, and to no environment when it is hidden
    from external view.  The test for hidden threads is on the second path
    only: for a bound virtual thread there is none ([post_vthread_start]
    and [post_vthread_end] assert, in debug builds, that the thread is not
    hidden).  Environments in the primordial phase are never called, and
    the callbacks get the thread. *)
Theorem thread_start_end_reporting {E : Type}
    (phase_value : jvmtiPhase → Z) (rt : Jvmti.t)
    (invoke : JvmtiEnv.t → jvmtiEvent → callback_args → VM.t → VM.t * list E)
    (vm : VM.t) :
  let started := (post_thread_start phase_value rt invoke vm).2 in
  let ended := (post_thread_end phase_value rt invoke vm).2 in
  (if VM.is_bound_virtual_thread vm
   then Forall (λ c, call_event c = JVMTI_EVENT_VIRTUAL_THREAD_START) started
        ∧ Forall (λ c, call_event c = JVMTI_EVENT_VIRTUAL_THREAD_END) ended
        ∧ (Jvmti.can_support_virtual_threads rt = false → started = [] ∧ ended = [])
   else Forall (λ c, call_event c = JVMTI_EVENT_THREAD_START) started
        ∧ Forall (λ c, call_event c = JVMTI_EVENT_THREAD_END) ended
        ∧ (VM.is_hidden_from_external_view vm = true → started = [] ∧ ended = []))
  ∧ Forall (λ c, JvmtiEnv.phase (call_env c) ≠ JVMTI_PHASE_PRIMORDIAL
                 ∧ call_args c = args_thread) (started ++ ended).
Proof.
  cbv zeta.
  assert (VM.is_bound_virtual_thread (JvmtiEventController_thread_started rt vm)
          = VM.is_bound_virtual_thread vm) as Hb1.
  { unfold JvmtiEventController_thread_started.
    by destruct (VM.jvmti_thread_state vm). }
  assert (VM.is_hidden_from_external_view (JvmtiEventController_thread_started rt vm)
          = VM.is_hidden_from_external_view vm) as Hh1.
  { unfold JvmtiEventController_thread_started.
    by destruct (VM.jvmti_thread_state vm). }
  assert (VM.is_bound_virtual_thread (get_jvmti_thread_state rt vm)
          = VM.is_bound_virtual_thread vm) as Hb2.
  { unfold get_jvmti_thread_state. by destruct (_ && _). }
  assert (VM.is_hidden_from_external_view (get_jvmti_thread_state rt vm)
          = VM.is_hidden_from_external_view vm) as Hh2.
  { unfold get_jvmti_thread_state. by destruct (_ && _). }
  split.
  - unfold post_thread_start, post_thread_end, with_thread_state.
    destruct (phase_below_primordial phase_value rt); simpl.
    { by destruct (VM.is_bound_virtual_thread vm). }
    rewrite Hb1, Hh1, Hb2, Hh2.
    destruct (VM.is_bound_virtual_thread vm).
    + split; [|split].
      * destruct (Jvmti.can_support_virtual_threads rt); [|done]. trace_forall; done.
      * destruct (VM.jvmti_thread_state (get_jvmti_thread_state rt vm)); [|done].
        destruct (Jvmti.can_support_virtual_threads rt); [|done]. trace_forall; done.
      * intros ->. by destruct (VM.jvmti_thread_state (get_jvmti_thread_state rt vm)).
    + split; [|split].
      * trace_forall; done.
      * destruct (VM.jvmti_thread_state (get_jvmti_thread_state rt vm)); [|done].
        trace_forall; done.
      * intros ->. simpl.
        destruct (VM.jvmti_thread_state (get_jvmti_thread_state rt vm));
          by rewrite ?andb_false_r.
  - apply Forall_app. split; trace_forall; simpl;
      repeat match goal with
             | H : bool_decide _ = false |- _ => apply bool_decide_eq_false in H
             end; done.
Qed.

(** ** Catching an exception *)



(** ** Posts and collectors *)

Section PostsUndisturbed.
Context {E : Type}.
Variable phase_value : jvmtiPhase → Z.
Variable rt : Jvmti.t.
Variable invoke : JvmtiEnv.t → jvmtiEvent → callback_args → VM.t → VM.t * list E.
Variable clear_class_being_redefined : JvmtiThreadState.t → JvmtiThreadState.t.
Hypothesis invoke_undisturbed : ∀ env k args vm, undisturbed vm (invoke env k args vm).1.
Hypothesis clear_keeps_slots : ∀ s,
  JvmtiThreadState.get_vm_object_alloc_event_collector (clear_class_being_redefined s)
  = JvmtiThreadState.get_vm_object_alloc_event_collector s
  ∧ JvmtiThreadState.get_dynamic_code_event_collector (clear_class_being_redefined s)
    = JvmtiThreadState.get_dynamic_code_event_collector s
  ∧ JvmtiThreadState.get_sampled_object_alloc_event_collector
      (clear_class_being_redefined s)
    = JvmtiThreadState.get_sampled_object_alloc_event_collector s.

Lemma update_state_undisturbed f vm :
  (∀ s, JvmtiThreadState.get_vm_object_alloc_event_collector (f s)
        = JvmtiThreadState.get_vm_object_alloc_event_collector s
        ∧ JvmtiThreadState.get_dynamic_code_event_collector (f s)
          = JvmtiThreadState.get_dynamic_code_event_collector s
        ∧ JvmtiThreadState.get_sampled_object_alloc_event_collector (f s)
          = JvmtiThreadState.get_sampled_object_alloc_event_collector s) →
  undisturbed vm (VM.update_state f vm).
Proof.
  intros Hf. apply collectors_untouched_undisturbed. split.
  - apply collectors_update_state.
  - intros k. by apply slot_update_state.
Qed.

Lemma update_ets_undisturbed i f vm : undisturbed vm (update_ets i f vm).
Proof. by apply update_state_undisturbed. Qed.

Lemma env_iterator_undisturbed body vm :
  (∀ env vm, undisturbed vm (body env vm).1) →
  undisturbed vm (JvmtiEnvIterator (E:=E) rt body vm).1.
Proof. intros Hbody. by apply for_each_undisturbed. Qed.

Lemma ets_iterator_undisturbed body vm :
  (∀ i ets vm, undisturbed vm (body i ets vm).1) →
  undisturbed vm (JvmtiEnvThreadStateIterator (E:=E) body vm).1.
Proof.
  intros Hbody. unfold JvmtiEnvThreadStateIterator. apply for_each_undisturbed.
  intros i vm'. destruct (ets_at i vm'); [apply Hbody|apply undisturbed_refl].
Qed.

Lemma with_thread_state_undisturbed rest vm :
  (∀ state vm, undisturbed vm (rest state vm).1) →
  undisturbed vm (with_thread_state (E:=E) rt vm rest).1.
Proof.
  intros Hrest. unfold with_thread_state.
  pose proof (collectors_untouched_undisturbed _ _
                (get_jvmti_thread_state_untouched rt vm)) as H0.
  destruct (VM.jvmti_thread_state (get_jvmti_thread_state rt vm)); [|done].
  eapply undisturbed_trans; [exact H0|apply Hrest].
Qed.

Lemma scope_call_then_undisturbed env k args i f vm :
  undisturbed vm
    (JvmtiEventMark.scope (fun vm =>
       let '(vm, tr) := call_callback invoke env k args vm in
       (update_ets i f vm, tr)) vm).1.
Proof.
  rewrite scope_machine.
  eapply undisturbed_trans;
    [apply collectors_untouched_undisturbed, ctor_untouched|].
  eapply undisturbed_trans;
    [|apply collectors_untouched_undisturbed, dtor_untouched].
  pose proof (call_callback_undisturbed invoke invoke_undisturbed env k args
                (JvmtiEventMark.ctor vm).2) as H.
  destruct (call_callback invoke env k args (JvmtiEventMark.ctor vm).2) as [vm1 tr].
  simpl in *. eapply undisturbed_trans; [exact H|apply update_ets_undisturbed].
Qed.

Lemma location_event_undisturbed method location k after
    (posted : JvmtiEnvThreadState.t → bool) i ets vm :
  undisturbed vm
    (let vm := update_ets i (JvmtiEnvThreadState.compare_and_set_current_location
                               method location k) vm in
     let ets := JvmtiEnvThreadState.compare_and_set_current_location
                  method location k ets in
     if negb (posted ets) && JvmtiEnvThreadState.is_enabled ets k then
       JvmtiEventMark.scope (fun vm =>
         let '(vm, tr) :=
           call_callback invoke (JvmtiEnvThreadState.get_env ets) k
             (args_location (jmethod_id method) (location - code_base method)) vm in
         (update_ets i after vm, tr)) vm
     else (vm, [])).1.
Proof.
  cbv zeta. eapply undisturbed_trans; [apply update_ets_undisturbed|].
  destruct (_ && _); [apply scope_call_then_undisturbed|apply undisturbed_refl].
Qed.

Lemma post_all_envs_undisturbed kind name vm :
  undisturbed vm (post_all_envs rt invoke kind name vm).1.
Proof.
  unfold post_all_envs.
  set (first_pass := if negb (bool_decide (kind = jvmti_class_load_kind_retransform))
                     then _ else _).
  assert (∀ caching env vm,
            undisturbed vm (post_to_env invoke name env caching vm).1) as Hto.
  { intros caching env vm'. unfold post_to_env.
    destruct (_ && _); [apply undisturbed_refl|].
    by apply callback_scope_undisturbed. }
  assert (undisturbed vm first_pass.1) as H1.
  { subst first_pass. destruct (negb _); [|apply undisturbed_refl].
    apply env_iterator_undisturbed. intros env vm'.
    destruct (_ && _); [apply Hto|apply undisturbed_refl]. }
  destruct first_pass as [vm1 t1]. simpl in H1.
  match goal with
  | |- undisturbed vm (let '(_, _) := ?x in _).1 =>
      assert (undisturbed vm1 x.1) as H2;
        [ apply env_iterator_undisturbed; intros env vm';
          destruct (_ && _); [apply Hto|apply undisturbed_refl]
        | destruct x as [vm2 t2] ]
  end.
  simpl in *. by eapply undisturbed_trans.
Qed.

Lemma enqueue_deferred_event_undisturbed ev vm :
  undisturbed vm (VM.enqueue_deferred_event ev vm).
Proof. by apply collectors_untouched_undisturbed. Qed.

Lemma post_undisturbed p vm :
  undisturbed vm (post phase_value rt invoke clear_class_being_redefined p vm).1.
Proof.
  destruct p; simpl.
  - unfold post_class_file_load_hook.
    destruct (phase_below_primordial _ _); [apply undisturbed_refl|].
    destruct (VM.should_hide_jvmti_events vm); [apply undisturbed_refl|].
    unfold JvmtiClassFileLoadHookPoster_load_kind.
    pose proof (collectors_untouched_undisturbed _ _
                  (get_jvmti_thread_state_untouched rt vm)) as H0.
    destruct (VM.jvmti_thread_state (get_jvmti_thread_state rt vm)) as [s|].
    + eapply undisturbed_trans; [exact H0|].
      eapply undisturbed_trans; [|apply post_all_envs_undisturbed].
      by apply update_state_undisturbed.
    + eapply undisturbed_trans; [exact H0|apply post_all_envs_undisturbed].
  - unfold post_compiled_method_unload.
    destruct (phase_below_primordial _ _); [apply undisturbed_refl|].
    apply env_iterator_undisturbed. intros env vm'.
    repeat (destruct (_ : bool); try apply undisturbed_refl).
    all: by apply callback_scope_undisturbed.
  - unfold post_compiled_method_load, post_compiled_method_load_env.
    destruct (phase_below_primordial _ _); [apply undisturbed_refl|].
    apply env_iterator_undisturbed. intros env vm'.
    destruct (_ || _); [apply undisturbed_refl|].
    destruct (negb _); [apply undisturbed_refl|].
    by apply callback_scope_undisturbed.
  - unfold post_class_load, post_class_event.
    destruct (phase_below_primordial _ _); [apply undisturbed_refl|].
    apply with_thread_state_undisturbed. intros state vm'.
    destruct (VM.should_hide_jvmti_events vm'); [apply undisturbed_refl|].
    apply ets_iterator_undisturbed. intros i ets vm''.
    destruct (JvmtiEnvThreadState.is_enabled ets _); [|apply undisturbed_refl].
    destruct (bool_decide _); [apply undisturbed_refl|].
    by apply callback_scope_undisturbed.
  - unfold post_class_prepare, post_class_event.
    destruct (phase_below_primordial _ _); [apply undisturbed_refl|].
    apply with_thread_state_undisturbed. intros state vm'.
    destruct (VM.should_hide_jvmti_events vm'); [apply undisturbed_refl|].
    apply ets_iterator_undisturbed. intros i ets vm''.
    destruct (JvmtiEnvThreadState.is_enabled ets _); [|apply undisturbed_refl].
    destruct (bool_decide _); [apply undisturbed_refl|].
    by apply callback_scope_undisturbed.
  - unfold post_class_unload.
    destruct (phase_below_primordial _ _); [apply undisturbed_refl|].
    apply enqueue_deferred_event_undisturbed.
  - unfold post_class_unload_internal.
    destruct (phase_below_primordial _ _); [apply undisturbed_refl|].
    destruct (negb _); [apply undisturbed_refl|].
    destruct (Jvmti.is_enabled rt _); [|apply undisturbed_refl]. simpl.
    apply env_iterator_undisturbed. intros env vm'.
    destruct (bool_decide _); [apply undisturbed_refl|].
    destruct (JvmtiEnv.is_enabled env _); [|apply undisturbed_refl].
    by apply callback_scope_undisturbed.
  - unfold post_thread_start, post_vthread_start.
    destruct (phase_below_primordial _ _); [apply undisturbed_refl|]. cbv zeta.
    eapply undisturbed_trans;
      [apply collectors_untouched_undisturbed, (thread_started_untouched rt)|].
    set (vm1 := JvmtiEventController_thread_started rt vm).
    assert (∀ k vm0, undisturbed vm0
              (JvmtiEnvIterator rt
                 (λ env vm,
                    if bool_decide (JvmtiEnv.phase env = JVMTI_PHASE_PRIMORDIAL)
                    then (vm, [])
                    else if JvmtiEnv.is_enabled env k
                         then callback_scope invoke env k args_thread vm
                         else (vm, [])) vm0).1) as Hwalk.
    { intros k vm0. apply env_iterator_undisturbed. intros env vm'.
      destruct (bool_decide _); [apply undisturbed_refl|].
      destruct (JvmtiEnv.is_enabled env _); [|apply undisturbed_refl].
      by apply callback_scope_undisturbed. }
    destruct (VM.is_bound_virtual_thread vm1).
    + destruct (Jvmti.can_support_virtual_threads rt); [|apply undisturbed_refl].
      destruct (Jvmti.is_enabled rt _); [apply Hwalk|apply undisturbed_refl].
    + destruct (_ && _); [apply Hwalk|apply undisturbed_refl].
  - unfold post_thread_end, post_vthread_end, post_thread_filtered.
    destruct (phase_below_primordial _ _); [apply undisturbed_refl|].
    assert (∀ k vm0, undisturbed vm0
              (JvmtiEnvThreadStateIterator
                 (λ i ets vm,
                    if bool_decide (JvmtiEnv.phase (JvmtiEnvThreadState.get_env ets)
                                    = JVMTI_PHASE_PRIMORDIAL)
                    then (vm, [])
                    else if JvmtiEnvThreadState.is_enabled ets k
                         then callback_scope invoke (JvmtiEnvThreadState.get_env ets)
                                k args_thread vm
                         else (vm, [])) vm0).1) as Hwalk.
    { intros k vm0. apply ets_iterator_undisturbed. intros i ets vm'.
      destruct (bool_decide _); [apply undisturbed_refl|].
      destruct (JvmtiEnvThreadState.is_enabled ets _); [|apply undisturbed_refl].
      by apply callback_scope_undisturbed. }
    apply with_thread_state_undisturbed. intros state vm'.
    destruct (VM.is_bound_virtual_thread vm').
    + destruct (Jvmti.can_support_virtual_threads rt); [|apply undisturbed_refl].
      apply with_thread_state_undisturbed. intros state' vm''.
      destruct (JvmtiThreadState.is_enabled state' _); [apply Hwalk|apply undisturbed_refl].
    + destruct (_ && _); [apply Hwalk|apply undisturbed_refl].
  - unfold post_vthread_start.
    destruct (phase_below_primordial _ _); [apply undisturbed_refl|].
    destruct (Jvmti.is_enabled rt _); [|apply undisturbed_refl].
    apply env_iterator_undisturbed. intros env vm'.
    destruct (bool_decide _); [apply undisturbed_refl|].
    destruct (JvmtiEnv.is_enabled env _); [|apply undisturbed_refl].
    by apply callback_scope_undisturbed.
  - unfold post_vthread_end, post_thread_filtered.
    destruct (phase_below_primordial _ _); [apply undisturbed_refl|].
    apply with_thread_state_undisturbed. intros state vm'.
    destruct (JvmtiThreadState.is_enabled state _); [|apply undisturbed_refl].
    apply ets_iterator_undisturbed. intros i ets vm''.
    destruct (bool_decide _); [apply undisturbed_refl|].
    destruct (JvmtiEnvThreadState.is_enabled ets _); [|apply undisturbed_refl].
    by apply callback_scope_undisturbed.
  - unfold post_vthread_mount, post_thread_filtered.
    destruct (phase_below_primordial _ _); [apply undisturbed_refl|].
    apply with_thread_state_undisturbed. intros state vm'.
    destruct (JvmtiThreadState.is_enabled state _); [|apply undisturbed_refl].
    apply ets_iterator_undisturbed. intros i ets vm''.
    destruct (bool_decide _); [apply undisturbed_refl|].
    destruct (JvmtiEnvThreadState.is_enabled ets _); [|apply undisturbed_refl].
    by apply callback_scope_undisturbed.
  - unfold post_vthread_unmount, post_thread_filtered.
    destruct (phase_below_primordial _ _); [apply undisturbed_refl|].
    apply with_thread_state_undisturbed. intros state vm'.
    destruct (JvmtiThreadState.is_enabled state _); [|apply undisturbed_refl].
    apply ets_iterator_undisturbed. intros i ets vm''.
    destruct (bool_decide _); [apply undisturbed_refl|].
    destruct (JvmtiEnvThreadState.is_enabled ets _); [|apply undisturbed_refl].
    by apply callback_scope_undisturbed.
  - unfold post_raw_breakpoint.
    apply with_thread_state_undisturbed. intros state vm'.
    destruct (VM.should_hide_jvmti_events vm'); [apply undisturbed_refl|].
    apply ets_iterator_undisturbed. intros i ets vm''.
    apply (location_event_undisturbed method location JVMTI_EVENT_BREAKPOINT
             JvmtiEnvThreadState.set_breakpoint_posted
             JvmtiEnvThreadState.breakpoint_posted).
  - unfold post_single_step.
    apply with_thread_state_undisturbed. intros state vm'.
    destruct (_ || _); [apply undisturbed_refl|].
    apply ets_iterator_undisturbed. intros i ets vm''.
    apply (location_event_undisturbed method location JVMTI_EVENT_SINGLE_STEP
             JvmtiEnvThreadState.set_single_stepping_posted
             JvmtiEnvThreadState.single_stepping_posted).
  - unfold post_exception_throw.
    apply with_thread_state_undisturbed. intros state vm'.
    destruct (VM.should_hide_jvmti_events vm'); [apply undisturbed_refl|].
    destruct (negb _); [|apply undisturbed_refl]. cbv zeta.
    apply (undisturbed_trans _
             (VM.update_state JvmtiThreadState.set_exception_detected vm'));
      [by apply update_state_undisturbed|].
    apply ets_iterator_undisturbed. intros i ets vm''.
    destruct exception; [|apply undisturbed_refl].
    destruct (JvmtiEnvThreadState.is_enabled ets _); [|apply undisturbed_refl].
    by apply callback_scope_undisturbed.
  - apply with_thread_state_undisturbed. intros state vm'.
    destruct (VM.should_hide_jvmti_events vm'); [apply undisturbed_refl|].
    apply ets_iterator_undisturbed. intros i ets vm''.
    destruct (JvmtiEnvThreadState.is_enabled ets _); [|apply undisturbed_refl].
    by apply callback_scope_undisturbed.
  - apply with_thread_state_undisturbed. intros state vm'.
    destruct (VM.should_hide_jvmti_events vm'); [apply undisturbed_refl|].
    apply ets_iterator_undisturbed. intros i ets vm''.
    destruct (JvmtiEnvThreadState.is_enabled ets _); [|apply undisturbed_refl].
    by apply callback_scope_undisturbed.
  - apply with_thread_state_undisturbed. intros state vm'.
    destruct (VM.should_hide_jvmti_events vm'); [apply undisturbed_refl|].
    apply ets_iterator_undisturbed. intros i ets vm''.
    destruct (JvmtiEnvThreadState.is_enabled ets _); [|apply undisturbed_refl].
    by apply callback_scope_undisturbed.
  - apply with_thread_state_undisturbed. intros state vm'.
    destruct (VM.should_hide_jvmti_events vm'); [apply undisturbed_refl|].
    apply ets_iterator_undisturbed. intros i ets vm''.
    destruct (JvmtiEnvThreadState.is_enabled ets _); [|apply undisturbed_refl].
    by apply callback_scope_undisturbed.
  - apply with_thread_state_undisturbed. intros state vm'.
    destruct (VM.should_hide_jvmti_events vm'); [apply undisturbed_refl|].
    apply ets_iterator_undisturbed. intros i ets vm''.
    destruct (JvmtiEnvThreadState.is_enabled ets _); [|apply undisturbed_refl].
    by apply callback_scope_undisturbed.
  - apply with_thread_state_undisturbed. intros state vm'.
    destruct (VM.should_hide_jvmti_events vm'); [apply undisturbed_refl|].
    apply ets_iterator_undisturbed. intros i ets vm''.
    destruct (JvmtiEnvThreadState.is_enabled ets _); [|apply undisturbed_refl].
    by apply callback_scope_undisturbed.
  - unfold post_native_method_bind.
    destruct (VM.should_hide_jvmti_events vm); [apply undisturbed_refl|].
    destruct (Jvmti.is_enabled rt _); [|apply undisturbed_refl].
    apply env_iterator_undisturbed. intros env vm'.
    destruct (JvmtiEnv.is_enabled env _); [|apply undisturbed_refl].
    by apply callback_scope_undisturbed.
  - unfold post_dynamic_code_generated, post_dynamic_code_generated_internal.
    destruct (_ || _); [|apply enqueue_deferred_event_undisturbed].
    apply env_iterator_undisturbed. intros env vm'.
    destruct (JvmtiEnv.is_enabled env _); [|apply undisturbed_refl].
    by apply callback_scope_undisturbed.
  - by apply post_vm_object_alloc_undisturbed.
  - by apply post_sampled_object_alloc_undisturbed.
Qed.
End PostsUndisturbed.

(** Posting an event leaves the collectors of the thread alone.  Whatever
    post it is and whatever its callbacks do within the discipline
    [undisturbed] (in particular: whatever internal allocations they make
    and whatever collector scopes and marks they open and close), after the
    post every collector slot of the thread holds what it held, no collector
    has come or gone, each is switched on or off as it was, and a collector
    that is switched off or in no slot holds exactly what it held.  This
    asks of [clear_class_being_redefined] only that it leaves the slots
    alone. *)
Theorem posts_leave_collectors {E : Type}
    (phase_value : jvmtiPhase → Z) (rt : Jvmti.t)
    (invoke : JvmtiEnv.t → jvmtiEvent → callback_args → VM.t → VM.t * list E)
    (clear_class_being_redefined : JvmtiThreadState.t → JvmtiThreadState.t)
    (p : PostEntry) (vm : VM.t) :
  (∀ s,
     JvmtiThreadState.get_vm_object_alloc_event_collector (clear_class_being_redefined s)
     = JvmtiThreadState.get_vm_object_alloc_event_collector s
     ∧ JvmtiThreadState.get_dynamic_code_event_collector (clear_class_being_redefined s)
       = JvmtiThreadState.get_dynamic_code_event_collector s
     ∧ JvmtiThreadState.get_sampled_object_alloc_event_collector
         (clear_class_being_redefined s)
       = JvmtiThreadState.get_sampled_object_alloc_event_collector s) →
  ((∀ env k args vm, undisturbed vm (invoke env k args vm).1) →
   undisturbed vm (post phase_value rt invoke clear_class_being_redefined p vm).1)
  ∧ (∀ agent : agent_t,
       undisturbed vm
         (post phase_value rt (perform rt agent) clear_class_being_redefined p vm).1).
Proof.
  intros Hclear. split.
  - intros Hinv. by apply post_undisturbed.
  - intros agent. apply post_undisturbed; [|done]. apply perform_undisturbed.
Qed.

Lemma posts_leave_collectors_witness :
  (∀ s : JvmtiThreadState.t,
     JvmtiThreadState.get_vm_object_alloc_event_collector s
     = JvmtiThreadState.get_vm_object_alloc_event_collector s
     ∧ JvmtiThreadState.get_dynamic_code_event_collector s
       = JvmtiThreadState.get_dynamic_code_event_collector s
     ∧ JvmtiThreadState.get_sampled_object_alloc_event_collector s
       = JvmtiThreadState.get_sampled_object_alloc_event_collector s)
  ∧ delivered
      (post header_phase_value one_env_runtime
         (perform one_env_runtime (allocating (Build_object 3 false))) (λ s, s)
         (Post_vm_object_alloc (Some (Build_object 2 false)))
         (thread_collecting (Some [Build_object 1 false]))).2
    = [(1%nat, JVMTI_EVENT_VM_OBJECT_ALLOC)]
  ∧ collector_at 0
      (post header_phase_value one_env_runtime
         (perform one_env_runtime (allocating (Build_object 3 false))) (λ s, s)
         (Post_vm_object_alloc (Some (Build_object 2 false)))
         (thread_collecting (Some [Build_object 1 false]))).1
    = Some (vm_collector_holding (Some [Build_object 1 false; Build_object 3 false]))
  ∧ undisturbed (thread_collecting (Some [Build_object 1 false]))
      (post header_phase_value one_env_runtime
         (perform one_env_runtime (allocating (Build_object 3 false))) (λ s, s)
         (Post_vm_object_alloc (Some (Build_object 2 false)))
         (thread_collecting (Some [Build_object 1 false]))).1.
Proof.
  split; [done|]. split; [reflexivity|]. split; [by vm_compute|].
  destruct (posts_leave_collectors (E:=event) header_phase_value one_env_runtime
              (perform one_env_runtime (allocating (Build_object 3 false))) (λ s, s)
              (Post_vm_object_alloc (Some (Build_object 2 false)))
              (thread_collecting (Some [Build_object 1 false]))
              (λ s, conj eq_refl (conj eq_refl eq_refl))) as [_ H].
  apply (H (allocating (Build_object 3 false))).
Defined.
